(** * HTTP/2 and HPACK: a shallow embedding of the C++ library

    The definitions follow the C++ sources function by function:
    fixed-width integers are [Z] with the wrap-around written out, octet
    strings ([std::string], [std::vector<std::byte>], [std::span]) are
    lists of octets in [0, 256), by-reference spans are returned as the
    remaining input, and loops whose termination is not structural carry
    an explicit iteration budget. *)

From Stdlib Require Import ZArith List Lia Bool String Ascii DecimalString.
From stdpp Require Import gmap.
Import ListNotations.
Local Open Scope Z_scope.

(** ** Fixed-width integers *)

Definition UINT64_MAX : Z := 2 ^ 64 - 1.

Definition to_uint8 (x : Z) : Z := x mod 2 ^ 8.
Definition to_uint32 (x : Z) : Z := x mod 2 ^ 32.
Definition to_uint64 (x : Z) : Z := x mod 2 ^ 64.
(** Two's complement reading of the low 32 bits ([static_cast<int32_t>]). *)
Definition to_int32 (x : Z) : Z := (x + 2 ^ 31) mod 2 ^ 32 - 2 ^ 31.

(** An octet string: every element is a value in [0, 256). *)
Definition octets := list Z.

Definition is_octets (s : octets) : Prop := Forall (fun b => 0 <= b < 256) s.

(** [operator==] on two octet strings. *)
Fixpoint octets_eqb (a b : octets) : bool :=
  match a, b with
  | [], [] => true
  | x :: a', y :: b' => (x =? y) && octets_eqb a' b'
  | _, _ => false
  end.

(** [hpack_decoder.h]: [enum class HpackError]. *)
Module HpackError.
Inductive t :=
| OK
| COMPRESSION_ERROR
| INDEX_OUT_OF_BOUNDS
| INVALID_HUFFMAN_CODE
| INTEGER_OVERFLOW
| INVALID_STRING_LENGTH
| BUFFER_TOO_SMALL.
End HpackError.

(** [hpack_huffman.h]: [enum class HuffmanError]. *)
Module HuffmanError.
Inductive t :=
| OK
| INVALID_INPUT
| INVALID_PADDING
| INCOMPLETE_CODE
| BUFFER_TOO_SMALL.
End HuffmanError.

(** [hpack_encoder.h]: [enum class HpackEncodingError]. *)
Module HpackEncodingError.
Inductive t :=
| OK
| DYNAMIC_TABLE_UPDATE_FAILED
| STRING_ENCODING_FAILED
| INTEGER_ENCODING_FAILED.
End HpackEncodingError.

(** ** Huffman codec ([hpack_huffman.cpp], namespace [Hpack]) *)

Module Hpack.

(** The initializer list of [HUFFMAN_CODES], in source order:
    [(key, (code, number_of_bits))]. *)
Definition HUFFMAN_CODES_init : list (Z * (Z * Z)) := [
    (0, (0x1ff8, 13)); (1, (0x7fffd8, 23)); (2, (0xfffffe2, 28)); (3, (0xfffffe3, 28));
    (4, (0xfffffe4, 28)); (5, (0xfffffe5, 28)); (6, (0xfffffe6, 28)); (7, (0xfffffe7, 28));
    (8, (0xfffffe8, 28)); (9, (0xffffea, 24)); (10, (0x3ffffffc, 30)); (11, (0xfffffe9, 28));
    (12, (0xfffffea, 28)); (13, (0x3ffffffd, 30)); (14, (0xfffffeb, 28)); (15, (0xfffffec, 28));
    (16, (0xfffffed, 28)); (17, (0xfffffee, 28)); (18, (0xfffffef, 28)); (19, (0xffffff0, 28));
    (20, (0xffffff1, 28)); (21, (0xffffff2, 28)); (22, (0x3ffffffe, 30)); (23, (0xffffff3, 28));
    (24, (0xffffff4, 28)); (25, (0xffffff5, 28)); (26, (0xffffff6, 28)); (27, (0xffffff7, 28));
    (28, (0xffffff8, 28)); (29, (0xffffff9, 28)); (30, (0xffffffa, 28)); (31, (0xffffffb, 28));
    (32, (0x14, 6)); (33, (0x3f8, 10)); (34, (0x3f9, 10)); (35, (0x3fa, 10));
    (36, (0x3fb, 10)); (37, (0x3fc, 10)); (38, (0x7fa, 11)); (39, (0x3fd, 10));
    (40, (0x3fe, 10)); (41, (0x3ff, 10)); (42, (0x7fb, 11)); (43, (0x7fc, 11));
    (44, (0x7fd, 11)); (45, (0x7fe, 11)); (46, (0x7ff0, 15)); (47, (0x7ff1, 15));
    (48, (0x0, 5)); (49, (0x1, 5)); (50, (0x2, 5)); (51, (0x15, 6));
    (52, (0x16, 6)); (53, (0x17, 6)); (54, (0x18, 6)); (55, (0x19, 6));
    (56, (0x1a, 6)); (57, (0x1b, 6)); (58, (0x1c, 6)); (59, (0x1d, 6));
    (60, (0x1e, 6)); (61, (0x1f, 6)); (62, (0x5c, 7)); (63, (0x5d, 7));
    (64, (0x5e, 7)); (65, (0x5f, 7)); (66, (0x60, 7)); (67, (0x61, 7));
    (68, (0x62, 7)); (69, (0x63, 7)); (70, (0x64, 7)); (71, (0x65, 7));
    (72, (0x66, 7)); (73, (0x67, 7)); (74, (0x68, 7)); (75, (0x69, 7));
    (76, (0x6a, 7)); (77, (0x6b, 7)); (78, (0x6c, 7)); (79, (0x6d, 7));
    (80, (0x6e, 7)); (81, (0x6f, 7)); (82, (0x70, 7)); (83, (0x71, 7));
    (84, (0x72, 7)); (85, (0x7f1, 11)); (86, (0x7f2, 11)); (87, (0x7f3, 11));
    (88, (0x7f4, 11)); (89, (0x7f5, 11)); (90, (0x7f6, 11)); (91, (0x7f7, 11));
    (92, (0x7f8, 11)); (93, (0x7f9, 11)); (94, (0x7fa0, 15)); (95, (0x7fa1, 15));
    (96, (0x7fa2, 15)); (97, (0x3, 5)); (98, (0x20, 6)); (99, (0x21, 6));
    (100, (0x22, 6)); (101, (0x4, 5)); (102, (0x23, 6)); (103, (0x24, 6));
    (104, (0x25, 6)); (105, (0x5, 5)); (106, (0x26, 6)); (107, (0x27, 6));
    (108, (0x28, 6)); (109, (0x29, 6)); (110, (0x2a, 6)); (111, (0x2b, 6));
    (112, (0x2c, 6)); (113, (0x2d, 6)); (114, (0x2e, 6)); (115, (0x6, 5));
    (116, (0x7, 5)); (117, (0x2f, 6)); (118, (0x73, 7)); (119, (0x74, 7));
    (120, (0x30, 6)); (121, (0x31, 6)); (122, (0x32, 6)); (123, (0x7fa3, 15));
    (124, (0x7fa4, 15)); (125, (0x7fa5, 15)); (126, (0x7fa6, 15)); (127, (0x7fa7, 15));
    (128, (0x7fa8, 15)); (129, (0x7fa9, 15)); (130, (0x7faa, 15)); (131, (0x7fab, 15));
    (132, (0x7fac, 15)); (133, (0x7fad, 15)); (134, (0x7fae, 15)); (135, (0x7faf, 15));
    (136, (0x7fb0, 15)); (137, (0x7fb1, 15)); (138, (0x7fb2, 15)); (139, (0x7fb3, 15));
    (140, (0x7fb4, 15)); (141, (0x7fb5, 15)); (142, (0x7fb6, 15)); (143, (0x7fb7, 15));
    (144, (0x7fb8, 15)); (145, (0x7fb9, 15)); (146, (0x7fba, 15)); (147, (0x7fbb, 15));
    (148, (0x7fbc, 15)); (149, (0x7fbd, 15)); (150, (0x7fbe, 15)); (151, (0x7fbf, 15));
    (152, (0x7fc0, 15)); (153, (0x7fc1, 15)); (154, (0x7fc2, 15)); (155, (0x7fc3, 15));
    (156, (0x7fc4, 15)); (157, (0x7fc5, 15)); (158, (0x7fc6, 15)); (159, (0x7fc7, 15));
    (160, (0x7fc8, 15)); (161, (0x7fc9, 15)); (162, (0x7fca, 15)); (163, (0x7fcb, 15));
    (164, (0x7fcc, 15)); (165, (0x7fcd, 15)); (166, (0x7fce, 15)); (167, (0x7fcf, 15));
    (168, (0x7fd0, 15)); (169, (0x7fd1, 15)); (170, (0x7fd2, 15)); (171, (0x7fd3, 15));
    (172, (0x7fd4, 15)); (173, (0x7fd5, 15)); (174, (0x7fd6, 15)); (175, (0x7fd7, 15));
    (176, (0x7fd8, 15)); (177, (0x7fd9, 15)); (178, (0x7fda, 15)); (179, (0x7fdb, 15));
    (180, (0x7fdc, 15)); (181, (0x7fdd, 15)); (182, (0x7fde, 15)); (183, (0x7fdf, 15));
    (184, (0x7fe0, 15)); (185, (0x7fe1, 15)); (186, (0x7fe2, 15)); (187, (0x7fe3, 15));
    (188, (0x7fe4, 15)); (189, (0x7fe5, 15)); (190, (0x7fe6, 15)); (191, (0x7fe7, 15));
    (192, (0x7fe8, 15)); (193, (0x7fe9, 15)); (194, (0x7fea, 15)); (195, (0x7feb, 15));
    (196, (0x7fec, 15)); (197, (0x7fed, 15)); (198, (0x7fee, 15)); (199, (0x7fef, 15));
    (200, (0x7ff2, 15)); (201, (0x7ff3, 15)); (202, (0x7ff4, 15)); (203, (0x7ff5, 15));
    (204, (0x7ff6, 15)); (205, (0x7ff7, 15)); (206, (0x7ff80, 19)); (207, (0x7ff81, 19));
    (208, (0x7ff82, 19)); (209, (0x7ff83, 19)); (210, (0x7ff84, 19)); (211, (0x7ff85, 19));
    (212, (0x7ff86, 19)); (213, (0x7ff87, 19)); (214, (0x7ff88, 19)); (215, (0x7ff89, 19));
    (216, (0x7ff8a, 19)); (217, (0x7ff8b, 19)); (218, (0x7ff8c, 19)); (219, (0x7ff8d, 19));
    (220, (0x7ff8e, 19)); (221, (0x7ff8f, 19)); (222, (0x7ff90, 19)); (223, (0x7ff91, 19));
    (224, (0x7ff92, 19)); (225, (0x7ff93, 19)); (226, (0x7ff94, 19)); (227, (0x7ff95, 19));
    (228, (0x7ff96, 19)); (229, (0x7ff97, 19)); (230, (0x7ff98, 19)); (231, (0x7ff99, 19));
    (232, (0x7ff9a, 19)); (233, (0x7ff9b, 19)); (234, (0x7ff9c, 19)); (235, (0x7ff9d, 19));
    (236, (0x7ff9e, 19)); (237, (0x7ff9f, 19)); (238, (0x7ffa0, 19)); (239, (0x7ffa1, 19));
    (240, (0x7ffa2, 19)); (241, (0x7ffa3, 19)); (242, (0x7ffa4, 19)); (243, (0x7ffa5, 19));
    (244, (0x7ffa6, 19)); (245, (0x7ffa7, 19)); (246, (0x7ffa8, 19)); (247, (0x7ffa9, 19));
    (248, (0x7ffaa, 19)); (249, (0x7ffab, 19)); (250, (0x7ffac, 19)); (251, (0x7ffad, 19));
    (252, (0x7ffae, 19)); (253, (0x7ffaf, 19)); (254, (0x7ffb0, 19)); (255, (0x7ffb1, 19));
    (256, (0x7ffb2, 19))
  ].

(** [HUFFMAN_CODES] is a [std::map<uint8_t, ...>]: every key of the
    initializer list is converted to [uint8_t] (so the last key, 256,
    becomes 0) and an entry whose key is already present is not inserted.
    [find] therefore returns the first entry with the converted key. *)
Definition HUFFMAN_CODES_find (ch : Z) : option (Z * Z) :=
  match List.find (fun e => to_uint8 (fst e) =? ch) HUFFMAN_CODES_init with
  | Some e => Some (snd e)
  | None => None
  end.

Definition HUFFMAN_EOS : Z := 0x3fffffff.

(** [struct HuffmanDecodeNode]: two optional children, an optional
    symbol and the EOS-prefix mark. *)
#[warnings="-register-all"]
Inductive HuffmanDecodeNode :=
| Node (child0 child1 : option HuffmanDecodeNode)
       (symbol : option Z) (is_eos_prefix : bool).

Definition empty_node : HuffmanDecodeNode := Node None None None false.

Definition children (n : HuffmanDecodeNode) (bit : Z)
  : option HuffmanDecodeNode :=
  match n with Node c0 c1 _ _ => if bit =? 0 then c0 else c1 end.

Definition symbol (n : HuffmanDecodeNode) : option Z :=
  match n with Node _ _ s _ => s end.

Definition is_eos_prefix (n : HuffmanDecodeNode) : bool :=
  match n with Node _ _ _ e => e end.

Definition set_child (n : HuffmanDecodeNode) (bit : Z)
  (c : HuffmanDecodeNode) : HuffmanDecodeNode :=
  match n with
  | Node c0 c1 s e => if bit =? 0 then Node (Some c) c1 s e
                      else Node c0 (Some c) s e
  end.

Definition set_symbol (n : HuffmanDecodeNode) (s : Z) : HuffmanDecodeNode :=
  match n with Node c0 c1 _ e => Node c0 c1 (Some s) e end.

Definition mark_eos_prefix (n : HuffmanDecodeNode) : HuffmanDecodeNode :=
  match n with Node c0 c1 s _ => Node c0 c1 s true end.

(** The inner loop [for (int j = bits - 1; j >= 0; --j)] of
    [initialize_huffman_decode_tree] for symbol [i], with [remaining]
    bits still to place, followed by the store of the symbol. *)
Fixpoint insert_code (i code : Z) (remaining : nat)
  (current : HuffmanDecodeNode) : HuffmanDecodeNode :=
  match remaining with
  | O => if i =? 256 then current else set_symbol current (to_uint8 i)
  | S j =>
      let bit := Z.land (Z.shiftr code (Z.of_nat j)) 1 in
      let child :=
        match children current bit with
        | Some c => c
        | None => empty_node
        end in
      let child := if i =? 256 then mark_eos_prefix child else child in
      set_child current bit (insert_code i code j child)
  end.

(** One iteration of the outer loop over [i = 0 .. 256]. *)
Definition insert_symbol (root : HuffmanDecodeNode) (i : Z)
  : HuffmanDecodeNode :=
  if (match HUFFMAN_CODES_find (to_uint8 i) with None => true | _ => false end)
       && negb (i =? 256)
  then root
  else if i =? 256 then insert_code i HUFFMAN_EOS 30 root
  else match HUFFMAN_CODES_find (to_uint8 i) with
       | Some (code, bits) => insert_code i code (Z.to_nat bits) root
       | None => root
       end.

Definition initialize_huffman_decode_tree : HuffmanDecodeNode :=
  fold_left insert_symbol (map Z.of_nat (seq 0 257)) empty_node.

(** The tree is built once and then only read. *)
Definition HUFFMAN_DECODE_TREE_ROOT_INSTANCE : HuffmanDecodeNode :=
  Eval vm_compute in initialize_huffman_decode_tree.

(** The [while (bits_in_accumulator >= 8)] loop of [huffman_encode]. *)
Fixpoint drain (fuel : nat) (current_byte_accumulator bits_in_accumulator : Z)
  (encoded_data : octets) : option (Z * octets) :=
  if bits_in_accumulator >=? 8 then
    match fuel with
    | O => None
    | S fuel' =>
        let bits' := bits_in_accumulator - 8 in
        drain fuel' current_byte_accumulator bits'
          (encoded_data
             ++ [Z.land (Z.shiftr current_byte_accumulator bits') 0xFF])
    end
  else Some (bits_in_accumulator, encoded_data).

(** The tail of [huffman_encode]: padding with the most significant bits
    of EOS. *)
Definition pad_with_eos (current_byte_accumulator bits_in_accumulator : Z)
  (encoded_data : octets) : octets :=
  if bits_in_accumulator >? 0 then
    let remaining_bits_in_byte := to_uint8 (8 - bits_in_accumulator) in
    let eos_prefix_mask := to_uint32 (Z.shiftl 1 remaining_bits_in_byte - 1) in
    let eos_prefix :=
      Z.land (Z.shiftr HUFFMAN_EOS (30 - remaining_bits_in_byte))
             eos_prefix_mask in
    let acc := to_uint64 (Z.shiftl current_byte_accumulator
                                   remaining_bits_in_byte) in
    let acc := Z.lor acc eos_prefix in
    encoded_data ++ [Z.land acc 0xFF]
  else encoded_data.

(** The [for (char ch_signed : input)] loop of [huffman_encode]. *)
Fixpoint huffman_encode_loop (input : octets)
  (current_byte_accumulator bits_in_accumulator : Z) (encoded_data : octets)
  : option (octets * HuffmanError.t) :=
  match input with
  | [] =>
      Some (pad_with_eos current_byte_accumulator bits_in_accumulator
              encoded_data, HuffmanError.OK)
  | ch_signed :: input' =>
      let ch := to_uint8 ch_signed in
      match HUFFMAN_CODES_find ch with
      | None => Some ([], HuffmanError.INVALID_INPUT)
      | Some (code, num_bits) =>
          let acc := to_uint64 (Z.shiftl current_byte_accumulator num_bits) in
          let acc := Z.lor acc code in
          let bits := bits_in_accumulator + num_bits in
          match drain (Z.to_nat bits) acc bits encoded_data with
          | None => None
          | Some (bits, out) => huffman_encode_loop input' acc bits out
          end
      end
  end.

(** [Hpack::huffman_encode(input)]. *)
Definition huffman_encode (input : octets) : option (octets * HuffmanError.t) :=
  huffman_encode_loop input 0 0 [].

(** State of the decoding walk: the output so far, the current node and
    whether that node is the root (the C++ code compares pointers). *)
Record walk := {
  decoded_string : octets;
  current_node : HuffmanDecodeNode;
  at_root : bool
}.

Inductive step_result :=
| Continue (w : walk)
| Return (result : octets * HuffmanError.t).

(** Body of the loop [for (int bit_idx = 7; bit_idx >= 0; --bit_idx)] of
    [huffman_decode] for one input octet [b]; [nbits] is [bit_idx + 1] and
    [last_byte] is [byte_idx == input.size() - 1].  The counter
    [bit_count_in_last_byte] is written but never read and is left out. *)
Fixpoint decode_bits (max_output_length : Z) (last_byte : bool) (b : Z)
  (nbits : nat) (w : walk) : step_result :=
  match nbits with
  | O => Continue w
  | S bit_idx =>
      if Z.of_nat (List.length (decoded_string w)) >? max_output_length
      then Return (decoded_string w, HuffmanError.BUFFER_TOO_SMALL)
      else
        let bit := Z.land (Z.shiftr b (Z.of_nat bit_idx)) 1 in
        match children (current_node w) bit with
        | None => Return (decoded_string w, HuffmanError.INVALID_INPUT)
        | Some n =>
            match symbol n with
            | Some s =>
                decode_bits max_output_length last_byte b bit_idx
                  {| decoded_string := decoded_string w ++ [s];
                     current_node := HUFFMAN_DECODE_TREE_ROOT_INSTANCE;
                     at_root := true |}
            | None =>
                if last_byte && is_eos_prefix n then
                  decode_bits max_output_length last_byte b bit_idx
                    {| decoded_string := decoded_string w;
                       current_node := n; at_root := false |}
                else if last_byte && negb (is_eos_prefix n) then
                  Return (decoded_string w, HuffmanError.INVALID_PADDING)
                else
                  decode_bits max_output_length last_byte b bit_idx
                    {| decoded_string := decoded_string w;
                       current_node := n; at_root := false |}
            end
        end
  end.

(** The loop over the input octets and the final check. *)
Fixpoint huffman_decode_loop (max_output_length : Z) (input : octets)
  (w : walk) : octets * HuffmanError.t :=
  match input with
  | [] =>
      if negb (at_root w) then
        if negb (is_eos_prefix (current_node w))
        then (decoded_string w, HuffmanError.INVALID_PADDING)
        else (decoded_string w, HuffmanError.OK)
      else (decoded_string w, HuffmanError.OK)
  | b :: input' =>
      let last_byte := match input' with [] => true | _ => false end in
      match decode_bits max_output_length last_byte b 8 w with
      | Return r => r
      | Continue w' => huffman_decode_loop max_output_length input' w'
      end
  end.

(** [Hpack::huffman_decode(input, max_output_length)]. *)
Definition huffman_decode (input : octets) (max_output_length : Z)
  : octets * HuffmanError.t :=
  huffman_decode_loop max_output_length input
    {| decoded_string := [];
       current_node := HUFFMAN_DECODE_TREE_ROOT_INSTANCE;
       at_root := true |}.

(** Default argument of [huffman_decode]: [16384 * 4]. *)
Definition default_max_output_length : Z := 16384 * 4.

(** [std::string::npos]. *)
Definition npos : Z := 2 ^ 64 - 1.

(** The loop of [get_huffman_encoded_length]. *)
Fixpoint encoded_length_loop (input : octets) (total_bits : Z) : option Z :=
  match input with
  | [] => Some total_bits
  | ch_signed :: input' =>
      let ch := to_uint8 ch_signed in
      match HUFFMAN_CODES_find ch with
      | None => None
      | Some (_, num_bits) =>
          encoded_length_loop input' (to_uint64 (total_bits + num_bits))
      end
  end.

(** [Hpack::get_huffman_encoded_length(input)]. *)
Definition get_huffman_encoded_length (input : octets) : Z :=
  match encoded_length_loop input 0 with
  | None => npos
  | Some total_bits => to_uint64 (total_bits + 7) / 8
  end.

End Hpack.

(** ** Headers and the static table *)

(** [http2_types.h]: [struct HttpHeader]. *)
Record HttpHeader := {
  name : octets;
  value : octets;
  sensitive : bool
}.

(** The octets of a string literal. *)
Definition str (s : string) : octets :=
  map (fun a => Z.of_N (N_of_ascii a)) (list_ascii_of_string s).

Module StaticTable.

Definition mk (n v : string) : HttpHeader :=
  {| name := str n; value := str v; sensitive := false |}.

(** [Hpack::STATIC_TABLE] (index 1 is the first element). *)
Definition STATIC_TABLE : list HttpHeader := [
    mk ":authority" "";
    mk ":method" "GET";
    mk ":method" "POST";
    mk ":path" "/";
    mk ":path" "/index.html";
    mk ":scheme" "http";
    mk ":scheme" "https";
    mk ":status" "200";
    mk ":status" "204";
    mk ":status" "206";
    mk ":status" "304";
    mk ":status" "400";
    mk ":status" "404";
    mk ":status" "500";
    mk "accept-charset" "";
    mk "accept-encoding" "gzip, deflate";
    mk "accept-language" "";
    mk "accept-ranges" "";
    mk "accept" "";
    mk "access-control-allow-origin" "";
    mk "age" "";
    mk "allow" "";
    mk "authorization" "";
    mk "cache-control" "";
    mk "content-disposition" "";
    mk "content-encoding" "";
    mk "content-language" "";
    mk "content-length" "";
    mk "content-location" "";
    mk "content-range" "";
    mk "content-type" "";
    mk "cookie" "";
    mk "date" "";
    mk "etag" "";
    mk "expect" "";
    mk "expires" "";
    mk "from" "";
    mk "host" "";
    mk "if-match" "";
    mk "if-modified-since" "";
    mk "if-none-match" "";
    mk "if-range" "";
    mk "if-unmodified-since" "";
    mk "last-modified" "";
    mk "link" "";
    mk "location" "";
    mk "max-forwards" "";
    mk "proxy-authenticate" "";
    mk "proxy-authorization" "";
    mk "range" "";
    mk "referer" "";
    mk "refresh" "";
    mk "retry-after" "";
    mk "server" "";
    mk "set-cookie" "";
    mk "strict-transport-security" "";
    mk "transfer-encoding" "";
    mk "user-agent" "";
    mk "vary" "";
    mk "via" "";
    mk "www-authenticate" ""
  ]%string.

(** [Hpack::get_static_header(index)]. *)
Definition get_static_header (index : Z) : option HttpHeader :=
  if (index =? 0) || (index >? Z.of_nat (List.length STATIC_TABLE)) then None
  else nth_error STATIC_TABLE (Z.to_nat (index - 1)).

(** The inner [for] loop of [find_in_static_table]: an early [return], or
    the variables [found_name_only] and [first_name_match_idx] when the
    loop ends. *)
Fixpoint find_name_match (entries : list HttpHeader) (j : Z) (n v : octets)
  (found_name_only : bool) (first_name_match_idx : Z)
  : (Z * bool) + (bool * Z) :=
  match entries with
  | [] => inr (found_name_only, first_name_match_idx)
  | e :: entries' =>
      if octets_eqb (name e) n then
        let first_name_match_idx :=
          if found_name_only then first_name_match_idx
          else to_int32 (j + 1) in
        if octets_eqb (value e) v then inl (to_int32 (j + 1), true)
        else find_name_match entries' (j + 1) n v true first_name_match_idx
      else
        find_name_match entries' (j + 1) n v found_name_only
          first_name_match_idx
  end.

(** The outer [for] loop of [find_in_static_table]. *)
Fixpoint find_in_static_loop (entries : list HttpHeader) (i : Z)
  (n v : octets) : Z * bool :=
  match entries with
  | [] => (0, false)
  | e :: entries' =>
      if octets_eqb (name e) n then
        if octets_eqb (value e) v then (to_int32 (i + 1), true)
        else
          match find_name_match STATIC_TABLE 0 n v false 0 with
          | inl r => r
          | inr (true, first_name_match_idx) => (first_name_match_idx, false)
          | inr (false, _) => find_in_static_loop entries' (i + 1) n v
          end
      else find_in_static_loop entries' (i + 1) n v
  end.

(** [Hpack::find_in_static_table(name, value)]. *)
Definition find_in_static_table (n v : octets) : Z * bool :=
  find_in_static_loop STATIC_TABLE 0 n v.

(** [Hpack::find_in_static_table(header)]. *)
Definition find_in_static_table_header (header : HttpHeader) : Z * bool :=
  find_in_static_table (name header) (value header).

End StaticTable.

(** [HpackDecoder::DynamicTableEntry]; the constructor computes [size]. *)
Record DynamicTableEntry := {
  entry_name : octets;
  entry_value : octets;
  size : Z
}.

Definition mkDynamicTableEntry (n v : octets) : DynamicTableEntry :=
  {| entry_name := n; entry_value := v;
     size := Z.of_nat (List.length n) + Z.of_nat (List.length v) + 32 |}.

(** The loop of [evict_from_dynamic_table], shared by both codecs: the
    deque is walked from its back (oldest entry first); an entry is
    popped while the 32-bit sum [current + required_space] exceeds the
    maximum and the deque is not empty. *)
Fixpoint evict_from_back (oldest_first : list DynamicTableEntry)
  (current required_space max : Z) : list DynamicTableEntry * Z :=
  match oldest_first with
  | [] => ([], current)
  | back :: older =>
      if to_uint32 (current + required_space) >? max then
        evict_from_back older
          (to_uint32 (current - to_uint32 (size back))) required_space max
      else (oldest_first, current)
  end.

(** ** HPACK encoder ([hpack_encoder.cpp]) *)

Module HpackEncoder.

Definition DEFAULT_DYNAMIC_TABLE_SIZE : Z := 4096.

(** The deque is a list whose head is the front (newest entry). *)
Record t := {
  dynamic_table_ : list DynamicTableEntry;
  current_dynamic_table_size_ : Z;
  own_max_dynamic_table_size_ : Z;
  peer_max_dynamic_table_size_ : Z
}.

(** [HpackEncoder::HpackEncoder(max_dynamic_table_size)]. *)
Definition new (max_dynamic_table_size : Z) : t :=
  {| dynamic_table_ := [];
     current_dynamic_table_size_ := 0;
     own_max_dynamic_table_size_ := max_dynamic_table_size;
     peer_max_dynamic_table_size_ := DEFAULT_DYNAMIC_TABLE_SIZE |}.

(** The [while (value >= 128)] loop of [HpackEncoder::encode_integer],
    followed by the final [push_back].  [fuel] bounds the number of
    continuation octets; [None] means the budget ran out. *)
Fixpoint encode_integer_loop (fuel : nat) (buffer : octets) (value : Z)
  : option octets :=
  if value >=? 128 then
    match fuel with
    | O => None
    | S fuel' =>
        encode_integer_loop fuel'
          (buffer ++ [to_uint8 (Z.lor 128 (value mod 128))]) (value / 128)
    end
  else Some (buffer ++ [to_uint8 value]).

(** [HpackEncoder::encode_integer(buffer, prefix_mask, prefix_bits, value)].
    A 64-bit value has at most ten 7-bit groups, hence the budget. *)
Definition encode_integer (buffer : octets) (prefix_mask prefix_bits value : Z)
  : option octets :=
  let initial_byte_prefix := prefix_mask in
  let N := to_uint8 (Z.shiftl 1 prefix_bits - 1) in
  if value <? N then
    Some (buffer ++ [to_uint8 (Z.lor initial_byte_prefix (to_uint8 value))])
  else
    encode_integer_loop 10
      (buffer ++ [to_uint8 (Z.lor initial_byte_prefix N)])
      (to_uint64 (value - N)).


(** [HpackEncoder::encode_string(buffer, str, try_huffman)]. *)
Definition encode_string (buffer : octets) (s : octets) (try_huffman : bool)
  : option octets :=
  match (if try_huffman then
           match Hpack.huffman_encode s with
           | None => None
           | Some (encoded_res, huff_err) =>
               match huff_err with
               | HuffmanError.OK =>
                   if Z.of_nat (List.length encoded_res)
                        <? Z.of_nat (List.length s)
                   then Some (encoded_res, true)
                   else Some ([], false)
               | _ => Some ([], false)
               end
           end
         else Some ([], false)) with
  | None => None
  | Some (huffman_encoded_bytes, use_huffman_actual) =>
      let prefix := if use_huffman_actual then 0x80 else 0x00 in
      let length :=
        if use_huffman_actual
        then Z.of_nat (List.length huffman_encoded_bytes)
        else Z.of_nat (List.length s) in
      match encode_integer buffer prefix 7 length with
      | None => None
      | Some buffer =>
          if use_huffman_actual then Some (buffer ++ huffman_encoded_bytes)
          else Some (buffer ++ map to_uint8 s)
      end
  end.

(** [HpackEncoder::evict_from_dynamic_table(required_space)]. *)
Definition evict_from_dynamic_table (e : t) (required_space : Z) : t :=
  let '(kept, current) :=
    evict_from_back (rev (dynamic_table_ e)) (current_dynamic_table_size_ e)
      required_space (own_max_dynamic_table_size_ e) in
  {| dynamic_table_ := rev kept;
     current_dynamic_table_size_ := current;
     own_max_dynamic_table_size_ := own_max_dynamic_table_size_ e;
     peer_max_dynamic_table_size_ := peer_max_dynamic_table_size_ e |}.

(** [HpackEncoder::add_to_dynamic_table(header)]. *)
Definition add_to_dynamic_table (e : t) (header : HttpHeader) : t :=
  let entry_size :=
    Z.of_nat (List.length (name header))
    + Z.of_nat (List.length (value header)) + 32 in
  if entry_size >? own_max_dynamic_table_size_ e then
    {| dynamic_table_ := [];
       current_dynamic_table_size_ := 0;
       own_max_dynamic_table_size_ := own_max_dynamic_table_size_ e;
       peer_max_dynamic_table_size_ := peer_max_dynamic_table_size_ e |}
  else
    let e := evict_from_dynamic_table e (to_uint32 entry_size) in
    let front := mkDynamicTableEntry (name header) (value header) in
    {| dynamic_table_ := front :: dynamic_table_ e;
       current_dynamic_table_size_ :=
         to_uint32 (current_dynamic_table_size_ e + to_uint32 (size front));
       own_max_dynamic_table_size_ := own_max_dynamic_table_size_ e;
       peer_max_dynamic_table_size_ := peer_max_dynamic_table_size_ e |}.

(** [HpackEncoder::set_own_max_dynamic_table_size(max_size)]; the boolean
    is [size_changed_for_settings]. *)
Definition set_own_max_dynamic_table_size (e : t) (max_size : Z) : t * bool :=
  let size_changed_for_settings :=
    negb (own_max_dynamic_table_size_ e =? max_size) in
  let e :=
    {| dynamic_table_ := dynamic_table_ e;
       current_dynamic_table_size_ := current_dynamic_table_size_ e;
       own_max_dynamic_table_size_ := max_size;
       peer_max_dynamic_table_size_ := peer_max_dynamic_table_size_ e |} in
  (evict_from_dynamic_table e 0, size_changed_for_settings).

(** [HpackEncoder::set_peer_max_dynamic_table_size(max_size)]. *)
Definition set_peer_max_dynamic_table_size (e : t) (max_size : Z) : t :=
  {| dynamic_table_ := dynamic_table_ e;
     current_dynamic_table_size_ := current_dynamic_table_size_ e;
     own_max_dynamic_table_size_ := own_max_dynamic_table_size_ e;
     peer_max_dynamic_table_size_ := max_size |}.

(** The loop of [HpackEncoder::find_in_dynamic_table]. *)
Fixpoint find_in_dynamic_loop (entries : list DynamicTableEntry) (i : Z)
  (header : HttpHeader) : Z * bool :=
  match entries with
  | [] => (0, false)
  | entry :: entries' =>
      if octets_eqb (entry_name entry) (name header) then
        (to_int32 (i + 1), octets_eqb (entry_value entry) (value header))
      else find_in_dynamic_loop entries' (i + 1) header
  end.

(** [HpackEncoder::find_in_dynamic_table(header)]. *)
Definition find_in_dynamic_table (e : t) (header : HttpHeader) : Z * bool :=
  find_in_dynamic_loop (dynamic_table_ e) 0 header.

(** The part that the three literal representations share in [encode]:
    the [int name_table_idx], written under the pattern of the
    representation, the name as a string when there is no index, and the
    value. *)
Definition encode_literal (output_buffer : octets) (prefix_mask prefix_bits : Z)
  (static_idx dyn_idx : Z) (header : HttpHeader) : option octets :=
  let name_table_idx :=
    if negb (static_idx =? 0) then static_idx
    else if negb (dyn_idx =? 0) then
      to_int32 (to_int32 (Z.of_nat (List.length StaticTable.STATIC_TABLE))
                + dyn_idx)
    else 0 in
  match encode_integer output_buffer prefix_mask prefix_bits
          (to_uint64 name_table_idx) with
  | None => None
  | Some output_buffer =>
      match (if name_table_idx =? 0
             then encode_string output_buffer (name header) true
             else Some output_buffer) with
      | None => None
      | Some output_buffer => encode_string output_buffer (value header) true
      end
  end.

(** The body of the loop of [HpackEncoder::encode] for one header. *)
Definition encode_header (e : t) (output_buffer : octets) (header : HttpHeader)
  : option (t * octets) :=
  let '(static_idx, static_value_match) :=
    StaticTable.find_in_static_table_header header in
  if negb (static_idx =? 0) && static_value_match then
    match encode_integer output_buffer 0x80 7 (to_uint64 static_idx) with
    | None => None
    | Some output_buffer => Some (e, output_buffer)
    end
  else
    let '(dyn_idx, dyn_value_match) := find_in_dynamic_table e header in
    if negb (dyn_idx =? 0) && dyn_value_match then
      match encode_integer output_buffer 0x80 7
              (to_uint64 (Z.of_nat (List.length StaticTable.STATIC_TABLE)
                          + dyn_idx)) with
      | None => None
      | Some output_buffer => Some (e, output_buffer)
      end
    else
      let entry_size :=
        Z.of_nat (List.length (name header))
        + Z.of_nat (List.length (value header)) + 32 in
      let can_be_added_to_dynamic_table :=
        entry_size <=? own_max_dynamic_table_size_ e in
      if sensitive header then
        match encode_literal output_buffer 0x10 4 static_idx dyn_idx header with
        | None => None
        | Some output_buffer => Some (e, output_buffer)
        end
      else if can_be_added_to_dynamic_table then
        match encode_literal output_buffer 0x40 6 static_idx dyn_idx header with
        | None => None
        | Some output_buffer =>
            Some (add_to_dynamic_table e header, output_buffer)
        end
      else
        match encode_literal output_buffer 0x00 4 static_idx dyn_idx header with
        | None => None
        | Some output_buffer => Some (e, output_buffer)
        end.

(** The [for (const auto& header : headers)] loop of [encode]. *)
Fixpoint encode_loop (e : t) (output_buffer : octets)
  (headers : list HttpHeader) : option (t * octets) :=
  match headers with
  | [] => Some (e, output_buffer)
  | header :: headers' =>
      match encode_header e output_buffer header with
      | None => None
      | Some (e, output_buffer) => encode_loop e output_buffer headers'
      end
  end.

(** [HpackEncoder::encode(headers)]: the encoder after the call, the
    octets and the error status, which is always [OK]. *)
Definition encode (e : t) (headers : list HttpHeader)
  : option (t * octets * HpackEncodingError.t) :=
  match encode_loop e [] headers with
  | None => None
  | Some (e, output_buffer) => Some (e, output_buffer, HpackEncodingError.OK)
  end.

End HpackEncoder.

(** ** HPACK decoder ([hpack_decoder.cpp]) *)

Module HpackDecoder.

Definition DEFAULT_DYNAMIC_TABLE_SIZE : Z := 4096.

(** The deque is a list whose head is the front (newest entry). *)
Record t := {
  dynamic_table_ : list DynamicTableEntry;
  current_dynamic_table_size_ : Z;
  max_dynamic_table_size_ : Z
}.

(** [HpackDecoder::HpackDecoder(max_dynamic_table_size)]. *)
Definition new (max_dynamic_table_size : Z) : t :=
  {| dynamic_table_ := [];
     current_dynamic_table_size_ := 0;
     max_dynamic_table_size_ := max_dynamic_table_size |}.

(** The [do ... while] loop of [HpackDecoder::decode_integer]; one octet
    is consumed per iteration, so the recursion is on the input.  The
    result carries the remaining span, which the C++ code updates through
    the reference parameter.  The shift is a 64-bit shift; C++ leaves a
    shift by 64 or more undefined, which can only happen at [m = 70], and
    there the function returns [INTEGER_OVERFLOW] without using the
    shifted value. *)
Fixpoint decode_integer_loop (data : octets) (value m : Z)
  : Z * HpackError.t * octets :=
  match data with
  | [] => (0, HpackError.BUFFER_TOO_SMALL, data)
  | byte_val :: data' =>
      if (m / 128 >? UINT64_MAX / 128)
           && (m >=? 63) && (Z.land byte_val 127 >? 0)
      then (0, HpackError.INTEGER_OVERFLOW, data')
      else
        let value' :=
          to_uint64 (value + to_uint64 (Z.shiftl (Z.land byte_val 127) m)) in
        let m' := m + 7 in
        if m' >? 70 then (0, HpackError.INTEGER_OVERFLOW, data')
        else if Z.land byte_val 128 =? 128
             then decode_integer_loop data' value' m'
             else (value', HpackError.OK, data')
  end.

(** [HpackDecoder::decode_integer(data, prefix_bits)]. *)
Definition decode_integer (data : octets) (prefix_bits : Z)
  : Z * HpackError.t * octets :=
  match data with
  | [] => (0, HpackError.BUFFER_TOO_SMALL, data)
  | b0 :: data' =>
      let mask := to_uint8 (Z.shiftl 1 prefix_bits - 1) in
      let value := Z.land b0 mask in
      if value <? mask then (value, HpackError.OK, data')
      else decode_integer_loop data' value 0
  end.


(** [HpackDecoder::decode_string(data)]; the third component is the
    remaining span. *)
Definition decode_string (data : octets) : octets * HpackError.t * octets :=
  match data with
  | [] => ([], HpackError.BUFFER_TOO_SMALL, data)
  | b0 :: _ =>
      let huffman_encoded := negb (Z.land b0 0x80 =? 0) in
      let '(length, err_len, data) := decode_integer data 7 in
      match err_len with
      | HpackError.OK =>
          if length >? Z.of_nat (List.length data) then
            ([], HpackError.BUFFER_TOO_SMALL, data)
          else
            let string_data := firstn (Z.to_nat length) data in
            let data := skipn (Z.to_nat length) data in
            if huffman_encoded then
              let '(decoded_str, huff_err) :=
                Hpack.huffman_decode string_data
                  Hpack.default_max_output_length in
              match huff_err with
              | HuffmanError.OK => (decoded_str, HpackError.OK, data)
              | _ => ([], HpackError.INVALID_HUFFMAN_CODE, data)
              end
            else (string_data, HpackError.OK, data)
      | _ => ([], err_len, data)
      end
  end.

(** [HpackDecoder::evict_from_dynamic_table(required_space)]. *)
Definition evict_from_dynamic_table (d : t) (required_space : Z) : t :=
  let '(kept, current) :=
    evict_from_back (rev (dynamic_table_ d)) (current_dynamic_table_size_ d)
      required_space (max_dynamic_table_size_ d) in
  {| dynamic_table_ := rev kept;
     current_dynamic_table_size_ := current;
     max_dynamic_table_size_ := max_dynamic_table_size_ d |}.

(** [HpackDecoder::add_to_dynamic_table(header)]. *)
Definition add_to_dynamic_table (d : t) (header : HttpHeader) : t :=
  let entry_size :=
    Z.of_nat (List.length (name header))
    + Z.of_nat (List.length (value header)) + 32 in
  if entry_size >? max_dynamic_table_size_ d then
    {| dynamic_table_ := [];
       current_dynamic_table_size_ := 0;
       max_dynamic_table_size_ := max_dynamic_table_size_ d |}
  else
    let d := evict_from_dynamic_table d (to_uint32 entry_size) in
    {| dynamic_table_ :=
         mkDynamicTableEntry (name header) (value header) :: dynamic_table_ d;
       current_dynamic_table_size_ :=
         to_uint32 (current_dynamic_table_size_ d + to_uint32 entry_size);
       max_dynamic_table_size_ := max_dynamic_table_size_ d |}.

(** [HpackDecoder::set_max_dynamic_table_size(max_size)]. *)
Definition set_max_dynamic_table_size (d : t) (max_size : Z) : t :=
  evict_from_dynamic_table
    {| dynamic_table_ := dynamic_table_ d;
       current_dynamic_table_size_ := current_dynamic_table_size_ d;
       max_dynamic_table_size_ := max_size |} 0.

(** [HpackDecoder::get_header_from_tables(index)]. *)
Definition get_header_from_tables (d : t) (index : Z) : option HttpHeader :=
  if index =? 0 then None
  else if index <=? Z.of_nat (List.length StaticTable.STATIC_TABLE) then
    StaticTable.get_static_header index
  else
    let dynamic_index :=
      to_uint64 (index - Z.of_nat (List.length StaticTable.STATIC_TABLE)) in
    if dynamic_index >? Z.of_nat (List.length (dynamic_table_ d)) then None
    else
      match nth_error (dynamic_table_ d) (Z.to_nat (dynamic_index - 1)) with
      | Some e => Some {| name := entry_name e; value := entry_value e;
                          sensitive := false |}
      | None => None
      end.

(** Outcome of one iteration of the [while (!data.empty())] loop of
    [HpackDecoder::decode]: leave the loop with an error status, or go on
    with the remaining input. *)
Inductive iteration :=
| Break (d : t) (headers : list HttpHeader) (error_status : HpackError.t)
| Next (d : t) (headers : list HttpHeader) (data : octets).

(** The part common to the three literal representations: the name, by
    index or as a string, then the value. *)
Definition decode_literal (d : t) (data : octets) (prefix_bits : Z)
  : (octets * octets * octets) + HpackError.t :=
  let '(index, err_idx, data) := decode_integer data prefix_bits in
  match err_idx with
  | HpackError.OK =>
      let name_result :=
        if index =? 0 then
          let '(name_str, err_name, data) := decode_string data in
          match err_name with
          | HpackError.OK => inl (name_str, data)
          | _ => inr err_name
          end
        else
          match get_header_from_tables d index with
          | None => inr HpackError.INDEX_OUT_OF_BOUNDS
          | Some indexed_header => inl (name indexed_header, data)
          end in
      match name_result with
      | inr e => inr e
      | inl (header_name, data) =>
          let '(value_str, err_val, data) := decode_string data in
          match err_val with
          | HpackError.OK => inl (header_name, value_str, data)
          | _ => inr err_val
          end
      end
  | _ => inr err_idx
  end.

(** The body of the loop of [HpackDecoder::decode], for a non-empty
    [data] whose first octet is [first_byte]. *)
Definition decode_iteration (d : t) (headers : list HttpHeader)
  (first_byte : Z) (data : octets) : iteration :=
  if Z.land first_byte 0x80 =? 0x80 then
    let '(index, err, data) := decode_integer data 7 in
    match err with
    | HpackError.OK =>
        if index =? 0 then Break d headers HpackError.INDEX_OUT_OF_BOUNDS
        else
          match get_header_from_tables d index with
          | None => Break d headers HpackError.INDEX_OUT_OF_BOUNDS
          | Some h => Next d (headers ++ [h]) data
          end
    | _ => Break d headers err
    end
  else if Z.land first_byte 0xC0 =? 0x40 then
    match decode_literal d data 6 with
    | inr e => Break d headers e
    | inl (n, v, data) =>
        let header := {| name := n; value := v; sensitive := false |} in
        Next (add_to_dynamic_table d header) (headers ++ [header]) data
    end
  else if Z.land first_byte 0xF0 =? 0x00 then
    match decode_literal d data 4 with
    | inr e => Break d headers e
    | inl (n, v, data) =>
        Next d (headers ++ [{| name := n; value := v; sensitive := false |}])
          data
    end
  else if Z.land first_byte 0xF0 =? 0x10 then
    match decode_literal d data 4 with
    | inr e => Break d headers e
    | inl (n, v, data) =>
        Next d (headers ++ [{| name := n; value := v; sensitive := true |}])
          data
    end
  else if Z.land first_byte 0xE0 =? 0x20 then
    let '(size, err, data) := decode_integer data 5 in
    match err with
    | HpackError.OK =>
        if negb (match headers with [] => true | _ => false end) then
          Break d headers HpackError.COMPRESSION_ERROR
        else if size >? DEFAULT_DYNAMIC_TABLE_SIZE then
          Break d headers HpackError.COMPRESSION_ERROR
        else Next (set_max_dynamic_table_size d (to_uint32 size)) headers data
    | _ => Break d headers err
    end
  else Break d headers HpackError.COMPRESSION_ERROR.

(** The loop of [HpackDecoder::decode]; every iteration consumes at least
    one octet, [fuel] bounds the number of iterations. *)
Fixpoint decode_loop (fuel : nat) (d : t) (headers : list HttpHeader)
  (data : octets) : option (t * list HttpHeader * HpackError.t) :=
  match data with
  | [] => Some (d, headers, HpackError.OK)
  | first_byte :: _ =>
      match decode_iteration d headers first_byte data with
      | Break d headers error_status => Some (d, headers, error_status)
      | Next d headers data =>
          match fuel with
          | O => None
          | S fuel' => decode_loop fuel' d headers data
          end
      end
  end.

(** [HpackDecoder::decode(data)]: the decoder after the call, the decoded
    headers and the error status. *)
Definition decode (d : t) (data : octets)
  : option (t * list HttpHeader * HpackError.t) :=
  decode_loop (List.length data) d [] data.

End HpackDecoder.

(** ** Streams ([http2_stream.h], [http2_stream.cpp]) *)

Module StreamState.
Inductive t :=
| IDLE
| RESERVED_LOCAL
| RESERVED_REMOTE
| OPEN
| HALF_CLOSED_LOCAL
| HALF_CLOSED_REMOTE
| CLOSED.

Definition eqb (a b : t) : bool :=
  match a, b with
  | IDLE, IDLE | RESERVED_LOCAL, RESERVED_LOCAL
  | RESERVED_REMOTE, RESERVED_REMOTE | OPEN, OPEN
  | HALF_CLOSED_LOCAL, HALF_CLOSED_LOCAL
  | HALF_CLOSED_REMOTE, HALF_CLOSED_REMOTE | CLOSED, CLOSED => true
  | _, _ => false
  end.
End StreamState.

Module Http2Stream.

(** The windows are [int32_t]. *)
Record t := {
  id_ : Z;
  state_ : StreamState.t;
  local_window_size_ : Z;
  remote_window_size_ : Z
}.

(** [Http2Stream::Http2Stream(id, initial_local_window,
    initial_remote_window)]. *)
Definition new (id initial_local_window initial_remote_window : Z) : t :=
  {| id_ := id;
     state_ := StreamState.IDLE;
     local_window_size_ := to_int32 initial_local_window;
     remote_window_size_ := to_int32 initial_remote_window |}.

Definition get_state (s : t) : StreamState.t := state_ s.
Definition get_local_window_size (s : t) : Z := local_window_size_ s.
Definition get_remote_window_size (s : t) : Z := remote_window_size_ s.

(** [Http2Stream::update_remote_window(increment)]; [increment] is a
    [window_size_t], that is a [uint32_t]. *)
Definition update_remote_window (s : t) (increment : Z) : t * bool :=
  if increment =? 0 then (s, true)
  else if remote_window_size_ s + increment >? 2 ^ 31 - 1 then (s, false)
  else
    ({| id_ := id_ s;
        state_ := state_ s;
        local_window_size_ := local_window_size_ s;
        remote_window_size_ :=
          to_int32 (remote_window_size_ s + to_int32 increment) |}, true).

(** [Http2Stream::record_data_sent(data_size)]. *)
Definition record_data_sent (s : t) (data_size : Z) : t :=
  if data_size =? 0 then s
  else
    {| id_ := id_ s;
       state_ := state_ s;
       local_window_size_ := local_window_size_ s;
       remote_window_size_ :=
         to_int32 (remote_window_size_ s - to_int32 data_size) |}.

Definition set_state (s : t) (st : StreamState.t) : t :=
  {| id_ := id_ s;
     state_ := st;
     local_window_size_ := local_window_size_ s;
     remote_window_size_ := remote_window_size_ s |}.

(** [Http2Stream::transition_to_open()]. *)
Definition transition_to_open (s : t) : t :=
  match state_ s with
  | StreamState.IDLE | StreamState.RESERVED_LOCAL
  | StreamState.RESERVED_REMOTE => set_state s StreamState.OPEN
  | _ => s
  end.

(** [Http2Stream::transition_to_half_closed_local()]. *)
Definition transition_to_half_closed_local (s : t) : t :=
  match state_ s with
  | StreamState.OPEN | StreamState.RESERVED_LOCAL =>
      set_state s StreamState.HALF_CLOSED_LOCAL
  | StreamState.HALF_CLOSED_REMOTE => set_state s StreamState.CLOSED
  | _ => s
  end.

(** [Http2Stream::transition_to_closed()]. *)
Definition transition_to_closed (s : t) : t :=
  {| id_ := id_ s;
     state_ := StreamState.CLOSED;
     local_window_size_ := 0;
     remote_window_size_ := 0 |}.

Definition get_id (s : t) : Z := id_ s.

(** [Http2Stream::update_local_window(increment)]. *)
Definition update_local_window (s : t) (increment : Z) : t * bool :=
  if increment =? 0 then (s, true)
  else if local_window_size_ s + increment >? 2 ^ 31 - 1 then (s, false)
  else
    ({| id_ := id_ s;
        state_ := state_ s;
        local_window_size_ :=
          to_int32 (local_window_size_ s + to_int32 increment);
        remote_window_size_ := remote_window_size_ s |}, true).

(** [Http2Stream::can_send_data(data_size)]; [data_size] is a [size_t]. *)
Definition can_send_data (s : t) (data_size : Z) : bool :=
  if negb (StreamState.eqb (state_ s) StreamState.OPEN)
     && negb (StreamState.eqb (state_ s) StreamState.HALF_CLOSED_REMOTE)
  then false
  else remote_window_size_ s >=? to_int32 data_size.

(** [Http2Stream::record_data_received(data_size)]. *)
Definition record_data_received (s : t) (data_size : Z) : t :=
  if data_size =? 0 then s
  else
    {| id_ := id_ s;
       state_ := state_ s;
       local_window_size_ :=
         to_int32 (local_window_size_ s - to_int32 data_size);
       remote_window_size_ := remote_window_size_ s |}.

(** [Http2Stream::transition_to_half_closed_remote()]. *)
Definition transition_to_half_closed_remote (s : t) : t :=
  match state_ s with
  | StreamState.OPEN | StreamState.RESERVED_REMOTE =>
      set_state s StreamState.HALF_CLOSED_REMOTE
  | StreamState.HALF_CLOSED_LOCAL => set_state s StreamState.CLOSED
  | _ => s
  end.

(** [Http2Stream::transition_to_reserved_local()]. *)
Definition transition_to_reserved_local (s : t) : t :=
  match state_ s with
  | StreamState.IDLE => set_state s StreamState.RESERVED_LOCAL
  | _ => s
  end.

(** [Http2Stream::transition_to_reserved_remote()]. *)
Definition transition_to_reserved_remote (s : t) : t :=
  match state_ s with
  | StreamState.IDLE => set_state s StreamState.RESERVED_REMOTE
  | _ => s
  end.

End Http2Stream.

(** ** Frames ([http2_types.h], [http2_frame.h]) *)

(** [enum class FrameType : uint8_t]; a frame header read from the wire
    can hold any octet, so the type is kept as its number. *)
Module FrameType.
Definition DATA : Z := 0x0.
Definition HEADERS : Z := 0x1.
Definition PRIORITY : Z := 0x2.
Definition RST_STREAM : Z := 0x3.
Definition SETTINGS : Z := 0x4.
Definition PUSH_PROMISE : Z := 0x5.
Definition PING : Z := 0x6.
Definition GOAWAY : Z := 0x7.
Definition WINDOW_UPDATE : Z := 0x8.
Definition CONTINUATION : Z := 0x9.
End FrameType.

(** [enum class ErrorCode : uint32_t], kept as its number. *)
Module ErrorCode.
Definition NO_ERROR : Z := 0x0.
Definition PROTOCOL_ERROR : Z := 0x1.
Definition INTERNAL_ERROR : Z := 0x2.
Definition FLOW_CONTROL_ERROR : Z := 0x3.
Definition SETTINGS_TIMEOUT : Z := 0x4.
Definition STREAM_CLOSED : Z := 0x5.
Definition FRAME_SIZE_ERROR : Z := 0x6.
Definition REFUSED_STREAM : Z := 0x7.
Definition CANCEL : Z := 0x8.
Definition COMPRESSION_ERROR : Z := 0x9.
End ErrorCode.

Definition DEFAULT_MAX_FRAME_SIZE : Z := 16384.
Definition MAX_ALLOWED_FRAME_SIZE : Z := 16777215.
Definition MAX_ALLOWED_WINDOW_SIZE : Z := 2 ^ 31 - 1.

Module FrameHeader.
Record t := {
  length : Z;
  type : Z;
  flags : Z;
  stream_id : Z
}.
Definition get_stream_id (h : t) : Z := Z.land (stream_id h) 0x7FFFFFFF.
(** A default-initialised header. *)
Definition zero : t := {| length := 0; type := 0; flags := 0; stream_id := 0 |}.
End FrameHeader.

(** A flag test [header.flags & FLAG] converted to [bool]. *)
Definition has_flag (h : FrameHeader.t) (flag : Z) : bool :=
  negb (Z.land (FrameHeader.flags h) flag =? 0).

Module DataFrame.
Definition END_STREAM_FLAG : Z := 0x1.
Definition PADDED_FLAG : Z := 0x8.
Record t := {
  header : FrameHeader.t;
  pad_length : option Z;
  data : octets
}.
Definition has_end_stream_flag (f : t) := has_flag (header f) END_STREAM_FLAG.
Definition has_padded_flag (f : t) := has_flag (header f) PADDED_FLAG.
End DataFrame.

Module HeadersFrame.
Definition END_STREAM_FLAG : Z := 0x1.
Definition END_HEADERS_FLAG : Z := 0x4.
Definition PADDED_FLAG : Z := 0x8.
Definition PRIORITY_FLAG : Z := 0x20.
Record t := {
  header : FrameHeader.t;
  pad_length : option Z;
  exclusive_dependency : option bool;
  stream_dependency : option Z;
  weight : option Z;
  headers : list HttpHeader
}.
Definition has_end_headers_flag (f : t) := has_flag (header f) END_HEADERS_FLAG.
Definition has_padded_flag (f : t) := has_flag (header f) PADDED_FLAG.
Definition has_priority_flag (f : t) := has_flag (header f) PRIORITY_FLAG.
End HeadersFrame.

Module PriorityFrame.
Record t := {
  header : FrameHeader.t;
  exclusive_dependency : bool;
  stream_dependency : Z;
  weight : Z
}.
End PriorityFrame.

Module RstStreamFrame.
Record t := {
  header : FrameHeader.t;
  error_code : Z
}.
End RstStreamFrame.

Module SettingsFrame.
Definition ACK_FLAG : Z := 0x1.
Record Setting := {
  identifier : Z;
  value : Z
}.
Definition SETTINGS_HEADER_TABLE_SIZE : Z := 0x1.
Definition SETTINGS_ENABLE_PUSH : Z := 0x2.
Definition SETTINGS_MAX_CONCURRENT_STREAMS : Z := 0x3.
Definition SETTINGS_INITIAL_WINDOW_SIZE : Z := 0x4.
Definition SETTINGS_MAX_FRAME_SIZE : Z := 0x5.
Definition SETTINGS_MAX_HEADER_LIST_SIZE : Z := 0x6.
Record t := {
  header : FrameHeader.t;
  settings : list Setting
}.
Definition has_ack_flag (f : t) := has_flag (header f) ACK_FLAG.
End SettingsFrame.

Module PushPromiseFrame.
Definition END_HEADERS_FLAG : Z := 0x4.
Definition PADDED_FLAG : Z := 0x8.
Record t := {
  header : FrameHeader.t;
  pad_length : option Z;
  promised_stream_id : Z;
  headers : list HttpHeader
}.
Definition has_end_headers_flag (f : t) := has_flag (header f) END_HEADERS_FLAG.
Definition has_padded_flag (f : t) := has_flag (header f) PADDED_FLAG.
End PushPromiseFrame.

Module PingFrame.
Definition ACK_FLAG : Z := 0x1.
Record t := {
  header : FrameHeader.t;
  opaque_data : octets
}.
End PingFrame.

Module GoAwayFrame.
Record t := {
  header : FrameHeader.t;
  last_stream_id : Z;
  error_code : Z;
  additional_debug_data : octets
}.
End GoAwayFrame.

Module WindowUpdateFrame.
Record t := {
  header : FrameHeader.t;
  window_size_increment : Z
}.
End WindowUpdateFrame.

Module ContinuationFrame.
Definition END_HEADERS_FLAG : Z := 0x4.
Record t := {
  header : FrameHeader.t;
  header_block_fragment : octets
}.
Definition has_end_headers_flag (f : t) := has_flag (header f) END_HEADERS_FLAG.
End ContinuationFrame.

(** [Http2FrameVariant] / [AnyHttp2Frame]. *)
Inductive AnyHttp2Frame :=
| AnyData (f : DataFrame.t)
| AnyHeaders (f : HeadersFrame.t)
| AnyPriority (f : PriorityFrame.t)
| AnyRstStream (f : RstStreamFrame.t)
| AnySettings (f : SettingsFrame.t)
| AnyPushPromise (f : PushPromiseFrame.t)
| AnyPing (f : PingFrame.t)
| AnyGoAway (f : GoAwayFrame.t)
| AnyWindowUpdate (f : WindowUpdateFrame.t)
| AnyContinuation (f : ContinuationFrame.t).

(** ** Frame serializer ([http2_frame_serializer.cpp]) *)

Module FrameSerializer.

Definition write_uint24_big_endian (buffer : octets) (v : Z) : octets :=
  buffer ++ [Z.land (Z.shiftr v 16) 0xFF; Z.land (Z.shiftr v 8) 0xFF;
             Z.land v 0xFF].

Definition write_uint32_big_endian (buffer : octets) (v : Z) : octets :=
  buffer ++ [Z.land (Z.shiftr v 24) 0xFF; Z.land (Z.shiftr v 16) 0xFF;
             Z.land (Z.shiftr v 8) 0xFF; Z.land v 0xFF].

(** [write_frame_header(buffer, header)]. *)
Definition write_frame_header (buffer : octets) (header : FrameHeader.t)
  : octets :=
  let buffer := write_uint24_big_endian buffer (FrameHeader.length header) in
  let buffer := buffer ++ [to_uint8 (FrameHeader.type header)] in
  let buffer := buffer ++ [to_uint8 (FrameHeader.flags header)] in
  write_uint32_big_endian buffer
    (Z.land (FrameHeader.stream_id header) 0x7FFFFFFF).

(** [serialize_data_frame(frame)]. *)
Definition serialize_data_frame (frame : DataFrame.t) : octets :=
  let padded := DataFrame.has_padded_flag frame in
  let pad := match DataFrame.pad_length frame with Some p => p | None => 0 end in
  let payload_size :=
    (if padded then 1 else 0)
    + Z.of_nat (List.length (DataFrame.data frame))
    + (if padded then pad else 0) in
  let header_to_write :=
    {| FrameHeader.length := to_uint32 payload_size;
       FrameHeader.type := FrameHeader.type (DataFrame.header frame);
       FrameHeader.flags := FrameHeader.flags (DataFrame.header frame);
       FrameHeader.stream_id := FrameHeader.stream_id (DataFrame.header frame) |} in
  let buffer := write_frame_header [] header_to_write in
  let buffer := if padded then buffer ++ [to_uint8 pad] else buffer in
  let buffer := buffer ++ DataFrame.data frame in
  if padded && (pad >? 0) then buffer ++ repeat 0 (Z.to_nat pad) else buffer.

Definition write_uint16_big_endian (buffer : octets) (v : Z) : octets :=
  buffer ++ [Z.land (Z.shiftr v 8) 0xFF; Z.land v 0xFF].

(** A copy of the frame's header with another [length]. *)
Definition with_length (header : FrameHeader.t) (length : Z) : FrameHeader.t :=
  {| FrameHeader.length := length;
     FrameHeader.type := FrameHeader.type header;
     FrameHeader.flags := FrameHeader.flags header;
     FrameHeader.stream_id := FrameHeader.stream_id header |}.

(** The 32-bit word that carries the E bit and the stream dependency. *)
Definition stream_dep_val (exclusive_dependency : bool) (stream_dependency : Z)
  : Z :=
  let v := Z.land stream_dependency 0x7FFFFFFF in
  if exclusive_dependency then Z.lor v (Z.shiftl 1 31) else v.

(** [serialize_priority_frame(frame)]. *)
Definition serialize_priority_frame (frame : PriorityFrame.t) : octets :=
  let buffer := write_frame_header [] (with_length (PriorityFrame.header frame) 5) in
  let buffer :=
    write_uint32_big_endian buffer
      (stream_dep_val (PriorityFrame.exclusive_dependency frame)
         (PriorityFrame.stream_dependency frame)) in
  buffer ++ [to_uint8 (PriorityFrame.weight frame)].

(** [serialize_rst_stream_frame(frame)]. *)
Definition serialize_rst_stream_frame (frame : RstStreamFrame.t) : octets :=
  let buffer := write_frame_header [] (with_length (RstStreamFrame.header frame) 4) in
  write_uint32_big_endian buffer (to_uint32 (RstStreamFrame.error_code frame)).

(** The loop of [serialize_settings_frame]. *)
Fixpoint write_settings (payload_buffer : octets)
  (settings : list SettingsFrame.Setting) : octets :=
  match settings with
  | [] => payload_buffer
  | setting :: settings' =>
      let payload_buffer :=
        write_uint16_big_endian payload_buffer
          (SettingsFrame.identifier setting) in
      let payload_buffer :=
        write_uint32_big_endian payload_buffer (SettingsFrame.value setting) in
      write_settings payload_buffer settings'
  end.

(** [serialize_settings_frame(frame)]. *)
Definition serialize_settings_frame (frame : SettingsFrame.t) : octets :=
  let payload_buffer :=
    if negb (SettingsFrame.has_ack_flag frame)
    then write_settings [] (SettingsFrame.settings frame) else [] in
  let header_to_write :=
    with_length (SettingsFrame.header frame)
      (to_uint32 (Z.of_nat (List.length payload_buffer))) in
  write_frame_header [] header_to_write ++ payload_buffer.

(** [serialize_ping_frame(frame)]. *)
Definition serialize_ping_frame (frame : PingFrame.t) : octets :=
  write_frame_header [] (with_length (PingFrame.header frame) 8)
  ++ PingFrame.opaque_data frame.

(** [serialize_goaway_frame(frame)]. *)
Definition serialize_goaway_frame (frame : GoAwayFrame.t) : octets :=
  let payload_buffer :=
    write_uint32_big_endian []
      (Z.land (GoAwayFrame.last_stream_id frame) 0x7FFFFFFF) in
  let payload_buffer :=
    write_uint32_big_endian payload_buffer
      (to_uint32 (GoAwayFrame.error_code frame)) in
  let payload_buffer :=
    payload_buffer ++ GoAwayFrame.additional_debug_data frame in
  let header_to_write :=
    with_length (GoAwayFrame.header frame)
      (to_uint32 (Z.of_nat (List.length payload_buffer))) in
  write_frame_header [] header_to_write ++ payload_buffer.

(** [serialize_window_update_frame(frame)]. *)
Definition serialize_window_update_frame (frame : WindowUpdateFrame.t)
  : octets :=
  let buffer :=
    write_frame_header [] (with_length (WindowUpdateFrame.header frame) 4) in
  write_uint32_big_endian buffer
    (Z.land (WindowUpdateFrame.window_size_increment frame) 0x7FFFFFFF).

(** [serialize_continuation_frame(frame)]. *)
Definition serialize_continuation_frame (frame : ContinuationFrame.t)
  : octets :=
  let header_to_write :=
    with_length (ContinuationFrame.header frame)
      (to_uint32
         (Z.of_nat (List.length (ContinuationFrame.header_block_fragment frame)))) in
  write_frame_header [] header_to_write
  ++ ContinuationFrame.header_block_fragment frame.

(** [serialize_headers_frame(frame, hpack_encoder)]: the octets and the
    encoder after the call. *)
Definition serialize_headers_frame (frame : HeadersFrame.t)
  (hpack_encoder : HpackEncoder.t) : option (octets * HpackEncoder.t) :=
  let padded := HeadersFrame.has_padded_flag frame in
  let pad :=
    match HeadersFrame.pad_length frame with Some p => p | None => 0 end in
  let payload_buffer := if padded then [to_uint8 pad] else [] in
  let payload_buffer :=
    if HeadersFrame.has_priority_flag frame then
      let dep :=
        stream_dep_val
          (match HeadersFrame.exclusive_dependency frame with
           | Some b => b | None => false end)
          (match HeadersFrame.stream_dependency frame with
           | Some d => d | None => 0 end) in
      write_uint32_big_endian payload_buffer dep
      ++ [to_uint8 (match HeadersFrame.weight frame with
                    | Some w => w | None => 0 end)]
    else payload_buffer in
  match HpackEncoder.encode hpack_encoder (HeadersFrame.headers frame) with
  | None => None
  | Some (hpack_encoder, encoded_headers, hpack_err) =>
      match hpack_err with
      | HpackEncodingError.OK =>
          let payload_buffer := payload_buffer ++ encoded_headers in
          let payload_buffer :=
            if padded && (pad >? 0)
            then payload_buffer ++ repeat 0 (Z.to_nat pad)
            else payload_buffer in
          let header_to_write :=
            with_length (HeadersFrame.header frame)
              (to_uint32 (Z.of_nat (List.length payload_buffer))) in
          Some (write_frame_header [] header_to_write ++ payload_buffer,
                hpack_encoder)
      | _ => Some ([], hpack_encoder)
      end
  end.

End FrameSerializer.

(** ** Connection ([http2_connection.h], [http2_connection.cpp]) *)

(** A call that either returns or throws ([std::logic_error],
    [std::runtime_error]). *)
Inductive outcome (A : Type) :=
| Returned (a : A)
| Thrown (what : string).
Arguments Returned {A} a.
Arguments Thrown {A} what.

(** [struct ConnectionSettings] with its default member initialisers
    ([uint32_t(-1)] is [2^32 - 1]). *)
Module ConnectionSettings.
Record t := {
  header_table_size : Z;
  enable_push : bool;
  max_concurrent_streams : Z;
  initial_window_size : Z;
  max_frame_size : Z;
  max_header_list_size : Z
}.
Definition DEFAULT_HEADER_TABLE_SIZE : Z := 4096.
Definition DEFAULT_INITIAL_WINDOW_SIZE : Z := 65535.
Definition default : t :=
  {| header_table_size := DEFAULT_HEADER_TABLE_SIZE;
     enable_push := true;
     max_concurrent_streams := to_uint32 (-1);
     initial_window_size := DEFAULT_INITIAL_WINDOW_SIZE;
     max_frame_size := DEFAULT_MAX_FRAME_SIZE;
     max_header_list_size := to_uint32 (-1) |}.
End ConnectionSettings.

(** What the connection hands to its action callbacks. *)
Inductive Action :=
| send_rst_stream (stream_id error_code : Z)
| send_goaway (last_stream_id error_code : Z) (debug : string)
| send_bytes (bytes : octets).

Module Http2Connection.
Import ConnectionSettings.

(** The members of [class Http2Connection] that the modelled functions
    read or write.  The three [on_send_..._] booleans say whether the
    [std::function] is set; [actions] lists, oldest first, the calls made
    to the callbacks that are set. *)
Record t := {
  is_server_ : bool;
  streams_ : gmap Z Http2Stream.t;
  next_client_stream_id_ : Z;
  next_server_stream_id_ : Z;
  last_processed_stream_id_ : Z;
  going_away_ : bool;
  local_settings_ : ConnectionSettings.t;
  remote_settings_ : ConnectionSettings.t;
  hpack_decoder_ : HpackDecoder.t;
  hpack_encoder_ : HpackEncoder.t;
  local_connection_window_size_ : Z;
  remote_connection_window_size_ : Z;
  expected_continuation_stream_id_ : option Z;
  header_block_buffer_ : octets;
  header_sequence_initiator_type_ : option Z;
  pending_header_initiator_frame_ : option AnyHttp2Frame;
  on_send_rst_stream_ : bool;
  on_send_goaway_ : bool;
  on_send_bytes_ : bool;
  actions : list Action
}.

(** [Http2Connection::Http2Connection(is_server_connection)], with the
    three action callbacks set or not as [callbacks_set] says. *)
Definition new (is_server_connection callbacks_set : bool) : t :=
  {| is_server_ := is_server_connection;
     streams_ := ∅;
     next_client_stream_id_ := 1;
     next_server_stream_id_ := 2;
     last_processed_stream_id_ := 0;
     going_away_ := false;
     local_settings_ := ConnectionSettings.default;
     remote_settings_ := ConnectionSettings.default;
     hpack_decoder_ := HpackDecoder.new DEFAULT_HEADER_TABLE_SIZE;
     hpack_encoder_ :=
       fst (HpackEncoder.set_own_max_dynamic_table_size
              (HpackEncoder.new HpackEncoder.DEFAULT_DYNAMIC_TABLE_SIZE)
              (header_table_size ConnectionSettings.default));
     local_connection_window_size_ := DEFAULT_INITIAL_WINDOW_SIZE;
     remote_connection_window_size_ := DEFAULT_INITIAL_WINDOW_SIZE;
     expected_continuation_stream_id_ := None;
     header_block_buffer_ := [];
     header_sequence_initiator_type_ := None;
     pending_header_initiator_frame_ := None;
     on_send_rst_stream_ := callbacks_set;
     on_send_goaway_ := callbacks_set;
     on_send_bytes_ := callbacks_set;
     actions := [] |}.

(** Assignments to single members. *)
Definition set_streams (c : t) (m : gmap Z Http2Stream.t) : t :=
  {| is_server_ := is_server_ c; streams_ := m;
     next_client_stream_id_ := next_client_stream_id_ c;
     next_server_stream_id_ := next_server_stream_id_ c;
     last_processed_stream_id_ := last_processed_stream_id_ c;
     going_away_ := going_away_ c;
     local_settings_ := local_settings_ c;
     remote_settings_ := remote_settings_ c;
     hpack_decoder_ := hpack_decoder_ c;
     hpack_encoder_ := hpack_encoder_ c;
     local_connection_window_size_ := local_connection_window_size_ c;
     remote_connection_window_size_ := remote_connection_window_size_ c;
     expected_continuation_stream_id_ := expected_continuation_stream_id_ c;
     header_block_buffer_ := header_block_buffer_ c;
     header_sequence_initiator_type_ := header_sequence_initiator_type_ c;
     pending_header_initiator_frame_ := pending_header_initiator_frame_ c;
     on_send_rst_stream_ := on_send_rst_stream_ c;
     on_send_goaway_ := on_send_goaway_ c;
     on_send_bytes_ := on_send_bytes_ c;
     actions := actions c |}.

Definition set_last_processed_stream_id (c : t) (id : Z) : t :=
  {| is_server_ := is_server_ c; streams_ := streams_ c;
     next_client_stream_id_ := next_client_stream_id_ c;
     next_server_stream_id_ := next_server_stream_id_ c;
     last_processed_stream_id_ := id;
     going_away_ := going_away_ c;
     local_settings_ := local_settings_ c;
     remote_settings_ := remote_settings_ c;
     hpack_decoder_ := hpack_decoder_ c;
     hpack_encoder_ := hpack_encoder_ c;
     local_connection_window_size_ := local_connection_window_size_ c;
     remote_connection_window_size_ := remote_connection_window_size_ c;
     expected_continuation_stream_id_ := expected_continuation_stream_id_ c;
     header_block_buffer_ := header_block_buffer_ c;
     header_sequence_initiator_type_ := header_sequence_initiator_type_ c;
     pending_header_initiator_frame_ := pending_header_initiator_frame_ c;
     on_send_rst_stream_ := on_send_rst_stream_ c;
     on_send_goaway_ := on_send_goaway_ c;
     on_send_bytes_ := on_send_bytes_ c;
     actions := actions c |}.

Definition set_remote_settings (c : t) (r : ConnectionSettings.t) : t :=
  {| is_server_ := is_server_ c; streams_ := streams_ c;
     next_client_stream_id_ := next_client_stream_id_ c;
     next_server_stream_id_ := next_server_stream_id_ c;
     last_processed_stream_id_ := last_processed_stream_id_ c;
     going_away_ := going_away_ c;
     local_settings_ := local_settings_ c;
     remote_settings_ := r;
     hpack_decoder_ := hpack_decoder_ c;
     hpack_encoder_ := hpack_encoder_ c;
     local_connection_window_size_ := local_connection_window_size_ c;
     remote_connection_window_size_ := remote_connection_window_size_ c;
     expected_continuation_stream_id_ := expected_continuation_stream_id_ c;
     header_block_buffer_ := header_block_buffer_ c;
     header_sequence_initiator_type_ := header_sequence_initiator_type_ c;
     pending_header_initiator_frame_ := pending_header_initiator_frame_ c;
     on_send_rst_stream_ := on_send_rst_stream_ c;
     on_send_goaway_ := on_send_goaway_ c;
     on_send_bytes_ := on_send_bytes_ c;
     actions := actions c |}.

Definition set_hpack_decoder (c : t) (d : HpackDecoder.t) : t :=
  {| is_server_ := is_server_ c; streams_ := streams_ c;
     next_client_stream_id_ := next_client_stream_id_ c;
     next_server_stream_id_ := next_server_stream_id_ c;
     last_processed_stream_id_ := last_processed_stream_id_ c;
     going_away_ := going_away_ c;
     local_settings_ := local_settings_ c;
     remote_settings_ := remote_settings_ c;
     hpack_decoder_ := d;
     hpack_encoder_ := hpack_encoder_ c;
     local_connection_window_size_ := local_connection_window_size_ c;
     remote_connection_window_size_ := remote_connection_window_size_ c;
     expected_continuation_stream_id_ := expected_continuation_stream_id_ c;
     header_block_buffer_ := header_block_buffer_ c;
     header_sequence_initiator_type_ := header_sequence_initiator_type_ c;
     pending_header_initiator_frame_ := pending_header_initiator_frame_ c;
     on_send_rst_stream_ := on_send_rst_stream_ c;
     on_send_goaway_ := on_send_goaway_ c;
     on_send_bytes_ := on_send_bytes_ c;
     actions := actions c |}.

Definition set_remote_connection_window_size (c : t) (w : Z) : t :=
  {| is_server_ := is_server_ c; streams_ := streams_ c;
     next_client_stream_id_ := next_client_stream_id_ c;
     next_server_stream_id_ := next_server_stream_id_ c;
     last_processed_stream_id_ := last_processed_stream_id_ c;
     going_away_ := going_away_ c;
     local_settings_ := local_settings_ c;
     remote_settings_ := remote_settings_ c;
     hpack_decoder_ := hpack_decoder_ c;
     hpack_encoder_ := hpack_encoder_ c;
     local_connection_window_size_ := local_connection_window_size_ c;
     remote_connection_window_size_ := w;
     expected_continuation_stream_id_ := expected_continuation_stream_id_ c;
     header_block_buffer_ := header_block_buffer_ c;
     header_sequence_initiator_type_ := header_sequence_initiator_type_ c;
     pending_header_initiator_frame_ := pending_header_initiator_frame_ c;
     on_send_rst_stream_ := on_send_rst_stream_ c;
     on_send_goaway_ := on_send_goaway_ c;
     on_send_bytes_ := on_send_bytes_ c;
     actions := actions c |}.

Definition set_continuation (c : t) (expected : option Z)
  (initiator_type : option Z) (initiator_frame : option AnyHttp2Frame) : t :=
  {| is_server_ := is_server_ c; streams_ := streams_ c;
     next_client_stream_id_ := next_client_stream_id_ c;
     next_server_stream_id_ := next_server_stream_id_ c;
     last_processed_stream_id_ := last_processed_stream_id_ c;
     going_away_ := going_away_ c;
     local_settings_ := local_settings_ c;
     remote_settings_ := remote_settings_ c;
     hpack_decoder_ := hpack_decoder_ c;
     hpack_encoder_ := hpack_encoder_ c;
     local_connection_window_size_ := local_connection_window_size_ c;
     remote_connection_window_size_ := remote_connection_window_size_ c;
     expected_continuation_stream_id_ := expected;
     header_block_buffer_ := header_block_buffer_ c;
     header_sequence_initiator_type_ := initiator_type;
     pending_header_initiator_frame_ := initiator_frame;
     on_send_rst_stream_ := on_send_rst_stream_ c;
     on_send_goaway_ := on_send_goaway_ c;
     on_send_bytes_ := on_send_bytes_ c;
     actions := actions c |}.

Definition set_header_block_buffer (c : t) (b : octets) : t :=
  {| is_server_ := is_server_ c; streams_ := streams_ c;
     next_client_stream_id_ := next_client_stream_id_ c;
     next_server_stream_id_ := next_server_stream_id_ c;
     last_processed_stream_id_ := last_processed_stream_id_ c;
     going_away_ := going_away_ c;
     local_settings_ := local_settings_ c;
     remote_settings_ := remote_settings_ c;
     hpack_decoder_ := hpack_decoder_ c;
     hpack_encoder_ := hpack_encoder_ c;
     local_connection_window_size_ := local_connection_window_size_ c;
     remote_connection_window_size_ := remote_connection_window_size_ c;
     expected_continuation_stream_id_ := expected_continuation_stream_id_ c;
     header_block_buffer_ := b;
     header_sequence_initiator_type_ := header_sequence_initiator_type_ c;
     pending_header_initiator_frame_ := pending_header_initiator_frame_ c;
     on_send_rst_stream_ := on_send_rst_stream_ c;
     on_send_goaway_ := on_send_goaway_ c;
     on_send_bytes_ := on_send_bytes_ c;
     actions := actions c |}.

(** A call to an action callback. *)
Definition call (c : t) (a : Action) : t :=
  {| is_server_ := is_server_ c; streams_ := streams_ c;
     next_client_stream_id_ := next_client_stream_id_ c;
     next_server_stream_id_ := next_server_stream_id_ c;
     last_processed_stream_id_ := last_processed_stream_id_ c;
     going_away_ := going_away_ c;
     local_settings_ := local_settings_ c;
     remote_settings_ := remote_settings_ c;
     hpack_decoder_ := hpack_decoder_ c;
     hpack_encoder_ := hpack_encoder_ c;
     local_connection_window_size_ := local_connection_window_size_ c;
     remote_connection_window_size_ := remote_connection_window_size_ c;
     expected_continuation_stream_id_ := expected_continuation_stream_id_ c;
     header_block_buffer_ := header_block_buffer_ c;
     header_sequence_initiator_type_ := header_sequence_initiator_type_ c;
     pending_header_initiator_frame_ := pending_header_initiator_frame_ c;
     on_send_rst_stream_ := on_send_rst_stream_ c;
     on_send_goaway_ := on_send_goaway_ c;
     on_send_bytes_ := on_send_bytes_ c;
     actions := actions c ++ [a] |}.

(** [Http2Connection::get_stream(stream_id)]. *)
Definition get_stream (c : t) (stream_id : Z) : option Http2Stream.t :=
  if stream_id =? 0 then None else streams_ c !! stream_id.

(** [Http2Connection::get_or_create_stream(stream_id)]: the connection
    after the call and the stream the returned reference denotes. *)
Definition get_or_create_stream (c : t) (stream_id : Z)
  : outcome (t * Http2Stream.t) :=
  if stream_id =? 0 then
    Thrown "get_or_create_stream called for stream ID 0"
  else
    match streams_ c !! stream_id with
    | Some s => Returned (c, s)
    | None =>
        let initial_local_win := initial_window_size (remote_settings_ c) in
        let initial_remote_win := initial_window_size (local_settings_ c) in
        let client_initiated := negb (stream_id mod 2 =? 0) in
        let server_initiated := stream_id mod 2 =? 0 in
        let checked : outcome t :=
          if is_server_ c then
            if client_initiated then
              if stream_id <=? last_processed_stream_id_ c then
                Thrown "PROTOCOL_ERROR: Stream ID regression from client."
              else Returned (set_last_processed_stream_id c stream_id)
            else Returned c
          else
            if server_initiated then
              if stream_id <=? last_processed_stream_id_ c then
                Thrown "PROTOCOL_ERROR: Stream ID regression from server (PUSH_PROMISE)."
              else Returned (set_last_processed_stream_id c stream_id)
            else Returned c in
        match checked with
        | Thrown what => Thrown what
        | Returned c =>
            let s := Http2Stream.new stream_id initial_local_win
                       initial_remote_win in
            Returned (set_streams c (<[stream_id := s]> (streams_ c)), s)
        end
    end.

(** The loop over [streams_] of [apply_remote_setting]. *)
Definition adjust_stream (delta : Z) (stream : Http2Stream.t) : Http2Stream.t :=
  if negb (StreamState.eqb (Http2Stream.get_state stream) StreamState.IDLE)
     && negb (StreamState.eqb (Http2Stream.get_state stream) StreamState.CLOSED)
  then fst (Http2Stream.update_remote_window stream (to_uint32 delta))
  else stream.

(** [Http2Connection::apply_remote_setting(setting)]. *)
Definition apply_remote_setting (c : t) (setting : SettingsFrame.Setting) : t :=
  let r := remote_settings_ c in
  let old_initial_window := initial_window_size r in
  let id := SettingsFrame.identifier setting in
  let v := SettingsFrame.value setting in
  if id =? SettingsFrame.SETTINGS_HEADER_TABLE_SIZE then
    let c := set_remote_settings c
      {| header_table_size := v; enable_push := enable_push r;
         max_concurrent_streams := max_concurrent_streams r;
         initial_window_size := initial_window_size r;
         max_frame_size := max_frame_size r;
         max_header_list_size := max_header_list_size r |} in
    set_hpack_decoder c
      (HpackDecoder.set_max_dynamic_table_size (hpack_decoder_ c) v)
  else if id =? SettingsFrame.SETTINGS_ENABLE_PUSH then
    if v >? 1 then c
    else set_remote_settings c
      {| header_table_size := header_table_size r; enable_push := (v =? 1);
         max_concurrent_streams := max_concurrent_streams r;
         initial_window_size := initial_window_size r;
         max_frame_size := max_frame_size r;
         max_header_list_size := max_header_list_size r |}
  else if id =? SettingsFrame.SETTINGS_MAX_CONCURRENT_STREAMS then
    set_remote_settings c
      {| header_table_size := header_table_size r;
         enable_push := enable_push r;
         max_concurrent_streams := v;
         initial_window_size := initial_window_size r;
         max_frame_size := max_frame_size r;
         max_header_list_size := max_header_list_size r |}
  else if id =? SettingsFrame.SETTINGS_INITIAL_WINDOW_SIZE then
    if v >? MAX_ALLOWED_WINDOW_SIZE then c
    else
      let c := set_remote_settings c
        {| header_table_size := header_table_size r;
           enable_push := enable_push r;
           max_concurrent_streams := max_concurrent_streams r;
           initial_window_size := v;
           max_frame_size := max_frame_size r;
           max_header_list_size := max_header_list_size r |} in
      let delta :=
        to_int32 (to_int32 (initial_window_size (remote_settings_ c))
                  - to_int32 old_initial_window) in
      set_streams c (adjust_stream delta <$> streams_ c)
  else if id =? SettingsFrame.SETTINGS_MAX_FRAME_SIZE then
    if (v <? DEFAULT_MAX_FRAME_SIZE) || (v >? MAX_ALLOWED_FRAME_SIZE) then c
    else set_remote_settings c
      {| header_table_size := header_table_size r;
         enable_push := enable_push r;
         max_concurrent_streams := max_concurrent_streams r;
         initial_window_size := initial_window_size r;
         max_frame_size := v;
         max_header_list_size := max_header_list_size r |}
  else if id =? SettingsFrame.SETTINGS_MAX_HEADER_LIST_SIZE then
    set_remote_settings c
      {| header_table_size := header_table_size r;
         enable_push := enable_push r;
         max_concurrent_streams := max_concurrent_streams r;
         initial_window_size := initial_window_size r;
         max_frame_size := max_frame_size r;
         max_header_list_size := v |}
  else c.

(** Continuation state, as the parser drives it. *)
Definition is_expecting_continuation (c : t) : bool :=
  match expected_continuation_stream_id_ c with Some _ => true | None => false end.

Definition get_expected_continuation_stream_id (c : t) : Z :=
  match expected_continuation_stream_id_ c with Some id => id | None => 0 end.

Definition expect_continuation_for_stream (c : t) (stream_id : Z)
  (initiator_type : Z) (initiator_frame : AnyHttp2Frame) : t :=
  set_continuation c (Some stream_id) (Some initiator_type)
    (Some initiator_frame).

Definition clear_header_block_buffer (c : t) : t :=
  set_header_block_buffer c [].

Definition finish_continuation (c : t) : t :=
  clear_header_block_buffer (set_continuation c None None None).

Definition append_to_header_block_buffer (c : t) (fragment : octets) : t :=
  set_header_block_buffer c (header_block_buffer_ c ++ fragment).

Definition get_header_block_buffer_span (c : t) : octets :=
  header_block_buffer_ c.

(** [Http2Connection::populate_pending_headers(headers)]. *)
Definition populate_pending_headers (c : t) (hs : list HttpHeader) : t :=
  match pending_header_initiator_frame_ c with
  | Some (AnyHeaders f) =>
      set_continuation c (expected_continuation_stream_id_ c)
        (header_sequence_initiator_type_ c)
        (Some (AnyHeaders
           {| HeadersFrame.header := HeadersFrame.header f;
              HeadersFrame.pad_length := HeadersFrame.pad_length f;
              HeadersFrame.exclusive_dependency :=
                HeadersFrame.exclusive_dependency f;
              HeadersFrame.stream_dependency := HeadersFrame.stream_dependency f;
              HeadersFrame.weight := HeadersFrame.weight f;
              HeadersFrame.headers := hs |}))
  | Some (AnyPushPromise f) =>
      set_continuation c (expected_continuation_stream_id_ c)
        (header_sequence_initiator_type_ c)
        (Some (AnyPushPromise
           {| PushPromiseFrame.header := PushPromiseFrame.header f;
              PushPromiseFrame.pad_length := PushPromiseFrame.pad_length f;
              PushPromiseFrame.promised_stream_id :=
                PushPromiseFrame.promised_stream_id f;
              PushPromiseFrame.headers := hs |}))
  | _ => c
  end.

(** [Http2Connection::record_connection_data_sent(size)]. *)
Definition record_connection_data_sent (c : t) (size : Z) : t :=
  set_remote_connection_window_size c
    (to_int32 (remote_connection_window_size_ c - to_int32 size)).

(** The stream behind the pointer is the entry of [streams_]. *)
Definition store_stream (c : t) (stream_id : Z) (s : Http2Stream.t) : t :=
  set_streams c (<[stream_id := s]> (streams_ c)).

(** [Http2Connection::handle_window_update_frame(frame)]. *)
Definition handle_window_update_frame (c : t) (frame : WindowUpdateFrame.t) : t :=
  let sid := FrameHeader.stream_id (WindowUpdateFrame.header frame) in
  let increment := WindowUpdateFrame.window_size_increment frame in
  if increment =? 0 then
    if sid =? 0 then
      if on_send_goaway_ c then
        call c (send_goaway (last_processed_stream_id_ c)
                  ErrorCode.PROTOCOL_ERROR
                  "WINDOW_UPDATE with 0 increment on stream 0")
      else c
    else
      let c :=
        if on_send_rst_stream_ c
        then call c (send_rst_stream sid ErrorCode.PROTOCOL_ERROR) else c in
      match get_stream c sid with
      | Some stream => store_stream c sid (Http2Stream.transition_to_closed stream)
      | None => c
      end
  else if sid =? 0 then
    if remote_connection_window_size_ c + increment >? MAX_ALLOWED_WINDOW_SIZE
    then
      if on_send_goaway_ c then
        call c (send_goaway (last_processed_stream_id_ c)
                  ErrorCode.FLOW_CONTROL_ERROR
                  "WINDOW_UPDATE for connection overflowed")
      else c
    else
      set_remote_connection_window_size c
        (to_int32 (remote_connection_window_size_ c + increment))
  else
    match get_stream c sid with
    | None =>
        if on_send_goaway_ c then
          call c (send_goaway (last_processed_stream_id_ c)
                    ErrorCode.PROTOCOL_ERROR
                    "WINDOW_UPDATE on idle/closed stream")
        else c
    | Some stream =>
        if StreamState.eqb (Http2Stream.get_state stream) StreamState.IDLE then
          if on_send_goaway_ c then
            call c (send_goaway (last_processed_stream_id_ c)
                      ErrorCode.PROTOCOL_ERROR
                      "WINDOW_UPDATE on idle/closed stream")
          else c
        else if StreamState.eqb (Http2Stream.get_state stream) StreamState.CLOSED
        then c
        else
          let '(stream, ok) := Http2Stream.update_remote_window stream increment in
          if ok then store_stream c sid stream
          else
            let c :=
              if on_send_rst_stream_ c
              then call c (send_rst_stream sid ErrorCode.FLOW_CONTROL_ERROR)
              else c in
            store_stream c sid (Http2Stream.transition_to_closed stream)
    end.

(** The [while] loop of [Http2Connection::send_data]; [stream] is the
    object behind the pointer obtained before the loop, written back to
    [streams_] when it changes.  Every iteration that does not leave the
    loop sends at least one octet; [fuel] bounds the iterations. *)
Fixpoint send_data_loop (fuel : nat) (c : t) (stream : Http2Stream.t)
  (stream_id : Z) (data : octets) (end_stream : bool) (data_offset : Z)
  : option (bool * t) :=
  let size := Z.of_nat (List.length data) in
  let data_empty := match data with [] => true | _ => false end in
  let empty_with_end_stream := data_empty && (data_offset =? 0) && end_stream in
  if (data_offset <? size) || empty_with_end_stream then
    let available_stream_window :=
      to_uint32 (Z.max 0 (Http2Stream.get_remote_window_size stream)) in
    let available_conn_window :=
      to_uint32 (Z.max 0 (remote_connection_window_size_ c)) in
    let no_window :=
      (available_stream_window =? 0) || (available_conn_window =? 0) in
    if no_window && negb empty_with_end_stream && (data_offset <? size) then
      Some (data_offset >? 0, c)
    else if no_window && negb empty_with_end_stream then Some (true, c)
    else
      let remaining_data_size := to_uint64 (size - data_offset) in
      let current_chunk_size := to_uint32 remaining_data_size in
      let current_chunk_size :=
        Z.min current_chunk_size (max_frame_size (remote_settings_ c)) in
      let current_chunk_size := Z.min current_chunk_size available_stream_window in
      let current_chunk_size := Z.min current_chunk_size available_conn_window in
      if (current_chunk_size =? 0) && (remaining_data_size >? 0) then
        Some (data_offset >? 0, c)
      else
        let current_chunk_size :=
          if empty_with_end_stream then 0 else current_chunk_size in
        let chunk :=
          firstn (Z.to_nat current_chunk_size) (skipn (Z.to_nat data_offset) data) in
        let data_offset := data_offset + current_chunk_size in
        let all_data_sent := data_offset =? size in
        let df :=
          {| DataFrame.header :=
               {| FrameHeader.length := 0;
                  FrameHeader.type := FrameType.DATA;
                  FrameHeader.flags :=
                    if end_stream && all_data_sent
                    then DataFrame.END_STREAM_FLAG else 0;
                  FrameHeader.stream_id := stream_id |};
             DataFrame.pad_length := None;
             DataFrame.data := chunk |} in
        let frame_bytes := FrameSerializer.serialize_data_frame df in
        if (match frame_bytes with [] => true | _ => false end)
           && ((current_chunk_size >? 0) || (data_empty && end_stream))
        then Some (data_offset >? current_chunk_size, c)
        else
          let c := call c (send_bytes frame_bytes) in
          let stream := Http2Stream.record_data_sent stream current_chunk_size in
          let c := record_connection_data_sent c current_chunk_size in
          let stream :=
            if end_stream && all_data_sent
            then Http2Stream.transition_to_half_closed_local stream
            else stream in
          let c := store_stream c stream_id stream in
          if data_empty && (data_offset =? 0) && end_stream then Some (true, c)
          else if all_data_sent then Some (true, c)
          else
            match fuel with
            | O => None
            | S fuel' =>
                send_data_loop fuel' c stream stream_id data end_stream
                  data_offset
            end
  else Some (true, c).

(** [Http2Connection::send_data(stream_id, data, end_stream)]. *)
Definition send_data (c : t) (stream_id : Z) (data : octets) (end_stream : bool)
  : option (bool * t) :=
  if stream_id =? 0 then Some (false, c)
  else if negb (on_send_bytes_ c) then Some (false, c)
  else
    match get_stream c stream_id with
    | None => Some (false, c)
    | Some stream =>
        if negb (StreamState.eqb (Http2Stream.get_state stream) StreamState.OPEN)
           && negb (StreamState.eqb (Http2Stream.get_state stream)
                      StreamState.HALF_CLOSED_REMOTE)
        then Some (false, c)
        else send_data_loop (List.length data) c stream stream_id data
               end_stream 0
    end.

End Http2Connection.

(** ** Frame parser ([http2_parser.h], [http2_parser.cpp]) *)

Module ParserError.
Inductive t :=
| OK
| BUFFER_TOO_SMALL
| INVALID_FRAME_TYPE
| INVALID_FRAME_SIZE
| INVALID_FRAME_FLAGS
| INVALID_STREAM_ID
| INVALID_PADDING
| INVALID_PRIORITY_DATA
| INVALID_SETTINGS_VALUE
| INVALID_WINDOW_UPDATE_INCREMENT
| HPACK_DECOMPRESSION_FAILED
| PROTOCOL_ERROR
| INTERNAL_ERROR
| CONTINUATION_EXPECTED
| CONTINUATION_WRONG_STREAM
| FRAME_SIZE_LIMIT_EXCEEDED.

(** [static_cast<int>(error)]. *)
Definition to_int (e : t) : Z :=
  match e with
  | OK => 0 | BUFFER_TOO_SMALL => 1 | INVALID_FRAME_TYPE => 2
  | INVALID_FRAME_SIZE => 3 | INVALID_FRAME_FLAGS => 4
  | INVALID_STREAM_ID => 5 | INVALID_PADDING => 6
  | INVALID_PRIORITY_DATA => 7 | INVALID_SETTINGS_VALUE => 8
  | INVALID_WINDOW_UPDATE_INCREMENT => 9 | HPACK_DECOMPRESSION_FAILED => 10
  | PROTOCOL_ERROR => 11 | INTERNAL_ERROR => 12 | CONTINUATION_EXPECTED => 13
  | CONTINUATION_WRONG_STREAM => 14 | FRAME_SIZE_LIMIT_EXCEEDED => 15
  end.
End ParserError.

Module Http2Parser.
Import Http2Connection.

Inductive State :=
| READING_FRAME_HEADER
| READING_FRAME_PAYLOAD.

(** The members of [class Http2Parser]; the references to the HPACK
    decoder and to the connection are the connection passed along. *)
Record t := {
  current_state_ : State;
  buffer_ : octets;
  pending_frame_header_ : FrameHeader.t
}.

Definition new : t :=
  {| current_state_ := READING_FRAME_HEADER;
     buffer_ := [];
     pending_frame_header_ := FrameHeader.zero |}.

(** The octet at [buffer[i]]. *)
Definition at_ (buffer : octets) (i : nat) : Z := nth i buffer 0.

Definition read_uint24_big_endian (buffer : octets) : Z :=
  Z.lor (Z.lor (Z.shiftl (at_ buffer 0) 16) (Z.shiftl (at_ buffer 1) 8))
        (at_ buffer 2).

Definition read_uint32_big_endian (buffer : octets) : Z :=
  Z.lor (Z.lor (Z.lor (Z.shiftl (at_ buffer 0) 24) (Z.shiftl (at_ buffer 1) 16))
               (Z.shiftl (at_ buffer 2) 8))
        (at_ buffer 3).

Definition read_uint16_big_endian (buffer : octets) : Z :=
  Z.lor (Z.shiftl (at_ buffer 0) 8) (at_ buffer 1) mod 2 ^ 16.

(** [Http2Parser::read_frame_header(data)] on at least nine octets. *)
Definition read_frame_header (data : octets) : option FrameHeader.t :=
  if Z.of_nat (List.length data) <? 9 then None
  else Some
    {| FrameHeader.length := read_uint24_big_endian data;
       FrameHeader.type := at_ data 3;
       FrameHeader.flags := at_ data 4;
       FrameHeader.stream_id :=
         Z.land (read_uint32_big_endian (skipn 5 data)) 0x7FFFFFFF |}.

(** A payload parser returns a frame or an error. *)
Definition result (A : Type) : Type := A + ParserError.t.

(** [static_cast<int>(n) < 0] for a [size_t] difference [n]. *)
Definition negative_as_int (n : Z) : bool := to_int32 (to_uint64 n) <? 0.

(** The optional pad-length prefix shared by DATA, HEADERS and
    PUSH_PROMISE: the pad length read and the offset behind it. *)
Definition read_pad_length (padded : bool) (payload : octets)
  : result (option Z * Z) :=
  if padded then
    match payload with
    | [] => inr ParserError.INVALID_PADDING
    | p0 :: _ =>
        if p0 >? Z.of_nat (List.length payload) - 1
        then inr ParserError.INVALID_PADDING
        else inl (Some p0, 1)
    end
  else inl (None, 0).

Definition value_or (o : option Z) (d : Z) : Z :=
  match o with Some v => v | None => d end.

(** [Http2Parser::parse_data_payload(header, payload)]. *)
Definition parse_data_payload (header : FrameHeader.t) (payload : octets)
  : result DataFrame.t :=
  if FrameHeader.stream_id header =? 0 then inr ParserError.INVALID_STREAM_ID
  else
    match read_pad_length (has_flag header DataFrame.PADDED_FLAG) payload with
    | inr e => inr e
    | inl (pad, current_offset) =>
        let pad_length := match pad with Some p => Some p | None => Some 0 end in
        let data_length :=
          Z.of_nat (List.length payload) - current_offset
          - value_or pad_length 0 in
        if negative_as_int data_length then inr ParserError.INVALID_PADDING
        else inl
          {| DataFrame.header := header;
             DataFrame.pad_length := pad_length;
             DataFrame.data :=
               firstn (Z.to_nat data_length)
                 (skipn (Z.to_nat current_offset) payload) |}
    end.

(** The block shared by HEADERS, PUSH_PROMISE: start or continue the
    connection's header block buffer with a fragment. *)
Definition buffer_fragment (c : Http2Connection.t) (header : FrameHeader.t)
  (hpack_payload : octets) : Http2Connection.t :=
  let c :=
    if negb (is_expecting_continuation c)
       || (is_expecting_continuation c
           && negb (FrameHeader.get_stream_id header
                    =? get_expected_continuation_stream_id c))
    then clear_header_block_buffer c else c in
  append_to_header_block_buffer c hpack_payload.

(** [hpack_decoder_.decode(...)] on the connection's buffer; the decoder
    keeps what the call did to its dynamic table. *)
Definition decode_header_block (c : Http2Connection.t)
  : option (Http2Connection.t * list HttpHeader * HpackError.t) :=
  match HpackDecoder.decode (hpack_decoder_ c) (get_header_block_buffer_span c) with
  | None => None
  | Some (d, decoded_headers, hpack_err) =>
      Some (set_hpack_decoder c d, decoded_headers, hpack_err)
  end.

(** [Http2Parser::parse_headers_payload(header, payload)]. *)
Definition parse_headers_payload (c : Http2Connection.t)
  (header : FrameHeader.t) (payload : octets)
  : option (Http2Connection.t * result HeadersFrame.t) :=
  if FrameHeader.stream_id header =? 0
  then Some (c, inr ParserError.INVALID_STREAM_ID)
  else
    match read_pad_length (has_flag header HeadersFrame.PADDED_FLAG) payload with
    | inr e => Some (c, inr e)
    | inl (pad_length, current_offset) =>
        let size := Z.of_nat (List.length payload) in
        let priority := has_flag header HeadersFrame.PRIORITY_FLAG in
        if priority && (size - current_offset <? 5)
        then Some (c, inr ParserError.INVALID_PRIORITY_DATA)
        else
          let at_offset := skipn (Z.to_nat current_offset) payload in
          let stream_dep_raw := read_uint32_big_endian at_offset in
          let exclusive_dependency :=
            if priority
            then Some (negb (Z.land (Z.shiftr stream_dep_raw 31) 1 =? 0))
            else None in
          let stream_dependency :=
            if priority then Some (Z.land stream_dep_raw 0x7FFFFFFF) else None in
          let weight := if priority then Some (at_ at_offset 4) else None in
          let current_offset :=
            if priority then current_offset + 5 else current_offset in
          let header_block_fragment_len :=
            size - current_offset - value_or pad_length 0 in
          if negative_as_int header_block_fragment_len
          then Some (c, inr ParserError.INVALID_PADDING)
          else
            let hpack_payload :=
              firstn (Z.to_nat header_block_fragment_len)
                (skipn (Z.to_nat current_offset) payload) in
            let c := buffer_fragment c header hpack_payload in
            let frame hs :=
              {| HeadersFrame.header := header;
                 HeadersFrame.pad_length := pad_length;
                 HeadersFrame.exclusive_dependency := exclusive_dependency;
                 HeadersFrame.stream_dependency := stream_dependency;
                 HeadersFrame.weight := weight;
                 HeadersFrame.headers := hs |} in
            if has_flag header HeadersFrame.END_HEADERS_FLAG then
              match decode_header_block c with
              | None => None
              | Some (c, decoded_headers, hpack_err) =>
                  match hpack_err with
                  | HpackError.OK =>
                      Some (finish_continuation (clear_header_block_buffer c),
                            inl (frame decoded_headers))
                  | _ =>
                      Some (finish_continuation (clear_header_block_buffer c),
                            inr ParserError.HPACK_DECOMPRESSION_FAILED)
                  end
              end
            else
              Some (expect_continuation_for_stream c
                      (FrameHeader.get_stream_id header) FrameType.HEADERS
                      (AnyHeaders (frame [])),
                    inl (frame []))
    end.

(** [Http2Parser::parse_priority_payload(header, payload)]. *)
Definition parse_priority_payload (header : FrameHeader.t) (payload : octets)
  : result PriorityFrame.t :=
  if negb (FrameHeader.length header =? 5) then inr ParserError.INVALID_FRAME_SIZE
  else if FrameHeader.stream_id header =? 0 then inr ParserError.INVALID_STREAM_ID
  else
    let stream_dep_raw := read_uint32_big_endian payload in
    inl {| PriorityFrame.header := header;
           PriorityFrame.exclusive_dependency :=
             negb (Z.land (Z.shiftr stream_dep_raw 31) 1 =? 0);
           PriorityFrame.stream_dependency := Z.land stream_dep_raw 0x7FFFFFFF;
           PriorityFrame.weight := at_ payload 4 |}.

(** [Http2Parser::parse_rst_stream_payload(header, payload)]. *)
Definition parse_rst_stream_payload (header : FrameHeader.t) (payload : octets)
  : result RstStreamFrame.t :=
  if negb (FrameHeader.length header =? 4) then inr ParserError.INVALID_FRAME_SIZE
  else if FrameHeader.stream_id header =? 0 then inr ParserError.INVALID_STREAM_ID
  else inl {| RstStreamFrame.header := header;
              RstStreamFrame.error_code := read_uint32_big_endian payload |}.

(** The loop of [parse_settings_payload]: one setting per six octets. *)
Fixpoint read_settings (n : nat) (payload : octets)
  : list SettingsFrame.Setting :=
  match n with
  | O => []
  | S n' =>
      {| SettingsFrame.identifier := read_uint16_big_endian payload;
         SettingsFrame.value := read_uint32_big_endian (skipn 2 payload) |}
      :: read_settings n' (skipn 6 payload)
  end.

(** [Http2Parser::parse_settings_payload(header, payload)]. *)
Definition parse_settings_payload (header : FrameHeader.t) (payload : octets)
  : result SettingsFrame.t :=
  if negb (FrameHeader.stream_id header =? 0)
  then inr ParserError.INVALID_STREAM_ID
  else if has_flag header SettingsFrame.ACK_FLAG then
    if negb (FrameHeader.length header =? 0)
    then inr ParserError.INVALID_FRAME_SIZE
    else inl {| SettingsFrame.header := header; SettingsFrame.settings := [] |}
  else if negb (FrameHeader.length header mod 6 =? 0)
  then inr ParserError.INVALID_FRAME_SIZE
  else inl {| SettingsFrame.header := header;
              SettingsFrame.settings :=
                read_settings (Z.to_nat (FrameHeader.length header / 6))
                  payload |}.

(** [Http2Parser::parse_push_promise_payload(header, payload)]. *)
Definition parse_push_promise_payload (c : Http2Connection.t)
  (header : FrameHeader.t) (payload : octets)
  : option (Http2Connection.t * result PushPromiseFrame.t) :=
  if FrameHeader.stream_id header =? 0
  then Some (c, inr ParserError.INVALID_STREAM_ID)
  else if is_server_ c then Some (c, inr ParserError.PROTOCOL_ERROR)
  else
    match read_pad_length (has_flag header PushPromiseFrame.PADDED_FLAG)
            payload with
    | inr e => Some (c, inr e)
    | inl (pad_length, current_offset) =>
        let size := Z.of_nat (List.length payload) in
        if size - current_offset <? 4
        then Some (c, inr ParserError.INVALID_FRAME_SIZE)
        else
          let promised_stream_id :=
            Z.land (read_uint32_big_endian
                      (skipn (Z.to_nat current_offset) payload)) 0x7FFFFFFF in
          let current_offset := current_offset + 4 in
          if promised_stream_id =? 0
          then Some (c, inr ParserError.INVALID_STREAM_ID)
          else
            let header_block_fragment_len :=
              size - current_offset - value_or pad_length 0 in
            if negative_as_int header_block_fragment_len
            then Some (c, inr ParserError.INVALID_PADDING)
            else
              let hpack_payload :=
                firstn (Z.to_nat header_block_fragment_len)
                  (skipn (Z.to_nat current_offset) payload) in
              let c := buffer_fragment c header hpack_payload in
              let frame hs :=
                {| PushPromiseFrame.header := header;
                   PushPromiseFrame.pad_length := pad_length;
                   PushPromiseFrame.promised_stream_id := promised_stream_id;
                   PushPromiseFrame.headers := hs |} in
              if has_flag header PushPromiseFrame.END_HEADERS_FLAG then
                match decode_header_block c with
                | None => None
                | Some (c, decoded_headers, hpack_err) =>
                    match hpack_err with
                    | HpackError.OK =>
                        Some (finish_continuation (clear_header_block_buffer c),
                              inl (frame decoded_headers))
                    | _ =>
                        Some (finish_continuation (clear_header_block_buffer c),
                              inr ParserError.HPACK_DECOMPRESSION_FAILED)
                    end
                end
              else
                Some (expect_continuation_for_stream c
                        (FrameHeader.get_stream_id header)
                        FrameType.PUSH_PROMISE (AnyPushPromise (frame [])),
                      inl (frame []))
    end.

(** [Http2Parser::parse_ping_payload(header, payload)]. *)
Definition parse_ping_payload (header : FrameHeader.t) (payload : octets)
  : result PingFrame.t :=
  if negb (FrameHeader.length header =? 8) then inr ParserError.INVALID_FRAME_SIZE
  else if negb (FrameHeader.stream_id header =? 0)
  then inr ParserError.INVALID_STREAM_ID
  else inl {| PingFrame.header := header; PingFrame.opaque_data := payload |}.

(** [Http2Parser::parse_goaway_payload(header, payload)]. *)
Definition parse_goaway_payload (header : FrameHeader.t) (payload : octets)
  : result GoAwayFrame.t :=
  if FrameHeader.length header <? 8 then inr ParserError.INVALID_FRAME_SIZE
  else if negb (FrameHeader.stream_id header =? 0)
  then inr ParserError.INVALID_STREAM_ID
  else inl
    {| GoAwayFrame.header := header;
       GoAwayFrame.last_stream_id :=
         Z.land (read_uint32_big_endian payload) 0x7FFFFFFF;
       GoAwayFrame.error_code := read_uint32_big_endian (skipn 4 payload);
       GoAwayFrame.additional_debug_data :=
         if FrameHeader.length header >? 8 then skipn 8 payload else [] |}.

(** [Http2Parser::parse_window_update_payload(header, payload)]. *)
Definition parse_window_update_payload (header : FrameHeader.t)
  (payload : octets) : result WindowUpdateFrame.t :=
  if negb (FrameHeader.length header =? 4) then inr ParserError.INVALID_FRAME_SIZE
  else
    let window_size_increment :=
      Z.land (read_uint32_big_endian payload) 0x7FFFFFFF in
    if window_size_increment =? 0
    then inr ParserError.INVALID_WINDOW_UPDATE_INCREMENT
    else inl {| WindowUpdateFrame.header := header;
                WindowUpdateFrame.window_size_increment :=
                  window_size_increment |}.

(** [Http2Parser::parse_continuation_payload(header, payload)]. *)
Definition parse_continuation_payload (c : Http2Connection.t)
  (header : FrameHeader.t) (payload : octets)
  : option (Http2Connection.t * result ContinuationFrame.t) :=
  if negb (is_expecting_continuation c)
  then Some (c, inr ParserError.PROTOCOL_ERROR)
  else if negb (FrameHeader.stream_id header
                =? get_expected_continuation_stream_id c)
  then Some (c, inr ParserError.CONTINUATION_WRONG_STREAM)
  else if FrameHeader.stream_id header =? 0
  then Some (c, inr ParserError.INVALID_STREAM_ID)
  else
    let c := append_to_header_block_buffer c payload in
    let frame :=
      {| ContinuationFrame.header := header;
         ContinuationFrame.header_block_fragment := payload |} in
    if has_flag header ContinuationFrame.END_HEADERS_FLAG then
      match decode_header_block c with
      | None => None
      | Some (c, decoded_headers, hpack_err) =>
          match hpack_err with
          | HpackError.OK =>
              let c := populate_pending_headers c decoded_headers in
              let c := clear_header_block_buffer c in
              Some (finish_continuation c, inl frame)
          | _ => Some (c, inr ParserError.HPACK_DECOMPRESSION_FAILED)
          end
      end
    else Some (c, inl frame).

(** The [switch (pending_frame_header_.type)] of [parse]. *)
Definition dispatch (c : Http2Connection.t) (header : FrameHeader.t)
  (payload : octets) : option (Http2Connection.t * result AnyHttp2Frame) :=
  let pure {A} (wrap : A -> AnyHttp2Frame) (r : result A) :=
    Some (c, match r with inl f => inl (wrap f) | inr e => inr e end) in
  let ctx {A} (wrap : A -> AnyHttp2Frame)
      (r : option (Http2Connection.t * result A)) :=
    match r with
    | None => None
    | Some (c, inl f) => Some (c, inl (wrap f))
    | Some (c, inr e) => Some (c, inr e)
    end in
  let ty := FrameHeader.type header in
  if ty =? FrameType.DATA then pure AnyData (parse_data_payload header payload)
  else if ty =? FrameType.HEADERS
  then ctx AnyHeaders (parse_headers_payload c header payload)
  else if ty =? FrameType.PRIORITY
  then pure AnyPriority (parse_priority_payload header payload)
  else if ty =? FrameType.RST_STREAM
  then pure AnyRstStream (parse_rst_stream_payload header payload)
  else if ty =? FrameType.SETTINGS
  then pure AnySettings (parse_settings_payload header payload)
  else if ty =? FrameType.PUSH_PROMISE
  then ctx AnyPushPromise (parse_push_promise_payload c header payload)
  else if ty =? FrameType.PING
  then pure AnyPing (parse_ping_payload header payload)
  else if ty =? FrameType.GOAWAY
  then pure AnyGoAway (parse_goaway_payload header payload)
  else if ty =? FrameType.WINDOW_UPDATE
  then pure AnyWindowUpdate (parse_window_update_payload header payload)
  else if ty =? FrameType.CONTINUATION
  then ctx AnyContinuation (parse_continuation_payload c header payload)
  else Some (c, inr ParserError.INVALID_FRAME_TYPE).

(** What a call of [parse] leaves behind: the octets consumed, the
    error, the parser, the connection, and the frames that were handed to
    [raw_frame_parsed_cb_], oldest first. *)
Record parsed := {
  total_consumed_bytes : Z;
  last_error : ParserError.t;
  parser : t;
  connection : Http2Connection.t;
  delivered : list AnyHttp2Frame
}.

Section Parse.

(** The callback, if set; it may change the connection it captured. *)
Variable raw_frame_parsed_cb_
  : option (AnyHttp2Frame -> Http2Connection.t -> Http2Connection.t).

(** The [while (true)] loop of [Http2Parser::parse]; every iteration that
    does not leave the loop removes a whole frame from the buffer. *)
Fixpoint parse_loop (fuel : nat) (st : parsed) : option parsed :=
  let p := parser st in
  let c := connection st in
  let stop (p : t) (c : Http2Connection.t) (e : ParserError.t) :=
    Some {| total_consumed_bytes := total_consumed_bytes st;
            last_error := e; parser := p; connection := c;
            delivered := delivered st |} in
  let buffer_size := Z.of_nat (List.length (buffer_ p)) in
  let header_step : parsed + t :=
    match current_state_ p with
    | READING_FRAME_HEADER =>
        if buffer_size <? 9 then
          inl {| total_consumed_bytes := total_consumed_bytes st;
                 last_error := ParserError.OK; parser := p; connection := c;
                 delivered := delivered st |}
        else
          match read_frame_header (firstn 9 (buffer_ p)) with
          | None =>
              inl {| total_consumed_bytes := total_consumed_bytes st;
                     last_error := ParserError.INTERNAL_ERROR; parser := p;
                     connection := c; delivered := delivered st |}
          | Some h =>
              let p := {| current_state_ := current_state_ p;
                          buffer_ := buffer_ p;
                          pending_frame_header_ := h |} in
              if FrameHeader.length h
                   >? ConnectionSettings.max_frame_size (remote_settings_ c)
              then
                inl {| total_consumed_bytes := total_consumed_bytes st;
                       last_error := ParserError.FRAME_SIZE_LIMIT_EXCEEDED;
                       parser := p; connection := c;
                       delivered := delivered st |}
              else
                inr {| current_state_ := READING_FRAME_PAYLOAD;
                       buffer_ := buffer_ p;
                       pending_frame_header_ := h |}
          end
    | READING_FRAME_PAYLOAD => inr p
    end in
  match header_step with
  | inl done => Some done
  | inr p =>
      let h := pending_frame_header_ p in
      let frame_total_size := to_uint32 (9 + FrameHeader.length h) in
      if buffer_size <? frame_total_size then stop p c ParserError.OK
      else
        let payload_span :=
          firstn (Z.to_nat (FrameHeader.length h)) (skipn 9 (buffer_ p)) in
        match dispatch c h payload_span with
        | None => None
        | Some (c, inr parse_payload_error) => stop p c parse_payload_error
        | Some (c, inl parsed_frame_variant) =>
            let c :=
              match raw_frame_parsed_cb_ with
              | Some cb => cb parsed_frame_variant c
              | None => c
              end in
            let p := {| current_state_ := READING_FRAME_HEADER;
                        buffer_ := skipn (Z.to_nat frame_total_size) (buffer_ p);
                        pending_frame_header_ := h |} in
            let st' :=
              {| total_consumed_bytes :=
                   total_consumed_bytes st + frame_total_size;
                 last_error := ParserError.OK; parser := p; connection := c;
                 delivered := delivered st ++ [parsed_frame_variant] |} in
            if Z.of_nat (List.length (buffer_ p)) <? 9 then Some st'
            else
              match fuel with
              | O => None
              | S fuel' => parse_loop fuel' st'
              end
        end
  end.

(** [Http2Parser::parse(data)]. *)
Definition parse (p : t) (c : Http2Connection.t) (data : octets)
  : option parsed :=
  let p := {| current_state_ := current_state_ p;
              buffer_ := buffer_ p ++ data;
              pending_frame_header_ := pending_frame_header_ p |} in
  parse_loop (List.length (buffer_ p))
    {| total_consumed_bytes := 0; last_error := ParserError.OK;
       parser := p; connection := c; delivered := [] |}.

End Parse.

End Http2Parser.

(** ** Receiving ([Http2Connection::process_incoming_data]) *)

Module Http2ConnectionInput.
Import Http2Connection.

(** [std::to_string] of a non-negative [int]. *)
Definition to_string (n : Z) : string :=
  DecimalString.NilZero.string_of_uint (N.to_uint (Z.to_N n)).

(** The [switch (error)] of [process_incoming_data]. *)
Definition http2_error_code (error : ParserError.t) : Z :=
  match error with
  | ParserError.FRAME_SIZE_LIMIT_EXCEEDED => ErrorCode.FRAME_SIZE_ERROR
  | ParserError.HPACK_DECOMPRESSION_FAILED => ErrorCode.COMPRESSION_ERROR
  | ParserError.INVALID_STREAM_ID
  | ParserError.CONTINUATION_WRONG_STREAM
  | ParserError.CONTINUATION_EXPECTED => ErrorCode.PROTOCOL_ERROR
  | _ => ErrorCode.PROTOCOL_ERROR
  end.

(** [Http2Connection::process_incoming_data(data)]: the parser owned by
    the connection runs with the connection's frame handler as callback;
    a parser error becomes a GOAWAY.  The result is the number of octets
    consumed with the parser and the connection after the call. *)
Definition process_incoming_data
  (handle_parsed_frame : AnyHttp2Frame -> Http2Connection.t -> Http2Connection.t)
  (parser_ : Http2Parser.t) (c : Http2Connection.t) (data : octets)
  : option (Z * Http2Parser.t * Http2Connection.t) :=
  match Http2Parser.parse (Some handle_parsed_frame) parser_ c data with
  | None => None
  | Some r =>
      let c := Http2Parser.connection r in
      let error := Http2Parser.last_error r in
      let c :=
        match error with
        | ParserError.OK => c
        | _ =>
            let error_message :=
              String.append "Parser error: code "
                (to_string (ParserError.to_int error)) in
            if on_send_goaway_ c then
              call c (send_goaway (last_processed_stream_id_ c)
                        (http2_error_code error) error_message)
            else c
        end in
      Some (Http2Parser.total_consumed_bytes r, Http2Parser.parser r, c)
  end.

End Http2ConnectionInput.

(** ** Sequences of dynamic-table operations *)

(** The two operations that change a dynamic table from outside. *)
Inductive table_op :=
| Insert (header : HttpHeader)
| Resize (max_size : Z).

Definition decoder_step (d : HpackDecoder.t) (op : table_op) : HpackDecoder.t :=
  match op with
  | Insert header => HpackDecoder.add_to_dynamic_table d header
  | Resize max_size => HpackDecoder.set_max_dynamic_table_size d max_size
  end.

Definition encoder_step (e : HpackEncoder.t) (op : table_op) : HpackEncoder.t :=
  match op with
  | Insert header => HpackEncoder.add_to_dynamic_table e header
  | Resize max_size => fst (HpackEncoder.set_own_max_dynamic_table_size e max_size)
  end.

(** The capacity argument is a [uint32_t]. *)
Definition op_in_range (op : table_op) : Prop :=
  match op with
  | Insert _ => True
  | Resize max_size => 0 <= max_size < 2 ^ 32
  end.

(** No capacity of the sequence reaches [2^31]. *)
Definition op_below_2_31 (op : table_op) : Prop :=
  match op with
  | Insert _ => True
  | Resize max_size => max_size < 2 ^ 31
  end.

(** Cost of an entry: [|name| + |value| + 32]. *)
Definition header_cost (h : HttpHeader) : Z :=
  Z.of_nat (List.length (name h)) + Z.of_nat (List.length (value h)) + 32.

Definition entry_cost (e : DynamicTableEntry) : Z :=
  Z.of_nat (List.length (entry_name e))
  + Z.of_nat (List.length (entry_value e)) + 32.

(** Sum of the costs of the entries of a table. *)
Definition table_cost (l : list DynamicTableEntry) : Z :=
  fold_right (fun e acc => entry_cost e + acc) 0 l.

Definition sizes_are_costs (l : list DynamicTableEntry) : Prop :=
  Forall (fun e => size e = entry_cost e) l.

(** What holds of a decoder between operations: the stored sizes are the
    costs, the counter is the 32-bit sum of the costs, and the counter
    does not exceed the capacity. *)
Definition decoder_inv (d : HpackDecoder.t) : Prop :=
  sizes_are_costs (HpackDecoder.dynamic_table_ d) /\
  HpackDecoder.current_dynamic_table_size_ d
  = table_cost (HpackDecoder.dynamic_table_ d) mod 2 ^ 32 /\
  0 <= HpackDecoder.max_dynamic_table_size_ d < 2 ^ 32 /\
  HpackDecoder.current_dynamic_table_size_ d
  <= HpackDecoder.max_dynamic_table_size_ d.

(** The encoder's table, read as a decoder table. *)
Definition as_decoder (e : HpackEncoder.t) : HpackDecoder.t :=
  {| HpackDecoder.dynamic_table_ := HpackEncoder.dynamic_table_ e;
     HpackDecoder.current_dynamic_table_size_ :=
       HpackEncoder.current_dynamic_table_size_ e;
     HpackDecoder.max_dynamic_table_size_ :=
       HpackEncoder.own_max_dynamic_table_size_ e |}.

(** A sample run: two insertions, a shrink that evicts the older one and
    an insertion of cost 67, more than the capacity of 60. *)
Definition sample_ops : list table_op :=
  [ Insert {| name := str ":authority"; value := str "www.example.com";
              sensitive := false |};
    Insert {| name := str "cache-control"; value := str "no-cache";
              sensitive := false |};
    Resize 60;
    Insert {| name := str "x-very-long-header-name";
              value := str "custom-value"; sensitive := false |} ].

(** The longest run of newest entries, from the front of the deque, whose
    costs sum to [room] at most. *)
Fixpoint newest_fitting (l : list DynamicTableEntry) (room : Z)
  : list DynamicTableEntry :=
  match l with
  | [] => []
  | e :: older =>
      if entry_cost e <=? room
      then e :: newest_fitting older (room - entry_cost e) else []
  end.

(** A name of [2^31] octets, and a header of cost [2^31 + 32] made of it. *)
Definition large_name : octets := repeat 97 (Z.to_nat (2 ^ 31)).

Definition large_header : HttpHeader :=
  {| name := large_name; value := []; sensitive := false |}.

(** ** Code lengths *)

(** Number of bits of the code that [HUFFMAN_CODES] gives to an octet. *)
Definition code_length (ch : Z) : Z :=
  match Hpack.HUFFMAN_CODES_find ch with
  | Some (_, num_bits) => num_bits
  | None => 0
  end.

Definition total_bits (input : octets) : Z :=
  fold_right (fun ch acc => code_length ch + acc) 0 input.

(** The bits of a code, most significant first. *)
Definition code_bits (code num_bits : Z) : list bool :=
  map (fun j => Z.testbit code (Z.of_nat j)) (rev (seq 0 (Z.to_nat num_bits))).

(** [p] is a proper prefix of [q]. *)
Definition proper_prefix (p q : list bool) : Prop :=
  exists r, r <> [] /\ q = p ++ r.

(** ** Sample connections and inputs *)

(** What sending or receiving HEADERS does to a stream that does not
    exist yet: the stream is created and moves from IDLE to OPEN. *)
Definition open_stream (c : Http2Connection.t) (id : Z) : Http2Connection.t :=
  match Http2Connection.get_or_create_stream c id with
  | Returned (c, s) =>
      Http2Connection.store_stream c id (Http2Stream.transition_to_open s)
  | Thrown _ => c
  end.

Definition setting (identifier value : Z) : SettingsFrame.Setting :=
  {| SettingsFrame.identifier := identifier; SettingsFrame.value := value |}.

(** The window of a stream of the connection that we may send into. *)
Definition send_window (c : Http2Connection.t) (id : Z) : option Z :=
  Http2Stream.remote_window_size_ <$> Http2Connection.streams_ c !! id.

(** The window of a stream of the connection that the peer may send into. *)
Definition recv_window (c : Http2Connection.t) (id : Z) : option Z :=
  Http2Stream.local_window_size_ <$> Http2Connection.streams_ c !! id.

Definition stream_state (c : Http2Connection.t) (id : Z)
  : option StreamState.t :=
  Http2Stream.state_ <$> Http2Connection.streams_ c !! id.

(** A client connection with all callbacks installed on which stream 1
    has been opened, and that stream as the connection stores it. *)
Definition sample_sender : Http2Connection.t :=
  open_stream (Http2Connection.new false true) 1.

Definition sample_sender_stream : Http2Stream.t :=
  {| Http2Stream.id_ := 1;
     Http2Stream.state_ := StreamState.OPEN;
     Http2Stream.local_window_size_ := 65535;
     Http2Stream.remote_window_size_ := 65535 |}.

(** [n] octets 0, 1, 2, ... (modulo 256). *)
Definition increasing_octets (n : nat) : octets :=
  map (fun i => Z.of_nat i mod 256) (seq 0 n).

(** Wire forms: HEADERS on stream 1 without END_HEADERS carrying the
    one-octet fragment [82]; PING; DATA on stream 1; HEADERS on stream 3
    with END_HEADERS; CONTINUATION with END_HEADERS on stream 3 and on
    stream 1; WINDOW_UPDATE with increment 0 on stream 1. *)
Definition wire_headers_open : octets := [0; 0; 1; 1; 0; 0; 0; 0; 1; 0x82].
Definition wire_ping : octets :=
  [0; 0; 8; 6; 0; 0; 0; 0; 0; 1; 2; 3; 4; 5; 6; 7; 8].
Definition wire_data : octets := [0; 0; 2; 0; 0; 0; 0; 0; 1; 104; 105].
Definition wire_headers_other : octets := [0; 0; 1; 1; 4; 0; 0; 0; 3; 0x84].
Definition wire_continuation_other : octets :=
  [0; 0; 1; 9; 4; 0; 0; 0; 3; 0x84].
Definition wire_continuation_same : octets :=
  [0; 0; 1; 9; 4; 0; 0; 0; 1; 0x84].
Definition wire_window_update_zero : octets :=
  [0; 0; 4; 8; 0; 0; 0; 0; 1; 0; 0; 0; 0].

(** A frame sink that only records: it leaves the connection alone. *)
Definition recording_sink
  : option (AnyHttp2Frame -> Http2Connection.t -> Http2Connection.t) :=
  Some (fun _ c => c).

(** The frames these octets parse to. *)
Definition frame_headers_open : AnyHttp2Frame :=
  AnyHeaders
    {| HeadersFrame.header :=
         {| FrameHeader.length := 1; FrameHeader.type := FrameType.HEADERS;
            FrameHeader.flags := 0; FrameHeader.stream_id := 1 |};
       HeadersFrame.pad_length := None;
       HeadersFrame.exclusive_dependency := None;
       HeadersFrame.stream_dependency := None;
       HeadersFrame.weight := None;
       HeadersFrame.headers := [] |}.

Definition frame_ping : AnyHttp2Frame :=
  AnyPing
    {| PingFrame.header :=
         {| FrameHeader.length := 8; FrameHeader.type := FrameType.PING;
            FrameHeader.flags := 0; FrameHeader.stream_id := 0 |};
       PingFrame.opaque_data := [1; 2; 3; 4; 5; 6; 7; 8] |}.

Definition frame_data : AnyHttp2Frame :=
  AnyData
    {| DataFrame.header :=
         {| FrameHeader.length := 2; FrameHeader.type := FrameType.DATA;
            FrameHeader.flags := 0; FrameHeader.stream_id := 1 |};
       DataFrame.pad_length := Some 0;
       DataFrame.data := [104; 105] |}.

Definition frame_headers_other : AnyHttp2Frame :=
  AnyHeaders
    {| HeadersFrame.header :=
         {| FrameHeader.length := 1; FrameHeader.type := FrameType.HEADERS;
            FrameHeader.flags := 4; FrameHeader.stream_id := 3 |};
       HeadersFrame.pad_length := None;
       HeadersFrame.exclusive_dependency := None;
       HeadersFrame.stream_dependency := None;
       HeadersFrame.weight := None;
       HeadersFrame.headers :=
         [{| name := str ":path"; value := str "/"; sensitive := false |}] |}.

Definition frame_continuation_same : AnyHttp2Frame :=
  AnyContinuation
    {| ContinuationFrame.header :=
         {| FrameHeader.length := 1; FrameHeader.type := FrameType.CONTINUATION;
            FrameHeader.flags := 4; FrameHeader.stream_id := 1 |};
       ContinuationFrame.header_block_fragment := [0x84] |}.

(** What is observed of a call of [parse]: octets consumed, error,
    frames handed to the sink, and whether the connection is left
    expecting a CONTINUATION. *)
Definition observe (r : option Http2Parser.parsed)
  : option (Z * ParserError.t * list AnyHttp2Frame * bool) :=
  match r with
  | Some r =>
      Some (Http2Parser.total_consumed_bytes r, Http2Parser.last_error r,
            Http2Parser.delivered r,
            Http2Connection.is_expecting_continuation
              (Http2Parser.connection r))
  | None => None
  end.

(** ** Header blocks as lists of fields *)

Section HeaderBlocksDefinitions.
Import HpackEncoder HpackDecoder.

Definition prefix_patterns : list (Z * Z) :=
  [(0x80, 7); (0x40, 6); (0x00, 4); (0x10, 4); (0x20, 5); (0x00, 7)].

Definition pattern_check (p N low : Z) : bool :=
  (2 ^ N <=? low)
  || ((to_uint8 (Z.lor p low) =? p + low)
      && (Z.land (p + low) (2 ^ N - 1) =? low)
      && (p + low <? 256)).

Definition table_lookup (d : HpackDecoder.t) (index : Z) : option HttpHeader :=
  if (1 <=? index) && (index <=? 61) then
    nth_error StaticTable.STATIC_TABLE (Z.to_nat (index - 1))
  else if 62 <=? index then
    match nth_error (dynamic_table_ d) (Z.to_nat (index - 62)) with
    | Some e => Some {| name := entry_name e; value := entry_value e;
                        sensitive := false |}
    | None => None
    end
  else None.

Definition first_octet_check (p low : Z) : bool :=
  let b := p + low in
  if p =? 0x80 then (128 <=? low) || (Z.land b 0x80 =? 0x80)
  else if p =? 0x40 then
    (64 <=? low) || (negb (Z.land b 0x80 =? 0x80) && (Z.land b 0xC0 =? 0x40))
  else if p =? 0x00 then
    (16 <=? low)
    || (negb (Z.land b 0x80 =? 0x80) && negb (Z.land b 0xC0 =? 0x40)
        && (Z.land b 0xF0 =? 0x00))
  else if p =? 0x10 then
    (16 <=? low)
    || (negb (Z.land b 0x80 =? 0x80) && negb (Z.land b 0xC0 =? 0x40)
        && negb (Z.land b 0xF0 =? 0x00) && (Z.land b 0xF0 =? 0x10))
  else
    (32 <=? low)
    || (negb (Z.land b 0x80 =? 0x80) && negb (Z.land b 0xC0 =? 0x40)
        && negb (Z.land b 0xF0 =? 0x00) && negb (Z.land b 0xF0 =? 0x10)
        && (Z.land b 0xE0 =? 0x20)).

Inductive literal_form := WithIndexing | WithoutIndexing | NeverIndexed.

Definition form_pattern (f : literal_form) : Z * Z :=
  match f with
  | WithIndexing => (0x40, 6)
  | WithoutIndexing => (0x00, 4)
  | NeverIndexed => (0x10, 4)
  end.

(** The fields of a header block. *)
Inductive field :=
| Indexed (index : Z)
| Literal (f : literal_form) (index : Z) (n v : octets)
| SizeUpdate (max_size : Z).

(** The octets of a field whose strings are written without Huffman
    coding; the name [n] of a literal is written when [index] is 0. *)
Definition field_octets (fld : field) : option octets :=
  match fld with
  | Indexed index => encode_integer [] 0x80 7 index
  | Literal f index n v =>
      match encode_integer [] (fst (form_pattern f)) (snd (form_pattern f)) index,
            encode_string [] n false, encode_string [] v false with
      | Some bi, Some bn, Some bv =>
          Some (bi ++ (if index =? 0 then bn else []) ++ bv)
      | _, _, _ => None
      end
  | SizeUpdate max_size => encode_integer [] 0x20 5 max_size
  end.

Fixpoint block_octets (fields : list field) : option octets :=
  match fields with
  | [] => Some []
  | fld :: fields' =>
      match field_octets fld, block_octets fields' with
      | Some b, Some bs => Some (b ++ bs)
      | _, _ => None
      end
  end.

(** What a field means: the header it adds and the decoder it leaves, or
    the error it raises. *)
Definition field_meaning (d : HpackDecoder.t) (headers : list HttpHeader)
  (fld : field) : (HpackDecoder.t * list HttpHeader) + HpackError.t :=
  match fld with
  | Indexed index =>
      match table_lookup d index with
      | Some h => inl (d, headers ++ [h])
      | None => inr HpackError.INDEX_OUT_OF_BOUNDS
      end
  | Literal f index n v =>
      match (if index =? 0 then Some n
             else option_map name (table_lookup d index)) with
      | None => inr HpackError.INDEX_OUT_OF_BOUNDS
      | Some field_name =>
          let h := {| name := field_name; value := v;
                      sensitive :=
                        match f with NeverIndexed => true | _ => false end |} in
          inl (match f with
               | WithIndexing => add_to_dynamic_table d h
               | _ => d
               end, headers ++ [h])
      end
  | SizeUpdate max_size =>
      match headers with
      | _ :: _ => inr HpackError.COMPRESSION_ERROR
      | [] =>
          if max_size >? 4096 then inr HpackError.COMPRESSION_ERROR
          else inl (set_max_dynamic_table_size d max_size, headers)
      end
  end.

(** The meaning of a block: its fields in order, up to the first error. *)
Fixpoint block_meaning (d : HpackDecoder.t) (headers : list HttpHeader)
  (fields : list field) : HpackDecoder.t * list HttpHeader * HpackError.t :=
  match fields with
  | [] => (d, headers, HpackError.OK)
  | fld :: fields' =>
      match field_meaning d headers fld with
      | inl (d, headers) => block_meaning d headers fields'
      | inr e => (d, headers, e)
      end
  end.

Definition field_in_range (fld : field) : Prop :=
  match fld with
  | Indexed index => 0 <= index < 2 ^ 64
  | Literal _ index n v =>
      0 <= index < 2 ^ 64 /\ is_octets n /\ is_octets v /\
      Z.of_nat (List.length n) < 2 ^ 64 /\ Z.of_nat (List.length v) < 2 ^ 64
  | SizeUpdate max_size => 0 <= max_size < 2 ^ 64
  end.

Definition iteration_of
  (r : (HpackDecoder.t * list HttpHeader) + HpackError.t)
  (d : HpackDecoder.t) (headers : list HttpHeader) (rest : octets)
  : iteration :=
  match r with
  | inl (d', headers') => Next d' headers' rest
  | inr e => Break d headers e
  end.

Definition sample_fields : list field :=
  [ Literal WithIndexing 0 (str "custom-key") (str "custom-header");
    Indexed 62;
    Indexed 2;
    Literal NeverIndexed 32 [] (str "secret");
    Indexed 0 ].

End HeaderBlocksDefinitions.

(** ** Reference search of the tables and sample headers *)

Section HeaderEncodingDefinitions.
Import StaticTable HpackEncoder HpackDecoder.

(** The 1-based position, counted from [i], of the first element of a
    list that satisfies [P]. *)
Fixpoint first_index {A : Type} (P : A -> bool) (l : list A) (i : Z)
  : option Z :=
  match l with
  | [] => None
  | x :: l' => if P x then Some i else first_index P l' (i + 1)
  end.

Definition name_matches (n : octets) (h : HttpHeader) : bool :=
  octets_eqb (name h) n.

Definition header_matches (n v : octets) (h : HttpHeader) : bool :=
  octets_eqb (name h) n && octets_eqb (value h) v.

(** What a search of a table for a name and a value should return: the
    first entry with that name and value, else the first entry with that
    name, else nothing. *)
Definition search_result (table : list HttpHeader) (n v : octets) : Z * bool :=
  match first_index (header_matches n v) table 1 with
  | Some i => (i, true)
  | None =>
      match first_index (name_matches n) table 1 with
      | Some i => (i, false)
      | None => (0, false)
      end
  end.

Definition header_in_range (h : HttpHeader) : Prop :=
  is_octets (name h) /\ is_octets (value h) /\
  Z.of_nat (List.length (name h)) < 2 ^ 64 /\
  Z.of_nat (List.length (value h)) < 2 ^ 64.

Definition sample_headers : list HttpHeader :=
  [ {| name := str ":method"; value := str "GET"; sensitive := false |};
    {| name := str "authorization"; value := str "Basic dXNlcjpwYXNz";
       sensitive := true |};
    {| name := str "x-request-id"; value := str "7f3a"; sensitive := false |} ].

Definition static_index_of (h : HttpHeader) (k : Z) : Prop :=
  find_in_static_table_header h = (k, true) /\ 1 <= k <= 61 /\
  nth_error STATIC_TABLE (Z.to_nat (k - 1)) = Some h.

Definition sample_request : list HttpHeader :=
  [ {| name := str ":method"; value := str "GET"; sensitive := false |};
    {| name := str ":scheme"; value := str "https"; sensitive := false |};
    {| name := str ":path"; value := str "/"; sensitive := false |} ].

(** The encoder keeps the literal form of a string: the Huffman form is
    not shorter. *)
Definition literal_preferred (s : octets) : Prop :=
  encode_string [] s true = encode_string [] s false.

Definition header_literal (h : HttpHeader) : Prop :=
  literal_preferred (name h) /\ literal_preferred (value h).

(** A table whose counter is the sum of the costs of its entries, below
    a capacity under [2^31]. *)
Definition table_exact (d : HpackDecoder.t) : Prop :=
  decoder_inv d /\
  HpackDecoder.current_dynamic_table_size_ d
  = table_cost (HpackDecoder.dynamic_table_ d) /\
  HpackDecoder.max_dynamic_table_size_ d < 2 ^ 31.

(** A static name with a new value, a new name, the same name again
    (found in the dynamic table by then) and a sensitive header. *)
Definition sample_literals : list HttpHeader :=
  [ {| name := str "via"; value := str "Q1"; sensitive := false |};
    {| name := str "x-id"; value := str "GET"; sensitive := false |};
    {| name := str "x-id"; value := str "K9"; sensitive := false |};
    {| name := str "x-q"; value := str "#7"; sensitive := true |} ].

End HeaderEncodingDefinitions.

(** ** Frames on the wire and the parser loop *)

Section FramesDefinitions.
Import FrameSerializer Http2Parser.

(** The fields of a frame header as the wire format has them. *)
Definition frame_header_in_range (h : FrameHeader.t) : Prop :=
  0 <= FrameHeader.length h < 2 ^ 24 /\
  0 <= FrameHeader.type h < 256 /\
  0 <= FrameHeader.flags h < 256 /\
  0 <= FrameHeader.stream_id h < 2 ^ 31.

(** A call of the optional callback of the parser. *)
Definition notify
  (cb : option (AnyHttp2Frame -> Http2Connection.t -> Http2Connection.t))
  (f : AnyHttp2Frame) (c : Http2Connection.t) : Http2Connection.t :=
  match cb with Some g => g f c | None => c end.

(** The serializer of each frame type that carries no header block. *)
Definition wire (f : AnyHttp2Frame) : octets :=
  match f with
  | AnyData d => serialize_data_frame d
  | AnyPriority p => serialize_priority_frame p
  | AnyRstStream r => serialize_rst_stream_frame r
  | AnySettings s => serialize_settings_frame s
  | AnyPing p => serialize_ping_frame p
  | AnyGoAway g => serialize_goaway_frame g
  | AnyWindowUpdate w => serialize_window_update_frame w
  | AnyHeaders _ | AnyPushPromise _ | AnyContinuation _ => []
  end.

Definition frame_header (f : AnyHttp2Frame) : FrameHeader.t :=
  match f with
  | AnyData d => DataFrame.header d
  | AnyHeaders h => HeadersFrame.header h
  | AnyPriority p => PriorityFrame.header p
  | AnyRstStream r => RstStreamFrame.header r
  | AnySettings s => SettingsFrame.header s
  | AnyPushPromise p => PushPromiseFrame.header p
  | AnyPing p => PingFrame.header p
  | AnyGoAway g => GoAwayFrame.header g
  | AnyWindowUpdate w => WindowUpdateFrame.header w
  | AnyContinuation c => ContinuationFrame.header c
  end.

(** The number of octets a frame has on the wire behind its header. *)
Definition payload_size (f : AnyHttp2Frame) : Z :=
  Z.of_nat (List.length (wire f)) - 9.

(** The header a serialized frame arrives with: the [length] field is the
    one the serializer computed, whatever the frame's own said. *)
Definition received_header (f : AnyHttp2Frame) : FrameHeader.t :=
  with_length (frame_header f) (payload_size f).

(** The frame a receiver should see for a frame that was sent. *)
Definition as_received (f : AnyHttp2Frame) : AnyHttp2Frame :=
  match f with
  | AnyData d =>
      AnyData
        {| DataFrame.header := received_header f;
           DataFrame.pad_length :=
             Some (if DataFrame.has_padded_flag d
                   then value_or (DataFrame.pad_length d) 0 else 0);
           DataFrame.data := DataFrame.data d |}
  | AnyPriority p =>
      AnyPriority
        {| PriorityFrame.header := received_header f;
           PriorityFrame.exclusive_dependency :=
             PriorityFrame.exclusive_dependency p;
           PriorityFrame.stream_dependency := PriorityFrame.stream_dependency p;
           PriorityFrame.weight := PriorityFrame.weight p |}
  | AnyRstStream r =>
      AnyRstStream
        {| RstStreamFrame.header := received_header f;
           RstStreamFrame.error_code := RstStreamFrame.error_code r |}
  | AnySettings s =>
      AnySettings
        {| SettingsFrame.header := received_header f;
           SettingsFrame.settings :=
             if SettingsFrame.has_ack_flag s then []
             else SettingsFrame.settings s |}
  | AnyPing p =>
      AnyPing
        {| PingFrame.header := received_header f;
           PingFrame.opaque_data := PingFrame.opaque_data p |}
  | AnyGoAway g =>
      AnyGoAway
        {| GoAwayFrame.header := received_header f;
           GoAwayFrame.last_stream_id := GoAwayFrame.last_stream_id g;
           GoAwayFrame.error_code := GoAwayFrame.error_code g;
           GoAwayFrame.additional_debug_data :=
             GoAwayFrame.additional_debug_data g |}
  | AnyWindowUpdate w =>
      AnyWindowUpdate
        {| WindowUpdateFrame.header := received_header f;
           WindowUpdateFrame.window_size_increment :=
             WindowUpdateFrame.window_size_increment w |}
  | AnyHeaders _ | AnyPushPromise _ | AnyContinuation _ => f
  end.

Definition setting_in_range (s : SettingsFrame.Setting) : Prop :=
  0 <= SettingsFrame.identifier s < 2 ^ 16 /\
  0 <= SettingsFrame.value s < 2 ^ 32.

(** The fields of a frame as its C++ types and the protocol have them:
    the type octet of the frame's kind, a stream identifier of 31 bits that
    is zero exactly for the connection-level frames, and a payload that
    fits the 24-bit length. *)
Definition fields_in_range (f : AnyHttp2Frame) : Prop :=
  let h := frame_header f in
  0 <= FrameHeader.flags h < 256 /\
  0 <= FrameHeader.stream_id h < 2 ^ 31 /\
  payload_size f < 2 ^ 24 /\
  match f with
  | AnyData d =>
      FrameHeader.type h = FrameType.DATA /\ FrameHeader.stream_id h <> 0 /\
      (DataFrame.has_padded_flag d = true ->
       0 <= value_or (DataFrame.pad_length d) 0 < 256)
  | AnyPriority p =>
      FrameHeader.type h = FrameType.PRIORITY /\
      FrameHeader.stream_id h <> 0 /\
      0 <= PriorityFrame.stream_dependency p < 2 ^ 31 /\
      0 <= PriorityFrame.weight p < 256
  | AnyRstStream r =>
      FrameHeader.type h = FrameType.RST_STREAM /\
      FrameHeader.stream_id h <> 0 /\
      0 <= RstStreamFrame.error_code r < 2 ^ 32
  | AnySettings s =>
      FrameHeader.type h = FrameType.SETTINGS /\
      FrameHeader.stream_id h = 0 /\
      Forall setting_in_range (SettingsFrame.settings s)
  | AnyPing p =>
      FrameHeader.type h = FrameType.PING /\ FrameHeader.stream_id h = 0 /\
      List.length (PingFrame.opaque_data p) = 8%nat
  | AnyGoAway g =>
      FrameHeader.type h = FrameType.GOAWAY /\ FrameHeader.stream_id h = 0 /\
      0 <= GoAwayFrame.last_stream_id g < 2 ^ 31 /\
      0 <= GoAwayFrame.error_code g < 2 ^ 32
  | AnyWindowUpdate w =>
      FrameHeader.type h = FrameType.WINDOW_UPDATE /\
      0 < WindowUpdateFrame.window_size_increment w < 2 ^ 31
  | AnyHeaders _ | AnyPushPromise _ | AnyContinuation _ => False
  end.

(** The octets of a frame behind its header. *)
Definition payload_octets (f : AnyHttp2Frame) : octets :=
  match f with
  | AnyData d =>
      let pad := value_or (DataFrame.pad_length d) 0 in
      (if DataFrame.has_padded_flag d then [to_uint8 pad] else [])
      ++ DataFrame.data d
      ++ (if DataFrame.has_padded_flag d && (pad >? 0)
          then repeat 0 (Z.to_nat pad) else [])
  | AnyPriority p =>
      write_uint32_big_endian []
        (stream_dep_val (PriorityFrame.exclusive_dependency p)
           (PriorityFrame.stream_dependency p))
      ++ [to_uint8 (PriorityFrame.weight p)]
  | AnyRstStream r =>
      write_uint32_big_endian [] (to_uint32 (RstStreamFrame.error_code r))
  | AnySettings s =>
      if negb (SettingsFrame.has_ack_flag s)
      then write_settings [] (SettingsFrame.settings s) else []
  | AnyPing p => PingFrame.opaque_data p
  | AnyGoAway g =>
      write_uint32_big_endian []
        (Z.land (GoAwayFrame.last_stream_id g) 0x7FFFFFFF)
      ++ write_uint32_big_endian [] (to_uint32 (GoAwayFrame.error_code g))
      ++ GoAwayFrame.additional_debug_data g
  | AnyWindowUpdate w =>
      write_uint32_big_endian []
        (Z.land (WindowUpdateFrame.window_size_increment w) 0x7FFFFFFF)
  | AnyHeaders _ | AnyPushPromise _ | AnyContinuation _ => []
  end.

(** Every frame of the list is well formed and fits the frame size limit
    of the connection as the callback left it after the frames before. *)
Fixpoint frames_accepted
  (cb : option (AnyHttp2Frame -> Http2Connection.t -> Http2Connection.t))
  (c : Http2Connection.t) (frames : list AnyHttp2Frame) : Prop :=
  match frames with
  | [] => True
  | f :: frames' =>
      fields_in_range f /\
      payload_size f
      <= ConnectionSettings.max_frame_size (Http2Connection.remote_settings_ c) /\
      frames_accepted cb (notify cb (as_received f) c) frames'
  end.

(** The connection after the callback saw every frame of the list. *)
Definition connection_after
  (cb : option (AnyHttp2Frame -> Http2Connection.t -> Http2Connection.t))
  (c : Http2Connection.t) (frames : list AnyHttp2Frame) : Http2Connection.t :=
  fold_left (fun c f => notify cb (as_received f) c) frames c.

Definition sample_frame_header : FrameHeader.t :=
  {| FrameHeader.length := 70000; FrameHeader.type := FrameType.HEADERS;
     FrameHeader.flags := 0x24; FrameHeader.stream_id := 2147483647 |}.

(** A callback that applies the settings of a SETTINGS frame to the
    connection and ignores the other frames. *)
Definition settings_applied
  : option (AnyHttp2Frame -> Http2Connection.t -> Http2Connection.t) :=
  Some (fun f c =>
          match f with
          | AnySettings s =>
              fold_left Http2Connection.apply_remote_setting
                (SettingsFrame.settings s) c
          | _ => c
          end).

(** A SETTINGS frame, a padded DATA frame, a PRIORITY frame with the
    exclusive bit, a PING, a WINDOW_UPDATE, an RST_STREAM and a GOAWAY
    with debug data. *)
Definition sample_frames : list AnyHttp2Frame :=
  [ AnySettings
      {| SettingsFrame.header :=
           {| FrameHeader.length := 0; FrameHeader.type := FrameType.SETTINGS;
              FrameHeader.flags := 0; FrameHeader.stream_id := 0 |};
         SettingsFrame.settings :=
           [ setting SettingsFrame.SETTINGS_MAX_FRAME_SIZE 20000;
             setting SettingsFrame.SETTINGS_INITIAL_WINDOW_SIZE 1000 ] |};
    AnyData
      {| DataFrame.header :=
           {| FrameHeader.length := 0; FrameHeader.type := FrameType.DATA;
              FrameHeader.flags := 0x9; FrameHeader.stream_id := 1 |};
         DataFrame.pad_length := Some 3;
         DataFrame.data := str "hello" |};
    AnyPriority
      {| PriorityFrame.header :=
           {| FrameHeader.length := 5; FrameHeader.type := FrameType.PRIORITY;
              FrameHeader.flags := 0; FrameHeader.stream_id := 3 |};
         PriorityFrame.exclusive_dependency := true;
         PriorityFrame.stream_dependency := 1;
         PriorityFrame.weight := 255 |};
    AnyPing
      {| PingFrame.header :=
           {| FrameHeader.length := 8; FrameHeader.type := FrameType.PING;
              FrameHeader.flags := 1; FrameHeader.stream_id := 0 |};
         PingFrame.opaque_data := [1; 2; 3; 4; 5; 6; 7; 8] |};
    AnyWindowUpdate
      {| WindowUpdateFrame.header :=
           {| FrameHeader.length := 4;
              FrameHeader.type := FrameType.WINDOW_UPDATE;
              FrameHeader.flags := 0; FrameHeader.stream_id := 0 |};
         WindowUpdateFrame.window_size_increment := 2147483647 |};
    AnyRstStream
      {| RstStreamFrame.header :=
           {| FrameHeader.length := 4; FrameHeader.type := FrameType.RST_STREAM;
              FrameHeader.flags := 0; FrameHeader.stream_id := 1 |};
         RstStreamFrame.error_code := ErrorCode.CANCEL |};
    AnyGoAway
      {| GoAwayFrame.header :=
           {| FrameHeader.length := 0; FrameHeader.type := FrameType.GOAWAY;
              FrameHeader.flags := 0; FrameHeader.stream_id := 0 |};
         GoAwayFrame.last_stream_id := 3;
         GoAwayFrame.error_code := ErrorCode.NO_ERROR;
         GoAwayFrame.additional_debug_data := str "bye" |} ].

(** In the state that waits for a payload the pending header came from
    [read_frame_header], so its length has 24 bits. *)
Definition pending_in_range (p : Http2Parser.t) : Prop :=
  current_state_ p = READING_FRAME_PAYLOAD ->
  0 <= FrameHeader.length (pending_frame_header_ p) < 2 ^ 24.

(** The buffer holds less than the frame the parser waits for. *)
Definition incomplete (p : Http2Parser.t) : Prop :=
  match current_state_ p with
  | READING_FRAME_HEADER => Z.of_nat (List.length (buffer_ p)) < 9
  | READING_FRAME_PAYLOAD =>
      Z.of_nat (List.length (buffer_ p))
      < 9 + FrameHeader.length (pending_frame_header_ p)
  end.

(** The header the parser reads from the first nine octets of a buffer. *)
Definition header_of (buffer : octets) : FrameHeader.t :=
  {| FrameHeader.length := read_uint24_big_endian (firstn 9 buffer);
     FrameHeader.type := at_ (firstn 9 buffer) 3;
     FrameHeader.flags := at_ (firstn 9 buffer) 4;
     FrameHeader.stream_id :=
       Z.land (read_uint32_big_endian (skipn 5 (firstn 9 buffer)))
         0x7FFFFFFF |}.

(** A state of the loop with another parser. *)
Definition with_parser (st : parsed) (p : Http2Parser.t) : parsed :=
  {| total_consumed_bytes := total_consumed_bytes st;
     last_error := last_error st; parser := p;
     connection := connection st; delivered := delivered st |}.

(** A state of the loop after it left with an error code. *)
Definition stopped (st : parsed) (p : Http2Parser.t) (c : Http2Connection.t)
  (e : ParserError.t) : parsed :=
  {| total_consumed_bytes := total_consumed_bytes st;
     last_error := e; parser := p; connection := c;
     delivered := delivered st |}.

Definition awaiting_payload (buffer : octets) (h : FrameHeader.t)
  : Http2Parser.t :=
  {| current_state_ := READING_FRAME_PAYLOAD; buffer_ := buffer;
     pending_frame_header_ := h |}.

Definition sample_oversize_header : FrameHeader.t :=
  {| FrameHeader.length := 16385; FrameHeader.type := FrameType.DATA;
     FrameHeader.flags := 0; FrameHeader.stream_id := 1 |}.

(** The header half of an iteration of the loop of [parse]: the result
    with which the loop is left, or the state in which it goes on to the
    payload. *)
Definition entered (st : parsed) : parsed + parsed :=
  let p := parser st in
  match current_state_ p with
  | READING_FRAME_HEADER =>
      if Z.of_nat (List.length (buffer_ p)) <? 9
      then inl (stopped st p (connection st) ParserError.OK)
      else if FrameHeader.length (header_of (buffer_ p))
                >? ConnectionSettings.max_frame_size
                     (Http2Connection.remote_settings_ (connection st))
      then inl (stopped st
                  {| current_state_ := READING_FRAME_HEADER;
                     buffer_ := buffer_ p;
                     pending_frame_header_ := header_of (buffer_ p) |}
                  (connection st) ParserError.FRAME_SIZE_LIMIT_EXCEEDED)
      else inr (with_parser st
                  (awaiting_payload (buffer_ p) (header_of (buffer_ p))))
  | READING_FRAME_PAYLOAD => inr st
  end.

(** The payload half: the result with which the loop is left, or the
    state after the frame was delivered and removed. *)
Definition payload_step
  (cb : option (AnyHttp2Frame -> Http2Connection.t -> Http2Connection.t))
  (st : parsed) : option (parsed + parsed) :=
  let p := parser st in
  let h := pending_frame_header_ p in
  if Z.of_nat (List.length (buffer_ p)) <? 9 + FrameHeader.length h
  then Some (inl (stopped st p (connection st) ParserError.OK))
  else
    match dispatch (connection st) h
            (firstn (Z.to_nat (FrameHeader.length h)) (skipn 9 (buffer_ p)))
    with
    | None => None
    | Some (c, inr e) => Some (inl (stopped st p c e))
    | Some (c, inl fr) =>
        Some (inr
          {| total_consumed_bytes :=
               total_consumed_bytes st + (9 + FrameHeader.length h);
             last_error := ParserError.OK;
             parser :=
               {| current_state_ := READING_FRAME_HEADER;
                  buffer_ :=
                    skipn (Z.to_nat (9 + FrameHeader.length h)) (buffer_ p);
                  pending_frame_header_ := h |};
             connection := notify cb fr c;
             delivered := delivered st ++ [fr] |})
    end.

Definition iteration
  (cb : option (AnyHttp2Frame -> Http2Connection.t -> Http2Connection.t))
  (st : parsed) : option (parsed + parsed) :=
  match entered st with
  | inl r => Some (inl r)
  | inr st2 => payload_step cb st2
  end.

(** The loop state with more octets at the end of the buffer. *)
Definition extend (st : parsed) (more : octets) : parsed :=
  with_parser st
    {| current_state_ := current_state_ (parser st);
       buffer_ := buffer_ (parser st) ++ more;
       pending_frame_header_ := pending_frame_header_ (parser st) |}.

(** The loop state with the counters of an earlier run in front. *)
Definition shift (t : Z) (d : list AnyHttp2Frame) (st : parsed) : parsed :=
  {| total_consumed_bytes := t + total_consumed_bytes st;
     last_error := last_error st; parser := parser st;
     connection := connection st; delivered := d ++ delivered st |}.

Definition ranges (st : parsed) : Prop :=
  is_octets (buffer_ (parser st)) /\ pending_in_range (parser st).

(** A PING frame cut after its tenth octet, followed by a DATA frame. *)
Definition sample_first_piece : octets := [0; 0; 8; 6; 0; 0; 0; 0; 0; 1].

Definition sample_second_piece : octets := [2; 3; 4; 5; 6; 7; 8] ++ wire_data.

End FramesDefinitions.

(** ** Sending data *)

Section SendDataGeneralDefinitions.
Import Http2Connection ConnectionSettings.

(** The DATA frame [send_data] builds for a chunk. *)
Definition data_frame_octets (id : Z) (end_stream : bool) (chunk : octets)
  : octets :=
  FrameSerializer.serialize_data_frame
    {| DataFrame.header :=
         {| FrameHeader.length := 0; FrameHeader.type := FrameType.DATA;
            FrameHeader.flags :=
              if end_stream then DataFrame.END_STREAM_FLAG else 0;
            FrameHeader.stream_id := id |};
       DataFrame.pad_length := None;
       DataFrame.data := chunk |}.

(** The frames for a list of chunks: END_STREAM, if at all, on the last. *)
Fixpoint flagged_frames (id : Z) (end_stream : bool) (chunks : list octets)
  : list Action :=
  match chunks with
  | [] => []
  | [chunk] => [send_bytes (data_frame_octets id end_stream chunk)]
  | chunk :: chunks' =>
      send_bytes (data_frame_octets id false chunk)
      :: flagged_frames id end_stream chunks'
  end.

(** The stream after [sent] octets went out, the last of them with
    END_STREAM or not. *)
Definition stream_after_send (s : Http2Stream.t) (sent : Z) (ended : bool)
  : Http2Stream.t :=
  let s' :=
    {| Http2Stream.id_ := Http2Stream.id_ s;
       Http2Stream.state_ := Http2Stream.state_ s;
       Http2Stream.local_window_size_ := Http2Stream.local_window_size_ s;
       Http2Stream.remote_window_size_ :=
         Http2Stream.remote_window_size_ s - sent |} in
  if ended then Http2Stream.transition_to_half_closed_local s' else s'.

(** The connection after a call of [send_data]: the stream map, the send
    window of the connection and the calls made to the callbacks differ,
    nothing else does. *)
Definition after_send (c : Http2Connection.t)
  (streams : gmap Z Http2Stream.t) (window : Z) (acts : list Action)
  : Http2Connection.t :=
  {| is_server_ := is_server_ c; streams_ := streams;
     next_client_stream_id_ := next_client_stream_id_ c;
     next_server_stream_id_ := next_server_stream_id_ c;
     last_processed_stream_id_ := last_processed_stream_id_ c;
     going_away_ := going_away_ c;
     local_settings_ := local_settings_ c;
     remote_settings_ := remote_settings_ c;
     hpack_decoder_ := hpack_decoder_ c;
     hpack_encoder_ := hpack_encoder_ c;
     local_connection_window_size_ := local_connection_window_size_ c;
     remote_connection_window_size_ := window;
     expected_continuation_stream_id_ := expected_continuation_stream_id_ c;
     header_block_buffer_ := header_block_buffer_ c;
     header_sequence_initiator_type_ := header_sequence_initiator_type_ c;
     pending_header_initiator_frame_ := pending_header_initiator_frame_ c;
     on_send_rst_stream_ := on_send_rst_stream_ c;
     on_send_goaway_ := on_send_goaway_ c;
     on_send_bytes_ := on_send_bytes_ c;
     actions := acts |}.

End SendDataGeneralDefinitions.

(** ** Header frames *)

Section HeaderFramesDefinitions.
Import FrameSerializer Http2Parser.

(** The fields of a HEADERS frame that ends its header block, as its C++
    types and the protocol have them. *)
Definition headers_frame_in_range (f : HeadersFrame.t) : Prop :=
  let h := HeadersFrame.header f in
  FrameHeader.type h = FrameType.HEADERS /\
  0 <= FrameHeader.flags h < 256 /\
  0 < FrameHeader.stream_id h < 2 ^ 31 /\
  HeadersFrame.has_end_headers_flag f = true /\
  (HeadersFrame.has_padded_flag f = true ->
   0 <= value_or (HeadersFrame.pad_length f) 0 < 256) /\
  (HeadersFrame.has_priority_flag f = true ->
   0 <= value_or (HeadersFrame.stream_dependency f) 0 < 2 ^ 31 /\
   0 <= value_or (HeadersFrame.weight f) 0 < 256).

(** The HEADERS frame a receiver should see for a frame that was sent
    in [n] octets of payload and whose header block decodes to [hs]. *)
Definition headers_as_received (f : HeadersFrame.t) (n : Z)
  (hs : list HttpHeader) : HeadersFrame.t :=
  let priority := HeadersFrame.has_priority_flag f in
  {| HeadersFrame.header := with_length (HeadersFrame.header f) n;
     HeadersFrame.pad_length :=
       if HeadersFrame.has_padded_flag f
       then Some (value_or (HeadersFrame.pad_length f) 0) else None;
     HeadersFrame.exclusive_dependency :=
       if priority
       then Some (match HeadersFrame.exclusive_dependency f with
                  | Some b => b
                  | None => false
                  end)
       else None;
     HeadersFrame.stream_dependency :=
       if priority
       then Some (value_or (HeadersFrame.stream_dependency f) 0) else None;
     HeadersFrame.weight :=
       if priority then Some (value_or (HeadersFrame.weight f) 0) else None;
     HeadersFrame.headers := hs |}.

(** The payload of a HEADERS frame in front of the header block. *)
Definition headers_prefix (f : HeadersFrame.t) : octets :=
  (if HeadersFrame.has_padded_flag f
   then [to_uint8 (value_or (HeadersFrame.pad_length f) 0)] else [])
  ++ (if HeadersFrame.has_priority_flag f
      then write_uint32_big_endian []
             (stream_dep_val
                (match HeadersFrame.exclusive_dependency f with
                 | Some b => b
                 | None => false
                 end)
                (value_or (HeadersFrame.stream_dependency f) 0))
           ++ [to_uint8 (value_or (HeadersFrame.weight f) 0)]
      else []).

Definition headers_padding (f : HeadersFrame.t) : octets :=
  if HeadersFrame.has_padded_flag f
     && (value_or (HeadersFrame.pad_length f) 0 >? 0)
  then repeat 0 (Z.to_nat (value_or (HeadersFrame.pad_length f) 0)) else [].

(** The connection after the parser decoded a header block [block] that
    came in one frame. *)
Definition block_decoded (c : Http2Connection.t) (block : octets)
  (d : HpackDecoder.t) : Http2Connection.t :=
  Http2Connection.finish_continuation
    (Http2Connection.clear_header_block_buffer
       (Http2Connection.set_hpack_decoder
          (Http2Connection.append_to_header_block_buffer
             (Http2Connection.clear_header_block_buffer c) block) d)).

(** A HEADERS frame on stream 1 with END_HEADERS, two octets of padding
    and priority fields. *)
Definition sample_headers_frame : HeadersFrame.t :=
  {| HeadersFrame.header :=
       {| FrameHeader.length := 0; FrameHeader.type := FrameType.HEADERS;
          FrameHeader.flags := 0x2C; FrameHeader.stream_id := 1 |};
     HeadersFrame.pad_length := Some 2;
     HeadersFrame.exclusive_dependency := Some true;
     HeadersFrame.stream_dependency := Some 3;
     HeadersFrame.weight := Some 15;
     HeadersFrame.headers := sample_literals |}.






End HeaderFramesDefinitions.

(** * Verified properties *)

(** [lia] also decides goals with division and remainder by constants. *)
Ltac Zify.zify_post_hook ::= Z.to_euclidean_division_equations.

(** ** Octet arithmetic *)

(** A property of octets that holds on all 256 values holds on any octet. *)
Lemma forall_octet (P : Z -> bool) :
  forallb P (map Z.of_nat (seq 0 256)) = true ->
  forall b, 0 <= b < 256 -> P b = true.
Proof.
  intros H b Hb. rewrite forallb_forall in H. apply H.
  rewrite <- (Z2Nat.id b) by lia. apply in_map, in_seq. lia.
Qed.

Lemma land_127 (b : Z) : 0 <= b -> Z.land b 127 = b mod 128.
Proof. intros Hb. change 127 with (Z.ones 7). now rewrite Z.land_ones by lia. Qed.

Lemma land_128 (b : Z) :
  0 <= b < 256 -> Z.land b 128 = if b <? 128 then 0 else 128.
Proof.
  intros Hb.
  apply Z.eqb_eq.
  apply (forall_octet (fun b => Z.land b 128 =? if b <? 128 then 0 else 128));
    [now vm_compute | exact Hb].
Qed.

Lemma lor_128_low (x : Z) : 0 <= x < 128 -> Z.lor 128 x = 128 + x.
Proof.
  intros Hx.
  assert (H : (128 <=? x) || (Z.lor 128 x =? 128 + x) = true).
  { apply (forall_octet (fun x => (128 <=? x) || (Z.lor 128 x =? 128 + x)));
      [now vm_compute | lia]. }
  apply orb_true_iff in H as [H|H]; [lia | now apply Z.eqb_eq].
Qed.

(** ** Integer primitive *)

Section IntegerRoundTrip.
Import HpackEncoder HpackDecoder.

(** The continuation octets written by the encoder loop are read back by
    the decoder loop, which stops on the last of them. *)
Lemma integer_loops_inverse (k : nat) :
  forall (fuel : nat) (v : Z) (buf : octets),
    (k <= fuel)%nat ->
    0 <= v < 128 ^ (Z.of_nat k + 1) ->
    exists tail,
      encode_integer_loop fuel buf v = Some (buf ++ tail) /\
      forall acc m rest,
        0 <= acc -> 0 <= m -> m + 7 * (Z.of_nat k + 1) <= 70 ->
        acc + v * 2 ^ m < 2 ^ 64 ->
        decode_integer_loop (tail ++ rest) acc m
        = (acc + v * 2 ^ m, HpackError.OK, rest).
Proof.
  assert (Hlast : forall fuel v buf, 0 <= v < 128 ->
            encode_integer_loop fuel buf v = Some (buf ++ [v]) /\
            forall acc m rest,
              0 <= acc -> 0 <= m -> m + 7 <= 70 -> acc + v * 2 ^ m < 2 ^ 64 ->
              decode_integer_loop ([v] ++ rest) acc m
              = (acc + v * 2 ^ m, HpackError.OK, rest)).
  { intros fuel v buf Hv. split.
    - destruct fuel; simpl; destruct (Z.geb_spec v 128); try lia;
        unfold to_uint8; rewrite Z.mod_small by lia; reflexivity.
    - intros acc m rest Hacc Hm Hm7 Hsum. simpl.
      assert (Hq : m / 128 = 0) by (apply Z.div_small; lia).
      rewrite Hq. simpl (0 >? _). simpl andb. cbv iota.
      rewrite land_127, Z.mod_small by lia.
      rewrite Z.shiftl_mul_pow2 by lia.
      assert (0 < 2 ^ m) by (apply Z.pow_pos_nonneg; lia).
      assert (0 <= v * 2 ^ m) by (apply Z.mul_nonneg_nonneg; lia).
      unfold to_uint64.
      rewrite (Z.mod_small (v * 2 ^ m)) by lia.
      rewrite Z.mod_small by lia.
      destruct (Z.gtb_spec (m + 7) 70); [lia|].
      rewrite land_128 by lia.
      destruct (Z.ltb_spec v 128); [|lia]. reflexivity. }
  induction k as [|k IH]; intros fuel v buf Hfuel Hv.
  - destruct (Hlast fuel v buf) as [He Hd]; [simpl in Hv; lia|].
    exists [v]. split; [exact He|].
    intros acc m rest ? ? ? ?. apply Hd; lia.
  - destruct (Z.lt_ge_cases v 128) as [Hsmall|Hbig].
    + destruct (Hlast fuel v buf) as [He Hd]; [lia|].
      exists [v]. split; [exact He|].
      intros acc m rest ? ? ? ?. apply Hd; lia.
    + destruct fuel as [|fuel]; [lia|].
      assert (Hr : 0 <= v mod 128 < 128) by (apply Z.mod_pos_bound; lia).
      assert (Hv' : 0 <= v / 128 < 128 ^ (Z.of_nat k + 1)).
      { split; [apply Z.div_pos; lia|].
        apply Z.div_lt_upper_bound; [lia|].
        replace (Z.of_nat (S k) + 1) with (Z.succ (Z.of_nat k + 1)) in Hv by lia.
        rewrite Z.pow_succ_r in Hv by lia. lia. }
      destruct (IH fuel (v / 128) (buf ++ [128 + v mod 128]))
        as [tail [He Hd]]; [lia | exact Hv' |].
      exists ((128 + v mod 128) :: tail). split.
      * simpl. destruct (Z.geb_spec v 128); [|lia].
        rewrite lor_128_low by lia.
        unfold to_uint8. rewrite (Z.mod_small (128 + v mod 128)) by lia.
        rewrite He, <- app_assoc. reflexivity.
      * intros acc m rest Hacc Hm Hm7 Hsum.
        cbn [app decode_integer_loop].
        assert (Hq : m / 128 = 0) by (apply Z.div_small; lia).
        rewrite Hq. simpl (0 >? _). simpl andb. cbv iota.
        rewrite land_127 by lia.
        replace ((128 + v mod 128) mod 128) with (v mod 128)
          by (rewrite <- (Z.mod_small (v mod 128) 128) at 1 by lia;
              rewrite <- Zplus_mod_idemp_l; reflexivity).
        rewrite Z.shiftl_mul_pow2 by lia.
        assert (H2m : 0 < 2 ^ m) by (apply Z.pow_pos_nonneg; lia).
        assert (Hsplit : v * 2 ^ m
                         = v mod 128 * 2 ^ m + v / 128 * 2 ^ (m + 7)).
        { rewrite Z.pow_add_r by lia. change (2 ^ 7) with 128.
          rewrite (Z.div_mod v 128) at 1 by lia. ring. }
        assert (0 <= v / 128 * 2 ^ (m + 7)).
        { apply Z.mul_nonneg_nonneg; [lia|]. apply Z.pow_nonneg. lia. }
        assert (0 <= v mod 128 * 2 ^ m) by (apply Z.mul_nonneg_nonneg; lia).
        unfold to_uint64.
        destruct (Z.gtb_spec (m + 7) 70); [lia|].
        rewrite land_128 by lia.
        destruct (Z.ltb_spec (128 + v mod 128) 128); [lia|].
        simpl (128 =? 128). cbv iota.
        set (X := v mod 128 * 2 ^ m) in *.
        set (Y := v / 128 * 2 ^ (m + 7)) in *.
        set (W := v * 2 ^ m) in *.
        rewrite (Z.mod_small X) by lia.
        rewrite Z.mod_small by lia.
        rewrite Hd; [| lia | lia | lia | fold Y; lia].
        fold Y. f_equal. f_equal. lia.
Qed.

Lemma prefix_mask_value (N : Z) :
  1 <= N <= 7 ->
  to_uint8 (Z.shiftl 1 N - 1) = 2 ^ N - 1 /\ 1 <= 2 ^ N - 1 < 128.
Proof.
  intros HN.
  assert (N = 1 \/ N = 2 \/ N = 3 \/ N = 4 \/ N = 5 \/ N = 6 \/ N = 7)
    as HN' by lia.
  repeat (destruct HN' as [->|HN']); try subst N; vm_compute; intuition congruence.
Qed.

Lemma land_prefix_mask (N v : Z) :
  0 <= N -> Z.land v (2 ^ N - 1) = v mod 2 ^ N.
Proof.
  intros HN. rewrite <- Z.land_ones by lia. now rewrite Z.ones_equiv.
Qed.

(** Encoding any 64-bit value under an [N]-bit prefix ([1 <= N <= 7],
    no pattern bits) and decoding it again gives the value back and
    leaves the input that followed the encoding untouched.  The first
    octet emitted carries no bit above the prefix. *)
Lemma integer_roundtrip_uint64 (N v : Z) (rest : octets) :
  1 <= N <= 7 -> 0 <= v < 2 ^ 64 ->
  exists first tail,
    encode_integer [] 0 N v = Some (first :: tail) /\
    0 <= first < 128 /\
    decode_integer ((first :: tail) ++ rest) N = (v, HpackError.OK, rest).
Proof.
  intros HN Hv.
  destruct (prefix_mask_value N HN) as [Hmask HM].
  unfold encode_integer, decode_integer. rewrite Hmask.
  assert (HMM : (2 ^ N - 1) mod 2 ^ N = 2 ^ N - 1) by (apply Z.mod_small; lia).
  assert (Hland : forall x, Z.land x (2 ^ N - 1) = x mod 2 ^ N)
    by (intros x; apply land_prefix_mask; lia).
  remember (2 ^ N - 1) as M eqn:EM.
  assert (H2N : 2 ^ N = M + 1) by lia. clear EM.
  destruct (Z.ltb_spec v M) as [Hlt|Hge].
  - exists v, []. split; [|split; [lia|]].
    + rewrite Z.lor_0_l. unfold to_uint8. rewrite !Z.mod_small by lia.
      reflexivity.
    + cbn [app]. rewrite Hland, H2N, Z.mod_small by lia.
      destruct (Z.ltb_spec v M); [reflexivity|lia].
  - destruct (integer_loops_inverse 9 10 (v - M) [M]) as [tail [He Hd]].
    + lia.
    + change (128 ^ (Z.of_nat 9 + 1)) with (2 ^ 70). lia.
    + exists M, tail. split; [|split; [lia|]].
      * simpl app. rewrite Z.lor_0_l. unfold to_uint8, to_uint64.
        rewrite (Z.mod_small M), (Z.mod_small (v - M)) by lia. exact He.
      * cbn [app]. rewrite Hland, HMM.
        destruct (Z.ltb_spec M M); [lia|].
        rewrite Hd; [| lia | lia | simpl; lia | rewrite Z.pow_0_r; lia].
        f_equal. f_equal. rewrite Z.pow_0_r. lia.
Qed.

(** C1. HPACK integer primitive round-trip: for every prefix width [N] in
    4..7 and every value [v] below [2^32], [decode_integer] applied to the
    octets that [encode_integer] emits (zero prefix pattern), followed by
    any further input [rest], returns exactly [v] with no error and
    leaves exactly [rest] unconsumed. *)
Theorem hpack_integer_roundtrip (N v : Z) (rest : octets) :
  4 <= N <= 7 -> 0 <= v < 2 ^ 32 ->
  exists bytes,
    encode_integer [] 0 N v = Some bytes /\
    decode_integer (bytes ++ rest) N = (v, HpackError.OK, rest).
Proof.
  intros HN Hv.
  destruct (integer_roundtrip_uint64 N v rest) as [first [tail [He [_ Hd]]]];
    [lia | lia |].
  exists (first :: tail). split; assumption.
Qed.

(** The RFC 7541 example: 1337 under a 5-bit prefix, followed by one more
    octet of input. *)
Lemma hpack_integer_roundtrip_witness :
  (4 <= 5 <= 7 /\ 0 <= 1337 < 2 ^ 32) /\
  exists bytes,
    encode_integer [] 0 5 1337 = Some bytes /\
    decode_integer (bytes ++ [0x82]) 5 = (1337, HpackError.OK, [0x82]).
Proof.
  split; [lia|]. apply (hpack_integer_roundtrip 5 1337 [0x82]); lia.
Defined.

Example encode_integer_1337 :
  encode_integer [] 0 5 1337 = Some [31; 154; 10].
Proof. reflexivity. Qed.

End IntegerRoundTrip.

(** ** String primitive *)

Section StringPrimitive.
Import HpackEncoder HpackDecoder.

Lemma map_to_uint8_octets (s : octets) : is_octets s -> map to_uint8 s = s.
Proof.
  induction 1 as [|b s Hb _ IH]; [reflexivity|].
  simpl. rewrite IH. unfold to_uint8. now rewrite Z.mod_small by lia.
Qed.

(** Without Huffman coding the string primitive round-trips: the length
    prefix is read back and exactly the octets of the string are taken. *)
Lemma string_roundtrip_literal (s rest : octets) :
  is_octets s -> Z.of_nat (List.length s) < 2 ^ 64 ->
  exists bytes,
    encode_string [] s false = Some bytes /\
    decode_string (bytes ++ rest) = (s, HpackError.OK, rest).
Proof.
  intros Hs Hlen.
  destruct (integer_roundtrip_uint64 7 (Z.of_nat (List.length s)) (s ++ rest))
    as [first [tail [He [Hfirst Hd]]]]; [lia | lia |].
  exists ((first :: tail) ++ s). split.
  - unfold encode_string. rewrite He, map_to_uint8_octets by assumption.
    reflexivity.
  - rewrite <- app_assoc. unfold decode_string.
    cbn [app] in *. rewrite Hd.
    rewrite land_128 by lia. destruct (Z.ltb_spec first 128); [|lia].
    simpl negb. rewrite length_app.
    destruct (Z.gtb_spec (Z.of_nat (List.length s))
                (Z.of_nat (List.length s + List.length rest))); [lia|].
    rewrite Nat2Z.id, firstn_app, Nat.sub_diag, firstn_all, firstn_O.
    rewrite skipn_app, Nat.sub_diag, skipn_all, skipn_O, app_nil_r.
    reflexivity.
Qed.

(** C2. The string round-trip fails with Huffman coding switched on: for
    the three octets "000" the encoder chooses the Huffman form (two
    octets, shorter than three), and [decode_string] rejects the octets
    the encoder produced, because [huffman_decode] reports invalid padding
    as soon as a code leaves the all-ones path inside the last octet. *)
Theorem string_roundtrip_huffman_rejected :
  encode_string [] (str "000") true = Some [0x82; 0x00; 0x01] /\
  Hpack.huffman_decode [0x00; 0x01] Hpack.default_max_output_length
  = (str "0", HuffmanError.INVALID_PADDING) /\
  decode_string [0x82; 0x00; 0x01]
  = ([], HpackError.INVALID_HUFFMAN_CODE, []).
Proof. repeat split; vm_compute; reflexivity. Qed.

(** Padding alone, a proper prefix of EOS, is accepted. *)
Example huffman_decode_eos_padding :
  Hpack.huffman_decode [0xFF] Hpack.default_max_output_length
  = ([], HuffmanError.OK).
Proof. vm_compute. reflexivity. Qed.

End StringPrimitive.

(** ** Dynamic table *)

Section DynamicTable.

Lemma entry_cost_nonneg e : 32 <= entry_cost e.
Proof. unfold entry_cost. lia. Qed.

Lemma table_cost_nonneg l : 0 <= table_cost l.
Proof.
  induction l as [|e l IH]; simpl; [lia|].
  pose proof (entry_cost_nonneg e). lia.
Qed.

Lemma table_cost_app l1 l2 : table_cost (l1 ++ l2) = table_cost l1 + table_cost l2.
Proof. induction l1 as [|e l1 IH]; simpl; lia. Qed.

Lemma table_cost_rev l : table_cost (rev l) = table_cost l.
Proof.
  induction l as [|e l IH]; simpl; [reflexivity|].
  rewrite table_cost_app, IH. simpl. lia.
Qed.

Lemma sizes_are_costs_firstn k l :
  sizes_are_costs l -> sizes_are_costs (firstn k l).
Proof.
  unfold sizes_are_costs. revert k.
  induction l as [|e l IH]; intros [|k] H; simpl; try constructor;
    inversion H; subst; auto.
Qed.

Lemma sizes_are_costs_rev l : sizes_are_costs l -> sizes_are_costs (rev l).
Proof. unfold sizes_are_costs. intros H. now apply Forall_rev. Qed.

(** What the eviction loop leaves: a suffix of the deque seen from its
    back, a counter that still is the 32-bit sum of the costs, and either
    an empty deque or room for [required_space]. *)
Lemma evict_from_back_spec (l : list DynamicTableEntry) :
  forall cur req max,
    sizes_are_costs l ->
    cur = table_cost l mod 2 ^ 32 ->
    exists k,
      fst (evict_from_back l cur req max) = skipn k l /\
      snd (evict_from_back l cur req max) = table_cost (skipn k l) mod 2 ^ 32 /\
      (skipn k l = [] \/ to_uint32 (snd (evict_from_back l cur req max) + req) <= max).
Proof.
  induction l as [|e l IH]; intros cur req max Hs Hcur.
  - exists 0%nat. simpl. auto.
  - simpl. destruct (Z.gtb_spec (to_uint32 (cur + req)) max) as [Hgt|Hle].
    + inversion Hs as [|? ? He Hl]; subst.
      destruct (IH (to_uint32 (table_cost (e :: l) mod 2 ^ 32
                               - to_uint32 (size e))) req max Hl)
        as [k [H1 [H2 H3]]].
      * rewrite He. unfold to_uint32. simpl table_cost.
        generalize (entry_cost e) (table_cost l). intros a b.
        change (2 ^ 32) with 4294967296. lia.
      * exists (S k). simpl. auto.
    + exists 0%nat. simpl. split; [reflexivity|]. split; [exact Hcur|].
      right. exact Hle.
Qed.

(** The same loop when the additions cannot wrap: the counter is the sum
    itself. *)
Lemma evict_from_back_exact (l : list DynamicTableEntry) :
  forall cur req max,
    sizes_are_costs l ->
    cur = table_cost l -> cur + req < 2 ^ 32 -> 0 <= req ->
    snd (evict_from_back l cur req max)
    = table_cost (fst (evict_from_back l cur req max)) /\
    snd (evict_from_back l cur req max) <= cur.
Proof.
  induction l as [|e l IH]; intros cur req max Hs Hcur Hsum Hreq.
  - simpl. split; [exact Hcur | lia].
  - simpl. destruct (Z.gtb_spec (to_uint32 (cur + req)) max) as [Hgt|Hle].
    + inversion Hs as [|? ? He Hl]; subst.
      pose proof (entry_cost_nonneg e). pose proof (table_cost_nonneg l).
      simpl table_cost in *.
      assert (Hnew : to_uint32 (entry_cost e + table_cost l - to_uint32 (size e))
                     = table_cost l).
      { rewrite He. unfold to_uint32. change (2 ^ 32) with 4294967296. lia. }
      rewrite Hnew.
      destruct (IH (table_cost l) req max Hl eq_refl) as [H1 H2]; [lia|lia|].
      split; [exact H1 | lia].
    + simpl. split; [exact Hcur | lia].
Qed.

Import HpackDecoder.

Lemma decoder_evict_spec (d : HpackDecoder.t) (req : Z) :
  sizes_are_costs (dynamic_table_ d) ->
  current_dynamic_table_size_ d = table_cost (dynamic_table_ d) mod 2 ^ 32 ->
  let d' := evict_from_dynamic_table d req in
  (exists k, dynamic_table_ d' = firstn k (dynamic_table_ d)) /\
  sizes_are_costs (dynamic_table_ d') /\
  current_dynamic_table_size_ d' = table_cost (dynamic_table_ d') mod 2 ^ 32 /\
  max_dynamic_table_size_ d' = max_dynamic_table_size_ d /\
  (dynamic_table_ d' = []
   \/ to_uint32 (current_dynamic_table_size_ d' + req)
      <= max_dynamic_table_size_ d).
Proof.
  intros Hs Hc. unfold evict_from_dynamic_table.
  destruct (evict_from_back_spec (rev (dynamic_table_ d))
              (current_dynamic_table_size_ d) req (max_dynamic_table_size_ d))
    as [k [H1 [H2 H3]]].
  - now apply sizes_are_costs_rev.
  - now rewrite table_cost_rev.
  - destruct (evict_from_back _ _ _ _) as [kept cur] eqn:E.
    simpl in *. subst kept.
    assert (Hpre : rev (skipn k (rev (dynamic_table_ d)))
                   = firstn (List.length (dynamic_table_ d) - k)
                       (dynamic_table_ d))
      by (rewrite skipn_rev, rev_involutive; reflexivity).
    rewrite Hpre. repeat split.
    + eexists. reflexivity.
    + now apply sizes_are_costs_firstn.
    + rewrite <- Hpre, table_cost_rev. exact H2.
    + destruct H3 as [H3|H3]; [left|right; exact H3].
      rewrite <- Hpre, H3. reflexivity.
Qed.

Lemma decoder_new_inv (max0 : Z) : 0 <= max0 < 2 ^ 32 -> decoder_inv (new max0).
Proof. intros H. unfold decoder_inv, new. simpl. repeat split; try lia. constructor. Qed.

Lemma decoder_set_max_inv (d : HpackDecoder.t) (n : Z) :
  decoder_inv d -> 0 <= n < 2 ^ 32 ->
  decoder_inv (set_max_dynamic_table_size d n).
Proof.
  intros [Hs [Hc [Hm Hle]]] Hn. unfold set_max_dynamic_table_size.
  match goal with |- decoder_inv (evict_from_dynamic_table ?d0 0) =>
    destruct (decoder_evict_spec d0 0 Hs Hc) as [_ [Hs' [Hc' [Hm' Hroom]]]]
  end.
  simpl in Hm'. unfold decoder_inv. rewrite Hm'.
  repeat split; try assumption; try lia.
  destruct Hroom as [Hnil|Hroom].
  - rewrite Hc', Hnil. simpl. lia.
  - simpl in Hroom. rewrite Hc' in *. unfold to_uint32 in Hroom.
    change (2 ^ 32) with 4294967296 in *.
    generalize dependent (table_cost (dynamic_table_ (evict_from_dynamic_table
      {| dynamic_table_ := dynamic_table_ d;
         current_dynamic_table_size_ := current_dynamic_table_size_ d;
         max_dynamic_table_size_ := n |} 0))).
    intros c _ Hroom. lia.
Qed.

Lemma decoder_add_inv (d : HpackDecoder.t) (h : HttpHeader) :
  decoder_inv d -> decoder_inv (add_to_dynamic_table d h).
Proof.
  intros [Hs [Hc [Hm Hle]]]. unfold add_to_dynamic_table.
  fold (header_cost h).
  destruct (Z.gtb_spec (header_cost h) (max_dynamic_table_size_ d)) as [Hbig|Hfit].
  - unfold decoder_inv. simpl. repeat split; try lia. constructor.
  - assert (Hcost : 32 <= header_cost h) by (unfold header_cost; lia).
    assert (Hreq : to_uint32 (header_cost h) = header_cost h)
      by (unfold to_uint32; apply Z.mod_small; lia).
    rewrite Hreq.
    destruct (decoder_evict_spec d (header_cost h) Hs Hc)
      as [_ [Hs' [Hc' [Hm' Hroom]]]].
    unfold decoder_inv. simpl. rewrite Hm'. repeat split; try lia.
    + constructor; [reflexivity | exact Hs'].
    + rewrite Hc'. unfold to_uint32, entry_cost, header_cost. simpl.
      change (2 ^ 32) with 4294967296. lia.
    + destruct Hroom as [Hnil|Hroom]; [|exact Hroom].
      rewrite Hc', Hnil. simpl. unfold to_uint32.
      change (2 ^ 32) with 4294967296 in *. lia.
Qed.

Lemma decoder_step_inv (d : HpackDecoder.t) (op : table_op) :
  decoder_inv d -> op_in_range op -> decoder_inv (decoder_step d op).
Proof.
  intros Hd Hop. destruct op as [h|n]; simpl.
  - now apply decoder_add_inv.
  - now apply decoder_set_max_inv.
Qed.

Lemma decoder_run_inv (ops : list table_op) :
  forall d, decoder_inv d -> Forall op_in_range ops ->
            decoder_inv (fold_left decoder_step ops d).
Proof.
  induction ops as [|op ops IH]; intros d Hd Hops; simpl; [exact Hd|].
  inversion Hops; subst. apply IH; [|assumption].
  now apply decoder_step_inv.
Qed.

(** When no capacity reaches [2^31] the 32-bit additions do not wrap and
    the counter is the sum of the costs itself. *)
Lemma decoder_step_exact (d : HpackDecoder.t) (op : table_op) :
  decoder_inv d ->
  current_dynamic_table_size_ d = table_cost (dynamic_table_ d) ->
  max_dynamic_table_size_ d < 2 ^ 31 ->
  op_in_range op -> op_below_2_31 op ->
  current_dynamic_table_size_ (decoder_step d op)
  = table_cost (dynamic_table_ (decoder_step d op)) /\
  max_dynamic_table_size_ (decoder_step d op) < 2 ^ 31.
Proof.
  intros [Hs [Hc [Hm Hle]]] Hex Hmax Hr Hb.
  pose proof (table_cost_nonneg (dynamic_table_ d)) as Hnn.
  destruct op as [h|n]; simpl in *.
  - unfold add_to_dynamic_table. fold (header_cost h).
    destruct (Z.gtb_spec (header_cost h) (max_dynamic_table_size_ d)) as [Hbig|Hfit].
    + simpl. split; [reflexivity | exact Hmax].
    + assert (Hcost : 32 <= header_cost h) by (unfold header_cost; lia).
      assert (Hreq : to_uint32 (header_cost h) = header_cost h)
        by (unfold to_uint32; apply Z.mod_small; lia).
      rewrite Hreq. unfold evict_from_dynamic_table.
      destruct (evict_from_back_exact (rev (dynamic_table_ d))
                  (current_dynamic_table_size_ d) (header_cost h)
                  (max_dynamic_table_size_ d)) as [H1 H2];
        [now apply sizes_are_costs_rev | now rewrite table_cost_rev | lia | lia |].
      destruct (evict_from_back _ _ _ _) as [kept cur] eqn:E. simpl in *.
      split; [|exact Hmax].
      rewrite table_cost_rev, <- H1.
      pose proof (table_cost_nonneg kept).
      unfold to_uint32, entry_cost, header_cost in *. simpl.
      change (2 ^ 32) with 4294967296. change (2 ^ 31) with 2147483648 in *.
      lia.
  - unfold set_max_dynamic_table_size, evict_from_dynamic_table. simpl.
    destruct (evict_from_back_exact (rev (dynamic_table_ d))
                (current_dynamic_table_size_ d) 0 n) as [H1 H2];
      [now apply sizes_are_costs_rev | now rewrite table_cost_rev | lia | lia |].
    destruct (evict_from_back _ _ _ _) as [kept cur] eqn:E. simpl in *.
    split; [|exact Hb]. now rewrite table_cost_rev.
Qed.

Lemma decoder_run_exact (ops : list table_op) :
  forall d,
    decoder_inv d ->
    current_dynamic_table_size_ d = table_cost (dynamic_table_ d) ->
    max_dynamic_table_size_ d < 2 ^ 31 ->
    Forall op_in_range ops -> Forall op_below_2_31 ops ->
    current_dynamic_table_size_ (fold_left decoder_step ops d)
    = table_cost (dynamic_table_ (fold_left decoder_step ops d)).
Proof.
  induction ops as [|op ops IH]; intros d Hd Hex Hmax Hr Hb; simpl;
    [exact Hex|].
  inversion Hr as [|? ? Hr1 Hr2]; inversion Hb as [|? ? Hb1 Hb2]; subst.
  destruct (decoder_step_exact d op) as [E1 E2]; try assumption.
  apply IH; try assumption. now apply decoder_step_inv.
Qed.

(** The encoder's table operations are the decoder's. *)
Lemma as_decoder_step (e : HpackEncoder.t) (op : table_op) :
  as_decoder (encoder_step e op) = decoder_step (as_decoder e) op.
Proof.
  destruct op as [h|n]; simpl.
  - unfold HpackEncoder.add_to_dynamic_table, add_to_dynamic_table.
    simpl. destruct (_ >? _); [reflexivity|].
    unfold HpackEncoder.evict_from_dynamic_table, evict_from_dynamic_table.
    simpl. destruct (evict_from_back _ _ _ _) as [kept cur]. reflexivity.
  - unfold HpackEncoder.set_own_max_dynamic_table_size,
      set_max_dynamic_table_size,
      HpackEncoder.evict_from_dynamic_table, evict_from_dynamic_table.
    simpl. destruct (evict_from_back _ _ _ _) as [kept cur]. reflexivity.
Qed.

Lemma as_decoder_run (ops : list table_op) :
  forall e, as_decoder (fold_left encoder_step ops e)
            = fold_left decoder_step ops (as_decoder e).
Proof.
  induction ops as [|op ops IH]; intros e; simpl; [reflexivity|].
  now rewrite IH, as_decoder_step.
Qed.

Lemma newest_fitting_all (l : list DynamicTableEntry) :
  forall room, table_cost l <= room -> newest_fitting l room = l.
Proof.
  induction l as [|e l IH]; intros room H; [reflexivity|].
  cbn [newest_fitting table_cost fold_right] in *.
  pose proof (table_cost_nonneg l). fold (table_cost l) in H.
  destruct (Z.leb_spec (entry_cost e) room); [|lia].
  rewrite IH by lia. reflexivity.
Qed.

Lemma newest_fitting_without_oldest (l : list DynamicTableEntry)
  (x : DynamicTableEntry) :
  forall room, table_cost (l ++ [x]) > room ->
               newest_fitting (l ++ [x]) room = newest_fitting l room.
Proof.
  induction l as [|e l IH]; intros room H.
  - cbn [app newest_fitting]. cbn in H.
    destruct (Z.leb_spec (entry_cost x) room); [lia|reflexivity].
  - cbn [app newest_fitting].
    destruct (Z.leb_spec (entry_cost e) room); [|reflexivity].
    rewrite IH; [reflexivity|].
    change (table_cost ((e :: l) ++ [x]))
      with (entry_cost e + table_cost (l ++ [x])) in H. lia.
Qed.

Lemma newest_fitting_cost (l : list DynamicTableEntry) :
  forall room, 0 <= room -> table_cost (newest_fitting l room) <= room.
Proof.
  induction l as [|e l IH]; intros room H; [cbn; lia|].
  cbn [newest_fitting].
  destruct (Z.leb_spec (entry_cost e) room); [|cbn; lia].
  change (table_cost (e :: newest_fitting l (room - entry_cost e)))
    with (entry_cost e + table_cost (newest_fitting l (room - entry_cost e))).
  specialize (IH (room - entry_cost e)). lia.
Qed.

(** Without wrap-around the eviction loop keeps exactly the newest
    entries that fit beside the required space. *)
Lemma evict_from_back_newest (l : list DynamicTableEntry) :
  forall req max,
    sizes_are_costs l -> 0 <= req -> table_cost l + req < 2 ^ 32 ->
    evict_from_back (rev l) (table_cost l) req max
    = (rev (newest_fitting l (max - req)),
       table_cost (newest_fitting l (max - req))).
Proof.
  induction l as [|x l IH] using rev_ind; intros req max Hs Hreq Hsum.
  - reflexivity.
  - rewrite rev_app_distr. cbn [rev app evict_from_back].
    pose proof (table_cost_nonneg l) as Hl.
    pose proof (entry_cost_nonneg x) as Hx.
    rewrite table_cost_app in *. cbn [table_cost fold_right] in *.
    apply Forall_app in Hs. destruct Hs as [Hs Hsx].
    inversion Hsx as [|? ? Hsize _]; subst.
    assert (E : to_uint32 (table_cost l + (entry_cost x + 0) + req)
                = table_cost l + entry_cost x + req)
      by (unfold to_uint32; rewrite Z.mod_small; lia).
    rewrite E.
    destruct (Z.gtb_spec (table_cost l + entry_cost x + req) max) as [Hgt|Hle].
    + rewrite newest_fitting_without_oldest
        by (rewrite table_cost_app; cbn [table_cost fold_right]; lia).
      assert (E' : to_uint32 (table_cost l + (entry_cost x + 0)
                              - to_uint32 (size x)) = table_cost l).
      { rewrite Hsize. unfold to_uint32.
        rewrite (Z.mod_small (entry_cost x)) by lia.
        rewrite Z.mod_small; lia. }
      rewrite E'. apply IH; [assumption|lia|lia].
    + rewrite newest_fitting_all
        by (rewrite table_cost_app; cbn [table_cost fold_right]; lia).
      rewrite rev_app_distr, table_cost_app. reflexivity.
Qed.

(** A capacity change on an exact table. *)
Lemma decoder_set_max_newest (d : HpackDecoder.t) (n : Z) :
  decoder_inv d ->
  current_dynamic_table_size_ d = table_cost (dynamic_table_ d) ->
  dynamic_table_ (set_max_dynamic_table_size d n)
  = newest_fitting (dynamic_table_ d) n.
Proof.
  intros (Hs & Hc & Hm & Hle) Hex.
  unfold set_max_dynamic_table_size, evict_from_dynamic_table.
  cbn [dynamic_table_ current_dynamic_table_size_ max_dynamic_table_size_].
  rewrite Hex, evict_from_back_newest; [|assumption|lia|lia].
  cbn [dynamic_table_]. rewrite rev_involutive, Z.sub_0_r. reflexivity.
Qed.

(** An insertion that fits, on an exact table below [2^31]. *)
Lemma decoder_add_newest (d : HpackDecoder.t) (h : HttpHeader) :
  decoder_inv d ->
  current_dynamic_table_size_ d = table_cost (dynamic_table_ d) ->
  max_dynamic_table_size_ d < 2 ^ 31 ->
  header_cost h <= max_dynamic_table_size_ d ->
  dynamic_table_ (add_to_dynamic_table d h)
  = mkDynamicTableEntry (name h) (value h)
    :: newest_fitting (dynamic_table_ d)
         (max_dynamic_table_size_ d - header_cost h).
Proof.
  intros (Hs & Hc & Hm & Hle) Hex Hmax Hfit.
  unfold add_to_dynamic_table. fold (header_cost h).
  destruct (Z.gtb_spec (header_cost h) (max_dynamic_table_size_ d)); [lia|].
  assert (Hcost : 32 <= header_cost h) by (unfold header_cost; lia).
  assert (Hreq : to_uint32 (header_cost h) = header_cost h)
    by (unfold to_uint32; apply Z.mod_small; lia).
  rewrite Hreq. unfold evict_from_dynamic_table.
  rewrite Hex, evict_from_back_newest; [|assumption|lia|lia].
  cbn [dynamic_table_]. rewrite rev_involutive. reflexivity.
Qed.

(** One insertion that exceeds the capacity empties the table. *)
Lemma decoder_add_oversize (d : HpackDecoder.t) (h : HttpHeader) :
  header_cost h > max_dynamic_table_size_ d ->
  dynamic_table_ (add_to_dynamic_table d h) = [] /\
  current_dynamic_table_size_ (add_to_dynamic_table d h) = 0.
Proof.
  intros Hbig. unfold add_to_dynamic_table. fold (header_cost h).
  destruct (Z.gtb_spec (header_cost h) (max_dynamic_table_size_ d)); [|lia].
  simpl. auto.
Qed.

(** Two insertions of a header of cost [2^31 + 32] into an empty table of
    capacity [2^32 - 1]: the second addition wraps, nothing is evicted and
    the counter ends at 64. *)
Lemma decoder_add_wraps (h : HttpHeader) :
  header_cost h = 2 ^ 31 + 32 ->
  add_to_dynamic_table (add_to_dynamic_table (new 4294967295) h) h
  = {| dynamic_table_ :=
         [mkDynamicTableEntry (name h) (value h);
          mkDynamicTableEntry (name h) (value h)];
       current_dynamic_table_size_ := 64;
       max_dynamic_table_size_ := 4294967295 |}.
Proof.
  intros H. unfold add_to_dynamic_table, new. fold (header_cost h).
  cbn [dynamic_table_ current_dynamic_table_size_ max_dynamic_table_size_].
  rewrite H. change (2 ^ 31 + 32 >? 4294967295) with false. cbv iota.
  unfold evict_from_dynamic_table.
  cbn [dynamic_table_ current_dynamic_table_size_ max_dynamic_table_size_
       rev app evict_from_back].
  change (to_uint32 (2 ^ 31 + 32)) with 2147483680.
  change (to_uint32 (0 + 2147483680)) with 2147483680.
  cbn [rev app evict_from_back dynamic_table_ current_dynamic_table_size_
       max_dynamic_table_size_].
  change (to_uint32 (2147483680 + 2147483680)) with 64.
  change (64 >? 4294967295) with false. cbv iota.
  cbn [rev app dynamic_table_ current_dynamic_table_size_
       max_dynamic_table_size_].
  reflexivity.
Qed.

Lemma large_header_cost : header_cost large_header = 2 ^ 31 + 32.
Proof.
  unfold header_cost. change (name large_header) with large_name.
  change (value large_header) with (@nil Z). unfold large_name.
  rewrite repeat_length, Z2Nat.id by lia. cbn [List.length]. lia.
Qed.

(** The capacity stays below [2^31] when every capacity of the sequence
    is. *)
Lemma decoder_run_below (ops : list table_op) :
  forall d,
    decoder_inv d ->
    current_dynamic_table_size_ d = table_cost (dynamic_table_ d) ->
    max_dynamic_table_size_ d < 2 ^ 31 ->
    Forall op_in_range ops -> Forall op_below_2_31 ops ->
    max_dynamic_table_size_ (fold_left decoder_step ops d) < 2 ^ 31.
Proof.
  induction ops as [|op ops IH]; intros d Hd Hex Hmax Hr Hb; simpl;
    [exact Hmax|].
  inversion Hr as [|? ? Hr1 Hr2]; inversion Hb as [|? ? Hb1 Hb2]; subst.
  destruct (decoder_step_exact d op) as [E1 E2]; try assumption.
  apply IH; try assumption. now apply decoder_step_inv.
Qed.

(** The same two insertions for both codecs, with what the table holds
    afterwards. *)
Lemma two_insertions_wrap (h : HttpHeader) :
  header_cost h = 2 ^ 31 + 32 ->
  let d :=
    HpackDecoder.add_to_dynamic_table
      (HpackDecoder.add_to_dynamic_table (HpackDecoder.new 4294967295) h) h in
  let e :=
    HpackEncoder.add_to_dynamic_table
      (HpackEncoder.add_to_dynamic_table (HpackEncoder.new 4294967295) h) h in
  (List.length (HpackDecoder.dynamic_table_ d) = 2%nat /\
   HpackDecoder.current_dynamic_table_size_ d = 64 /\
   HpackDecoder.max_dynamic_table_size_ d = 4294967295 /\
   table_cost (HpackDecoder.dynamic_table_ d) = 2 ^ 32 + 64 /\
   table_cost (HpackDecoder.dynamic_table_ d)
   > HpackDecoder.max_dynamic_table_size_ d) /\
  (List.length (HpackEncoder.dynamic_table_ e) = 2%nat /\
   HpackEncoder.current_dynamic_table_size_ e = 64 /\
   HpackEncoder.own_max_dynamic_table_size_ e = 4294967295 /\
   table_cost (HpackEncoder.dynamic_table_ e) = 2 ^ 32 + 64 /\
   table_cost (HpackEncoder.dynamic_table_ e)
   > HpackEncoder.own_max_dynamic_table_size_ e).
Proof.
  intros H d e.
  pose proof (decoder_add_wraps h H) as Hd. fold d in Hd.
  assert (He : as_decoder e = d).
  { unfold d, e.
    pose proof (as_decoder_step (HpackEncoder.new 4294967295) (Insert h)) as E1.
    pose proof (as_decoder_step
                  (HpackEncoder.add_to_dynamic_table
                     (HpackEncoder.new 4294967295) h) (Insert h)) as E2.
    cbn [encoder_step decoder_step] in E1, E2. rewrite E2, E1. reflexivity. }
  assert (Hcost : table_cost [mkDynamicTableEntry (name h) (value h);
                              mkDynamicTableEntry (name h) (value h)]
                  = 2 ^ 32 + 64).
  { unfold header_cost in H.
    unfold table_cost, entry_cost, mkDynamicTableEntry.
    cbn [fold_right entry_name entry_value]. lia. }
  assert (Ht : HpackEncoder.dynamic_table_ e = dynamic_table_ d)
    by (rewrite <- He; reflexivity).
  assert (Hc : HpackEncoder.current_dynamic_table_size_ e
               = current_dynamic_table_size_ d)
    by (rewrite <- He; reflexivity).
  assert (Hm : HpackEncoder.own_max_dynamic_table_size_ e
               = max_dynamic_table_size_ d)
    by (rewrite <- He; reflexivity).
  rewrite Ht, Hc, Hm, Hd.
  cbn [dynamic_table_ current_dynamic_table_size_ max_dynamic_table_size_].
  rewrite Hcost. cbn [List.length]. repeat split; lia.
Qed.

(** C3. HPACK dynamic table invariant, at the input where it fails.  A
    decoder or encoder table of capacity [2^32 - 1] receives twice a header
    whose name has [2^31] octets, of cost [2^31 + 32].  Both insertions
    fit the capacity; in the second the 32-bit sum of the counter and the
    required space wraps to 64, so nothing is evicted.  The table then
    holds two entries whose costs sum to [2^32 + 64], more than the
    capacity, and [current_dynamic_table_size_] is 64. *)
Theorem dynamic_table_sum_exceeds_capacity :
  let d :=
    HpackDecoder.add_to_dynamic_table
      (HpackDecoder.add_to_dynamic_table (HpackDecoder.new 4294967295)
         large_header) large_header in
  let e :=
    HpackEncoder.add_to_dynamic_table
      (HpackEncoder.add_to_dynamic_table (HpackEncoder.new 4294967295)
         large_header) large_header in
  (List.length (HpackDecoder.dynamic_table_ d) = 2%nat /\
   HpackDecoder.current_dynamic_table_size_ d = 64 /\
   HpackDecoder.max_dynamic_table_size_ d = 4294967295 /\
   table_cost (HpackDecoder.dynamic_table_ d) = 2 ^ 32 + 64 /\
   table_cost (HpackDecoder.dynamic_table_ d)
   > HpackDecoder.max_dynamic_table_size_ d) /\
  (List.length (HpackEncoder.dynamic_table_ e) = 2%nat /\
   HpackEncoder.current_dynamic_table_size_ e = 64 /\
   HpackEncoder.own_max_dynamic_table_size_ e = 4294967295 /\
   table_cost (HpackEncoder.dynamic_table_ e) = 2 ^ 32 + 64 /\
   table_cost (HpackEncoder.dynamic_table_ e)
   > HpackEncoder.own_max_dynamic_table_size_ e).
Proof. exact (two_insertions_wrap large_header large_header_cost). Qed.

(** X16. Dynamic table of decoder ([d]) and encoder ([e]) after any
    sequence of insertions and capacity changes on a fresh table.  The
    counter [current_dynamic_table_size_] never exceeds the capacity and
    is the sum of the entry costs [|name| + |value| + 32] in 32-bit
    arithmetic; an insertion whose cost exceeds the capacity leaves the
    table empty, the entry not stored.  As long as no capacity reaches
    [2^31] the counter is the sum itself, a capacity change keeps exactly
    the newest entries that fit the new capacity, and an insertion that
    fits puts the entry in front of exactly the newest entries that fit
    beside it: entries leave from the back, oldest first, and only as
    many as needed. *)
Theorem dynamic_table_invariant (ops : list table_op) (max0 : Z) :
  0 <= max0 < 2 ^ 32 -> Forall op_in_range ops ->
  let d := fold_left decoder_step ops (HpackDecoder.new max0) in
  let e := fold_left encoder_step ops (HpackEncoder.new max0) in
  (HpackDecoder.current_dynamic_table_size_ d
   <= HpackDecoder.max_dynamic_table_size_ d /\
   HpackDecoder.current_dynamic_table_size_ d
   = table_cost (HpackDecoder.dynamic_table_ d) mod 2 ^ 32) /\
  (HpackEncoder.current_dynamic_table_size_ e
   <= HpackEncoder.own_max_dynamic_table_size_ e /\
   HpackEncoder.current_dynamic_table_size_ e
   = table_cost (HpackEncoder.dynamic_table_ e) mod 2 ^ 32) /\
  (forall h,
      header_cost h > HpackDecoder.max_dynamic_table_size_ d ->
      (HpackDecoder.dynamic_table_ (HpackDecoder.add_to_dynamic_table d h) = [] /\
       HpackDecoder.current_dynamic_table_size_
         (HpackDecoder.add_to_dynamic_table d h) = 0) /\
      (HpackEncoder.dynamic_table_ (HpackEncoder.add_to_dynamic_table e h) = [] /\
       HpackEncoder.current_dynamic_table_size_
         (HpackEncoder.add_to_dynamic_table e h) = 0)) /\
  (max0 < 2 ^ 31 -> Forall op_below_2_31 ops ->
   (HpackDecoder.current_dynamic_table_size_ d
    = table_cost (HpackDecoder.dynamic_table_ d) /\
    HpackEncoder.current_dynamic_table_size_ e
    = table_cost (HpackEncoder.dynamic_table_ e)) /\
   (forall n,
       HpackDecoder.dynamic_table_
         (HpackDecoder.set_max_dynamic_table_size d n)
       = newest_fitting (HpackDecoder.dynamic_table_ d) n /\
       HpackEncoder.dynamic_table_
         (fst (HpackEncoder.set_own_max_dynamic_table_size e n))
       = newest_fitting (HpackEncoder.dynamic_table_ e) n) /\
   (forall h,
       header_cost h <= HpackDecoder.max_dynamic_table_size_ d ->
       HpackDecoder.dynamic_table_ (HpackDecoder.add_to_dynamic_table d h)
       = mkDynamicTableEntry (name h) (value h)
         :: newest_fitting (HpackDecoder.dynamic_table_ d)
              (HpackDecoder.max_dynamic_table_size_ d - header_cost h) /\
       HpackEncoder.dynamic_table_ (HpackEncoder.add_to_dynamic_table e h)
       = mkDynamicTableEntry (name h) (value h)
         :: newest_fitting (HpackEncoder.dynamic_table_ e)
              (HpackEncoder.own_max_dynamic_table_size_ e - header_cost h))).
Proof.
  intros Hmax Hops d e.
  assert (Hde : as_decoder e = d) by (subst d e; apply as_decoder_run).
  assert (Hinv : decoder_inv d).
  { subst d. apply decoder_run_inv; [|exact Hops]. now apply decoder_new_inv. }
  assert (Hadd : forall h, as_decoder (HpackEncoder.add_to_dynamic_table e h)
                           = add_to_dynamic_table d h)
    by (intros h; rewrite <- Hde; apply (as_decoder_step e (Insert h))).
  assert (Hset : forall n,
             as_decoder (fst (HpackEncoder.set_own_max_dynamic_table_size e n))
             = set_max_dynamic_table_size d n)
    by (intros n; rewrite <- Hde; apply (as_decoder_step e (Resize n))).
  assert (Ht : HpackEncoder.dynamic_table_ e = dynamic_table_ d)
    by (rewrite <- Hde; reflexivity).
  assert (Hc : HpackEncoder.current_dynamic_table_size_ e
               = current_dynamic_table_size_ d)
    by (rewrite <- Hde; reflexivity).
  assert (Hm : HpackEncoder.own_max_dynamic_table_size_ e
               = max_dynamic_table_size_ d)
    by (rewrite <- Hde; reflexivity).
  destruct Hinv as [Hs [Hcost [Hrange Hle]]].
  assert (Hinv : decoder_inv d) by (repeat split; assumption || lia).
  rewrite Ht, Hc, Hm.
  split; [split; assumption|]. split; [split; assumption|].
  split.
  - intros h Hbig. pose proof (decoder_add_oversize d h Hbig) as Hp.
    split; [exact Hp|].
    change (HpackEncoder.dynamic_table_ (HpackEncoder.add_to_dynamic_table e h))
      with (dynamic_table_ (as_decoder (HpackEncoder.add_to_dynamic_table e h))).
    change (HpackEncoder.current_dynamic_table_size_
              (HpackEncoder.add_to_dynamic_table e h))
      with (current_dynamic_table_size_
              (as_decoder (HpackEncoder.add_to_dynamic_table e h))).
    rewrite Hadd. exact Hp.
  - intros Hsmall Hb.
    assert (Hex : current_dynamic_table_size_ d = table_cost (dynamic_table_ d)).
    { subst d. apply decoder_run_exact; try assumption.
      - now apply decoder_new_inv.
      - reflexivity. }
    assert (Hcap : max_dynamic_table_size_ d < 2 ^ 31).
    { subst d. apply decoder_run_below; try assumption.
      - now apply decoder_new_inv.
      - reflexivity. }
    split; [split; exact Hex|]. split.
    + intros n. pose proof (decoder_set_max_newest d n Hinv Hex) as Hp.
      split; [exact Hp|].
      change (HpackEncoder.dynamic_table_
                (fst (HpackEncoder.set_own_max_dynamic_table_size e n)))
        with (dynamic_table_
                (as_decoder
                   (fst (HpackEncoder.set_own_max_dynamic_table_size e n)))).
      rewrite Hset. exact Hp.
    + intros h Hfit.
      pose proof (decoder_add_newest d h Hinv Hex Hcap Hfit) as Hp.
      split; [exact Hp|].
      change (HpackEncoder.dynamic_table_ (HpackEncoder.add_to_dynamic_table e h))
        with (dynamic_table_ (as_decoder (HpackEncoder.add_to_dynamic_table e h))).
      rewrite Hadd. exact Hp.
Qed.

(** The invariant on two insertions into a table of capacity 4096, and
    the capacity change to 60 that follows them in the sample run. *)
Lemma dynamic_table_invariant_witness :
  (0 <= 4096 < 2 ^ 32 /\ Forall op_in_range (firstn 2 sample_ops) /\
   4096 < 2 ^ 31 /\ Forall op_below_2_31 (firstn 2 sample_ops)) /\
  HpackDecoder.dynamic_table_
    (HpackDecoder.set_max_dynamic_table_size
       (fold_left decoder_step (firstn 2 sample_ops) (HpackDecoder.new 4096))
       60)
  = newest_fitting
      (HpackDecoder.dynamic_table_
         (fold_left decoder_step (firstn 2 sample_ops)
            (HpackDecoder.new 4096))) 60.
Proof.
  assert (H : 0 <= 4096 < 2 ^ 32 /\ Forall op_in_range (firstn 2 sample_ops) /\
              4096 < 2 ^ 31 /\ Forall op_below_2_31 (firstn 2 sample_ops))
    by (split; [lia|]; split; [repeat constructor|];
        split; [lia | repeat constructor]).
  split; [exact H|].
  destruct H as (H1 & H2 & H3 & H4).
  exact (proj1 (proj1 (proj2 (proj2 (proj2 (proj2
           (dynamic_table_invariant (firstn 2 sample_ops) 4096 H1 H2)))
           H3 H4)) 60)).
Defined.

Example sample_run_table :
  map entry_name
    (HpackDecoder.dynamic_table_
       (fold_left decoder_step sample_ops (HpackDecoder.new 4096))) = [] /\
  map entry_name
    (HpackDecoder.dynamic_table_
       (fold_left decoder_step (firstn 3 sample_ops) (HpackDecoder.new 4096)))
  = [str "cache-control"] /\
  map entry_name
    (newest_fitting
       (HpackDecoder.dynamic_table_
          (fold_left decoder_step (firstn 2 sample_ops)
             (HpackDecoder.new 4096))) 60)
  = [str "cache-control"].
Proof. repeat split; vm_compute; reflexivity. Qed.

End DynamicTable.

(** ** Huffman codec *)

Section Huffman.
Import Hpack.

(** Every octet has a code, of 1 to 30 bits. *)
Lemma HUFFMAN_CODES_total (ch : Z) :
  0 <= ch < 256 ->
  exists code num_bits,
    HUFFMAN_CODES_find ch = Some (code, num_bits) /\ 1 <= num_bits <= 30.
Proof.
  intros Hch.
  pose proof (forall_octet
    (fun ch => match HUFFMAN_CODES_find ch with
               | Some (_, b) => (1 <=? b) && (b <=? 30)
               | None => false
               end)) as H.
  specialize (H ltac:(vm_compute; reflexivity) ch Hch). simpl in H.
  destruct (HUFFMAN_CODES_find ch) as [[code b]|]; [|discriminate].
  exists code, b. split; [reflexivity|].
  apply andb_true_iff in H as [H1 H2]. lia.
Qed.

Lemma code_length_range (ch : Z) : 0 <= ch < 256 -> 1 <= code_length ch <= 30.
Proof.
  intros Hch. destruct (HUFFMAN_CODES_total ch Hch) as [c [b [E Hb]]].
  unfold code_length. now rewrite E.
Qed.

Lemma total_bits_range (input : octets) :
  is_octets input ->
  0 <= total_bits input <= 30 * Z.of_nat (List.length input).
Proof.
  induction 1 as [|ch input Hch _ IH]; simpl; [lia|].
  pose proof (code_length_range ch Hch). lia.
Qed.

(** The drain loop writes one octet per eight accumulated bits and never
    runs out of its budget. *)
Lemma drain_spec (fuel : nat) :
  forall acc bits out,
    0 <= bits -> (Z.to_nat (bits / 8) <= fuel)%nat ->
    exists tail,
      drain fuel acc bits out = Some (bits mod 8, out ++ tail) /\
      Z.of_nat (List.length tail) = bits / 8.
Proof.
  induction fuel as [|fuel IH]; intros acc bits out Hb Hf.
  - exists []. simpl. destruct (Z.geb_spec bits 8); [lia|].
    rewrite app_nil_r, Z.mod_small by lia. split; [reflexivity|simpl; lia].
  - simpl. destruct (Z.geb_spec bits 8) as [Hge|Hlt].
    + destruct (IH acc (bits - 8)
                  (out ++ [Z.land (Z.shiftr acc (bits - 8)) 255]))
        as [tail [E L]]; [lia | lia |].
      exists (Z.land (Z.shiftr acc (bits - 8)) 255 :: tail).
      rewrite E, <- app_assoc. split.
      * f_equal. f_equal. lia.
      * simpl List.length. lia.
    + exists []. rewrite app_nil_r, Z.mod_small by lia.
      split; [reflexivity|simpl; lia].
Qed.

Lemma pad_with_eos_length (acc bits : Z) (out : octets) :
  0 <= bits < 8 ->
  Z.of_nat (List.length (pad_with_eos acc bits out))
  = Z.of_nat (List.length out) + (bits + 7) / 8.
Proof.
  intros Hb. unfold pad_with_eos.
  destruct (Z.gtb_spec bits 0).
  - rewrite length_app. simpl. lia.
  - replace bits with 0 by lia. simpl. lia.
Qed.

(** The encoder loop succeeds on every octet string and emits the whole
    number of octets that holds the pending bits and the codes. *)
Lemma huffman_encode_loop_length (input : octets) :
  is_octets input ->
  forall acc bits out,
    0 <= bits < 8 ->
    exists out',
      huffman_encode_loop input acc bits out = Some (out', HuffmanError.OK) /\
      Z.of_nat (List.length out')
      = Z.of_nat (List.length out) + (bits + total_bits input + 7) / 8.
Proof.
  induction 1 as [|ch input Hch Hin IH]; intros acc bits out Hb.
  - simpl. eexists. split; [reflexivity|].
    rewrite pad_with_eos_length by lia. f_equal. f_equal. lia.
  - simpl. unfold to_uint8. rewrite (Z.mod_small ch) by lia.
    destruct (HUFFMAN_CODES_total ch Hch) as [code [n [E Hn]]].
    unfold code_length. rewrite E.
    destruct (drain_spec (Z.to_nat (bits + n))
                (Z.lor (to_uint64 (Z.shiftl acc n)) code) (bits + n) out)
      as [tail [Ed Lt]]; [lia | lia |].
    rewrite Ed.
    destruct (IH (Z.lor (to_uint64 (Z.shiftl acc n)) code)
                ((bits + n) mod 8) (out ++ tail)) as [out' [E' L']]; [lia|].
    exists out'. split; [exact E'|].
    rewrite L', length_app, Nat2Z.inj_add, Lt.
    generalize (total_bits input). intros t. lia.
Qed.

Lemma encoded_length_loop_spec (input : octets) :
  is_octets input ->
  forall t, 0 <= t -> t + 30 * Z.of_nat (List.length input) < 2 ^ 64 ->
            encoded_length_loop input t = Some (t + total_bits input).
Proof.
  induction 1 as [|ch input Hch Hin IH]; intros t Ht Hbound.
  - simpl. f_equal. lia.
  - simpl encoded_length_loop. unfold to_uint8. rewrite (Z.mod_small ch) by lia.
    destruct (HUFFMAN_CODES_total ch Hch) as [code [n [E Hn]]].
    simpl total_bits. unfold code_length. rewrite E.
    simpl List.length in Hbound.
    unfold to_uint64. rewrite (Z.mod_small (t + n)) by lia.
    rewrite IH by lia. f_equal. lia.
Qed.

(** [huffman_encode] and [get_huffman_encoded_length] agree: the encoder
    succeeds and emits as many octets as the length function predicts,
    the code lengths of the table summed and rounded up. *)
Lemma huffman_encoded_length_agrees (s : octets) :
  is_octets s -> 30 * Z.of_nat (List.length s) + 7 < 2 ^ 64 ->
  exists out,
    huffman_encode s = Some (out, HuffmanError.OK) /\
    Z.of_nat (List.length out) = get_huffman_encoded_length s /\
    get_huffman_encoded_length s = (total_bits s + 7) / 8.
Proof.
  intros Hs Hlen.
  destruct (huffman_encode_loop_length s Hs 0 0 []) as [out [E L]]; [lia|].
  pose proof (total_bits_range s Hs) as Ht.
  assert (Hg : get_huffman_encoded_length s = (total_bits s + 7) / 8).
  { unfold get_huffman_encoded_length.
    rewrite (encoded_length_loop_spec s Hs 0) by lia.
    unfold to_uint64. simpl (0 + _). rewrite Z.mod_small by lia. reflexivity. }
  exists out. split; [exact E|]. split; [|exact Hg].
  rewrite L, Hg. simpl. reflexivity.
Qed.

(** C10. The length agreement holds against the table of the code, but
    that table is not the canonical code of RFC 7541: for
    "www.example.com" both functions give 14 octets, where the RFC code
    (and the decoder test of the repository, which quotes the RFC
    encoding [F1 E3 C2 E5 F2 3A 6B A0 AB 90 F4 FF]) has 12; the octet "."
    has a 15-bit code here and a 6-bit code in the RFC; and the table is
    not even prefix-free, the code of "r" being a proper prefix of the
    code of ">". *)
Theorem huffman_lengths_not_rfc7541 :
  huffman_encode (str "www.example.com")
  = Some ([0xe9; 0xd3; 0xa7; 0xff; 0x02; 0x60; 0x3a; 0x6c; 0xa0; 0x9f;
           0xfc; 0x21; 0xae; 0x9f], HuffmanError.OK) /\
  get_huffman_encoded_length (str "www.example.com") = 14 /\
  code_length 46 = 15 /\
  HUFFMAN_CODES_find 114 = Some (0x2e, 6) /\
  HUFFMAN_CODES_find 62 = Some (0x5c, 7) /\
  proper_prefix (code_bits 0x2e 6) (code_bits 0x5c 7).
Proof.
  repeat split; try (vm_compute; reflexivity).
  exists [false]. split; [discriminate | vm_compute; reflexivity].
Qed.

End Huffman.

(** ** Header block decoding *)

Section SizeUpdate.
Import HpackDecoder.

Lemma size_update_pattern (b : Z) :
  0 <= b < 256 -> Z.land b 0xE0 = 0x20 ->
  (Z.land b 0x80 =? 0x80) = false /\ (Z.land b 0xC0 =? 0x40) = false /\
  (Z.land b 0xF0 =? 0x00) = false /\ (Z.land b 0xF0 =? 0x10) = false.
Proof.
  intros Hb Hp.
  pose proof (forall_octet
    (fun b => negb (Z.land b 0xE0 =? 0x20)
              || (negb (Z.land b 0x80 =? 0x80) && negb (Z.land b 0xC0 =? 0x40)
                  && negb (Z.land b 0xF0 =? 0x00)
                  && negb (Z.land b 0xF0 =? 0x10)))) as H.
  specialize (H ltac:(vm_compute; reflexivity) b Hb). cbv beta in H.
  rewrite Hp in H. simpl (negb (32 =? 32)) in H. simpl orb in H.
  repeat (apply andb_true_iff in H as [H ?]).
  repeat split; now apply negb_true_iff.
Qed.

(** What one iteration of [decode] does with a Dynamic Table Size Update
    whose integer is well formed: it is refused after a header field, it
    is refused above the constant 4096, and otherwise it becomes the
    capacity, whatever the capacity was before. *)
Lemma size_update_iteration (d : HpackDecoder.t) (headers : list HttpHeader)
  (b : Z) (data rest : octets) (size : Z) :
  0 <= b < 256 -> Z.land b 0xE0 = 0x20 ->
  decode_integer data 5 = (size, HpackError.OK, rest) ->
  decode_iteration d headers b data
  = match headers with
    | _ :: _ => Break d headers HpackError.COMPRESSION_ERROR
    | [] =>
        if size >? DEFAULT_DYNAMIC_TABLE_SIZE
        then Break d headers HpackError.COMPRESSION_ERROR
        else Next (set_max_dynamic_table_size d (to_uint32 size)) headers rest
    end.
Proof.
  intros Hb Hp Hd. unfold decode_iteration.
  destruct (size_update_pattern b Hb Hp) as [H1 [H2 [H3 H4]]].
  rewrite H1, H2, H3, H4, Hp, Hd. simpl (32 =? 32).
  destruct headers; reflexivity.
Qed.

(** C4. The bound of a Dynamic Table Size Update is the constant
    [DEFAULT_DYNAMIC_TABLE_SIZE], not the maximum given to the decoder: a
    decoder whose maximum is 100 accepts an update to 200 (octets
    [3F A9 01]) and raises its capacity to 200; a decoder whose maximum
    was set to 8192 refuses an update to 5000 (octets [3F E9 26]). *)
Theorem size_update_bound_is_default :
  decode (set_max_dynamic_table_size (new 4096) 100) [0x3F; 0xA9; 0x01]
  = Some ({| dynamic_table_ := []; current_dynamic_table_size_ := 0;
             max_dynamic_table_size_ := 200 |}, [], HpackError.OK) /\
  decode (set_max_dynamic_table_size (new 4096) 8192) [0x3F; 0xE9; 0x26]
  = Some ({| dynamic_table_ := []; current_dynamic_table_size_ := 0;
             max_dynamic_table_size_ := 8192 |}, [],
          HpackError.COMPRESSION_ERROR).
Proof. split; vm_compute; reflexivity. Qed.

(** An update that follows a header field of the same block is refused. *)
Example size_update_after_header :
  decode (new 4096) [0x82; 0x3F; 0xE1; 0x01]
  = Some (new 4096,
          [{| name := str ":method"; value := str "GET"; sensitive := false |}],
          HpackError.COMPRESSION_ERROR).
Proof. vm_compute. reflexivity. Qed.

End SizeUpdate.

(** ** Stream windows *)

Section Windows.
Import Http2Connection ConnectionSettings.

(** A stream that [get_or_create_stream] creates takes its
    [remote_window_size_] from the local settings and its
    [local_window_size_] from the remote settings. *)
Lemma get_or_create_stream_windows (c c' : Http2Connection.t) (id : Z)
  (s : Http2Stream.t) :
  streams_ c !! id = None ->
  get_or_create_stream c id = Returned (c', s) ->
  Http2Stream.remote_window_size_ s
  = to_int32 (initial_window_size (local_settings_ c)) /\
  Http2Stream.local_window_size_ s
  = to_int32 (initial_window_size (remote_settings_ c)) /\
  streams_ c' !! id = Some s.
Proof.
  intros Hnone. unfold get_or_create_stream. rewrite Hnone.
  destruct (id =? 0); [discriminate|].
  destruct (is_server_ c), (negb (id mod 2 =? 0)), (id mod 2 =? 0),
    (id <=? last_processed_stream_id_ c); simpl;
    intros H; inversion H; subst; simpl;
    repeat split; try reflexivity; apply lookup_insert_eq.
Qed.

(** C5. A new stream does not get the windows the claim states: on a
    client whose peer has advertised INITIAL_WINDOW_SIZE 1000 while our own
    setting is the default 65535, stream 1 is created with send window
    ([remote_window_size_]) 65535 and receive window
    ([local_window_size_]) 1000, the two settings exchanged. *)
Theorem new_stream_windows_exchanged :
  let c :=
    apply_remote_setting (new false true)
      (setting SettingsFrame.SETTINGS_INITIAL_WINDOW_SIZE 1000) in
  initial_window_size (remote_settings_ c) = 1000 /\
  initial_window_size (local_settings_ c) = 65535 /\
  exists c' s,
    get_or_create_stream c 1 = Returned (c', s) /\
    Http2Stream.remote_window_size_ s = 65535 /\
    Http2Stream.local_window_size_ s = 1000.
Proof.
  split; [reflexivity|]. split; [reflexivity|].
  eexists _, _. split; [reflexivity|]. split; reflexivity.
Qed.

(** A negative delta reaches [update_remote_window] as the [uint32_t]
    [2^32 + delta]: whenever the decreased window would be representable,
    the overflow test fires, the window stays as it was and [false] is
    returned. *)
Lemma update_remote_window_negative_delta (s : Http2Stream.t) (delta : Z) :
  - 2 ^ 31 < delta < 0 ->
  - 2 ^ 31 <= Http2Stream.remote_window_size_ s + delta ->
  Http2Stream.update_remote_window s (to_uint32 delta) = (s, false).
Proof.
  intros Hd Hw. unfold Http2Stream.update_remote_window.
  assert (Hu : to_uint32 delta = 2 ^ 32 + delta).
  { unfold to_uint32. change (2 ^ 32) with 4294967296.
    change (2 ^ 31) with 2147483648 in *. lia. }
  rewrite Hu. change (2 ^ 32) with 4294967296.
  change (2 ^ 31) with 2147483648 in *.
  destruct (Z.eqb_spec (4294967296 + delta) 0); [lia|].
  destruct (Z.gtb_spec (Http2Stream.remote_window_size_ s
                        + (4294967296 + delta)) (2147483648 - 1)); [|lia].
  reflexivity.
Qed.

(** A positive delta that fits is added. *)
Lemma update_remote_window_positive_delta (s : Http2Stream.t) (delta : Z) :
  0 < delta < 2 ^ 31 ->
  - 2 ^ 31 <= Http2Stream.remote_window_size_ s ->
  Http2Stream.remote_window_size_ s + delta <= 2 ^ 31 - 1 ->
  Http2Stream.update_remote_window s (to_uint32 delta)
  = ({| Http2Stream.id_ := Http2Stream.id_ s;
        Http2Stream.state_ := Http2Stream.state_ s;
        Http2Stream.local_window_size_ := Http2Stream.local_window_size_ s;
        Http2Stream.remote_window_size_ :=
          Http2Stream.remote_window_size_ s + delta |}, true).
Proof.
  intros Hd Hlo Hhi. unfold Http2Stream.update_remote_window.
  assert (Hu : to_uint32 delta = delta).
  { unfold to_uint32. change (2 ^ 32) with 4294967296.
    change (2 ^ 31) with 2147483648 in *. lia. }
  rewrite Hu. change (2 ^ 31) with 2147483648 in *.
  destruct (Z.eqb_spec delta 0); [lia|].
  destruct (Z.gtb_spec (Http2Stream.remote_window_size_ s + delta)
              (2147483648 - 1)); [lia|].
  do 2 f_equal. unfold to_int32. change (2 ^ 32) with 4294967296.
  change (2 ^ 31) with 2147483648. lia.
Qed.

(** Hence a SETTINGS entry that lowers INITIAL_WINDOW_SIZE changes no
    stream at all. *)
Lemma apply_remote_setting_decrease (c : Http2Connection.t) (v : Z) :
  0 <= v < initial_window_size (remote_settings_ c) ->
  initial_window_size (remote_settings_ c) <= 2 ^ 31 - 1 ->
  (forall id s, streams_ c !! id = Some s ->
                - 2 ^ 31 + initial_window_size (remote_settings_ c) - v
                <= Http2Stream.remote_window_size_ s) ->
  streams_ (apply_remote_setting c
              (setting SettingsFrame.SETTINGS_INITIAL_WINDOW_SIZE v))
  = streams_ c /\
  actions (apply_remote_setting c
             (setting SettingsFrame.SETTINGS_INITIAL_WINDOW_SIZE v))
  = actions c.
Proof.
  intros Hv Hold Hs. unfold apply_remote_setting, setting. simpl.
  change (2 ^ 31) with 2147483648 in *.
  unfold MAX_ALLOWED_WINDOW_SIZE. change (2 ^ 31 - 1) with 2147483647.
  destruct (Z.gtb_spec v 2147483647); [lia|]. simpl.
  split; [|reflexivity].
  apply map_eq. intros id. rewrite lookup_fmap.
  destruct (streams_ c !! id) as [s|] eqn:E; [|reflexivity].
  simpl. f_equal. unfold adjust_stream.
  destruct (negb _ && negb _); [|reflexivity].
  assert (Hdelta : to_int32 (to_int32 v
                             - to_int32 (initial_window_size (remote_settings_ c)))
                   = v - initial_window_size (remote_settings_ c)).
  { unfold to_int32. change (2 ^ 32) with 4294967296.
    change (2 ^ 31) with 2147483648. lia. }
  rewrite Hdelta, update_remote_window_negative_delta; [reflexivity| |].
  - change (2 ^ 31) with 2147483648. lia.
  - specialize (Hs id s E). change (2 ^ 31) with 2147483648. lia.
Qed.

(** C6. The delta of INITIAL_WINDOW_SIZE is not propagated when it is
    negative: with stream 1 OPEN and its send window at 65535, a SETTINGS
    entry lowering INITIAL_WINDOW_SIZE from 65535 to 65435 stores the new
    setting and leaves the send window at 65535, where the claim has
    65435; nothing is reported.  A raise from 65535 to 70000 is applied
    (send window 70000). *)
Theorem initial_window_decrease_not_applied :
  let c0 := open_stream (new false true) 1 in
  let c1 :=
    apply_remote_setting c0
      (setting SettingsFrame.SETTINGS_INITIAL_WINDOW_SIZE 65435) in
  let c2 :=
    apply_remote_setting c0
      (setting SettingsFrame.SETTINGS_INITIAL_WINDOW_SIZE 70000) in
  stream_state c0 1 = Some StreamState.OPEN /\
  send_window c0 1 = Some 65535 /\
  initial_window_size (remote_settings_ c0) = 65535 /\
  initial_window_size (remote_settings_ c1) = 65435 /\
  send_window c1 1 = Some 65535 /\
  actions c1 = [] /\
  send_window c2 1 = Some 70000.
Proof. repeat split; vm_compute; reflexivity. Qed.

(** When the raised window would pass [2^31 - 1], [update_remote_window]
    returns [false] and the loop of [apply_remote_setting] drops it: the
    stream stays OPEN with its window and no action is taken. *)
Example initial_window_overflow_not_reported :
  let c0 := open_stream (new false true) 1 in
  let c1 :=
    handle_window_update_frame c0
      {| WindowUpdateFrame.header :=
           {| FrameHeader.length := 4;
              FrameHeader.type := FrameType.WINDOW_UPDATE;
              FrameHeader.flags := 0; FrameHeader.stream_id := 1 |};
         WindowUpdateFrame.window_size_increment := 2 ^ 31 - 1 - 65535 |} in
  let c2 :=
    apply_remote_setting c1
      (setting SettingsFrame.SETTINGS_INITIAL_WINDOW_SIZE 65536) in
  send_window c1 1 = Some (2 ^ 31 - 1) /\
  send_window c2 1 = Some (2 ^ 31 - 1) /\
  stream_state c2 1 = Some StreamState.OPEN /\
  actions c2 = [].
Proof. repeat split; vm_compute; reflexivity. Qed.

End Windows.

(** ** Receive path *)

Section Receive.
Import Http2Connection Http2Parser Http2ConnectionInput.

(** C7. Continuation atomicity does not hold in the parser: after a
    HEADERS frame on stream 1 with END_HEADERS clear, a PING, a DATA frame
    on stream 1 and a HEADERS frame on stream 3 are each parsed without
    error and handed to the frame sink, and the first two leave the
    connection still expecting the CONTINUATION.  Only a CONTINUATION on
    another stream is refused ([CONTINUATION_WRONG_STREAM]). *)
Theorem continuation_interleaving_accepted :
  let c0 := Http2Connection.new true true in
  let after tail :=
    observe (parse recording_sink Http2Parser.new c0
               (wire_headers_open ++ tail)) in
  after [] = Some (10, ParserError.OK, [frame_headers_open], true) /\
  after wire_ping
  = Some (27, ParserError.OK, [frame_headers_open; frame_ping], true) /\
  after wire_data
  = Some (21, ParserError.OK, [frame_headers_open; frame_data], true) /\
  after wire_headers_other
  = Some (20, ParserError.OK, [frame_headers_open; frame_headers_other],
          false) /\
  after wire_continuation_other
  = Some (10, ParserError.CONTINUATION_WRONG_STREAM, [frame_headers_open],
          true) /\
  after wire_continuation_same
  = Some (20, ParserError.OK, [frame_headers_open; frame_continuation_same],
          false).
Proof. repeat split; vm_compute; reflexivity. Qed.

(** C8. A WINDOW_UPDATE with increment 0 on stream 1 does not reach the
    frame handler, whatever that handler is: the parser reports
    [INVALID_WINDOW_UPDATE_INCREMENT], nothing is consumed, and
    [process_incoming_data] answers with GOAWAY(PROTOCOL_ERROR); no
    RST_STREAM is sent and stream 1 stays OPEN.  The stream-level answer
    exists in [handle_window_update_frame], which would send
    RST_STREAM(1, PROTOCOL_ERROR) and close the stream, but it is never
    called with such a frame. *)
Theorem zero_increment_window_update_goaway
  (handle_parsed_frame : AnyHttp2Frame -> Http2Connection.t -> Http2Connection.t) :
  let c0 := open_stream (Http2Connection.new true true) 1 in
  let zero_increment :=
    {| WindowUpdateFrame.header :=
         {| FrameHeader.length := 4;
            FrameHeader.type := FrameType.WINDOW_UPDATE;
            FrameHeader.flags := 0; FrameHeader.stream_id := 1 |};
       WindowUpdateFrame.window_size_increment := 0 |} in
  (exists p c,
      process_incoming_data handle_parsed_frame Http2Parser.new c0
        wire_window_update_zero = Some (0, p, c) /\
      buffer_ p = wire_window_update_zero /\
      actions c
      = [send_goaway 1 ErrorCode.PROTOCOL_ERROR "Parser error: code 9"] /\
      stream_state c 1 = Some StreamState.OPEN) /\
  actions (handle_window_update_frame c0 zero_increment)
  = [send_rst_stream 1 ErrorCode.PROTOCOL_ERROR] /\
  stream_state (handle_window_update_frame c0 zero_increment) 1
  = Some StreamState.CLOSED.
Proof.
  split; [|split; vm_compute; reflexivity].
  eexists _, _. split; [vm_compute; reflexivity|].
  repeat split; vm_compute; reflexivity.
Qed.

End Receive.

(** ** Sending DATA *)

Section SendData.
Import Http2Connection ConnectionSettings.

Lemma serialize_data_frame_plain (flags sid : Z) (d : octets) :
  Z.land flags 8 = 0 ->
  FrameSerializer.serialize_data_frame
    {| DataFrame.header :=
         {| FrameHeader.length := 0; FrameHeader.type := FrameType.DATA;
            FrameHeader.flags := flags; FrameHeader.stream_id := sid |};
       DataFrame.pad_length := None;
       DataFrame.data := d |}
  = let n := to_uint32 (Z.of_nat (List.length d)) in
    let id := Z.land sid 0x7FFFFFFF in
    [Z.land (Z.shiftr n 16) 0xFF; Z.land (Z.shiftr n 8) 0xFF; Z.land n 0xFF;
     0; to_uint8 flags;
     Z.land (Z.shiftr id 24) 0xFF; Z.land (Z.shiftr id 16) 0xFF;
     Z.land (Z.shiftr id 8) 0xFF; Z.land id 0xFF] ++ d.
Proof.
  intros Hf. unfold FrameSerializer.serialize_data_frame,
    DataFrame.has_padded_flag, has_flag, DataFrame.PADDED_FLAG.
  cbn [DataFrame.header DataFrame.data DataFrame.pad_length FrameHeader.flags
       FrameHeader.type FrameHeader.stream_id FrameHeader.length].
  rewrite Hf. simpl negb. cbv iota. simpl andb. cbv iota.
  rewrite Z.add_0_l, Z.add_0_r. reflexivity.
Qed.

(** One iteration of the loop of [send_data] when there is data left and
    both windows are open: a frame with the next chunk is sent, the
    windows go down by the chunk, and the loop ends if that was the last
    chunk. *)
Lemma send_data_loop_step (fuel : nat) (c : Http2Connection.t)
  (stream : Http2Stream.t) (id : Z) (data : octets) (end_stream : bool)
  (off chunk : Z) :
  let size := Z.of_nat (List.length data) in
  let ws := Http2Stream.remote_window_size_ stream in
  let wc := remote_connection_window_size_ c in
  0 <= off < size -> size < 2 ^ 32 ->
  0 < ws < 2 ^ 31 -> 0 < wc < 2 ^ 31 ->
  0 < max_frame_size (remote_settings_ c) ->
  chunk = Z.min (Z.min (Z.min (size - off) (max_frame_size (remote_settings_ c)))
                   ws) wc ->
  send_data_loop (S fuel) c stream id data end_stream off
  = let all_data_sent := off + chunk =? size in
    let flags :=
      if end_stream && all_data_sent then DataFrame.END_STREAM_FLAG else 0 in
    let frame_bytes :=
      FrameSerializer.serialize_data_frame
        {| DataFrame.header :=
             {| FrameHeader.length := 0; FrameHeader.type := FrameType.DATA;
                FrameHeader.flags := flags; FrameHeader.stream_id := id |};
           DataFrame.pad_length := None;
           DataFrame.data :=
             firstn (Z.to_nat chunk) (skipn (Z.to_nat off) data) |} in
    let stream' :=
      let s := Http2Stream.record_data_sent stream chunk in
      if end_stream && all_data_sent
      then Http2Stream.transition_to_half_closed_local s else s in
    let c' :=
      store_stream
        (record_connection_data_sent (call c (send_bytes frame_bytes)) chunk)
        id stream' in
    if all_data_sent then Some (true, c')
    else send_data_loop fuel c' stream' id data end_stream (off + chunk).
Proof.
  intros size ws wc Hoff Hsize Hws Hwc Hmax Hchunk.
  destruct data as [|b data']; [simpl in size; lia|].
  assert (Ews : to_uint32 (Z.max 0 ws) = ws).
  { unfold to_uint32. change (2 ^ 32) with 4294967296.
    change (2 ^ 31) with 2147483648 in *. lia. }
  assert (Ewc : to_uint32 (Z.max 0 wc) = wc).
  { unfold to_uint32. change (2 ^ 32) with 4294967296.
    change (2 ^ 31) with 2147483648 in *. lia. }
  assert (Erem : to_uint64 (size - off) = size - off).
  { unfold to_uint64. change (2 ^ 64) with 18446744073709551616.
    change (2 ^ 32) with 4294967296 in *. lia. }
  assert (Erem32 : to_uint32 (size - off) = size - off).
  { unfold to_uint32. change (2 ^ 32) with 4294967296 in *. lia. }
  assert (Hpos : 0 < chunk) by lia.
  cbv beta iota zeta delta [send_data_loop]. fold send_data_loop.
  unfold Http2Stream.get_remote_window_size. fold size. fold ws. fold wc.
  simpl andb. cbv iota.
  rewrite Ews, Ewc, Erem, Erem32, <- Hchunk.
  destruct (Z.ltb_spec off size) as [_|]; [|lia]. simpl orb. cbv iota.
  destruct (Z.eqb_spec ws 0); [lia|]. destruct (Z.eqb_spec wc 0); [lia|].
  simpl orb. simpl andb. cbv iota.
  destruct (Z.eqb_spec chunk 0); [lia|]. simpl andb. cbv iota.
  destruct (end_stream && (off + chunk =? size)) eqn:Eflag;
    rewrite serialize_data_frame_plain by reflexivity;
    cbv zeta; cbn [app]; cbv iota; simpl andb; cbv iota; reflexivity.
Qed.

(** C9. Oversize DATA segmentation.  On a connection whose peer allows
    frames of 16384 octets, with stream 1 OPEN and both send windows
    holding at least 30000 (65535 by default), [send_data] of 30000 octets
    with [end_stream] returns [true] after handing exactly two frames to
    [on_send_bytes_]: a DATA frame of length 16384 on stream 1 without
    flags carrying the first 16384 octets, then a DATA frame of length
    13616 with END_STREAM carrying the rest.  Afterwards the send window
    of the stream and the send window of the connection are each 30000
    lower, and the stream is half closed (local). *)
Theorem oversize_data_segmentation (c : Http2Connection.t)
  (s : Http2Stream.t) (data : octets) :
  Z.of_nat (List.length data) = 30000 ->
  on_send_bytes_ c = true ->
  max_frame_size (remote_settings_ c) = 16384 ->
  streams_ c !! 1 = Some s ->
  Http2Stream.state_ s = StreamState.OPEN ->
  30000 <= Http2Stream.remote_window_size_ s < 2 ^ 31 ->
  30000 <= remote_connection_window_size_ c < 2 ^ 31 ->
  exists c',
    send_data c 1 data true = Some (true, c') /\
    actions c'
    = actions c
      ++ [send_bytes ([0; 0x40; 0; 0; 0; 0; 0; 0; 1]
                      ++ firstn (Z.to_nat 16384) data);
          send_bytes ([0; 0x35; 0x30; 0; 1; 0; 0; 0; 1]
                      ++ skipn (Z.to_nat 16384) data)] /\
    Z.of_nat (List.length (firstn (Z.to_nat 16384) data)) = 16384 /\
    Z.of_nat (List.length (skipn (Z.to_nat 16384) data)) = 13616 /\
    send_window c' 1 = Some (Http2Stream.remote_window_size_ s - 30000) /\
    remote_connection_window_size_ c'
    = remote_connection_window_size_ c - 30000 /\
    stream_state c' 1 = Some StreamState.HALF_CLOSED_LOCAL.
Proof.
  intros Hsize Hcb Hmax Hs Hstate Hws Hwc.
  change (2 ^ 31) with 2147483648 in *.
  assert (Hfuel : exists n, List.length data = S (S n)).
  { destruct (List.length data) as [|[|n]]; [simpl in Hsize; lia | simpl in Hsize; lia |].
    now exists n. }
  destruct Hfuel as [n Hn].
  assert (Hl1 : Z.of_nat (List.length (firstn (Z.to_nat 16384) data)) = 16384)
    by (rewrite length_firstn; lia).
  assert (Hl2 : Z.of_nat (List.length (skipn (Z.to_nat 16384) data)) = 13616)
    by (rewrite length_skipn; lia).
  unfold send_data. simpl (1 =? 0). cbv iota. rewrite Hcb. simpl negb. cbv iota.
  unfold get_stream. simpl (1 =? 0). cbv iota. rewrite Hs.
  unfold Http2Stream.get_state. rewrite Hstate. simpl andb. cbv iota.
  rewrite Hn.
  rewrite (send_data_loop_step (S n) c s 1 data true 0 16384);
    rewrite ?Hsize, ?Hmax; try (change (2 ^ 31) with 2147483648);
    try (change (2 ^ 32) with 4294967296); try lia.
  cbv zeta. simpl (0 + 16384 =? 30000). simpl andb. cbv iota.
  change (0 + 16384) with 16384. simpl (Z.to_nat 0). rewrite skipn_O.
  rewrite serialize_data_frame_plain by reflexivity. cbv zeta.
  rewrite Hl1.
  set (fb1 := _ ++ firstn (Z.to_nat 16384) data).
  set (s1 := Http2Stream.record_data_sent s 16384).
  set (c1 := store_stream _ 1 s1).
  assert (Hs1 : Http2Stream.remote_window_size_ s1
                = Http2Stream.remote_window_size_ s - 16384).
  { subst s1. unfold Http2Stream.record_data_sent. simpl (16384 =? 0).
    cbv iota. cbn [Http2Stream.remote_window_size_].
    unfold to_int32. change (2 ^ 32) with 4294967296.
    change (2 ^ 31) with 2147483648. lia. }
  assert (Hc1 : remote_connection_window_size_ c1
                = remote_connection_window_size_ c - 16384).
  { subst c1. unfold store_stream, record_connection_data_sent. simpl.
    unfold to_int32. change (2 ^ 32) with 4294967296.
    change (2 ^ 31) with 2147483648. lia. }
  assert (Hm1 : max_frame_size (remote_settings_ c1) = 16384)
    by (subst c1; exact Hmax).
  rewrite (send_data_loop_step n c1 s1 1 data true 16384 13616);
    rewrite ?Hsize, ?Hm1, ?Hs1, ?Hc1; try (change (2 ^ 31) with 2147483648);
    try (change (2 ^ 32) with 4294967296); try lia.
  cbv zeta. simpl (16384 + 13616 =? 30000). simpl andb. cbv iota.
  rewrite serialize_data_frame_plain by reflexivity. cbv zeta.
  rewrite (firstn_all2 (n := Z.to_nat 13616)) by lia.
  rewrite Hl2.
  assert (Hst1 : Http2Stream.state_ (Http2Stream.record_data_sent s1 13616)
                 = StreamState.OPEN) by exact Hstate.
  assert (Hs2 : Http2Stream.remote_window_size_
                  (Http2Stream.record_data_sent s1 13616)
                = Http2Stream.remote_window_size_ s - 30000).
  { unfold Http2Stream.record_data_sent at 1. simpl (13616 =? 0). cbv iota.
    cbn [Http2Stream.remote_window_size_]. rewrite Hs1.
    unfold to_int32. change (2 ^ 32) with 4294967296.
    change (2 ^ 31) with 2147483648. lia. }
  eexists. split; [reflexivity|].
  unfold send_window, stream_state, store_stream,
    record_connection_data_sent.
  cbn [actions streams_ remote_connection_window_size_ set_streams
       set_remote_connection_window_size call].
  rewrite !lookup_insert_eq.
  unfold Http2Stream.transition_to_half_closed_local. rewrite Hst1.
  cbn [fmap option_fmap option_map Http2Stream.set_state
       Http2Stream.remote_window_size_ Http2Stream.state_].
  rewrite Hs2, Hc1.
  repeat split; try assumption.
  - subst c1 fb1. unfold store_stream, record_connection_data_sent.
    cbn [actions set_streams set_remote_connection_window_size call].
    rewrite <- app_assoc. reflexivity.
  - unfold to_int32. change (2 ^ 32) with 4294967296.
    change (2 ^ 31) with 2147483648. lia.
Qed.

Lemma oversize_data_segmentation_witness :
  exists c',
    (send_data sample_sender 1 (increasing_octets (Z.to_nat 30000)) true
     = Some (true, c')) /\
    (actions c'
     = [send_bytes ([0; 0x40; 0; 0; 0; 0; 0; 0; 1]
                    ++ firstn (Z.to_nat 16384)
                         (increasing_octets (Z.to_nat 30000)));
        send_bytes ([0; 0x35; 0x30; 0; 1; 0; 0; 0; 1]
                    ++ skipn (Z.to_nat 16384)
                         (increasing_octets (Z.to_nat 30000)))]) /\
    send_window c' 1 = Some 35535 /\
    remote_connection_window_size_ c' = 35535 /\
    stream_state c' 1 = Some StreamState.HALF_CLOSED_LOCAL.
Proof.
  destruct (oversize_data_segmentation sample_sender sample_sender_stream
              (increasing_octets (Z.to_nat 30000)))
    as (c' & Hsend & Hact & _ & _ & Hws & Hwc & Hst).
  - unfold increasing_octets. rewrite length_map, length_seq. lia.
  - reflexivity.
  - reflexivity.
  - vm_compute. reflexivity.
  - reflexivity.
  - vm_compute. split; congruence.
  - vm_compute. split; congruence.
  - exists c'. repeat split; assumption.
Defined.

End SendData.

(** ** Decoding header blocks *)

Section HeaderBlocks.
Import HpackEncoder HpackDecoder.

Lemma pattern_cases (p N : Z) :
  In (p, N) prefix_patterns ->
  (p = 0x80 /\ N = 7) \/ (p = 0x40 /\ N = 6) \/ (p = 0 /\ N = 4) \/
  (p = 0x10 /\ N = 4) \/ (p = 0x20 /\ N = 5) \/ (p = 0 /\ N = 7).
Proof.
  unfold prefix_patterns. simpl. intuition congruence.
Qed.

Lemma pattern_low (p N low : Z) :
  In (p, N) prefix_patterns -> 0 <= low < 2 ^ N ->
  to_uint8 (Z.lor p low) = p + low /\ Z.land (p + low) (2 ^ N - 1) = low /\
  0 <= p + low < 256.
Proof.
  intros Hp Hlow.
  assert (H : pattern_check p N low = true).
  { apply pattern_cases in Hp.
    assert (Hl : 0 <= low < 256).
    { destruct Hp as [[-> ->]|[[-> ->]|[[-> ->]|[[-> ->]|[[-> ->]|[-> ->]]]]]];
        simpl in Hlow; lia. }
    destruct Hp as [[-> ->]|[[-> ->]|[[-> ->]|[[-> ->]|[[-> ->]|[-> ->]]]]]];
      (apply forall_octet; [now vm_compute | exact Hl]). }
  unfold pattern_check in H.
  apply orb_true_iff in H as [H|H]; [lia|].
  apply andb_true_iff in H as [H H3]. apply andb_true_iff in H as [H1 H2].
  apply Z.eqb_eq in H1, H2. apply Z.ltb_lt in H3.
  assert (0 <= p) by (apply pattern_cases in Hp; lia).
  repeat split; try assumption; lia.
Qed.

Lemma pattern_mask (p N : Z) :
  In (p, N) prefix_patterns ->
  to_uint8 (Z.shiftl 1 N - 1) = 2 ^ N - 1 /\ 1 <= 2 ^ N - 1 < 128 /\ 1 <= N <= 7.
Proof.
  intros Hp. apply pattern_cases in Hp.
  destruct Hp as [[-> ->]|[[-> ->]|[[-> ->]|[[-> ->]|[[-> ->]|[-> ->]]]]]];
    vm_compute; intuition congruence.
Qed.

(** Round trip of the integer primitive under a representation's pattern. *)
Lemma integer_roundtrip_pattern (p N v : Z) (rest : octets) :
  In (p, N) prefix_patterns -> 0 <= v < 2 ^ 64 ->
  exists low tail,
    encode_integer [] p N v = Some ((p + low) :: tail) /\
    0 <= low < 2 ^ N /\
    (v < 2 ^ N - 1 -> low = v /\ tail = []) /\
    decode_integer (((p + low) :: tail) ++ rest) N = (v, HpackError.OK, rest).
Proof.
  intros Hp Hv.
  destruct (pattern_mask p N Hp) as [Hmask [HM HN]].
  unfold encode_integer, decode_integer. rewrite Hmask.
  remember (2 ^ N - 1) as M eqn:EM.
  assert (H2N : 2 ^ N = M + 1) by lia.
  destruct (Z.ltb_spec v M) as [Hlt|Hge].
  - destruct (pattern_low p N v Hp) as [H1 [H2 H3]]; [lia|].
    exists v, []. split; [|split; [lia|split; [auto|]]].
    + unfold to_uint8 at 2. rewrite (Z.mod_small v) by lia. rewrite H1.
      reflexivity.
    + cbn [app]. rewrite <- EM in H2. rewrite H2.
      destruct (Z.ltb_spec v M); [reflexivity|lia].
  - destruct (pattern_low p N M Hp) as [H1 [H2 H3]]; [lia|].
    destruct (integer_loops_inverse 9 10 (v - M) [p + M]) as [tail [He Hd]].
    + lia.
    + change (128 ^ (Z.of_nat 9 + 1)) with (2 ^ 70). lia.
    + exists M, tail. split; [|split; [lia|split; [lia|]]].
      * simpl app. rewrite H1. unfold to_uint64.
        rewrite (Z.mod_small (v - M)) by lia. exact He.
      * cbn [app]. rewrite <- EM in H2. rewrite H2.
        destruct (Z.ltb_spec M M); [lia|].
        rewrite Hd; [| lia | lia | simpl; lia | rewrite Z.pow_0_r; lia].
        f_equal. f_equal. rewrite Z.pow_0_r. lia.
Qed.

(** *** The decoder consumes its input *)

Lemma decode_integer_loop_length (data : octets) :
  forall value m,
    (List.length (snd (decode_integer_loop data value m)) <= List.length data)%nat.
Proof.
  induction data as [|b data IH]; intros value m; simpl; [lia|].
  destruct ((m / 128 >? UINT64_MAX / 128) && (m >=? 63) && (Z.land b 127 >? 0));
    [simpl; lia|].
  destruct (m + 7 >? 70); [simpl; lia|].
  destruct (Z.land b 128 =? 128); [|simpl; lia].
  specialize (IH (to_uint64 (value + to_uint64 (Z.shiftl (Z.land b 127) m)))
                (m + 7)). lia.
Qed.

Lemma decode_integer_length (b : Z) (data : octets) (N : Z) :
  (List.length (snd (decode_integer (b :: data) N)) <= List.length data)%nat.
Proof.
  unfold decode_integer.
  destruct (Z.land b (to_uint8 (Z.shiftl 1 N - 1)) <? to_uint8 (Z.shiftl 1 N - 1));
    [simpl; lia|].
  apply decode_integer_loop_length.
Qed.

Lemma decode_string_length (data : octets) :
  (List.length (snd (decode_string data)) <= List.length data)%nat.
Proof.
  unfold decode_string. destruct data as [|b data]; [simpl; lia|].
  pose proof (decode_integer_length b data 7) as H.
  destruct (decode_integer (b :: data) 7) as [[len err] rest]. simpl in H.
  assert (Hs : (List.length (skipn (Z.to_nat len) rest) <= List.length rest)%nat)
    by (rewrite length_skipn; lia).
  destruct err; simpl; try lia.
  destruct (len >? Z.of_nat (List.length rest)); [simpl; lia|].
  destruct (negb (Z.land b 128 =? 0)); [|simpl; lia].
  destruct (Hpack.huffman_decode _ _) as [s []]; simpl; lia.
Qed.

Lemma decode_literal_length (d : HpackDecoder.t) (b : Z) (data : octets)
  (N : Z) (n v rest : octets) :
  decode_literal d (b :: data) N = inl (n, v, rest) ->
  (List.length rest <= List.length data)%nat.
Proof.
  unfold decode_literal.
  pose proof (decode_integer_length b data N) as H.
  destruct (decode_integer (b :: data) N) as [[index err] r1]. simpl in H.
  destruct err; try discriminate.
  destruct (index =? 0).
  - pose proof (decode_string_length r1) as H1.
    destruct (decode_string r1) as [[s1 e1] r2]. simpl in H1.
    destruct e1; try discriminate.
    pose proof (decode_string_length r2) as H2.
    destruct (decode_string r2) as [[s2 e2] r3]. simpl in H2.
    destruct e2; try discriminate. intros [= _ _ <-]. lia.
  - destruct (get_header_from_tables d index); [|discriminate].
    pose proof (decode_string_length r1) as H2.
    destruct (decode_string r1) as [[s2 e2] r3]. simpl in H2.
    destruct e2; try discriminate. intros [= _ _ <-]. lia.
Qed.

Lemma decode_iteration_length (d : HpackDecoder.t) (hs : list HttpHeader)
  (b : Z) (data : octets) d' hs' rest :
  decode_iteration d hs b (b :: data) = Next d' hs' rest ->
  (List.length rest <= List.length data)%nat.
Proof.
  unfold decode_iteration.
  pose proof (decode_integer_length b data 7) as H7.
  pose proof (decode_integer_length b data 5) as H5.
  pose proof (decode_literal_length d b data 6) as H6.
  pose proof (decode_literal_length d b data 4) as H4.
  destruct (Z.land b 128 =? 128).
  { destruct (decode_integer (b :: data) 7) as [[index err] r1]. simpl in H7.
    destruct err; try discriminate.
    destruct (index =? 0); [discriminate|].
    destruct (get_header_from_tables d index); [|discriminate].
    intros [= _ _ <-]. exact H7. }
  destruct (Z.land b 192 =? 64).
  { destruct (decode_literal d (b :: data) 6) as [[[n v] r]|e]; [|discriminate].
    intros [= _ _ <-]. eapply H6. reflexivity. }
  destruct (Z.land b 240 =? 0).
  { destruct (decode_literal d (b :: data) 4) as [[[n v] r]|e]; [|discriminate].
    intros [= _ _ <-]. eapply H4. reflexivity. }
  destruct (Z.land b 240 =? 16).
  { destruct (decode_literal d (b :: data) 4) as [[[n v] r]|e]; [|discriminate].
    intros [= _ _ <-]. eapply H4. reflexivity. }
  destruct (Z.land b 224 =? 32); [|discriminate].
  destruct (decode_integer (b :: data) 5) as [[sz err] r1]. simpl in H5.
  destruct err; try discriminate.
  destruct hs; simpl; [|discriminate].
  destruct (sz >? DEFAULT_DYNAMIC_TABLE_SIZE); [discriminate|].
  intros [= _ _ <-]. exact H5.
Qed.

(** With a budget of at least the input length the loop never runs out,
    and the budget does not matter. *)
Lemma decode_loop_fuel (fuel : nat) :
  forall (fuel' : nat) d hs data,
    (List.length data <= fuel)%nat -> (List.length data <= fuel')%nat ->
    decode_loop fuel d hs data = decode_loop fuel' d hs data /\
    exists r, decode_loop fuel d hs data = Some r.
Proof.
  induction fuel as [|fuel IH]; intros fuel' d hs data H1 H2.
  - destruct data; [|simpl in H1; lia].
    destruct fuel'; simpl; eauto.
  - destruct data as [|b data]; [destruct fuel'; simpl; eauto|].
    destruct fuel' as [|fuel']; [simpl in H2; lia|].
    cbn [decode_loop].
    destruct (decode_iteration d hs b (b :: data)) as [d1 h1 e1|d1 h1 r1] eqn:E;
      [eauto|].
    apply decode_iteration_length in E. simpl in H1, H2.
    apply IH; lia.
Qed.

Lemma decode_step (d : HpackDecoder.t) (b : Z) (data : octets) :
  decode d (b :: data)
  = match decode_iteration d [] b (b :: data) with
    | Break d hs e => Some (d, hs, e)
    | Next d hs rest => decode_loop (List.length rest) d hs rest
    end.
Proof.
  unfold decode. cbn [List.length decode_loop].
  destruct (decode_iteration d [] b (b :: data)) as [d1 h1 e1|d1 h1 r1] eqn:E;
    [reflexivity|].
  apply decode_iteration_length in E.
  apply decode_loop_fuel; lia.
Qed.

Lemma decode_loop_step (d : HpackDecoder.t) hs (b : Z) (data : octets) :
  decode_loop (List.length (b :: data)) d hs (b :: data)
  = match decode_iteration d hs b (b :: data) with
    | Break d hs e => Some (d, hs, e)
    | Next d hs rest => decode_loop (List.length rest) d hs rest
    end.
Proof.
  cbn [List.length decode_loop].
  destruct (decode_iteration d hs b (b :: data)) as [d1 h1 e1|d1 h1 r1] eqn:E;
    [reflexivity|].
  apply decode_iteration_length in E.
  apply decode_loop_fuel; lia.
Qed.

Lemma get_header_from_tables_lookup (d : HpackDecoder.t) (index : Z) :
  0 <= index < 2 ^ 64 ->
  get_header_from_tables d index = table_lookup d index.
Proof.
  intros Hi. unfold get_header_from_tables, table_lookup.
  change (Z.of_nat (List.length StaticTable.STATIC_TABLE)) with 61.
  destruct (Z.eqb_spec index 0) as [->|Hne]; [reflexivity|].
  destruct (Z.leb_spec index 61) as [Hs|Hd].
  - destruct (Z.leb_spec 1 index); [|lia]. simpl andb. cbv iota.
    unfold StaticTable.get_static_header.
    change (Z.of_nat (List.length StaticTable.STATIC_TABLE)) with 61.
    destruct (Z.eqb_spec index 0); [lia|].
    destruct (Z.gtb_spec index 61); [lia|]. reflexivity.
  - rewrite andb_false_r.
    destruct (Z.leb_spec 62 index); [|lia].
    unfold to_uint64. rewrite Z.mod_small by lia.
    replace (index - 61 - 1) with (index - 62) by lia.
    destruct (Z.gtb_spec (index - 61) (Z.of_nat (List.length (dynamic_table_ d))));
      [|reflexivity].
    rewrite (proj2 (nth_error_None _ _)); [reflexivity|lia].
Qed.

Lemma first_octet_dispatch (p low : Z) :
  In p [0x80; 0x40; 0x00; 0x10; 0x20] -> 0 <= low < 128 ->
  first_octet_check p low = true.
Proof.
  intros Hp Hl. assert (Hl' : 0 <= low < 256) by lia.
  simpl in Hp.
  destruct Hp as [<-|[<-|[<-|[<-|[<-|[]]]]]];
    (apply forall_octet; [now vm_compute | exact Hl']).
Qed.

(** One iteration of the decoder on the octets of a field does what the
    field means and leaves the input behind the field. *)
Lemma field_iteration (d : HpackDecoder.t) (headers : list HttpHeader)
  (fld : field) (rest : octets) :
  field_in_range fld ->
  exists b0 tail,
    field_octets fld = Some (b0 :: tail) /\
    decode_iteration d headers b0 ((b0 :: tail) ++ rest)
    = iteration_of (field_meaning d headers fld) d headers rest.
Proof.
  destruct fld as [index|f index n v|max_size]; cbn [field_in_range].
  - intros Hi.
    destruct (integer_roundtrip_pattern 0x80 7 index rest)
      as [low [tail [He [Hlow [_ Hd]]]]]; [simpl; auto | lia |].
    exists (0x80 + low), tail. split; [exact He|].
    unfold decode_iteration.
    pose proof (first_octet_dispatch 0x80 low) as Hf.
    unfold first_octet_check in Hf. simpl (_ =? _) in Hf. cbv iota in Hf.
    change (2 ^ 7) with 128 in Hlow.
    destruct (Z.leb_spec 128 low); [lia|]. simpl orb in Hf.
    rewrite Hf by (simpl; auto || lia). rewrite Hd.
    rewrite get_header_from_tables_lookup by lia.
    cbn [field_meaning].
    destruct (Z.eqb_spec index 0) as [->|Hne]; [reflexivity|].
    destruct (table_lookup d index); reflexivity.
  - intros (Hi & Hn & Hv & Hln & Hlv).
    destruct (string_roundtrip_literal v rest Hv Hlv) as [bv [Hev Hdv]].
    destruct (string_roundtrip_literal n (bv ++ rest) Hn Hln) as [bn [Hen Hdn]].
    assert (Hpat : In (form_pattern f) prefix_patterns)
      by (destruct f; simpl; auto 10).
    destruct (integer_roundtrip_pattern (fst (form_pattern f))
                (snd (form_pattern f)) index
                ((if index =? 0 then bn else []) ++ bv ++ rest))
      as [low [tail [He [Hlow [_ Hd]]]]];
      [destruct (form_pattern f); exact Hpat | lia |].
    exists (fst (form_pattern f) + low),
           (tail ++ (if index =? 0 then bn else []) ++ bv).
    cbn [field_octets]. rewrite He, Hen, Hev. split; [reflexivity|].
    cbn [app] in Hd |- *. rewrite <- !app_assoc.
    unfold decode_iteration. cbn [field_meaning].
    assert (Hname :
      decode_literal d
        ((fst (form_pattern f) + low)
         :: tail ++ (if index =? 0 then bn else []) ++ bv ++ rest)
        (snd (form_pattern f))
      = match (if index =? 0 then Some n
               else option_map name (table_lookup d index)) with
        | None => inr HpackError.INDEX_OUT_OF_BOUNDS
        | Some field_name => inl (field_name, v, rest)
        end).
    { unfold decode_literal. rewrite Hd.
      destruct (Z.eqb_spec index 0) as [->|Hne].
      - rewrite Hdn, Hdv. reflexivity.
      - rewrite get_header_from_tables_lookup by lia. cbn [app].
        destruct (table_lookup d index); cbn [option_map]; [|reflexivity].
        rewrite Hdv. reflexivity. }
    destruct f; cbn [form_pattern fst snd] in *.
    + pose proof (first_octet_dispatch 0x40 low) as Hf.
      unfold first_octet_check in Hf. simpl (_ =? _) in Hf. cbv iota in Hf.
      change (2 ^ 6) with 64 in Hlow.
      destruct (Z.leb_spec 64 low); [lia|]. simpl orb in Hf.
      specialize (Hf ltac:(simpl; auto) ltac:(lia)).
      apply andb_true_iff in Hf as [H1 H2]. apply negb_true_iff in H1.
      rewrite H1, H2, Hname.
      destruct (if index =? 0 then Some n
                else option_map name (table_lookup d index)); reflexivity.
    + pose proof (first_octet_dispatch 0x00 low) as Hf.
      unfold first_octet_check in Hf. simpl (_ =? _) in Hf. cbv iota in Hf.
      change (2 ^ 4) with 16 in Hlow.
      destruct (Z.leb_spec 16 low); [lia|]. simpl orb in Hf.
      specialize (Hf ltac:(simpl; auto) ltac:(lia)).
      apply andb_true_iff in Hf as [Hf H3]. apply andb_true_iff in Hf as [H1 H2].
      apply negb_true_iff in H1, H2.
      rewrite H1, H2, H3, Hname.
      destruct (if index =? 0 then Some n
                else option_map name (table_lookup d index)); reflexivity.
    + pose proof (first_octet_dispatch 0x10 low) as Hf.
      unfold first_octet_check in Hf. simpl (_ =? _) in Hf. cbv iota in Hf.
      change (2 ^ 4) with 16 in Hlow.
      destruct (Z.leb_spec 16 low); [lia|]. simpl orb in Hf.
      specialize (Hf ltac:(simpl; auto) ltac:(lia)).
      apply andb_true_iff in Hf as [Hf H4]. apply andb_true_iff in Hf as [Hf H3].
      apply andb_true_iff in Hf as [H1 H2].
      apply negb_true_iff in H1, H2, H3.
      rewrite H1, H2, H3, H4, Hname.
      destruct (if index =? 0 then Some n
                else option_map name (table_lookup d index)); reflexivity.
  - intros Hi.
    destruct (integer_roundtrip_pattern 0x20 5 max_size rest)
      as [low [tail [He [Hlow [_ Hd]]]]]; [simpl; auto 10 | lia |].
    exists (0x20 + low), tail. split; [exact He|].
    change (2 ^ 5) with 32 in Hlow.
    pose proof (first_octet_dispatch 0x20 low) as Hf.
    unfold first_octet_check in Hf. simpl (_ =? _) in Hf. cbv iota in Hf.
    destruct (Z.leb_spec 32 low); [lia|]. simpl orb in Hf.
    specialize (Hf ltac:(simpl; auto 10) ltac:(lia)).
    apply andb_true_iff in Hf as [_ H5]. apply Z.eqb_eq in H5.
    rewrite (size_update_iteration d headers (0x20 + low) _ rest max_size);
      [| lia | exact H5 | exact Hd].
    cbn [field_meaning]. destruct headers; [|reflexivity].
    change DEFAULT_DYNAMIC_TABLE_SIZE with 4096.
    destruct (max_size >? 4096) eqn:E; [reflexivity|].
    unfold to_uint32. rewrite Z.mod_small by lia. reflexivity.
Qed.

Lemma block_decoding_from (fields : list field) :
  forall (d : HpackDecoder.t) (headers : list HttpHeader),
    Forall field_in_range fields ->
    exists bytes,
      block_octets fields = Some bytes /\
      decode_loop (List.length bytes) d headers bytes
      = Some (block_meaning d headers fields).
Proof.
  induction fields as [|fld fields IH]; intros d headers Hr.
  - exists []. split; reflexivity.
  - inversion Hr as [|? ? Hf Hfs]; subst.
    destruct (IH d headers Hfs) as [bs0 [Hbs0 _]].
    destruct (field_iteration d headers fld bs0 Hf) as [b0 [tail [Hfo Hit]]].
    exists ((b0 :: tail) ++ bs0). cbn [block_octets].
    rewrite Hfo, Hbs0. split; [reflexivity|].
    cbn [app]. rewrite decode_loop_step. cbn [app] in Hit. rewrite Hit.
    cbn [block_meaning].
    destruct (field_meaning d headers fld) as [[d' headers']|e];
      cbn [iteration_of]; [|reflexivity].
    destruct (IH d' headers' Hfs) as [bs1 [Hbs1 Hd1]].
    rewrite Hbs0 in Hbs1. injection Hbs1 as <-. exact Hd1.
Qed.

(** X1. Decoding a header block whose strings are literal: the decoder does
    what the fields mean, in order, and stops at the first field in
    error, keeping the headers decoded before it. *)
Theorem header_block_decoding (d : HpackDecoder.t) (fields : list field) :
  Forall field_in_range fields ->
  exists bytes,
    block_octets fields = Some bytes /\
    decode d bytes = Some (block_meaning d [] fields).
Proof.
  intros Hr. destruct (block_decoding_from fields d [] Hr) as [bytes [Hb Hd]].
  exists bytes. split; assumption.
Qed.

(** *** Arbitrary input *)

Lemma decode_integer_loop_nonneg (data : octets) :
  forall value m, 0 <= fst (fst (decode_integer_loop data value m)).
Proof.
  induction data as [|b data IH]; intros value m; simpl; [lia|].
  destruct ((m / 128 >? UINT64_MAX / 128) && (m >=? 63) && (Z.land b 127 >? 0));
    [simpl; lia|].
  destruct (m + 7 >? 70); [simpl; lia|].
  destruct (Z.land b 128 =? 128); [apply IH|].
  simpl. unfold to_uint64. apply Z.mod_pos_bound. lia.
Qed.

Lemma decode_integer_nonneg (data : octets) (N : Z) :
  0 <= fst (fst (decode_integer data N)).
Proof.
  unfold decode_integer. destruct data as [|b data]; [simpl; lia|].
  assert (Hm : 0 <= to_uint8 (Z.shiftl 1 N - 1))
    by (unfold to_uint8; apply Z.mod_pos_bound; lia).
  destruct (_ <? _); [|apply decode_integer_loop_nonneg].
  simpl. apply Z.land_nonneg. auto.
Qed.

Lemma add_to_dynamic_table_max (d : HpackDecoder.t) (h : HttpHeader) :
  max_dynamic_table_size_ (add_to_dynamic_table d h)
  = max_dynamic_table_size_ d.
Proof.
  unfold add_to_dynamic_table. destruct (_ >? _); [reflexivity|].
  unfold evict_from_dynamic_table.
  destruct (evict_from_back _ _ _ _). reflexivity.
Qed.

Lemma set_max_dynamic_table_size_max (d : HpackDecoder.t) (n : Z) :
  max_dynamic_table_size_ (set_max_dynamic_table_size d n) = n.
Proof.
  unfold set_max_dynamic_table_size, evict_from_dynamic_table.
  destruct (evict_from_back _ _ _ _). reflexivity.
Qed.

Lemma decode_iteration_inv (d : HpackDecoder.t) (hs : list HttpHeader)
  (b : Z) (data : octets) d' hs' rest :
  decoder_inv d ->
  decode_iteration d hs b data = Next d' hs' rest ->
  decoder_inv d' /\
  max_dynamic_table_size_ d'
  <= Z.max (max_dynamic_table_size_ d) DEFAULT_DYNAMIC_TABLE_SIZE.
Proof.
  intros Hinv. unfold decode_iteration.
  destruct (Z.land b 128 =? 128).
  { destruct (decode_integer data 7) as [[index err] r1].
    destruct err; try discriminate.
    destruct (index =? 0); [discriminate|].
    destruct (get_header_from_tables d index); [|discriminate].
    intros [= <- _ _]. split; [assumption|lia]. }
  destruct (Z.land b 192 =? 64).
  { destruct (decode_literal d data 6) as [[[n v] r]|e]; [|discriminate].
    intros [= <- _ _]. split; [now apply decoder_add_inv|].
    rewrite add_to_dynamic_table_max. lia. }
  destruct (Z.land b 240 =? 0).
  { destruct (decode_literal d data 4) as [[[n v] r]|e]; [|discriminate].
    intros [= <- _ _]. split; [assumption|lia]. }
  destruct (Z.land b 240 =? 16).
  { destruct (decode_literal d data 4) as [[[n v] r]|e]; [|discriminate].
    intros [= <- _ _]. split; [assumption|lia]. }
  destruct (Z.land b 224 =? 32); [|discriminate].
  pose proof (decode_integer_nonneg data 5) as Hnn.
  destruct (decode_integer data 5) as [[sz err] r1]. simpl in Hnn.
  destruct err; try discriminate.
  destruct hs; simpl; [|discriminate].
  destruct (Z.gtb_spec sz DEFAULT_DYNAMIC_TABLE_SIZE); [discriminate|].
  intros [= <- _ _].
  change DEFAULT_DYNAMIC_TABLE_SIZE with 4096 in *.
  assert (Hsz : to_uint32 sz = sz) by (unfold to_uint32; apply Z.mod_small; lia).
  rewrite Hsz. split.
  - apply decoder_set_max_inv; [assumption|lia].
  - rewrite set_max_dynamic_table_size_max. lia.
Qed.

Lemma decode_iteration_break (d : HpackDecoder.t) (hs : list HttpHeader)
  (b : Z) (data : octets) d' hs' e :
  decode_iteration d hs b data = Break d' hs' e -> d' = d.
Proof.
  unfold decode_iteration.
  destruct (Z.land b 128 =? 128).
  { destruct (decode_integer data 7) as [[index err] r1].
    destruct err; try (intros [= <- _ _]; reflexivity).
    destruct (index =? 0); [intros [= <- _ _]; reflexivity|].
    destruct (get_header_from_tables d index); [discriminate|].
    intros [= <- _ _]; reflexivity. }
  destruct (Z.land b 192 =? 64).
  { destruct (decode_literal d data 6) as [[[n v] r]|e0]; [discriminate|].
    intros [= <- _ _]; reflexivity. }
  destruct (Z.land b 240 =? 0).
  { destruct (decode_literal d data 4) as [[[n v] r]|e0]; [discriminate|].
    intros [= <- _ _]; reflexivity. }
  destruct (Z.land b 240 =? 16).
  { destruct (decode_literal d data 4) as [[[n v] r]|e0]; [discriminate|].
    intros [= <- _ _]; reflexivity. }
  destruct (Z.land b 224 =? 32); [|intros [= <- _ _]; reflexivity].
  destruct (decode_integer data 5) as [[sz err] r1].
  destruct err; try (intros [= <- _ _]; reflexivity).
  destruct hs; simpl; [|intros [= <- _ _]; reflexivity].
  destruct (sz >? DEFAULT_DYNAMIC_TABLE_SIZE); [|discriminate].
  intros [= <- _ _]; reflexivity.
Qed.

Lemma decode_loop_inv (fuel : nat) :
  forall d hs data,
    (List.length data <= fuel)%nat -> decoder_inv d ->
    exists d' hs' e,
      decode_loop fuel d hs data = Some (d', hs', e) /\
      decoder_inv d' /\
      max_dynamic_table_size_ d'
      <= Z.max (max_dynamic_table_size_ d) DEFAULT_DYNAMIC_TABLE_SIZE.
Proof.
  induction fuel as [|fuel IH]; intros d hs data Hlen Hinv.
  - destruct data; [|simpl in Hlen; lia].
    exists d, hs, HpackError.OK. simpl. split; [reflexivity|split; [assumption|lia]].
  - destruct data as [|b data].
    { exists d, hs, HpackError.OK. simpl. split; [reflexivity|split; [assumption|lia]]. }
    cbn [decode_loop].
    destruct (decode_iteration d hs b (b :: data)) as [d1 h1 e1|d1 h1 r1] eqn:E.
    + apply decode_iteration_break in E as ->.
      exists d, h1, e1. split; [reflexivity|split; [assumption|lia]].
    + pose proof (decode_iteration_length _ _ _ _ _ _ _ E) as Hl.
      destruct (decode_iteration_inv _ _ _ _ _ _ _ Hinv E) as [Hinv1 Hmax1].
      destruct (IH d1 h1 r1) as (d' & hs' & e & Hd & Hinv' & Hmax');
        [simpl in Hlen; lia | assumption |].
      exists d', hs', e. split; [assumption|split; [assumption|lia]].
Qed.

(** X2. Whatever the input, [decode] returns; the table it leaves holds no
    more than its capacity, and the capacity is at most the larger of the
    capacity before the call and 4096. *)
Theorem decode_any_input (d : HpackDecoder.t) (data : octets) :
  decoder_inv d ->
  exists d' headers e,
    decode d data = Some (d', headers, e) /\
    current_dynamic_table_size_ d' <= max_dynamic_table_size_ d' /\
    current_dynamic_table_size_ d'
    = table_cost (dynamic_table_ d') mod 2 ^ 32 /\
    max_dynamic_table_size_ d' <= Z.max (max_dynamic_table_size_ d) 4096.
Proof.
  intros Hinv.
  destruct (decode_loop_inv (List.length data) d [] data (le_n _) Hinv)
    as (d' & hs' & e & Hd & (Hs & Hc & Hm & Hle) & Hmax).
  exists d', hs', e. repeat split; assumption.
Qed.

Lemma is_octets_check (s : octets) :
  forallb (fun b => (0 <=? b) && (b <? 256)) s = true -> is_octets s.
Proof.
  induction s as [|b s IH]; intros H; [constructor|].
  simpl in H. apply andb_true_iff in H as [Hb Hs].
  constructor; [lia | now apply IH].
Qed.

Lemma header_block_decoding_witness :
  Forall field_in_range sample_fields /\
  exists bytes,
    block_octets sample_fields = Some bytes /\
    decode (new 4096) bytes = Some (block_meaning (new 4096) [] sample_fields).
Proof.
  assert (H : Forall field_in_range sample_fields).
  { unfold sample_fields.
    repeat match goal with
           | |- Forall _ (_ :: _) => apply List.Forall_cons
           | |- Forall _ [] => apply List.Forall_nil
           end;
      cbn [field_in_range]; repeat split; try lia;
      try (apply is_octets_check; reflexivity); reflexivity. }
  split; [exact H|]. exact (header_block_decoding (new 4096) sample_fields H).
Defined.

Example sample_block :
  block_octets sample_fields
  = Some ([0x40; 10] ++ str "custom-key" ++ [13] ++ str "custom-header"
          ++ [0xBE; 0x82; 0x1F; 0x11; 6] ++ str "secret" ++ [0x80]) /\
  block_meaning (new 4096) [] sample_fields
  = ({| dynamic_table_ :=
          [mkDynamicTableEntry (str "custom-key") (str "custom-header")];
        current_dynamic_table_size_ := 55;
        max_dynamic_table_size_ := 4096 |},
     [ {| name := str "custom-key"; value := str "custom-header";
          sensitive := false |};
       {| name := str "custom-key"; value := str "custom-header";
          sensitive := false |};
       {| name := str ":method"; value := str "GET"; sensitive := false |};
       {| name := str "cookie"; value := str "secret"; sensitive := true |} ],
     HpackError.INDEX_OUT_OF_BOUNDS).
Proof. split; vm_compute; reflexivity. Qed.

Lemma decode_any_input_witness :
  decoder_inv (new 4096) /\
  exists d' headers e,
    decode (new 4096) [0x82; 0x3F; 0xE1; 0x7F; 0xFF] = Some (d', headers, e) /\
    current_dynamic_table_size_ d' <= max_dynamic_table_size_ d' /\
    current_dynamic_table_size_ d'
    = table_cost (dynamic_table_ d') mod 2 ^ 32 /\
    max_dynamic_table_size_ d' <= Z.max (max_dynamic_table_size_ (new 4096)) 4096.
Proof.
  assert (H : decoder_inv (new 4096)) by (apply decoder_new_inv; lia).
  split; [exact H|].
  exact (decode_any_input (new 4096) [0x82; 0x3F; 0xE1; 0x7F; 0xFF] H).
Defined.

(** *** Addressing the dynamic table *)

Lemma evict_nothing (l : list DynamicTableEntry) (cur req max : Z) :
  to_uint32 (cur + req) <= max ->
  evict_from_back l cur req max = (l, cur).
Proof.
  intros H. destruct l as [|e l]; [reflexivity|]. simpl.
  destruct (Z.gtb_spec (to_uint32 (cur + req)) max); [lia|reflexivity].
Qed.

(** X3. An insertion for which there is room puts the header at index 62,
    moves every entry of the dynamic table one index up and leaves the
    indices of the static table alone. *)
Theorem insertion_shifts_indices (d : HpackDecoder.t) (h : HttpHeader) :
  decoder_inv d ->
  current_dynamic_table_size_ d + header_cost h <= max_dynamic_table_size_ d ->
  table_lookup (add_to_dynamic_table d h) 62
  = Some {| name := name h; value := value h; sensitive := false |} /\
  (forall index, 62 <= index ->
     table_lookup (add_to_dynamic_table d h) (index + 1) = table_lookup d index) /\
  (forall index, index <= 61 ->
     table_lookup (add_to_dynamic_table d h) index = table_lookup d index) /\
  current_dynamic_table_size_ (add_to_dynamic_table d h)
  = current_dynamic_table_size_ d + header_cost h.
Proof.
  intros (Hs & Hc & Hm & Hle) Hfit.
  assert (Hcur : 0 <= current_dynamic_table_size_ d)
    by (rewrite Hc; apply Z.mod_pos_bound; lia).
  assert (Hcost : 32 <= header_cost h) by (unfold header_cost; lia).
  change (2 ^ 32) with 4294967296 in *.
  assert (Hadd : add_to_dynamic_table d h
                 = {| dynamic_table_ :=
                        mkDynamicTableEntry (name h) (value h) :: dynamic_table_ d;
                      current_dynamic_table_size_ :=
                        current_dynamic_table_size_ d + header_cost h;
                      max_dynamic_table_size_ := max_dynamic_table_size_ d |}).
  { unfold add_to_dynamic_table. fold (header_cost h).
    destruct (Z.gtb_spec (header_cost h) (max_dynamic_table_size_ d)); [lia|].
    unfold evict_from_dynamic_table.
    assert (Hu : to_uint32 (header_cost h) = header_cost h)
      by (unfold to_uint32; apply Z.mod_small; lia).
    rewrite Hu, evict_nothing.
    - cbn [dynamic_table_ current_dynamic_table_size_ max_dynamic_table_size_].
      rewrite rev_involutive. f_equal.
      unfold to_uint32. apply Z.mod_small. lia.
    - unfold to_uint32. rewrite Z.mod_small; lia. }
  rewrite Hadd. unfold table_lookup.
  cbn [dynamic_table_ current_dynamic_table_size_].
  split; [reflexivity|]. split; [|split; [|reflexivity]].
  - intros index Hi.
    destruct (Z.leb_spec 1 (index + 1)); [|lia].
    destruct (Z.leb_spec (index + 1) 61); [lia|]. simpl andb. cbv iota.
    destruct (Z.leb_spec 62 (index + 1)); [|lia].
    destruct (Z.leb_spec index 61); [lia|]. rewrite andb_false_r.
    destruct (Z.leb_spec 62 index); [|lia].
    replace (Z.to_nat (index + 1 - 62)) with (S (Z.to_nat (index - 62))) by lia.
    reflexivity.
  - intros index Hi.
    destruct ((1 <=? index) && (index <=? 61)); [reflexivity|].
    destruct (Z.leb_spec 62 index); [lia|reflexivity].
Qed.

Lemma insertion_shifts_indices_witness :
  (decoder_inv (new 4096) /\
   current_dynamic_table_size_ (new 4096)
   + header_cost {| name := str "a"; value := str "b"; sensitive := true |}
   <= max_dynamic_table_size_ (new 4096)) /\
  table_lookup
    (add_to_dynamic_table (new 4096)
       {| name := str "a"; value := str "b"; sensitive := true |}) 62
  = Some {| name := str "a"; value := str "b"; sensitive := false |}.
Proof.
  assert (H1 : decoder_inv (new 4096)) by (apply decoder_new_inv; lia).
  assert (H2 : current_dynamic_table_size_ (new 4096)
               + header_cost {| name := str "a"; value := str "b";
                                sensitive := true |}
               <= max_dynamic_table_size_ (new 4096)) by (vm_compute; congruence).
  split; [split; assumption|].
  exact (proj1 (insertion_shifts_indices (new 4096) _ H1 H2)).
Defined.

End HeaderBlocks.

(** ** The encoder of header blocks *)

Section HeaderEncoding.
Import StaticTable HpackEncoder HpackDecoder.

Lemma octets_eqb_eq (a b : octets) : octets_eqb a b = true <-> a = b.
Proof.
  revert b. induction a as [|x a IH]; intros [|y b]; simpl;
    try (split; [discriminate|discriminate]); [tauto|].
  rewrite andb_true_iff, Z.eqb_eq, IH. split.
  - intros [-> ->]. reflexivity.
  - intros [= -> ->]. auto.
Qed.

Lemma octets_eqb_refl (a : octets) : octets_eqb a a = true.
Proof. now apply octets_eqb_eq. Qed.

Lemma first_index_app {A : Type} (P : A -> bool) (pre l : list A) :
  forall i,
    first_index P (pre ++ l) i
    = match first_index P pre i with
      | Some k => Some k
      | None => first_index P l (i + Z.of_nat (List.length pre))
      end.
Proof.
  induction pre as [|x pre IH]; intros i; simpl.
  - f_equal. lia.
  - destruct (P x); [reflexivity|]. rewrite IH. 
    destruct (first_index P pre (i + 1)); [reflexivity|]. f_equal. lia.
Qed.

Lemma first_index_none {A : Type} (P : A -> bool) (l : list A) :
  forall i, existsb P l = false -> first_index P l i = None.
Proof.
  induction l as [|x l IH]; intros i H; simpl in *; [reflexivity|].
  apply orb_false_iff in H as [-> H]. now apply IH.
Qed.

Lemma first_index_some {A : Type} (P : A -> bool) (l : list A) :
  forall i k,
    first_index P l i = Some k ->
    i <= k < i + Z.of_nat (List.length l) /\
    exists x, nth_error l (Z.to_nat (k - i)) = Some x /\ P x = true /\
    existsb P (firstn (Z.to_nat (k - i)) l) = false.
Proof.
  induction l as [|x l IH]; intros i k H; simpl in H; [discriminate|].
  destruct (P x) eqn:E.
  - injection H as <-. split; [simpl; lia|].
    exists x. rewrite Z.sub_diag. simpl. auto.
  - apply IH in H as [Hr [y [Hn [Hy Hf]]]]. split; [simpl; lia|].
    exists y.
    replace (Z.to_nat (k - i)) with (S (Z.to_nat (k - (i + 1)))) by lia.
    simpl. rewrite E. auto.
Qed.

Lemma first_index_exists {A : Type} (P : A -> bool) (l : list A) :
  forall i, first_index P l i = None -> existsb P l = false.
Proof.
  induction l as [|x l IH]; intros i H; simpl in *; [reflexivity|].
  destruct (P x); [discriminate|]. simpl. eauto.
Qed.

Lemma to_int32_small (x : Z) : - 2 ^ 31 <= x < 2 ^ 31 -> to_int32 x = x.
Proof.
  intros H. unfold to_int32. change (2 ^ 31) with 2147483648 in *.
  change (2 ^ 32) with 4294967296. lia.
Qed.

(** The inner loop. *)
Lemma find_name_match_spec (n v : octets) (l : list HttpHeader) :
  forall j found first,
    0 <= j -> j + Z.of_nat (List.length l) < 2 ^ 31 ->
    find_name_match l j n v found first
    = match first_index (header_matches n v) l (j + 1) with
      | Some i => inl (i, true)
      | None =>
          inr (found || existsb (name_matches n) l,
               if found then first
               else match first_index (name_matches n) l (j + 1) with
                    | Some i => i
                    | None => first
                    end)
      end.
Proof.
  induction l as [|e l IH]; intros j found first Hj Hlen.
  - simpl. rewrite orb_false_r. destruct found; reflexivity.
  - cbn [find_name_match first_index existsb].
    unfold header_matches at 1, name_matches at 1 3.
    cbn [List.length] in Hlen.
    rewrite (to_int32_small (j + 1)) by lia.
    destruct (octets_eqb (name e) n) eqn:En; cbn [andb].
    + destruct (octets_eqb (value e) v) eqn:Ev; [reflexivity|].
      rewrite IH by lia.
      destruct (first_index (header_matches n v) l (j + 1 + 1)); [reflexivity|].
      cbn [orb]. rewrite orb_true_r. destruct found; reflexivity.
    + rewrite IH by lia. cbn [orb]. reflexivity.
Qed.

Lemma header_matches_name (n v : octets) (l : list HttpHeader) :
  existsb (name_matches n) l = false -> existsb (header_matches n v) l = false.
Proof.
  induction l as [|e l IH]; simpl; [reflexivity|].
  intros H. apply orb_false_iff in H as [H1 H2].
  unfold header_matches at 1. unfold name_matches in H1. rewrite H1. simpl.
  auto.
Qed.

(** The outer loop, entered behind a part of the table that does not hold
    the name. *)
Lemma find_in_static_loop_spec (n v : octets) (l : list HttpHeader) :
  forall pre,
    STATIC_TABLE = pre ++ l ->
    existsb (name_matches n) pre = false ->
    find_in_static_loop l (Z.of_nat (List.length pre)) n v
    = search_result STATIC_TABLE n v.
Proof.
  assert (HT : Z.of_nat (List.length STATIC_TABLE) = 61) by reflexivity.
  induction l as [|e l IH]; intros pre Hsplit Hpre.
  - rewrite app_nil_r in Hsplit. subst pre. simpl. unfold search_result.
    rewrite (first_index_none _ _ 1 (header_matches_name n v _ Hpre)).
    now rewrite (first_index_none _ _ 1 Hpre).
  - assert (Hlen : Z.of_nat (List.length pre) < 61).
    { rewrite <- HT, Hsplit, length_app. simpl. lia. }
    assert (HR : search_result STATIC_TABLE n v
                 = match first_index (header_matches n v) (e :: l)
                           (1 + Z.of_nat (List.length pre)) with
                   | Some i => (i, true)
                   | None =>
                       match first_index (name_matches n) (e :: l)
                               (1 + Z.of_nat (List.length pre)) with
                       | Some i => (i, false)
                       | None => (0, false)
                       end
                   end).
    { unfold search_result. rewrite Hsplit, !first_index_app.
      rewrite (first_index_none _ _ 1 (header_matches_name n v _ Hpre)).
      now rewrite (first_index_none _ _ 1 Hpre). }
    assert (HI : find_name_match STATIC_TABLE 0 n v false 0
                 = match first_index (header_matches n v) (e :: l)
                           (1 + Z.of_nat (List.length pre)) with
                   | Some i => inl (i, true)
                   | None =>
                       inr (existsb (name_matches n) (e :: l),
                            match first_index (name_matches n) (e :: l)
                                    (1 + Z.of_nat (List.length pre)) with
                            | Some i => i
                            | None => 0
                            end)
                   end).
    { rewrite find_name_match_spec
        by (rewrite ?HT; change (2 ^ 31) with 2147483648; lia).
      rewrite Hsplit, !first_index_app, existsb_app.
      rewrite (first_index_none _ _ (0 + 1) (header_matches_name n v _ Hpre)).
      rewrite (first_index_none _ _ (0 + 1) Hpre), Hpre.
      reflexivity. }
    rewrite HR. cbn [find_in_static_loop]. rewrite HI.
    cbn [first_index existsb].
    unfold header_matches at 1 3, name_matches at 1 3 5.
    rewrite (to_int32_small (Z.of_nat (List.length pre) + 1))
      by (change (2 ^ 31) with 2147483648; lia).
    destruct (octets_eqb (name e) n) eqn:En; cbn [andb orb].
    + destruct (octets_eqb (value e) v) eqn:Ev; [f_equal; lia|].
      destruct (first_index (header_matches n v) l _); reflexivity.
    + replace (Z.of_nat (List.length pre) + 1)
        with (Z.of_nat (List.length (pre ++ [e])))
        by (rewrite length_app; simpl; lia).
      rewrite IH.
      * unfold search_result. rewrite Hsplit, !first_index_app.
        rewrite (first_index_none _ _ 1 (header_matches_name n v _ Hpre)).
        rewrite (first_index_none _ _ 1 Hpre).
        cbn [first_index]. unfold header_matches at 1, name_matches at 1.
        rewrite En. cbn [andb]. reflexivity.
      * rewrite <- app_assoc. exact Hsplit.
      * rewrite existsb_app, Hpre. simpl. unfold name_matches. now rewrite En.
Qed.

Lemma find_in_static_table_result (n v : octets) :
  find_in_static_table n v = search_result STATIC_TABLE n v.
Proof. exact (find_in_static_loop_spec n v STATIC_TABLE [] eq_refl eq_refl). Qed.

(** A non-zero index returned by the search is an index of the table
    whose entry has the name, and with [true] also the value; index 0
    means that no entry has the name. *)
Lemma find_in_static_table_sound (n v : octets) :
  (fst (find_in_static_table n v) = 0 ->
   snd (find_in_static_table n v) = false /\
   forall h, In h STATIC_TABLE -> name h <> n) /\
  (fst (find_in_static_table n v) <> 0 ->
   exists h,
     get_static_header (fst (find_in_static_table n v)) = Some h /\
     1 <= fst (find_in_static_table n v) <= 61 /\
     name h = n /\
     (snd (find_in_static_table n v) = true -> value h = v)).
Proof.
  rewrite find_in_static_table_result. unfold search_result.
  assert (HT : Z.of_nat (List.length STATIC_TABLE) = 61) by reflexivity.
  destruct (first_index (header_matches n v) STATIC_TABLE 1) as [i|] eqn:Ef.
  - apply first_index_some in Ef as [Hr [h [Hn [Hh _]]]]. cbn [fst snd].
    split; [lia|]. intros _. exists h.
    unfold header_matches in Hh. apply andb_true_iff in Hh as [H1 H2].
    apply octets_eqb_eq in H1, H2.
    split; [|split; [lia|auto]]. unfold get_static_header. rewrite HT.
    destruct (Z.eqb_spec i 0); [lia|]. destruct (Z.gtb_spec i 61); [lia|].
    exact Hn.
  - destruct (first_index (name_matches n) STATIC_TABLE 1) as [i|] eqn:En.
    + apply first_index_some in En as [Hr [h [Hn [Hh _]]]]. cbn [fst snd].
      split; [lia|]. intros _. exists h.
      apply octets_eqb_eq in Hh.
      split; [|split; [lia|split; [exact Hh|discriminate]]].
      unfold get_static_header. rewrite HT.
      destruct (Z.eqb_spec i 0); [lia|]. destruct (Z.gtb_spec i 61); [lia|].
      exact Hn.
    + cbn [fst snd]. split; [|intros H; now elim H].
      intros _. split; [reflexivity|]. intros h Hin Hname.
      apply first_index_exists in En.
      assert (Hx : existsb (name_matches n) STATIC_TABLE = true).
      { apply existsb_exists. exists h. split; [exact Hin|].
        unfold name_matches. now apply octets_eqb_eq. }
      congruence.
Qed.

Lemma find_in_static_table_header_sound (h : HttpHeader) :
  (fst (find_in_static_table_header h) = 0 ->
   snd (find_in_static_table_header h) = false /\
   forall h', In h' STATIC_TABLE -> name h' <> name h) /\
  (fst (find_in_static_table_header h) <> 0 ->
   exists h',
     get_static_header (fst (find_in_static_table_header h)) = Some h' /\
     1 <= fst (find_in_static_table_header h) <= 61 /\
     name h' = name h /\
     (snd (find_in_static_table_header h) = true -> value h' = value h)).
Proof. exact (find_in_static_table_sound (name h) (value h)). Qed.

(** X4. A search of the static table returns the first entry that has the
    name and the value, with [true]; failing that, the first entry that
    has the name, with [false]; failing that, index 0.  A non-zero index
    is an index of the table whose entry has the name, and with [true]
    also the value. *)
Theorem static_table_search (n v : octets) :
  find_in_static_table n v = search_result STATIC_TABLE n v /\
  (fst (find_in_static_table n v) = 0 ->
   snd (find_in_static_table n v) = false /\
   forall h, In h STATIC_TABLE -> name h <> n) /\
  (fst (find_in_static_table n v) <> 0 ->
   exists h,
     get_static_header (fst (find_in_static_table n v)) = Some h /\
     name h = n /\
     (snd (find_in_static_table n v) = true -> value h = v)).
Proof.
  split; [apply find_in_static_table_result|].
  destruct (find_in_static_table_sound n v) as [H0 H1].
  split; [exact H0|]. intros Hne.
  destruct (H1 Hne) as (h & Hg & _ & Hn & Hv). eauto.
Qed.

(** *** The encoder *)

Lemma encode_integer_loop_app (fuel : nat) :
  forall (buf x : octets) (v : Z),
    encode_integer_loop fuel (buf ++ x) v
    = option_map (app buf) (encode_integer_loop fuel x v).
Proof.
  induction fuel as [|fuel IH]; intros buf x v; simpl.
  - destruct (v >=? 128); [reflexivity|]. simpl. now rewrite app_assoc.
  - destruct (v >=? 128).
    + rewrite <- app_assoc. apply IH.
    + simpl. now rewrite app_assoc.
Qed.

Lemma encode_integer_app (buf : octets) (p N v : Z) :
  encode_integer buf p N v = option_map (app buf) (encode_integer [] p N v).
Proof.
  unfold encode_integer. destruct (v <? _); [reflexivity|].
  cbn [app]. rewrite encode_integer_loop_app.
  destruct (encode_integer_loop _ _ _); reflexivity.
Qed.

Lemma encode_string_app (buf s : octets) (hf : bool) :
  encode_string buf s hf = option_map (app buf) (encode_string [] s hf).
Proof.
  unfold encode_string.
  destruct (if hf then _ else _) as [[hb use]|]; [|reflexivity].
  rewrite encode_integer_app.
  destruct (encode_integer [] _ 7 _) as [b|]; [|reflexivity].
  cbn [option_map app]. destruct use; cbn [option_map]; now rewrite app_assoc.
Qed.

Lemma encode_integer_some (p N v : Z) :
  In (p, N) prefix_patterns -> 0 <= v < 2 ^ 64 ->
  exists out, encode_integer [] p N v = Some out.
Proof.
  intros Hp Hv.
  destruct (integer_roundtrip_pattern p N v [] Hp Hv) as [low [tail [He _]]].
  eauto.
Qed.

Lemma encode_string_some (s : octets) (hf : bool) :
  is_octets s -> Z.of_nat (List.length s) < 2 ^ 64 ->
  exists out, encode_string [] s hf = Some out.
Proof.
  intros Hs Hlen. unfold encode_string.
  assert (Hlit : exists out,
             match encode_integer [] 0 7 (Z.of_nat (List.length s)) with
             | Some buffer => Some (buffer ++ map to_uint8 s)
             | None => None
             end = Some out).
  { destruct (encode_integer_some 0 7 (Z.of_nat (List.length s)))
      as [b Hb]; [simpl; auto 10 | lia |]. rewrite Hb. eauto. }
  destruct hf; [|exact Hlit].
  destruct (huffman_encode_loop_length s Hs 0 0 []) as [out [E L]]; [lia|].
  unfold Hpack.huffman_encode. rewrite E.
  destruct (Z.ltb_spec (Z.of_nat (List.length out)) (Z.of_nat (List.length s)));
    [|exact Hlit].
  destruct (encode_integer_some 0x80 7 (Z.of_nat (List.length out)))
    as [b Hb]; [simpl; auto | lia |].
  rewrite Hb. eauto.
Qed.

Lemma encode_literal_some (buf : octets) (p N static_idx dyn_idx : Z)
  (h : HttpHeader) :
  In (p, N) prefix_patterns -> header_in_range h ->
  exists out, encode_literal buf p N static_idx dyn_idx h = Some out.
Proof.
  intros Hp (Hn & Hv & Hln & Hlv). unfold encode_literal.
  set (idx := if negb (static_idx =? 0) then _ else _).
  destruct (encode_integer_some p N (to_uint64 idx) Hp) as [bi Hbi];
    [unfold to_uint64; apply Z.mod_pos_bound; lia|].
  rewrite encode_integer_app, Hbi. cbn [option_map].
  destruct (encode_string_some (value h) true Hv Hlv) as [bv Hbv].
  destruct (encode_string_some (name h) true Hn Hln) as [bn Hbn].
  destruct (idx =? 0).
  - rewrite encode_string_app, Hbn. cbn [option_map].
    rewrite encode_string_app, Hbv. cbn [option_map]. eauto.
  - rewrite encode_string_app, Hbv. cbn [option_map]. eauto.
Qed.

(** One header: the encoder returns, and either leaves its table alone or
    inserts the header, which then is not sensitive. *)
Lemma encode_header_some (e : HpackEncoder.t) (buf : octets) (h : HttpHeader) :
  header_in_range h ->
  exists e' out,
    encode_header e buf h = Some (e', out) /\
    (e' = e \/
     (sensitive h = false /\ e' = HpackEncoder.add_to_dynamic_table e h)).
Proof.
  intros Hr. unfold encode_header.
  destruct (find_in_static_table_header h) as [static_idx sm].
  destruct (negb (static_idx =? 0) && sm).
  { destruct (encode_integer_some 0x80 7 (to_uint64 static_idx)) as [b Hb];
      [simpl; auto | unfold to_uint64; apply Z.mod_pos_bound; lia |].
    rewrite encode_integer_app, Hb. cbn [option_map]. eauto. }
  destruct (find_in_dynamic_table e h) as [dyn_idx dm].
  destruct (negb (dyn_idx =? 0) && dm).
  { destruct (encode_integer_some 0x80 7
                (to_uint64 (Z.of_nat (List.length STATIC_TABLE) + dyn_idx)))
      as [b Hb];
      [simpl; auto | unfold to_uint64; apply Z.mod_pos_bound; lia |].
    rewrite encode_integer_app, Hb. cbn [option_map]. eauto. }
  destruct (sensitive h) eqn:Es.
  { destruct (encode_literal_some buf 0x10 4 static_idx dyn_idx h)
      as [out Ho]; [simpl; auto 10 | exact Hr |]. rewrite Ho. eauto. }
  destruct (_ <=? _).
  - destruct (encode_literal_some buf 0x40 6 static_idx dyn_idx h)
      as [out Ho]; [simpl; auto 10 | exact Hr |]. rewrite Ho.
    do 2 eexists. split; [reflexivity|]. right. split; reflexivity.
  - destruct (encode_literal_some buf 0x00 4 static_idx dyn_idx h)
      as [out Ho]; [simpl; auto 10 | exact Hr |]. rewrite Ho. eauto.
Qed.

Lemma evict_from_back_subset (l : list DynamicTableEntry) :
  forall cur req max x,
    In x (fst (evict_from_back l cur req max)) -> In x l.
Proof.
  induction l as [|e l IH]; intros cur req max x; simpl; [auto|].
  destruct (_ >? _); [|auto]. intros H. right. eapply IH. exact H.
Qed.

Lemma encoder_add_entries (e : HpackEncoder.t) (h : HttpHeader)
  (x : DynamicTableEntry) :
  In x (HpackEncoder.dynamic_table_ (HpackEncoder.add_to_dynamic_table e h)) ->
  x = mkDynamicTableEntry (name h) (value h)
  \/ In x (HpackEncoder.dynamic_table_ e).
Proof.
  unfold HpackEncoder.add_to_dynamic_table.
  destruct (_ >? _); [simpl; tauto|].
  unfold HpackEncoder.evict_from_dynamic_table.
  destruct (evict_from_back _ _ _ _) as [kept cur] eqn:E. simpl.
  intros [<-|H]; [auto|]. right.
  apply in_rev in H.
  apply in_rev. eapply evict_from_back_subset. rewrite E. exact H.
Qed.

Lemma encoder_add_inv (e : HpackEncoder.t) (h : HttpHeader) :
  decoder_inv (as_decoder e) ->
  decoder_inv (as_decoder (HpackEncoder.add_to_dynamic_table e h)) /\
  own_max_dynamic_table_size_ (HpackEncoder.add_to_dynamic_table e h)
  = own_max_dynamic_table_size_ e.
Proof.
  intros H.
  pose proof (as_decoder_step e (Insert h)) as Hs. simpl in Hs.
  split.
  - rewrite Hs. now apply decoder_add_inv.
  - change (own_max_dynamic_table_size_ (HpackEncoder.add_to_dynamic_table e h))
      with (max_dynamic_table_size_
              (as_decoder (HpackEncoder.add_to_dynamic_table e h))).
    rewrite Hs, add_to_dynamic_table_max. reflexivity.
Qed.

Lemma encode_loop_some (hs : list HttpHeader) :
  forall (e : HpackEncoder.t) (buf : octets),
    decoder_inv (as_decoder e) -> Forall header_in_range hs ->
    exists e' out,
      encode_loop e buf hs = Some (e', out) /\
      decoder_inv (as_decoder e') /\
      own_max_dynamic_table_size_ e' = own_max_dynamic_table_size_ e /\
      forall x, In x (HpackEncoder.dynamic_table_ e') ->
        In x (HpackEncoder.dynamic_table_ e) \/
        exists h, In h hs /\ sensitive h = false /\
                  x = mkDynamicTableEntry (name h) (value h).
Proof.
  induction hs as [|h hs IH]; intros e buf Hinv Hr.
  - exists e, buf. simpl. auto.
  - inversion Hr as [|? ? Hh Hhs]; subst.
    destruct (encode_header_some e buf h Hh) as (e1 & out1 & He1 & Hcase).
    cbn [encode_loop]. rewrite He1.
    assert (Hinv1 : decoder_inv (as_decoder e1) /\
                    own_max_dynamic_table_size_ e1
                    = own_max_dynamic_table_size_ e).
    { destruct Hcase as [->|[_ ->]]; [auto|]. now apply encoder_add_inv. }
    destruct Hinv1 as [Hinv1 Hmax1].
    destruct (IH e1 out1 Hinv1 Hhs) as (e' & out & He & Hinv' & Hmax' & Hin).
    exists e', out. split; [exact He|]. split; [exact Hinv'|].
    split; [congruence|].
    intros x Hx. destruct (Hin x Hx) as [Hx1|(h' & Hh' & Hs' & ->)].
    + destruct Hcase as [->|[Hs ->]]; [auto|].
      apply encoder_add_entries in Hx1 as [->|Hx1]; [|auto].
      right. exists h. simpl. auto.
    + right. exists h'. simpl. auto.
Qed.

(** X5. [encode] returns for every list of headers, with status [OK]; it
    keeps the dynamic table within its capacity and does not change the
    capacity; and every entry of the table after the call was there
    before or is a header of the list that is not marked sensitive: a
    sensitive header never enters the table. *)
Theorem encode_any_headers (e : HpackEncoder.t) (hs : list HttpHeader) :
  decoder_inv (as_decoder e) -> Forall header_in_range hs ->
  exists e' bytes,
    encode e hs = Some (e', bytes, HpackEncodingError.OK) /\
    HpackEncoder.current_dynamic_table_size_ e'
    <= own_max_dynamic_table_size_ e' /\
    own_max_dynamic_table_size_ e' = own_max_dynamic_table_size_ e /\
    forall x, In x (HpackEncoder.dynamic_table_ e') ->
      In x (HpackEncoder.dynamic_table_ e) \/
      exists h, In h hs /\ sensitive h = false /\
                x = mkDynamicTableEntry (name h) (value h).
Proof.
  intros Hinv Hr.
  destruct (encode_loop_some hs e [] Hinv Hr)
    as (e' & out & He & (_ & _ & _ & Hle) & Hmax & Hin).
  exists e', out. unfold encode. rewrite He. auto.
Qed.

Lemma encode_any_headers_witness :
  (decoder_inv (as_decoder (HpackEncoder.new 4096)) /\
   Forall header_in_range sample_headers) /\
  exists e' bytes,
    encode (HpackEncoder.new 4096) sample_headers
    = Some (e', bytes, HpackEncodingError.OK) /\
    HpackEncoder.current_dynamic_table_size_ e'
    <= own_max_dynamic_table_size_ e'.
Proof.
  assert (H1 : decoder_inv (as_decoder (HpackEncoder.new 4096)))
    by (apply (decoder_new_inv 4096); lia).
  assert (H2 : Forall header_in_range sample_headers).
  { unfold sample_headers.
    repeat match goal with
           | |- Forall _ (_ :: _) => apply List.Forall_cons
           | |- Forall _ [] => apply List.Forall_nil
           end;
      unfold header_in_range; cbn [name value]; repeat split;
      try (apply is_octets_check; reflexivity); reflexivity. }
  split; [split; assumption|].
  destruct (encode_any_headers (HpackEncoder.new 4096) sample_headers H1 H2)
    as (e' & bytes & He & Hle & _).
  exists e', bytes. split; assumption.
Defined.

(** The sensitive header of the sample is written never-indexed (0x10 with
    the name index 23) and is not in the table afterwards. *)
Example sample_headers_encoded :
  option_map (fun r => HpackEncoder.dynamic_table_ (fst (fst r)))
    (encode (HpackEncoder.new 4096) sample_headers)
  = Some [mkDynamicTableEntry (str "x-request-id") (str "7f3a")].
Proof. vm_compute. reflexivity. Qed.

Lemma static_entries_indexed :
  Forall (fun h => exists k, static_index_of h k) STATIC_TABLE.
Proof.
  unfold STATIC_TABLE.
  repeat match goal with
         | |- Forall _ (_ :: _) => apply List.Forall_cons
         | |- Forall _ [] => apply List.Forall_nil
         end;
    (eexists; split; [vm_compute; reflexivity | split; [lia | reflexivity]]).
Qed.

Lemma static_entry_indexed (h : HttpHeader) :
  In h STATIC_TABLE -> exists k, static_index_of h k.
Proof.
  intros H. pose proof static_entries_indexed as HF.
  rewrite List.Forall_forall in HF. auto.
Qed.

Lemma encode_header_static (e : HpackEncoder.t) (buf : octets)
  (h : HttpHeader) (k : Z) :
  static_index_of h k ->
  encode_header e buf h = Some (e, buf ++ [0x80 + k]) /\
  field_octets (Indexed k) = Some [0x80 + k].
Proof.
  intros (Hf & Hk & _).
  destruct (integer_roundtrip_pattern 0x80 7 k [])
    as [low [tail [He [_ [Hsmall _]]]]]; [simpl; auto | lia |].
  destruct Hsmall as [-> ->]; [change (2 ^ 7) with 128; lia|].
  unfold encode_header. rewrite Hf.
  destruct (Z.eqb_spec k 0); [lia|]. cbn [negb andb].
  unfold to_uint64. rewrite Z.mod_small by lia.
  rewrite encode_integer_app, He. split; [reflexivity|exact He].
Qed.

Lemma static_headers_encoding (hs : list HttpHeader) :
  Forall (fun h => In h STATIC_TABLE) hs ->
  forall (e : HpackEncoder.t) (d : HpackDecoder.t) (buf : octets)
         (acc : list HttpHeader),
  exists fields bytes,
    encode_loop e buf hs = Some (e, buf ++ bytes) /\
    List.length bytes = List.length hs /\
    block_octets fields = Some bytes /\
    Forall field_in_range fields /\
    block_meaning d acc fields = (d, acc ++ hs, HpackError.OK).
Proof.
  induction 1 as [|h hs Hh _ IH]; intros e d buf acc.
  - exists [], []. rewrite !app_nil_r. repeat split. constructor.
  - destruct (static_entry_indexed h Hh) as [k Hk].
    destruct (encode_header_static e buf h k Hk) as [He Hf].
    destruct (IH e d (buf ++ [0x80 + k]) (acc ++ [h]))
      as (fields & bytes & Hl & Hlen & Hb & Hr & Hm).
    exists (Indexed k :: fields), ((0x80 + k) :: bytes).
    cbn [encode_loop]. rewrite He, Hl, <- app_assoc.
    split; [reflexivity|]. split; [simpl; lia|].
    cbn [block_octets]. rewrite Hf, Hb. split; [reflexivity|].
    destruct Hk as (_ & Hk & Hn).
    split; [constructor; [simpl; lia|exact Hr]|].
    cbn [block_meaning field_meaning]. unfold table_lookup.
    destruct (Z.leb_spec 1 k); [|lia]. destruct (Z.leb_spec k 61); [|lia].
    cbn [andb]. rewrite Hn, Hm, <- app_assoc. reflexivity.
Qed.

(** X6. Headers of the static table round-trip: the encoder writes each
    of them as one octet, an indexed field, without touching its dynamic
    table, and any decoder reads the octets back as the same headers
    without touching its own. *)
Theorem static_headers_roundtrip (e : HpackEncoder.t) (d : HpackDecoder.t)
  (hs : list HttpHeader) :
  Forall (fun h => In h STATIC_TABLE) hs ->
  exists bytes,
    encode e hs = Some (e, bytes, HpackEncodingError.OK) /\
    List.length bytes = List.length hs /\
    decode d bytes = Some (d, hs, HpackError.OK).
Proof.
  intros H.
  destruct (static_headers_encoding hs H e d [] [])
    as (fields & bytes & Hl & Hlen & Hb & Hr & Hm).
  exists bytes. unfold encode. rewrite Hl. cbn [app].
  split; [reflexivity|]. split; [exact Hlen|].
  destruct (block_decoding_from fields d [] Hr) as [bytes' [Hb' Hd]].
  rewrite Hb in Hb'. injection Hb' as <-.
  unfold decode. rewrite Hd, Hm. reflexivity.
Qed.

Lemma static_headers_roundtrip_witness :
  Forall (fun h => In h STATIC_TABLE) sample_request /\
  exists bytes,
    encode (HpackEncoder.new 4096) sample_request
    = Some (HpackEncoder.new 4096, bytes, HpackEncodingError.OK) /\
    List.length bytes = List.length sample_request /\
    decode (HpackDecoder.new 4096) bytes
    = Some (HpackDecoder.new 4096, sample_request, HpackError.OK).
Proof.
  assert (H : Forall (fun h => In h STATIC_TABLE) sample_request).
  { unfold sample_request.
    repeat match goal with
           | |- Forall _ (_ :: _) => apply List.Forall_cons
           | |- Forall _ [] => apply List.Forall_nil
           end; unfold STATIC_TABLE; simpl; tauto. }
  split; [exact H|].
  exact (static_headers_roundtrip (HpackEncoder.new 4096)
           (HpackDecoder.new 4096) sample_request H).
Defined.

Example sample_request_encoded :
  encode (HpackEncoder.new 4096) sample_request
  = Some (HpackEncoder.new 4096, [0x82; 0x87; 0x84], HpackEncodingError.OK).
Proof. vm_compute. reflexivity. Qed.

Lemma static_table_search_example :
  find_in_static_table (str ":status") (str "404") = (13, true) /\
  find_in_static_table (str ":status") (str "418") = (8, false) /\
  find_in_static_table (str "x-custom") (str "") = (0, false).
Proof. repeat split; vm_compute; reflexivity. Qed.

Lemma find_in_dynamic_loop_sound (h : HttpHeader) (l : list DynamicTableEntry) :
  forall i k m,
    0 <= i -> i + Z.of_nat (List.length l) < 2 ^ 31 ->
    find_in_dynamic_loop l i h = (k, m) -> k <> 0 ->
    i < k <= i + Z.of_nat (List.length l) /\
    exists entry,
      nth_error l (Z.to_nat (k - i - 1)) = Some entry /\
      entry_name entry = name h /\
      (m = true -> entry_value entry = value h).
Proof.
  induction l as [|e l IH]; intros i k m Hi Hlen; simpl; [congruence|].
  cbn [List.length] in Hlen.
  destruct (octets_eqb (entry_name e) (name h)) eqn:En.
  - rewrite to_int32_small by lia. intros [= <- <-] _. split; [lia|].
    exists e. replace (i + 1 - i - 1) with 0 by lia. simpl.
    apply octets_eqb_eq in En.
    split; [reflexivity|]. split; [exact En|]. apply octets_eqb_eq.
  - intros Hf Hk. destruct (IH (i + 1) k m) as [Hr [entry [Hn Hp]]];
      [lia | lia | exact Hf | exact Hk |].
    split; [lia|]. exists entry.
    replace (Z.to_nat (k - i - 1)) with (S (Z.to_nat (k - (i + 1) - 1))) by lia.
    simpl. auto.
Qed.

Lemma table_cost_length (l : list DynamicTableEntry) :
  32 * Z.of_nat (List.length l) <= table_cost l.
Proof.
  induction l as [|e l IH]; simpl; [lia|].
  pose proof (entry_cost_nonneg e). lia.
Qed.

Lemma add_to_dynamic_table_ext (d : HpackDecoder.t) (h h' : HttpHeader) :
  name h = name h' -> value h = value h' ->
  HpackDecoder.add_to_dynamic_table d h = HpackDecoder.add_to_dynamic_table d h'.
Proof.
  intros Hn Hv. unfold HpackDecoder.add_to_dynamic_table.
  now rewrite Hn, Hv.
Qed.

Lemma table_exact_add (d : HpackDecoder.t) (h : HttpHeader) :
  table_exact d -> table_exact (HpackDecoder.add_to_dynamic_table d h).
Proof.
  intros (Hinv & Hcur & Hmax).
  destruct (decoder_step_exact d (Insert h) Hinv Hcur Hmax I I) as [H1 H2].
  simpl in H1, H2. split; [now apply decoder_add_inv|]. split; assumption.
Qed.

Lemma table_exact_length (e : HpackEncoder.t) :
  table_exact (as_decoder e) ->
  61 + Z.of_nat (List.length (HpackEncoder.dynamic_table_ e)) < 2 ^ 31.
Proof.
  intros ((_ & _ & _ & Hle) & Hcur & Hmax).
  cbn [as_decoder HpackDecoder.dynamic_table_
       HpackDecoder.current_dynamic_table_size_
       HpackDecoder.max_dynamic_table_size_] in *.
  pose proof (table_cost_length (HpackEncoder.dynamic_table_ e)).
  change (2 ^ 31) with 2147483648 in *. lia.
Qed.

Lemma static_table_length : Z.of_nat (List.length STATIC_TABLE) = 61.
Proof. reflexivity. Qed.

Lemma to_int32_61 : to_int32 61 = 61.
Proof. reflexivity. Qed.

(** The name index chosen by the encoder points, in a decoder with the
    same table, at an entry with the header's name. *)
Lemma name_index_sound (e : HpackEncoder.t) (h : HttpHeader) (si di : Z)
  (sm dm : bool) :
  table_exact (as_decoder e) ->
  find_in_static_table_header h = (si, sm) ->
  find_in_dynamic_table e h = (di, dm) ->
  let idx :=
    if negb (si =? 0) then si
    else if negb (di =? 0) then
      to_int32 (to_int32 (Z.of_nat (List.length STATIC_TABLE)) + di)
    else 0 in
  0 <= idx < 2 ^ 31 /\
  (if idx =? 0 then Some (name h)
   else option_map name (table_lookup (as_decoder e) idx)) = Some (name h).
Proof.
  intros (Hinv & Hcur & Hmax) Hs Hd idx.
  destruct (find_in_static_table_header_sound h) as [_ Hss].
  rewrite Hs in Hss. cbn [fst snd] in Hss.
  pose proof (table_exact_length e (conj Hinv (conj Hcur Hmax))) as Hlen.
  subst idx. rewrite static_table_length, to_int32_61.
  destruct (Z.eqb_spec si 0) as [Hs0|Hs0]; cbn [negb].
  - destruct (Z.eqb_spec di 0) as [Hd0|Hd0]; cbn [negb].
    + simpl. split; [lia|reflexivity].
    + unfold find_in_dynamic_table in Hd.
      destruct (find_in_dynamic_loop_sound h
                  (HpackEncoder.dynamic_table_ e) 0 di dm ltac:(lia)
                  ltac:(change (2 ^ 31) with 2147483648 in *; lia) Hd Hd0)
        as [Hr [entry [Hn [Hname _]]]].
      rewrite to_int32_small by (change (2 ^ 31) with 2147483648 in *; lia).
      split; [change (2 ^ 31) with 2147483648 in *; lia|].
      destruct (Z.eqb_spec (61 + di) 0); [lia|].
      unfold table_lookup.
      destruct (Z.leb_spec (61 + di) 61); [lia|]. rewrite andb_false_r.
      destruct (Z.leb_spec 62 (61 + di)); [|lia].
      cbn [as_decoder HpackDecoder.dynamic_table_].
      replace (61 + di - 62) with (di - 0 - 1) by lia.
      rewrite Hn. simpl. now rewrite Hname.
  - destruct (Hss Hs0) as (h0 & Hg & Hr & Hname & _).
    split; [change (2 ^ 31) with 2147483648; lia|].
    destruct (Z.eqb_spec si 0); [lia|].
    rewrite <- get_header_from_tables_lookup
      by (change (2 ^ 64) with 18446744073709551616; lia).
    unfold get_header_from_tables.
    change (Z.of_nat (List.length STATIC_TABLE)) with 61.
    destruct (Z.eqb_spec si 0); [lia|].
    destruct (Z.leb_spec si 61); [|lia].
    rewrite Hg. simpl. now rewrite Hname.
Qed.

Lemma encode_literal_field (buf : octets) (f : literal_form)
  (si di : Z) (h : HttpHeader) :
  header_in_range h -> header_literal h ->
  let idx :=
    if negb (si =? 0) then si
    else if negb (di =? 0) then
      to_int32 (to_int32 (Z.of_nat (List.length STATIC_TABLE)) + di)
    else 0 in
  0 <= idx < 2 ^ 31 ->
  exists out,
    encode_literal buf (fst (form_pattern f)) (snd (form_pattern f)) si di h
    = Some (buf ++ out) /\
    field_octets (Literal f idx (name h) (value h)) = Some out.
Proof.
  intros (Hn & Hv & Hln & Hlv) (Pn & Pv) idx Hidx.
  unfold encode_literal. fold idx.
  assert (Hu : to_uint64 idx = idx).
  { unfold to_uint64. apply Z.mod_small.
    change (2 ^ 31) with 2147483648 in *.
    change (2 ^ 64) with 18446744073709551616. lia. }
  rewrite Hu.
  assert (Hpat : In (form_pattern f) prefix_patterns)
    by (destruct f; simpl; auto 10).
  destruct (encode_integer_some (fst (form_pattern f)) (snd (form_pattern f)) idx)
    as [bi Hbi];
    [destruct (form_pattern f); exact Hpat
    | change (2 ^ 31) with 2147483648 in *;
      change (2 ^ 64) with 18446744073709551616; lia |].
  destruct (encode_string_some (name h) false Hn Hln) as [bn Hbn].
  destruct (encode_string_some (value h) false Hv Hlv) as [bv Hbv].
  unfold literal_preferred in Pn, Pv.
  exists (bi ++ (if idx =? 0 then bn else []) ++ bv).
  cbn [field_octets]. rewrite Hbi, Hbn, Hbv.
  split; [|reflexivity].
  rewrite encode_integer_app, Hbi. cbn [option_map].
  destruct (idx =? 0).
  - rewrite encode_string_app, Pn, Hbn. cbn [option_map].
    rewrite encode_string_app, Pv, Hbv. cbn [option_map].
    now rewrite <- !app_assoc.
  - rewrite encode_string_app, Pv, Hbv. cbn [option_map app].
    now rewrite <- !app_assoc.
Qed.

(** One header through both codecs. *)
Lemma encode_header_field (e : HpackEncoder.t) (buf : octets)
  (acc : list HttpHeader) (h : HttpHeader) :
  table_exact (as_decoder e) -> header_in_range h -> header_literal h ->
  exists e1 out fld h',
    encode_header e buf h = Some (e1, buf ++ out) /\
    field_octets fld = Some out /\ field_in_range fld /\
    field_meaning (as_decoder e) acc fld = inl (as_decoder e1, acc ++ [h']) /\
    name h' = name h /\ value h' = value h /\
    table_exact (as_decoder e1).
Proof.
  intros Hex Hr Hlit.
  pose proof Hex as (Hinv & Hcur & Hmax).
  pose proof (table_exact_length e (conj Hinv (conj Hcur Hmax))) as Hlen.
  unfold encode_header.
  destruct (find_in_static_table_header h) as [si sm] eqn:Es.
  destruct (negb (si =? 0) && sm) eqn:Ca.
  { (* the header is an entry of the static table *)
    apply andb_true_iff in Ca as [Hs0 ->]. apply negb_true_iff in Hs0.
    apply Z.eqb_neq in Hs0.
    destruct (find_in_static_table_header_sound h) as [_ Hss].
    rewrite Es in Hss. cbn [fst snd] in Hss.
    destruct (Hss Hs0) as (h0 & Hg & Hrange & Hname & Hvalue).
    assert (Hu : to_uint64 si = si)
      by (unfold to_uint64; apply Z.mod_small;
          change (2 ^ 64) with 18446744073709551616; lia).
    rewrite Hu.
    destruct (encode_integer_some 0x80 7 si) as [bi Hbi];
      [simpl; auto | change (2 ^ 64) with 18446744073709551616; lia |].
    exists e, bi, (Indexed si), h0.
    rewrite encode_integer_app, Hbi. split; [reflexivity|].
    split; [exact Hbi|].
    split; [simpl; change (2 ^ 64) with 18446744073709551616; lia|].
    split; [|auto].
    cbn [field_meaning].
    rewrite <- get_header_from_tables_lookup
      by (change (2 ^ 64) with 18446744073709551616; lia).
    unfold get_header_from_tables.
    change (Z.of_nat (List.length STATIC_TABLE)) with 61.
    destruct (Z.eqb_spec si 0); [lia|].
    destruct (Z.leb_spec si 61); [|lia].
    rewrite Hg. reflexivity. }
  destruct (find_in_dynamic_table e h) as [di dm] eqn:Ed.
  destruct (negb (di =? 0) && dm) eqn:Cb.
  { (* the header is an entry of the dynamic table *)
    apply andb_true_iff in Cb as [Hd0 ->]. apply negb_true_iff in Hd0.
    apply Z.eqb_neq in Hd0.
    unfold find_in_dynamic_table in Ed.
    destruct (find_in_dynamic_loop_sound h
                (HpackEncoder.dynamic_table_ e) 0 di true ltac:(lia)
                ltac:(change (2 ^ 31) with 2147483648 in *; lia) Ed Hd0)
      as [Hrange [entry [Hn [Hname Hvalue]]]].
    change (Z.of_nat (List.length STATIC_TABLE)) with 61.
    assert (Hu : to_uint64 (61 + di) = 61 + di)
      by (unfold to_uint64; apply Z.mod_small;
          change (2 ^ 31) with 2147483648 in *;
          change (2 ^ 64) with 18446744073709551616; lia).
    rewrite Hu.
    destruct (encode_integer_some 0x80 7 (61 + di)) as [bi Hbi];
      [simpl; auto
      | change (2 ^ 31) with 2147483648 in *;
        change (2 ^ 64) with 18446744073709551616; lia |].
    exists e, bi, (Indexed (61 + di)),
      {| name := entry_name entry; value := entry_value entry;
         sensitive := false |}.
    rewrite encode_integer_app, Hbi. split; [reflexivity|].
    split; [exact Hbi|].
    split; [simpl; change (2 ^ 31) with 2147483648 in *;
            change (2 ^ 64) with 18446744073709551616; lia|].
    split; [|cbn [name value]; auto].
    cbn [field_meaning]. unfold table_lookup.
    destruct (Z.leb_spec (61 + di) 61); [lia|]. rewrite andb_false_r.
    destruct (Z.leb_spec 62 (61 + di)); [|lia].
    cbn [as_decoder HpackDecoder.dynamic_table_].
    replace (61 + di - 62) with (di - 0 - 1) by lia.
    rewrite Hn. reflexivity. }
  (* a literal representation *)
  destruct (name_index_sound e h si di sm dm Hex Es Ed) as [Hidx Hname].
  set (idx := if negb (si =? 0) then si
              else if negb (di =? 0) then
                to_int32 (to_int32 (Z.of_nat (List.length STATIC_TABLE)) + di)
              else 0) in *.
  assert (Hfr : forall f, field_in_range (Literal f idx (name h) (value h))).
  { intros f. destruct Hr as (Hn & Hv & Hln & Hlv). simpl.
    repeat split; try assumption;
      change (2 ^ 31) with 2147483648 in *;
      change (2 ^ 64) with 18446744073709551616; lia. }
  destruct (sensitive h) eqn:Esens.
  { destruct (encode_literal_field buf NeverIndexed si di h Hr Hlit Hidx)
      as [out [Ho Hf]].
    cbn [form_pattern fst snd] in Ho. rewrite Ho.
    exists e, out, (Literal NeverIndexed idx (name h) (value h)),
      {| name := name h; value := value h; sensitive := true |}.
    split; [reflexivity|]. split; [exact Hf|]. split; [apply Hfr|].
    split; [|cbn [name value]; auto].
    cbn [field_meaning]. rewrite Hname. reflexivity. }
  destruct (_ <=? _) eqn:Efit.
  - destruct (encode_literal_field buf WithIndexing si di h Hr Hlit Hidx)
      as [out [Ho Hf]].
    cbn [form_pattern fst snd] in Ho. rewrite Ho.
    exists (HpackEncoder.add_to_dynamic_table e h), out,
      (Literal WithIndexing idx (name h) (value h)),
      {| name := name h; value := value h; sensitive := false |}.
    pose proof (as_decoder_step e (Insert h)) as Hstep. simpl in Hstep.
    split; [reflexivity|]. split; [exact Hf|]. split; [apply Hfr|].
    split; [|cbn [name value]; split; [reflexivity|split; [reflexivity|]]].
    + cbn [field_meaning]. rewrite Hname, Hstep.
      rewrite (add_to_dynamic_table_ext _ h
                 {| name := name h; value := value h; sensitive := false |})
        by reflexivity.
      reflexivity.
    + rewrite Hstep. now apply table_exact_add.
  - destruct (encode_literal_field buf WithoutIndexing si di h Hr Hlit Hidx)
      as [out [Ho Hf]].
    cbn [form_pattern fst snd] in Ho. rewrite Ho.
    exists e, out, (Literal WithoutIndexing idx (name h) (value h)),
      {| name := name h; value := value h; sensitive := false |}.
    split; [reflexivity|]. split; [exact Hf|]. split; [apply Hfr|].
    split; [|cbn [name value]; auto].
    cbn [field_meaning]. rewrite Hname. reflexivity.
Qed.

Lemma encode_loop_fields (hs : list HttpHeader) :
  forall (e : HpackEncoder.t) (buf : octets) (acc : list HttpHeader),
    table_exact (as_decoder e) ->
    Forall header_in_range hs -> Forall header_literal hs ->
    exists e' out fields hs',
      encode_loop e buf hs = Some (e', buf ++ out) /\
      block_octets fields = Some out /\ Forall field_in_range fields /\
      block_meaning (as_decoder e) acc fields
      = (as_decoder e', acc ++ hs', HpackError.OK) /\
      map name hs' = map name hs /\ map value hs' = map value hs /\
      table_exact (as_decoder e').
Proof.
  induction hs as [|h hs IH]; intros e buf acc Hex Hr Hl.
  - exists e, [], [], []. rewrite !app_nil_r. simpl.
    split; [reflexivity|]. split; [reflexivity|].
    split; [apply List.Forall_nil|]. auto.
  - inversion Hr as [|? ? Hh Hhs]; inversion Hl as [|? ? Lh Lhs]; subst.
    destruct (encode_header_field e buf acc h Hex Hh Lh)
      as (e1 & out1 & fld & h' & He1 & Hf1 & Hr1 & Hm1 & Hn1 & Hv1 & Hex1).
    destruct (IH e1 (buf ++ out1) (acc ++ [h']) Hex1 Hhs Lhs)
      as (e' & out & fields & hs' & He & Hb & Hfr & Hm & Hn & Hv & Hex').
    exists e', (out1 ++ out), (fld :: fields), (h' :: hs').
    cbn [encode_loop]. rewrite He1, He, <- app_assoc.
    split; [reflexivity|].
    cbn [block_octets]. rewrite Hf1, Hb. split; [reflexivity|].
    split; [constructor; assumption|].
    cbn [block_meaning]. rewrite Hm1, Hm, <- app_assoc.
    split; [reflexivity|]. simpl. rewrite Hn, Hv, Hn1, Hv1. auto.
Qed.

(** X7. Encoder and decoder in step.  When the encoder keeps the literal
    form of every string of a list of headers, a decoder whose dynamic
    table equals the encoder's reads the encoder's output back as headers
    with the same names and values, in the same order, and ends with a
    table equal to the encoder's again: the indices the encoder chooses
    in the static and the dynamic table, and its insertions, are the ones
    the decoder resolves and performs. *)
Theorem codecs_in_step (e : HpackEncoder.t) (hs : list HttpHeader) :
  table_exact (as_decoder e) ->
  Forall header_in_range hs -> Forall header_literal hs ->
  exists e' bytes hs',
    encode e hs = Some (e', bytes, HpackEncodingError.OK) /\
    decode (as_decoder e) bytes = Some (as_decoder e', hs', HpackError.OK) /\
    map name hs' = map name hs /\ map value hs' = map value hs.
Proof.
  intros Hex Hr Hl.
  destruct (encode_loop_fields hs e [] [] Hex Hr Hl)
    as (e' & out & fields & hs' & He & Hb & Hfr & Hm & Hn & Hv & _).
  exists e', out, hs'. unfold encode. rewrite He. cbn [app].
  split; [reflexivity|]. split; [|auto].
  destruct (block_decoding_from fields (as_decoder e) [] Hfr)
    as [bytes' [Hb' Hd]].
  rewrite Hb in Hb'. injection Hb' as <-.
  unfold decode. rewrite Hd, Hm. reflexivity.
Qed.

Lemma codecs_in_step_witness :
  (table_exact (as_decoder (HpackEncoder.new 4096)) /\
   Forall header_in_range sample_literals /\
   Forall header_literal sample_literals) /\
  exists e' bytes hs',
    encode (HpackEncoder.new 4096) sample_literals
    = Some (e', bytes, HpackEncodingError.OK) /\
    decode (as_decoder (HpackEncoder.new 4096)) bytes
    = Some (as_decoder e', hs', HpackError.OK) /\
    map name hs' = map name sample_literals.
Proof.
  assert (H1 : table_exact (as_decoder (HpackEncoder.new 4096))).
  { split; [apply (decoder_new_inv 4096); lia|].
    split; [reflexivity|reflexivity]. }
  assert (H2 : Forall header_in_range sample_literals).
  { unfold sample_literals.
    repeat match goal with
           | |- Forall _ (_ :: _) => apply List.Forall_cons
           | |- Forall _ [] => apply List.Forall_nil
           end;
      unfold header_in_range; cbn [name value]; repeat split;
      try (apply is_octets_check; reflexivity); reflexivity. }
  assert (H3 : Forall header_literal sample_literals).
  { unfold sample_literals.
    repeat match goal with
           | |- Forall _ (_ :: _) => apply List.Forall_cons
           | |- Forall _ [] => apply List.Forall_nil
           end;
      unfold header_literal, literal_preferred; cbn [name value];
      split; vm_compute; reflexivity. }
  split; [split; [assumption|split; assumption]|].
  destruct (codecs_in_step (HpackEncoder.new 4096) sample_literals H1 H2 H3)
    as (e' & bytes & hs' & He & Hd & Hn & _).
  exists e', bytes, hs'. split; [assumption|split; assumption].
Defined.

(** The octets of the sample: name index 60 from the static table, then a
    literal name, then name index 62 (the first dynamic entry), then the
    never-indexed form. *)
Example sample_literals_encoded :
  option_map (fun r => snd (fst r))
    (encode (HpackEncoder.new 4096) sample_literals)
  = Some ([0x7C; 2] ++ str "Q1" ++ [0x40; 4] ++ str "x-id" ++ [3] ++ str "GET"
          ++ [0x7E; 2] ++ str "K9"
          ++ [0x10; 3] ++ str "x-q" ++ [2] ++ str "#7").
Proof. vm_compute. reflexivity. Qed.

End HeaderEncoding.

(** ** Serializer and parser *)

Section Frames.
Import FrameSerializer Http2Parser.

(** *** Big-endian words *)

Lemma lor_disjoint (a b k : Z) :
  0 <= k -> a mod 2 ^ k = 0 -> 0 <= b < 2 ^ k -> Z.lor a b = a + b.
Proof.
  intros Hk Ha Hb. rewrite <- Z.add_lor_land.
  enough (H : Z.land a b = 0) by (rewrite H; lia).
  apply Z.bits_inj'. intros n Hn.
  rewrite Z.land_spec, Z.bits_0.
  destruct (Z.lt_ge_cases n k) as [Hlt|Hge].
  - rewrite <- (Z.mod_pow2_bits_low a k n) by lia.
    rewrite Ha, Z.bits_0. reflexivity.
  - rewrite <- (Z.mod_small b (2 ^ k)) by lia.
    rewrite Z.mod_pow2_bits_high by lia. apply andb_false_r.
Qed.

Lemma land_255 (v : Z) : Z.land v 0xFF = v mod 256.
Proof. change 0xFF with (Z.ones 8). now rewrite Z.land_ones by lia. Qed.

Lemma land_31_bits (v : Z) : Z.land v 0x7FFFFFFF = v mod 2 ^ 31.
Proof. change 0x7FFFFFFF with (Z.ones 31). now rewrite Z.land_ones by lia. Qed.

Lemma octet_word16 (b0 b1 : Z) (rest : octets) :
  0 <= b0 < 256 -> 0 <= b1 < 256 ->
  read_uint16_big_endian (b0 :: b1 :: rest) = b0 * 2 ^ 8 + b1.
Proof.
  intros H0 H1. unfold read_uint16_big_endian, at_. cbn [nth].
  rewrite Z.shiftl_mul_pow2 by lia.
  rewrite (lor_disjoint _ b1 8) by lia. lia.
Qed.

Lemma octet_word24 (b0 b1 b2 : Z) (rest : octets) :
  0 <= b0 < 256 -> 0 <= b1 < 256 -> 0 <= b2 < 256 ->
  read_uint24_big_endian (b0 :: b1 :: b2 :: rest)
  = b0 * 2 ^ 16 + b1 * 2 ^ 8 + b2.
Proof.
  intros H0 H1 H2. unfold read_uint24_big_endian, at_. cbn [nth].
  rewrite !Z.shiftl_mul_pow2 by lia.
  rewrite (lor_disjoint _ (b1 * 2 ^ 8) 16) by lia.
  rewrite (lor_disjoint _ b2 8) by lia. reflexivity.
Qed.

Lemma octet_word32 (b0 b1 b2 b3 : Z) (rest : octets) :
  0 <= b0 < 256 -> 0 <= b1 < 256 -> 0 <= b2 < 256 -> 0 <= b3 < 256 ->
  read_uint32_big_endian (b0 :: b1 :: b2 :: b3 :: rest)
  = b0 * 2 ^ 24 + b1 * 2 ^ 16 + b2 * 2 ^ 8 + b3.
Proof.
  intros H0 H1 H2 H3. unfold read_uint32_big_endian, at_. cbn [nth].
  rewrite !Z.shiftl_mul_pow2 by lia.
  rewrite (lor_disjoint _ (b1 * 2 ^ 16) 24) by lia.
  rewrite (lor_disjoint _ (b2 * 2 ^ 8) 16) by lia.
  rewrite (lor_disjoint _ b3 8) by lia. reflexivity.
Qed.

Lemma word16_roundtrip (v : Z) (rest : octets) :
  0 <= v < 2 ^ 16 ->
  read_uint16_big_endian (write_uint16_big_endian [] v ++ rest) = v.
Proof.
  intros Hv. unfold write_uint16_big_endian. cbn [app].
  rewrite !land_255, !Z.shiftr_div_pow2 by lia.
  rewrite octet_word16 by lia. lia.
Qed.

Lemma word24_roundtrip (v : Z) (rest : octets) :
  0 <= v < 2 ^ 24 ->
  read_uint24_big_endian (write_uint24_big_endian [] v ++ rest) = v.
Proof.
  intros Hv. unfold write_uint24_big_endian. cbn [app].
  rewrite !land_255, !Z.shiftr_div_pow2 by lia.
  rewrite octet_word24 by lia. lia.
Qed.

Lemma word32_roundtrip (v : Z) (rest : octets) :
  0 <= v < 2 ^ 32 ->
  read_uint32_big_endian (write_uint32_big_endian [] v ++ rest) = v.
Proof.
  intros Hv. unfold write_uint32_big_endian. cbn [app].
  rewrite !land_255, !Z.shiftr_div_pow2 by lia.
  rewrite octet_word32 by lia. lia.
Qed.

Lemma write_frame_header_octets (h : FrameHeader.t) :
  write_frame_header [] h
  = [ Z.land (Z.shiftr (FrameHeader.length h) 16) 0xFF;
      Z.land (Z.shiftr (FrameHeader.length h) 8) 0xFF;
      Z.land (FrameHeader.length h) 0xFF;
      to_uint8 (FrameHeader.type h);
      to_uint8 (FrameHeader.flags h) ]
    ++ write_uint32_big_endian []
         (Z.land (FrameHeader.stream_id h) 0x7FFFFFFF).
Proof. reflexivity. Qed.

Lemma write_frame_header_length (h : FrameHeader.t) :
  List.length (write_frame_header [] h) = 9%nat.
Proof. reflexivity. Qed.

Lemma frame_header_read_write (h : FrameHeader.t) (rest : octets) :
  frame_header_in_range h ->
  read_frame_header (write_frame_header [] h ++ rest) = Some h.
Proof.
  intros (Hl & Ht & Hf & Hs). unfold read_frame_header.
  rewrite length_app, write_frame_header_length.
  destruct (Z.ltb_spec (Z.of_nat (9 + List.length rest)) 9) as [H|_]; [lia|].
  assert (E24 : read_uint24_big_endian (write_frame_header [] h ++ rest)
                = FrameHeader.length h).
  { rewrite write_frame_header_octets. cbn [app].
    rewrite !land_255, !Z.shiftr_div_pow2 by lia.
    rewrite octet_word24 by lia. lia. }
  assert (E32 : read_uint32_big_endian
                  (skipn 5 (write_frame_header [] h ++ rest))
                = FrameHeader.stream_id h).
  { rewrite write_frame_header_octets. cbn [app skipn].
    rewrite skipn_O, land_31_bits, word32_roundtrip by lia. lia. }
  rewrite E24, E32, land_31_bits.
  rewrite write_frame_header_octets. unfold at_. cbn [app nth].
  unfold to_uint8. rewrite !Z.mod_small by lia.
  destruct h; reflexivity.
Qed.

Lemma parse_loop_frame cb (fuel : nat) (st : parsed) (h : FrameHeader.t)
  (payload more : octets) (c' : Http2Connection.t) (fr : AnyHttp2Frame) :
  current_state_ (parser st) = READING_FRAME_HEADER ->
  buffer_ (parser st) = write_frame_header [] h ++ payload ++ more ->
  frame_header_in_range h ->
  FrameHeader.length h = Z.of_nat (List.length payload) ->
  FrameHeader.length h
  <= ConnectionSettings.max_frame_size
       (Http2Connection.remote_settings_ (connection st)) ->
  dispatch (connection st) h payload = Some (c', inl fr) ->
  parse_loop cb fuel st
  = let st' :=
      {| total_consumed_bytes :=
           total_consumed_bytes st + (9 + FrameHeader.length h);
         last_error := ParserError.OK;
         parser := {| current_state_ := READING_FRAME_HEADER;
                      buffer_ := more;
                      pending_frame_header_ := h |};
         connection := notify cb fr c';
         delivered := delivered st ++ [fr] |} in
    if Z.of_nat (List.length more) <? 9 then Some st'
    else match fuel with
         | O => None
         | S fuel' => parse_loop cb fuel' st'
         end.
Proof.
  intros Hstate Hbuf Hr Hlen Hmax Hd.
  pose proof Hr as (Hl & _).
  assert (E1 : Z.of_nat (List.length (buffer_ (parser st)))
               = 9 + FrameHeader.length h + Z.of_nat (List.length more)).
  { rewrite Hbuf, !length_app, write_frame_header_length. lia. }
  assert (E2 : firstn 9 (buffer_ (parser st)) = write_frame_header [] h).
  { rewrite Hbuf. rewrite firstn_app, write_frame_header_length.
    rewrite firstn_all2 by (rewrite write_frame_header_length; lia).
    change (9 - 9)%nat with 0%nat. rewrite firstn_O. apply app_nil_r. }
  assert (E3 : read_frame_header (write_frame_header [] h) = Some h).
  { rewrite <- (app_nil_r (write_frame_header [] h)).
    now apply frame_header_read_write. }
  assert (E4 : skipn 9 (buffer_ (parser st)) = payload ++ more).
  { rewrite Hbuf. rewrite skipn_app, write_frame_header_length.
    rewrite skipn_all2 by (rewrite write_frame_header_length; lia).
    change (9 - 9)%nat with 0%nat. reflexivity. }
  assert (E5 : firstn (Z.to_nat (FrameHeader.length h)) (payload ++ more)
               = payload).
  { rewrite Hlen, Nat2Z.id, firstn_app, Nat.sub_diag, firstn_O, app_nil_r.
    apply firstn_all. }
  assert (E0 : to_uint32 (9 + FrameHeader.length h) = 9 + FrameHeader.length h).
  { unfold to_uint32. apply Z.mod_small. lia. }
  assert (E6 : skipn (Z.to_nat (9 + FrameHeader.length h)) (buffer_ (parser st))
               = more).
  { replace (Z.to_nat (9 + FrameHeader.length h))
      with (List.length payload + 9)%nat by lia.
    rewrite <- skipn_skipn, E4, skipn_app, Nat.sub_diag, skipn_all.
    reflexivity. }
  destruct fuel as [|fuel']; cbn [parse_loop]; rewrite Hstate, E1;
    (destruct (Z.ltb_spec (9 + FrameHeader.length h
                           + Z.of_nat (List.length more)) 9) as [H|_];
     [lia|]);
    rewrite E2, E3;
    (destruct (Z.gtb_spec (FrameHeader.length h)
                 (ConnectionSettings.max_frame_size
                    (Http2Connection.remote_settings_ (connection st))))
       as [H|_]; [lia|]);
    cbn [pending_frame_header_ buffer_]; rewrite E0;
    (destruct (Z.ltb_spec (9 + FrameHeader.length h
                           + Z.of_nat (List.length more))
                 (9 + FrameHeader.length h)) as [H|_]; [lia|]);
    rewrite E4, E5, Hd, E6; unfold notify; reflexivity.
Qed.

Lemma write_settings_app (ss : list SettingsFrame.Setting) :
  forall buf, write_settings buf ss = buf ++ write_settings [] ss.
Proof.
  induction ss as [|s ss IH]; intros buf; cbn [write_settings].
  - now rewrite app_nil_r.
  - rewrite IH. rewrite (IH (write_uint32_big_endian _ _)).
    unfold write_uint32_big_endian, write_uint16_big_endian.
    cbn [app]. rewrite <- !app_assoc. reflexivity.
Qed.

Lemma write_settings_length (ss : list SettingsFrame.Setting) :
  Z.of_nat (List.length (write_settings [] ss))
  = 6 * Z.of_nat (List.length ss).
Proof.
  induction ss as [|s ss IH]; [reflexivity|].
  cbn [write_settings]. rewrite write_settings_app, length_app.
  cbn [List.length write_uint32_big_endian write_uint16_big_endian app]. lia.
Qed.

Lemma read_write_settings (ss : list SettingsFrame.Setting) (rest : octets) :
  Forall setting_in_range ss ->
  read_settings (List.length ss) (write_settings [] ss ++ rest) = ss.
Proof.
  induction 1 as [|s ss [Hi Hv] _ IH]; [reflexivity|].
  cbn [write_settings List.length read_settings].
  rewrite write_settings_app.
  assert (E : write_uint32_big_endian
                (write_uint16_big_endian [] (SettingsFrame.identifier s))
                (SettingsFrame.value s)
              = write_uint16_big_endian [] (SettingsFrame.identifier s)
                ++ write_uint32_big_endian [] (SettingsFrame.value s))
    by reflexivity.
  rewrite E, <- !app_assoc.
  rewrite word16_roundtrip by assumption.
  assert (E2 : forall l,
             skipn 2 (write_uint16_big_endian [] (SettingsFrame.identifier s)
                      ++ l) = l) by reflexivity.
  assert (E6 : forall l,
             skipn 6 (write_uint16_big_endian [] (SettingsFrame.identifier s)
                      ++ write_uint32_big_endian [] (SettingsFrame.value s)
                      ++ l) = l) by reflexivity.
  rewrite E2, E6, word32_roundtrip, IH by assumption.
  destruct s; reflexivity.
Qed.

Lemma stream_dep_val_spec (e : bool) (dep : Z) :
  0 <= dep < 2 ^ 31 ->
  stream_dep_val e dep = dep + (if e then 2 ^ 31 else 0).
Proof.
  intros H. unfold stream_dep_val. cbv zeta. rewrite land_31_bits.
  rewrite Z.mod_small by lia. destruct e; [|lia].
  rewrite Z.lor_comm. change (Z.shiftl 1 31) with (2 ^ 31).
  rewrite (lor_disjoint _ dep 31) by (try reflexivity; lia). lia.
Qed.

Lemma negative_as_int_small (n : Z) :
  0 <= n < 2 ^ 31 -> negative_as_int n = false.
Proof.
  intros H. unfold negative_as_int, to_int32, to_uint64.
  apply Z.ltb_ge. lia.
Qed.

Lemma wire_payload (f : AnyHttp2Frame) :
  fields_in_range f ->
  wire f
  = write_frame_header []
      (with_length (frame_header f)
         (to_uint32 (Z.of_nat (List.length (payload_octets f)))))
    ++ payload_octets f.
Proof.
  intros (_ & _ & _ & H).
  destruct f as [d|h|p|r|s|pp|p|g|w|c]; try contradiction;
    cbn [wire payload_octets frame_header].
  - destruct H as (_ & _ & Hpad).
    unfold serialize_data_frame. cbv zeta.
    unfold with_length, value_or in *.
    destruct (DataFrame.has_padded_flag d); cbn [andb].
    + specialize (Hpad eq_refl).
      set (pad := match DataFrame.pad_length d with
                  | Some p => p | None => 0 end) in *.
      replace (List.length ([to_uint8 pad] ++ DataFrame.data d
                            ++ (if pad >? 0 then repeat 0 (Z.to_nat pad)
                                else [])))
        with (Z.to_nat (1 + Z.of_nat (List.length (DataFrame.data d)) + pad)).
      * rewrite Z2Nat.id by lia.
        destruct (pad >? 0); rewrite <- ?app_assoc, ?app_nil_r; reflexivity.
      * rewrite !length_app. cbn [List.length].
        destruct (Z.gtb_spec pad 0); [rewrite repeat_length|cbn [List.length]];
          lia.
    + rewrite app_nil_r. cbn [app].
      rewrite Z.add_0_l, Z.add_0_r. reflexivity.
  - reflexivity.
  - reflexivity.
  - reflexivity.
  - destruct H as (_ & _ & H8). rewrite H8. reflexivity.
  - unfold serialize_goaway_frame. cbv zeta.
    assert (E : forall a b l,
               write_uint32_big_endian (write_uint32_big_endian [] a) b ++ l
               = write_uint32_big_endian [] a
                 ++ write_uint32_big_endian [] b ++ l) by reflexivity.
    rewrite !E. reflexivity.
  - reflexivity.
Qed.

Lemma payload_size_octets (f : AnyHttp2Frame) :
  fields_in_range f ->
  payload_size f = Z.of_nat (List.length (payload_octets f)).
Proof.
  intros H. unfold payload_size. rewrite (wire_payload f H).
  rewrite length_app, write_frame_header_length. lia.
Qed.

Lemma wire_received (f : AnyHttp2Frame) :
  fields_in_range f ->
  wire f = write_frame_header [] (received_header f) ++ payload_octets f.
Proof.
  intros H. rewrite (wire_payload f H) at 1. unfold received_header.
  pose proof (payload_size_octets f H) as E.
  destruct H as (_ & _ & Hs & _). rewrite <- E.
  unfold to_uint32. rewrite Z.mod_small; [reflexivity|].
  unfold payload_size in *. rewrite E. lia.
Qed.

Lemma received_header_in_range (f : AnyHttp2Frame) :
  fields_in_range f -> frame_header_in_range (received_header f).
Proof.
  intros H. pose proof (payload_size_octets f H) as E.
  destruct H as (Hf & Hs & Hp & H).
  unfold frame_header_in_range, received_header, with_length.
  cbn [FrameHeader.length FrameHeader.type FrameHeader.flags
       FrameHeader.stream_id].
  split; [lia|]. split; [|split; assumption].
  destruct f; try contradiction; destruct H as [-> _]; vm_compute;
    split; congruence.
Qed.

Lemma dispatch_received (c : Http2Connection.t) (f : AnyHttp2Frame) :
  fields_in_range f ->
  dispatch c (received_header f) (payload_octets f)
  = Some (c, inl (as_received f)).
Proof.
  intros H. pose proof (payload_size_octets f H) as E.
  pose proof H as (Hf & Hs & Hp & Hk).
  destruct f as [d|h|p|r|s|pp|p|g|w|cf]; try contradiction;
    cbn [frame_header] in *.
  - destruct Hk as (Ht & Hid & Hpad).
    unfold dispatch. cbv zeta.
    change (FrameHeader.type (received_header (AnyData d)))
      with (FrameHeader.type (DataFrame.header d)).
    rewrite Ht. cbn [Z.eqb FrameType.DATA]. do 2 f_equal.
    unfold parse_data_payload.
    change (FrameHeader.stream_id (received_header (AnyData d)))
      with (FrameHeader.stream_id (DataFrame.header d)).
    destruct (Z.eqb_spec (FrameHeader.stream_id (DataFrame.header d)) 0)
      as [?|_]; [contradiction|].
    change (has_flag (received_header (AnyData d)) DataFrame.PADDED_FLAG)
      with (DataFrame.has_padded_flag d).
    cbn [as_received payload_octets] in *. cbv zeta in *.
    destruct (DataFrame.has_padded_flag d); cbn [andb] in *.
    + specialize (Hpad eq_refl).
      set (pad := value_or (DataFrame.pad_length d) 0) in *.
      assert (Epad : Z.of_nat (List.length
                        (if pad >? 0 then repeat 0 (Z.to_nat pad) else []))
                     = pad).
      { destruct (Z.gtb_spec pad 0);
          [rewrite repeat_length|cbn [List.length]]; lia. }
      unfold read_pad_length. cbn [app].
      unfold to_uint8. rewrite Z.mod_small by lia.
      cbn [List.length]. rewrite length_app.
      destruct (Z.gtb_spec pad
                  (Z.of_nat (S (List.length (DataFrame.data d)
                                + List.length
                                    (if pad >? 0
                                     then repeat 0 (Z.to_nat pad) else [])))
                   - 1)) as [Hgt|_]; [lia|].
      cbn [value_or].
      replace (Z.of_nat (S (List.length (DataFrame.data d)
                            + List.length
                                (if pad >? 0
                                 then repeat 0 (Z.to_nat pad) else [])))
               - 1 - pad)
        with (Z.of_nat (List.length (DataFrame.data d))) by lia.
      rewrite !length_app in E. cbn [List.length] in E.
      rewrite negative_as_int_small by lia.
      rewrite Nat2Z.id. change (Z.to_nat 1) with 1%nat.
      rewrite skipn_cons, skipn_O.
      rewrite firstn_app, Nat.sub_diag, firstn_O, app_nil_r, firstn_all.
      reflexivity.
    + unfold read_pad_length. cbn [app value_or] in *.
      rewrite app_nil_r in *.
      rewrite !Z.sub_0_r.
      rewrite negative_as_int_small by lia.
      rewrite Nat2Z.id. cbn [Z.to_nat]. rewrite skipn_O, firstn_all.
      reflexivity.
  - destruct Hk as (Ht & Hid & Hdep & Hw).
    unfold dispatch. cbv zeta.
    change (FrameHeader.type (received_header (AnyPriority p)))
      with (FrameHeader.type (PriorityFrame.header p)).
    rewrite Ht. cbn [Z.eqb FrameType.PRIORITY FrameType.DATA FrameType.HEADERS].
    do 2 f_equal.
    unfold parse_priority_payload.
    change (FrameHeader.length (received_header (AnyPriority p)))
      with (payload_size (AnyPriority p)).
    rewrite E. cbn [payload_octets].
    change (FrameHeader.stream_id (received_header (AnyPriority p)))
      with (FrameHeader.stream_id (PriorityFrame.header p)).
    destruct (Z.eqb_spec (FrameHeader.stream_id (PriorityFrame.header p)) 0)
      as [?|_]; [contradiction|].
    cbn [List.length app write_uint32_big_endian Z.of_nat Pos.of_succ_nat
         Pos.succ Z.eqb Pos.eqb negb].
    pose proof (stream_dep_val_spec (PriorityFrame.exclusive_dependency p)
                  (PriorityFrame.stream_dependency p) Hdep) as Ev.
    pose proof (word32_roundtrip
                  (stream_dep_val (PriorityFrame.exclusive_dependency p)
                     (PriorityFrame.stream_dependency p))
                  [to_uint8 (PriorityFrame.weight p)]) as Er.
    unfold write_uint32_big_endian in Er. cbn [app] in Er.
    rewrite Er by (rewrite Ev; destruct (PriorityFrame.exclusive_dependency p);
                   lia).
    rewrite Ev, land_31_bits, Z.shiftr_div_pow2 by lia.
    change 1 with (Z.ones 1) at 1. rewrite Z.land_ones by lia.
    unfold at_. cbn [nth]. unfold to_uint8. rewrite (Z.mod_small _ (2 ^ 8)) by lia.
    cbn [as_received].
    destruct (PriorityFrame.exclusive_dependency p).
    + replace ((PriorityFrame.stream_dependency p + 2 ^ 31) / 2 ^ 31
               mod 2 ^ 1) with 1 by lia.
      replace ((PriorityFrame.stream_dependency p + 2 ^ 31) mod 2 ^ 31)
        with (PriorityFrame.stream_dependency p) by lia.
      reflexivity.
    + replace ((PriorityFrame.stream_dependency p + 0) / 2 ^ 31
               mod 2 ^ 1) with 0 by lia.
      replace ((PriorityFrame.stream_dependency p + 0) mod 2 ^ 31)
        with (PriorityFrame.stream_dependency p) by lia.
      reflexivity.
  - destruct Hk as (Ht & Hid & Hec).
    unfold dispatch. cbv zeta.
    change (FrameHeader.type (received_header (AnyRstStream r)))
      with (FrameHeader.type (RstStreamFrame.header r)).
    rewrite Ht. cbn [Z.eqb]. do 2 f_equal.
    unfold parse_rst_stream_payload.
    change (FrameHeader.length (received_header (AnyRstStream r)))
      with (payload_size (AnyRstStream r)).
    rewrite E. cbn [payload_octets].
    change (FrameHeader.stream_id (received_header (AnyRstStream r)))
      with (FrameHeader.stream_id (RstStreamFrame.header r)).
    destruct (Z.eqb_spec (FrameHeader.stream_id (RstStreamFrame.header r)) 0)
      as [?|_]; [contradiction|].
    cbn [List.length app write_uint32_big_endian Z.of_nat Pos.of_succ_nat
         Pos.succ Z.eqb Pos.eqb negb].
    pose proof (word32_roundtrip (to_uint32 (RstStreamFrame.error_code r)) [])
      as Er.
    unfold write_uint32_big_endian in Er. cbn [app] in Er.
    rewrite Er by (unfold to_uint32; lia).
    unfold to_uint32. rewrite Z.mod_small by lia. reflexivity.
  - destruct Hk as (Ht & Hid & Hss).
    unfold dispatch. cbv zeta.
    change (FrameHeader.type (received_header (AnySettings s)))
      with (FrameHeader.type (SettingsFrame.header s)).
    rewrite Ht. cbn [Z.eqb]. do 2 f_equal.
    unfold parse_settings_payload.
    change (FrameHeader.length (received_header (AnySettings s)))
      with (payload_size (AnySettings s)).
    change (FrameHeader.stream_id (received_header (AnySettings s)))
      with (FrameHeader.stream_id (SettingsFrame.header s)).
    change (has_flag (received_header (AnySettings s)) SettingsFrame.ACK_FLAG)
      with (SettingsFrame.has_ack_flag s).
    rewrite Hid, E. cbn [Z.eqb negb payload_octets as_received].
    destruct (SettingsFrame.has_ack_flag s); cbn [negb]; [reflexivity|].
    rewrite write_settings_length.
    replace (6 * Z.of_nat (List.length (SettingsFrame.settings s)) mod 6)
      with 0 by lia.
    replace (6 * Z.of_nat (List.length (SettingsFrame.settings s)) / 6)
      with (Z.of_nat (List.length (SettingsFrame.settings s))) by lia.
    cbn [Z.eqb negb]. rewrite Nat2Z.id.
    rewrite <- (app_nil_r (write_settings [] (SettingsFrame.settings s))).
    rewrite read_write_settings by assumption. reflexivity.
  - destruct Hk as (Ht & Hid & H8).
    unfold dispatch. cbv zeta.
    change (FrameHeader.type (received_header (AnyPing p)))
      with (FrameHeader.type (PingFrame.header p)).
    rewrite Ht. cbn [Z.eqb]. do 2 f_equal.
    unfold parse_ping_payload.
    change (FrameHeader.length (received_header (AnyPing p)))
      with (payload_size (AnyPing p)).
    change (FrameHeader.stream_id (received_header (AnyPing p)))
      with (FrameHeader.stream_id (PingFrame.header p)).
    rewrite Hid, E. cbn [payload_octets]. rewrite H8. reflexivity.
  - destruct Hk as (Ht & Hid & Hl & Hec).
    unfold dispatch. cbv zeta.
    change (FrameHeader.type (received_header (AnyGoAway g)))
      with (FrameHeader.type (GoAwayFrame.header g)).
    rewrite Ht. cbn [Z.eqb]. do 2 f_equal.
    unfold parse_goaway_payload.
    change (FrameHeader.length (received_header (AnyGoAway g)))
      with (payload_size (AnyGoAway g)).
    change (FrameHeader.stream_id (received_header (AnyGoAway g)))
      with (FrameHeader.stream_id (GoAwayFrame.header g)).
    rewrite Hid, E. cbn [payload_octets Z.eqb negb].
    rewrite !length_app.
    change (List.length (write_uint32_big_endian [] ?x)) with 4%nat.
    destruct (Z.ltb_spec
                (Z.of_nat (4 + (4 + List.length
                                      (GoAwayFrame.additional_debug_data g))))
                8) as [?|_]; [lia|].
    rewrite word32_roundtrip by (rewrite land_31_bits; lia).
    assert (E4 : forall a l, skipn 4 (write_uint32_big_endian [] a ++ l) = l)
      by reflexivity.
    assert (E8 : forall a b l,
               skipn 8 (write_uint32_big_endian [] a
                        ++ write_uint32_big_endian [] b ++ l) = l)
      by reflexivity.
    rewrite E4, E8, word32_roundtrip by (unfold to_uint32; lia).
    rewrite !land_31_bits, Z.mod_mod, (Z.mod_small _ (2 ^ 31)) by lia.
    unfold to_uint32. rewrite Z.mod_small by lia.
    cbn [as_received]. do 2 f_equal.
    destruct (GoAwayFrame.additional_debug_data g) as [|b l];
      [reflexivity|].
    destruct (Z.gtb_spec (Z.of_nat (4 + (4 + List.length (b :: l)))) 8);
      [reflexivity|cbn [List.length] in *; lia].
  - destruct Hk as (Ht & Hinc).
    unfold dispatch. cbv zeta.
    change (FrameHeader.type (received_header (AnyWindowUpdate w)))
      with (FrameHeader.type (WindowUpdateFrame.header w)).
    rewrite Ht. cbn [Z.eqb]. do 2 f_equal.
    unfold parse_window_update_payload.
    change (FrameHeader.length (received_header (AnyWindowUpdate w)))
      with (payload_size (AnyWindowUpdate w)).
    rewrite E. cbn [payload_octets].
    change (List.length (write_uint32_big_endian [] ?x)) with 4%nat.
    cbn [Z.of_nat Pos.of_succ_nat Pos.succ Z.eqb Pos.eqb negb]. cbv zeta.
    rewrite <- (app_nil_r (write_uint32_big_endian [] _)).
    rewrite word32_roundtrip by (rewrite land_31_bits; lia).
    rewrite !land_31_bits, Z.mod_mod, (Z.mod_small _ (2 ^ 31)) by lia.
    destruct (Z.eqb_spec (WindowUpdateFrame.window_size_increment w) 0);
      [lia|reflexivity].
Qed.

Lemma wire_length (f : AnyHttp2Frame) :
  fields_in_range f ->
  Z.of_nat (List.length (wire f)) = 9 + payload_size f.
Proof.
  intros H. rewrite (payload_size_octets f H), (wire_received f H).
  rewrite length_app, write_frame_header_length. lia.
Qed.

Lemma parse_loop_frames cb (frames : list AnyHttp2Frame) :
  forall (fuel : nat) (st : parsed) (tail : octets),
    current_state_ (parser st) = READING_FRAME_HEADER ->
    buffer_ (parser st) = concat (map wire frames) ++ tail ->
    frames_accepted cb (connection st) frames ->
    (List.length tail < 9)%nat -> (List.length frames <= S fuel)%nat ->
    exists r,
      parse_loop cb fuel st = Some r /\
      total_consumed_bytes r
      = total_consumed_bytes st
        + Z.of_nat (List.length (concat (map wire frames))) /\
      last_error r = ParserError.OK /\
      delivered r = delivered st ++ map as_received frames /\
      connection r = connection_after cb (connection st) frames /\
      buffer_ (parser r) = tail /\
      current_state_ (parser r) = READING_FRAME_HEADER.
Proof.
  induction frames as [|f frames IH]; intros fuel st tail Hs Hb Ha Ht Hf.
  - cbn [map concat app] in Hb.
    exists {| total_consumed_bytes := total_consumed_bytes st;
              last_error := ParserError.OK; parser := parser st;
              connection := connection st; delivered := delivered st |}.
    cbn [total_consumed_bytes last_error parser connection delivered
         map concat List.length connection_after fold_left].
    rewrite app_nil_r, Z.add_0_r.
    split; [|repeat split; auto].
    destruct fuel; cbn [parse_loop]; rewrite Hs, Hb;
      (destruct (Z.ltb_spec (Z.of_nat (List.length tail)) 9); [|lia]);
      reflexivity.
  - destruct Ha as (Hr & Hmax & Ha).
    cbn [map concat] in Hb. rewrite <- app_assoc in Hb.
    rewrite (wire_received f Hr), <- app_assoc in Hb.
    pose proof (payload_size_octets f Hr) as Ep.
    rewrite (parse_loop_frame cb fuel st (received_header f)
               (payload_octets f) (concat (map wire frames) ++ tail)
               (connection st) (as_received f) Hs Hb
               (received_header_in_range f Hr) Ep Hmax
               (dispatch_received (connection st) f Hr)).
    cbv zeta.
    set (st' := {| total_consumed_bytes := _ |}).
    destruct frames as [|g frames].
    + cbn [map concat app].
      destruct (Z.ltb_spec (Z.of_nat (List.length tail)) 9); [|lia].
      exists st'. subst st'.
      cbn [total_consumed_bytes last_error parser connection delivered
           buffer_ current_state_ map concat connection_after fold_left].
      rewrite app_nil_r, (wire_length f Hr).
      change (FrameHeader.length (received_header f)) with (payload_size f).
      repeat split; auto; lia.
    + assert (Hg : fields_in_range g) by apply Ha.
      destruct (Z.ltb_spec
                  (Z.of_nat (List.length
                               (concat (map wire (g :: frames)) ++ tail))) 9)
        as [Hlt|_].
      { cbn [map concat] in Hlt. rewrite !length_app in Hlt.
        pose proof (wire_length g Hg) as Hw.
        pose proof (payload_size_octets g Hg). lia. }
      destruct fuel as [|fuel']; [cbn [List.length] in Hf; lia|].
      destruct (IH fuel' st' tail) as (r & Hp & Hc & He & Hd & Hcn & Hbf & Hst);
        try (subst st'; reflexivity); try assumption.
      { cbn [List.length] in *. lia. }
      exists r. split; [exact Hp|].
      rewrite Hc, He, Hd, Hcn, Hbf, Hst. subst st'.
      cbn [total_consumed_bytes last_error parser connection delivered].
      change (FrameHeader.length (received_header f)) with (payload_size f).
      split.
      { change (map wire (f :: g :: frames))
          with (wire f :: map wire (g :: frames)).
        cbn [concat]. rewrite (length_app (wire f)), Nat2Z.inj_add.
        rewrite (wire_length f Hr). lia. }
      split; [reflexivity|].
      split; [rewrite <- app_assoc; reflexivity|].
      repeat split; auto.
Qed.

Lemma frames_accepted_count cb (frames : list AnyHttp2Frame) :
  forall c, frames_accepted cb c frames ->
  (List.length frames <= List.length (concat (map wire frames)))%nat.
Proof.
  induction frames as [|f frames IH]; intros c Ha; [cbn; lia|].
  destruct Ha as (Hr & _ & Ha). cbn [map concat List.length].
  rewrite length_app. specialize (IH _ Ha).
  pose proof (wire_length f Hr). pose proof (payload_size_octets f Hr). lia.
Qed.

(** X8. A frame header whose fields fit the wire format is written as
    nine octets, and reading these octets back, whatever follows them,
    gives the header again. *)
Theorem frame_header_roundtrip (h : FrameHeader.t) (rest : octets) :
  frame_header_in_range h ->
  List.length (write_frame_header [] h) = 9%nat /\
  read_frame_header (write_frame_header [] h ++ rest) = Some h.
Proof.
  intros H. split; [apply write_frame_header_length|].
  now apply frame_header_read_write.
Qed.

(** X9. Serialized frames are parsed back.  When the octets of a list of
    well-formed DATA, PRIORITY, RST_STREAM, SETTINGS, PING, GOAWAY and
    WINDOW_UPDATE frames, each within the frame size limit in force when
    it is read, followed by fewer than nine further octets, are given to
    a parser that waits for a frame header with an empty buffer, [parse]
    consumes exactly the frames, reports no error, hands every frame to
    the callback in order, with the [length] the serializer computed, and
    keeps the trailing octets in its buffer. *)
Theorem serialized_frames_parse cb (p : Http2Parser.t)
  (c : Http2Connection.t) (frames : list AnyHttp2Frame) (tail : octets) :
  current_state_ p = READING_FRAME_HEADER -> buffer_ p = [] ->
  frames_accepted cb c frames -> (List.length tail < 9)%nat ->
  exists r,
    parse cb p c (concat (map wire frames) ++ tail) = Some r /\
    total_consumed_bytes r
    = Z.of_nat (List.length (concat (map wire frames))) /\
    last_error r = ParserError.OK /\
    delivered r = map as_received frames /\
    connection r = connection_after cb c frames /\
    buffer_ (parser r) = tail /\
    current_state_ (parser r) = READING_FRAME_HEADER.
Proof.
  intros Hs Hb Ha Ht. unfold parse. rewrite Hb. cbn [buffer_ app].
  pose proof (frames_accepted_count cb frames c Ha) as Hn.
  apply (parse_loop_frames cb frames _
           {| total_consumed_bytes := 0; last_error := ParserError.OK;
              parser := {| current_state_ := current_state_ p;
                           buffer_ := concat (map wire frames) ++ tail;
                           pending_frame_header_ := pending_frame_header_ p |};
              connection := c; delivered := [] |} tail);
    try assumption; try reflexivity.
  rewrite length_app. lia.
Qed.

Lemma frame_header_roundtrip_witness :
  frame_header_in_range sample_frame_header /\
  read_frame_header (write_frame_header [] sample_frame_header ++ [1; 2])
  = Some sample_frame_header.
Proof.
  assert (H : frame_header_in_range sample_frame_header)
    by (repeat split; vm_compute; congruence).
  split; [exact H|].
  exact (proj2 (frame_header_roundtrip sample_frame_header [1; 2] H)).
Defined.

Lemma serialized_frames_parse_witness :
  (current_state_ Http2Parser.new = READING_FRAME_HEADER /\
   buffer_ Http2Parser.new = [] /\
   frames_accepted settings_applied (Http2Connection.new true true)
     sample_frames /\
   (List.length [0; 0; 4] < 9)%nat) /\
  exists r,
    parse settings_applied Http2Parser.new (Http2Connection.new true true)
      (concat (map wire sample_frames) ++ [0; 0; 4]) = Some r /\
    delivered r = map as_received sample_frames /\
    buffer_ (parser r) = [0; 0; 4].
Proof.
  assert (H : frames_accepted settings_applied (Http2Connection.new true true)
                sample_frames).
  { unfold sample_frames. cbn [frames_accepted].
    repeat match goal with
           | |- _ /\ _ => split
           | |- fields_in_range _ => unfold fields_in_range; cbv zeta
           | |- True => exact I
           | |- Forall _ _ =>
               cbn [SettingsFrame.settings];
               repeat apply List.Forall_cons; try apply List.Forall_nil
           end;
      vm_compute; intuition congruence. }
  assert (Ht : (List.length [0; 0; 4] < 9)%nat) by (cbn; lia).
  split; [split; [reflexivity|split; [reflexivity|split; assumption]]|].
  destruct (serialized_frames_parse settings_applied Http2Parser.new
              (Http2Connection.new true true) sample_frames [0; 0; 4]
              eq_refl eq_refl H Ht)
    as (r & Hp & _ & _ & Hd & _ & Hb & _).
  exists r. split; [exact Hp|split; [exact Hd|exact Hb]].
Defined.

Lemma at_octet (l : octets) (i : nat) : is_octets l -> 0 <= at_ l i < 256.
Proof.
  intros H. unfold at_. revert i.
  induction H as [|b l Hb _ IH]; intros [|i]; cbn [nth]; try lia. apply IH.
Qed.

Lemma read_uint24_range (l : octets) :
  is_octets l -> 0 <= read_uint24_big_endian l < 2 ^ 24.
Proof.
  intros H. unfold read_uint24_big_endian.
  pose proof (at_octet l 0 H). pose proof (at_octet l 1 H).
  pose proof (at_octet l 2 H).
  rewrite !Z.shiftl_mul_pow2 by lia.
  rewrite (lor_disjoint _ (at_ l 1 * 2 ^ 8) 16) by lia.
  rewrite (lor_disjoint _ (at_ l 2) 8) by lia. lia.
Qed.

Lemma decode_header_block_total (c : Http2Connection.t) :
  exists r, decode_header_block c = Some r.
Proof.
  unfold decode_header_block, HpackDecoder.decode.
  destruct (decode_loop_fuel
              (List.length (Http2Connection.get_header_block_buffer_span c))
              (List.length (Http2Connection.get_header_block_buffer_span c))
              (Http2Connection.hpack_decoder_ c) []
              (Http2Connection.get_header_block_buffer_span c)
              (le_n _) (le_n _)) as [_ [[[d hs] e] ->]].
  eauto.
Qed.

Lemma parse_headers_payload_total (c : Http2Connection.t)
  (h : FrameHeader.t) (payload : octets) :
  exists r, parse_headers_payload c h payload = Some r.
Proof.
  unfold parse_headers_payload.
  destruct (FrameHeader.stream_id h =? 0); [eauto|].
  destruct (read_pad_length _ payload) as [[pad off]|e]; [|eauto].
  cbv zeta.
  destruct (has_flag h HeadersFrame.PRIORITY_FLAG && _); [eauto|].
  destruct (negative_as_int _); [eauto|].
  destruct (has_flag h HeadersFrame.END_HEADERS_FLAG); [|eauto].
  match goal with
  | |- context [decode_header_block ?x] =>
      destruct (decode_header_block_total x) as [[[c1 hs] e] ->]
  end.
  destruct e; eauto.
Qed.

Lemma parse_push_promise_payload_total (c : Http2Connection.t)
  (h : FrameHeader.t) (payload : octets) :
  exists r, parse_push_promise_payload c h payload = Some r.
Proof.
  unfold parse_push_promise_payload.
  destruct (FrameHeader.stream_id h =? 0); [eauto|].
  destruct (Http2Connection.is_server_ c); [eauto|].
  destruct (read_pad_length _ payload) as [[pad off]|e]; [|eauto].
  cbv zeta.
  destruct (_ <? 4); [eauto|].
  destruct (_ =? 0); [eauto|].
  destruct (negative_as_int _); [eauto|].
  destruct (has_flag h PushPromiseFrame.END_HEADERS_FLAG); [|eauto].
  match goal with
  | |- context [decode_header_block ?x] =>
      destruct (decode_header_block_total x) as [[[c1 hs] e] ->]
  end.
  destruct e; eauto.
Qed.

Lemma parse_continuation_payload_total (c : Http2Connection.t)
  (h : FrameHeader.t) (payload : octets) :
  exists r, parse_continuation_payload c h payload = Some r.
Proof.
  unfold parse_continuation_payload.
  destruct (negb (Http2Connection.is_expecting_continuation c)); [eauto|].
  destruct (negb (_ =? _)); [eauto|].
  destruct (_ =? 0); [eauto|].
  cbv zeta.
  destruct (has_flag h ContinuationFrame.END_HEADERS_FLAG); [|eauto].
  match goal with
  | |- context [decode_header_block ?x] =>
      destruct (decode_header_block_total x) as [[[c1 hs] e] ->]
  end.
  destruct e; eauto.
Qed.

Lemma dispatch_total (c : Http2Connection.t) (h : FrameHeader.t)
  (payload : octets) :
  exists c' r, dispatch c h payload = Some (c', r).
Proof.
  unfold dispatch. cbv zeta.
  destruct (_ =? FrameType.DATA); [eauto|].
  destruct (_ =? FrameType.HEADERS).
  { destruct (parse_headers_payload_total c h payload) as [[c1 [f|e]] ->];
      eauto. }
  destruct (_ =? FrameType.PRIORITY); [eauto|].
  destruct (_ =? FrameType.RST_STREAM); [eauto|].
  destruct (_ =? FrameType.SETTINGS); [eauto|].
  destruct (_ =? FrameType.PUSH_PROMISE).
  { destruct (parse_push_promise_payload_total c h payload)
      as [[c1 [f|e]] ->]; eauto. }
  destruct (_ =? FrameType.PING); [eauto|].
  destruct (_ =? FrameType.GOAWAY); [eauto|].
  destruct (_ =? FrameType.WINDOW_UPDATE); [eauto|].
  destruct (_ =? FrameType.CONTINUATION); [|eauto].
  destruct (parse_continuation_payload_total c h payload)
    as [[c1 [f|e]] ->]; eauto.
Qed.

Ltac split_cases :=
  repeat match goal with
         | |- context [match ?x with _ => _ end] =>
             lazymatch x with
             | context [match _ with _ => _ end] => fail
             | _ => destruct x
             end
         end.

Ltac close_error :=
  let H := fresh in intros H; inversion H; subst; discriminate.

Lemma read_pad_length_error (padded : bool) (payload : octets)
  (e : ParserError.t) :
  read_pad_length padded payload = inr e -> e <> ParserError.OK.
Proof. unfold read_pad_length. split_cases; intros [= <-]; discriminate. Qed.

Lemma parse_headers_payload_error (c c' : Http2Connection.t)
  (h : FrameHeader.t) (payload : octets) (e : ParserError.t) :
  parse_headers_payload c h payload = Some (c', inr e) -> e <> ParserError.OK.
Proof.
  unfold parse_headers_payload.
  destruct (FrameHeader.stream_id h =? 0); [intros [= _ <-]; discriminate|].
  destruct (read_pad_length _ payload) as [[pad off]|e0] eqn:Ep;
    [|intros [= _ <-]; now apply read_pad_length_error in Ep].
  cbv zeta.
  destruct (has_flag h HeadersFrame.PRIORITY_FLAG && _);
    [intros [= _ <-]; discriminate|].
  destruct (negative_as_int _); [intros [= _ <-]; discriminate|].
  destruct (has_flag h HeadersFrame.END_HEADERS_FLAG); [|discriminate].
  destruct (decode_header_block _) as [[[c1 hs] e1]|]; [|discriminate].
  destruct e1; intros [= _ <-]; discriminate.
Qed.

Lemma parse_push_promise_payload_error (c c' : Http2Connection.t)
  (h : FrameHeader.t) (payload : octets) (e : ParserError.t) :
  parse_push_promise_payload c h payload = Some (c', inr e) ->
  e <> ParserError.OK.
Proof.
  unfold parse_push_promise_payload.
  destruct (FrameHeader.stream_id h =? 0); [intros [= _ <-]; discriminate|].
  destruct (Http2Connection.is_server_ c); [intros [= _ <-]; discriminate|].
  destruct (read_pad_length _ payload) as [[pad off]|e0] eqn:Ep;
    [|intros [= _ <-]; now apply read_pad_length_error in Ep].
  cbv zeta.
  destruct (_ <? 4); [intros [= _ <-]; discriminate|].
  destruct (_ =? 0); [intros [= _ <-]; discriminate|].
  destruct (negative_as_int _); [intros [= _ <-]; discriminate|].
  destruct (has_flag h PushPromiseFrame.END_HEADERS_FLAG); [|discriminate].
  destruct (decode_header_block _) as [[[c1 hs] e1]|]; [|discriminate].
  destruct e1; intros [= _ <-]; discriminate.
Qed.

Lemma parse_continuation_payload_error (c c' : Http2Connection.t)
  (h : FrameHeader.t) (payload : octets) (e : ParserError.t) :
  parse_continuation_payload c h payload = Some (c', inr e) ->
  e <> ParserError.OK.
Proof.
  unfold parse_continuation_payload.
  destruct (negb (Http2Connection.is_expecting_continuation c));
    [intros [= _ <-]; discriminate|].
  destruct (negb (_ =? _)); [intros [= _ <-]; discriminate|].
  destruct (_ =? 0); [intros [= _ <-]; discriminate|].
  cbv zeta.
  destruct (has_flag h ContinuationFrame.END_HEADERS_FLAG); [|discriminate].
  destruct (decode_header_block _) as [[[c1 hs] e1]|]; [|discriminate].
  destruct e1; intros [= _ <-]; discriminate.
Qed.

Lemma dispatch_error (c c' : Http2Connection.t) (h : FrameHeader.t)
  (payload : octets) (e : ParserError.t) :
  dispatch c h payload = Some (c', inr e) -> e <> ParserError.OK.
Proof.
  unfold dispatch. cbv zeta.
  destruct (_ =? FrameType.DATA).
  { unfold parse_data_payload.
    destruct (read_pad_length _ payload) as [[pad off]|e0] eqn:Ep.
    - split_cases; close_error.
    - destruct (_ =? 0); intros [= _ <-]; [discriminate|].
      now apply read_pad_length_error in Ep. }
  destruct (_ =? FrameType.HEADERS).
  { destruct (parse_headers_payload c h payload) as [[c1 [f|e1]]|] eqn:E;
      intros [= <- <-]. now apply parse_headers_payload_error in E. }
  destruct (_ =? FrameType.PRIORITY).
  { unfold parse_priority_payload. split_cases; close_error. }
  destruct (_ =? FrameType.RST_STREAM).
  { unfold parse_rst_stream_payload.
    split_cases; close_error. }
  destruct (_ =? FrameType.SETTINGS).
  { unfold parse_settings_payload.
    split_cases; close_error. }
  destruct (_ =? FrameType.PUSH_PROMISE).
  { destruct (parse_push_promise_payload c h payload) as [[c1 [f|e1]]|] eqn:E;
      intros [= <- <-]. now apply parse_push_promise_payload_error in E. }
  destruct (_ =? FrameType.PING).
  { unfold parse_ping_payload. split_cases; close_error. }
  destruct (_ =? FrameType.GOAWAY).
  { unfold parse_goaway_payload. split_cases; close_error. }
  destruct (_ =? FrameType.WINDOW_UPDATE).
  { unfold parse_window_update_payload. cbv zeta.
    split_cases; close_error. }
  destruct (_ =? FrameType.CONTINUATION); [|intros [= _ <-]; discriminate].
  destruct (parse_continuation_payload c h payload) as [[c1 [f|e1]]|] eqn:E;
    intros [= <- <-]. now apply parse_continuation_payload_error in E.
Qed.

Lemma read_frame_header_of (buffer : octets) :
  9 <= Z.of_nat (List.length buffer) ->
  read_frame_header (firstn 9 buffer) = Some (header_of buffer).
Proof.
  intros H. unfold read_frame_header.
  rewrite length_firstn.
  destruct (Z.ltb_spec (Z.of_nat (Nat.min 9 (List.length buffer))) 9);
    [lia|reflexivity].
Qed.

Lemma parse_loop_short cb (fuel : nat) (st : parsed) :
  current_state_ (parser st) = READING_FRAME_HEADER ->
  Z.of_nat (List.length (buffer_ (parser st))) < 9 ->
  parse_loop cb fuel st
  = Some (stopped st (parser st) (connection st) ParserError.OK).
Proof.
  intros Hs Hl.
  destruct fuel; cbn [parse_loop]; rewrite Hs;
    (destruct (Z.ltb_spec (Z.of_nat (List.length (buffer_ (parser st)))) 9);
     [reflexivity|lia]).
Qed.

Lemma parse_loop_oversize cb (fuel : nat) (st : parsed) :
  current_state_ (parser st) = READING_FRAME_HEADER ->
  9 <= Z.of_nat (List.length (buffer_ (parser st))) ->
  FrameHeader.length (header_of (buffer_ (parser st)))
  > ConnectionSettings.max_frame_size
      (Http2Connection.remote_settings_ (connection st)) ->
  parse_loop cb fuel st
  = Some (stopped st
            {| current_state_ := READING_FRAME_HEADER;
               buffer_ := buffer_ (parser st);
               pending_frame_header_ := header_of (buffer_ (parser st)) |}
            (connection st) ParserError.FRAME_SIZE_LIMIT_EXCEEDED).
Proof.
  intros Hs Hl Hm.
  destruct fuel; cbn [parse_loop]; rewrite Hs;
    (destruct (Z.ltb_spec (Z.of_nat (List.length (buffer_ (parser st)))) 9);
     [lia|]);
    rewrite (read_frame_header_of _ Hl);
    (destruct (Z.gtb_spec
                 (FrameHeader.length (header_of (buffer_ (parser st))))
                 (ConnectionSettings.max_frame_size
                    (Http2Connection.remote_settings_ (connection st))));
     [reflexivity|lia]).
Qed.

Lemma parse_loop_header cb (fuel : nat) (st : parsed) :
  current_state_ (parser st) = READING_FRAME_HEADER ->
  9 <= Z.of_nat (List.length (buffer_ (parser st))) ->
  FrameHeader.length (header_of (buffer_ (parser st)))
  <= ConnectionSettings.max_frame_size
       (Http2Connection.remote_settings_ (connection st)) ->
  parse_loop cb fuel st
  = parse_loop cb fuel
      (with_parser st
         (awaiting_payload (buffer_ (parser st))
            (header_of (buffer_ (parser st))))).
Proof.
  intros Hs Hl Hm.
  destruct fuel; cbn [parse_loop]; rewrite Hs;
    (destruct (Z.ltb_spec (Z.of_nat (List.length (buffer_ (parser st)))) 9);
     [lia|]);
    rewrite (read_frame_header_of _ Hl);
    (destruct (Z.gtb_spec
                 (FrameHeader.length (header_of (buffer_ (parser st))))
                 (ConnectionSettings.max_frame_size
                    (Http2Connection.remote_settings_ (connection st))));
     [lia|]); reflexivity.
Qed.

(** The payload half of an iteration: the frame is incomplete, or its
    payload is refused, or the frame is delivered and removed. *)
Lemma parse_loop_payload cb (fuel : nat) (st : parsed) :
  current_state_ (parser st) = READING_FRAME_PAYLOAD ->
  0 <= FrameHeader.length (pending_frame_header_ (parser st)) < 2 ^ 24 ->
  let p := parser st in
  let h := pending_frame_header_ p in
  let size := Z.of_nat (List.length (buffer_ p)) in
  (size < 9 + FrameHeader.length h /\
   parse_loop cb fuel st = Some (stopped st p (connection st) ParserError.OK))
  \/ (9 + FrameHeader.length h <= size /\
      exists c' e,
        e <> ParserError.OK /\
        parse_loop cb fuel st = Some (stopped st p c' e))
  \/ (9 + FrameHeader.length h <= size /\
      exists c' fr,
        let st' :=
          {| total_consumed_bytes :=
               total_consumed_bytes st + (9 + FrameHeader.length h);
             last_error := ParserError.OK;
             parser :=
               {| current_state_ := READING_FRAME_HEADER;
                  buffer_ :=
                    skipn (Z.to_nat (9 + FrameHeader.length h)) (buffer_ p);
                  pending_frame_header_ := h |};
             connection := c';
             delivered := delivered st ++ [fr] |} in
        parse_loop cb fuel st
        = if Z.of_nat (List.length (buffer_ (parser st'))) <? 9 then Some st'
          else match fuel with
               | O => None
               | S fuel' => parse_loop cb fuel' st'
               end).
Proof.
  intros Hs Hl p h size.
  assert (E0 : to_uint32 (9 + FrameHeader.length h) = 9 + FrameHeader.length h).
  { unfold to_uint32. apply Z.mod_small. subst h p. lia. }
  destruct (Z.lt_ge_cases size (9 + FrameHeader.length h)) as [Hlt|Hge].
  - left. split; [exact Hlt|].
    destruct fuel; cbn [parse_loop]; rewrite Hs; fold p; fold h; rewrite E0;
      fold size;
      (destruct (Z.ltb_spec size (9 + FrameHeader.length h)); [|lia]);
      destruct p; reflexivity.
  - right.
    destruct (dispatch_total (connection st) h
                (firstn (Z.to_nat (FrameHeader.length h))
                   (skipn 9 (buffer_ p)))) as (c' & [fr|e] & Hd).
    + right. split; [lia|]. exists (notify cb fr c'), fr. cbv zeta.
      destruct fuel; cbn [parse_loop]; rewrite Hs; fold p; fold h;
        rewrite E0; fold size;
        (destruct (Z.ltb_spec size (9 + FrameHeader.length h)); [lia|]);
        rewrite Hd; unfold notify; reflexivity.
    + left. split; [lia|]. exists c', e. split.
      * eapply dispatch_error, Hd.
      * destruct fuel; cbn [parse_loop]; rewrite Hs; fold p; fold h;
          rewrite E0; fold size;
          (destruct (Z.ltb_spec size (9 + FrameHeader.length h)); [lia|]);
          rewrite Hd; destruct p; reflexivity.
Qed.

(** The header half of an iteration: the loop is left, or it goes on with
    a pending header of 24 bits. *)
Lemma parse_loop_enter cb (fuel : nat) (st : parsed) :
  is_octets (buffer_ (parser st)) -> pending_in_range (parser st) ->
  (exists p' e,
      parse_loop cb fuel st = Some (stopped st p' (connection st) e) /\
      buffer_ p' = buffer_ (parser st) /\
      current_state_ p' = READING_FRAME_HEADER /\
      (e = ParserError.OK -> Z.of_nat (List.length (buffer_ p')) < 9))
  \/ (exists h,
         0 <= FrameHeader.length h < 2 ^ 24 /\
         parse_loop cb fuel st
         = parse_loop cb fuel
             (with_parser st (awaiting_payload (buffer_ (parser st)) h))).
Proof.
  intros Ho Hp.
  destruct (current_state_ (parser st)) eqn:Hs.
  - destruct (Z.lt_ge_cases (Z.of_nat (List.length (buffer_ (parser st)))) 9)
      as [Hlt|Hge].
    { left. exists (parser st), ParserError.OK.
      rewrite (parse_loop_short cb fuel st Hs Hlt). auto. }
    destruct (Z.le_gt_cases
                (FrameHeader.length (header_of (buffer_ (parser st))))
                (ConnectionSettings.max_frame_size
                   (Http2Connection.remote_settings_ (connection st))))
      as [Hle|Hgt].
    + right. exists (header_of (buffer_ (parser st))). split.
      * apply read_uint24_range. now apply Forall_take.
      * now apply parse_loop_header.
    + left. eexists _, ParserError.FRAME_SIZE_LIMIT_EXCEEDED.
      rewrite (parse_loop_oversize cb fuel st Hs Hge) by lia.
      split; [reflexivity|]. split; [reflexivity|].
      split; [reflexivity|discriminate].
  - right. exists (pending_frame_header_ (parser st)).
    split; [now apply Hp|].
    f_equal. destruct st as [t e p c d]. destruct p as [s b h].
    cbn in Hs. subst s. reflexivity.
Qed.

Lemma parse_loop_conserves cb (fuel : nat) :
  forall st : parsed,
    is_octets (buffer_ (parser st)) -> pending_in_range (parser st) ->
    (List.length (buffer_ (parser st)) <= fuel)%nat ->
    exists r fs,
      parse_loop cb fuel st = Some r /\
      0 <= total_consumed_bytes r - total_consumed_bytes st
        <= Z.of_nat (List.length (buffer_ (parser st))) /\
      buffer_ (parser r)
      = skipn (Z.to_nat (total_consumed_bytes r - total_consumed_bytes st))
          (buffer_ (parser st)) /\
      delivered r = delivered st ++ fs /\
      9 * Z.of_nat (List.length fs)
      <= total_consumed_bytes r - total_consumed_bytes st /\
      pending_in_range (parser r) /\
      (last_error r = ParserError.OK -> incomplete (parser r)).
Proof.
  induction fuel as [|fuel IH]; intros st Ho Hp Hf.
  all: match goal with
       | |- context [parse_loop _ ?f _] =>
           destruct (parse_loop_enter cb f st Ho Hp)
             as [(p' & e & -> & Hb & Hs & He)|(h & Hh & ->)]
       end.
  1, 3: exists (stopped st p' (connection st) e), [];
    cbn [stopped total_consumed_bytes last_error parser delivered];
    rewrite Z.sub_diag, app_nil_r, Hb; cbn [Z.to_nat List.length];
    rewrite skipn_O;
    (split; [reflexivity|]); (split; [lia|]); (split; [reflexivity|]);
    (split; [reflexivity|]); (split; [lia|]);
    (split; [intros H; congruence|]);
    intros H; unfold incomplete; rewrite Hs, Hb in *; auto.
  all: set (st2 := with_parser st (awaiting_payload (buffer_ (parser st)) h));
    match goal with
    | |- context [parse_loop _ ?f _] =>
        destruct (parse_loop_payload cb f st2 eq_refl Hh)
          as [[Hlt ->]|[(Hge & c' & e & He & ->)|(Hge & c' & fr & Hstep)]]
    end.
  1, 2, 4, 5:
    match goal with
    | |- exists r fs, Some ?x = Some r /\ _ => exists x, []
    end;
    cbn [stopped total_consumed_bytes last_error parser delivered st2
         with_parser awaiting_payload buffer_];
    rewrite Z.sub_diag, app_nil_r; cbn [Z.to_nat List.length];
    rewrite skipn_O;
    (split; [reflexivity|]); (split; [lia|]); (split; [reflexivity|]);
    (split; [reflexivity|]); (split; [lia|]);
    (split; [intros _; exact Hh|]);
    intros H; unfold incomplete;
    cbn [current_state_ buffer_ pending_frame_header_];
    first [exact Hlt | congruence].
  all: cbv zeta in Hstep;
    cbn [st2 with_parser awaiting_payload parser buffer_ pending_frame_header_
         total_consumed_bytes connection delivered] in Hstep, Hge;
    rewrite Hstep; clear Hstep;
    set (n := 9 + FrameHeader.length h) in *;
    set (st' := {| total_consumed_bytes := total_consumed_bytes st + n |});
    assert (Hlen : Z.of_nat (List.length (skipn (Z.to_nat n)
                                            (buffer_ (parser st))))
                   = Z.of_nat (List.length (buffer_ (parser st))) - n)
      by (rewrite length_skipn; lia);
    cbn [parser buffer_];
    destruct (Z.ltb_spec
                (Z.of_nat (List.length (skipn (Z.to_nat n)
                                          (buffer_ (parser st))))) 9)
      as [Hshort|Hlong].
  1, 3: exists st', [fr]; subst st';
    cbn [total_consumed_bytes last_error parser delivered buffer_
         current_state_ List.length];
    replace (total_consumed_bytes st + n - total_consumed_bytes st)
      with n by lia;
    (split; [reflexivity|]); (split; [lia|]); (split; [reflexivity|]);
    (split; [reflexivity|]); (split; [lia|]);
    (split; [intros H; discriminate|]);
    intros _; unfold incomplete; cbn [current_state_ buffer_]; exact Hshort.
  - cbn [List.length] in Hf. lia.
  - destruct (IH st') as (r & fs & Hr & Ht & Hbuf & Hd & H9 & Hpr & Hinc).
    + subst st'. cbn [parser buffer_]. now apply Forall_drop.
    + subst st'. intros H. discriminate H.
    + subst st'. cbn [parser buffer_]. lia.
    + exists r, (fr :: fs). subst st'.
      cbn [total_consumed_bytes parser buffer_ delivered] in *.
      split; [exact Hr|]. split; [lia|].
      split.
      { rewrite Hbuf, skipn_skipn. f_equal. lia. }
      split; [rewrite Hd, <- app_assoc; reflexivity|].
      split; [cbn [List.length]; lia|]. auto.
Qed.

Lemma parse_conserves cb (p : Http2Parser.t)
  (c : Http2Connection.t) (data : octets) :
  is_octets (buffer_ p) -> is_octets data -> pending_in_range p ->
  exists r,
    parse cb p c data = Some r /\
    0 <= total_consumed_bytes r <= Z.of_nat (List.length (buffer_ p ++ data)) /\
    buffer_ (parser r)
    = skipn (Z.to_nat (total_consumed_bytes r)) (buffer_ p ++ data) /\
    9 * Z.of_nat (List.length (delivered r)) <= total_consumed_bytes r /\
    (last_error r = ParserError.OK -> incomplete (parser r)) /\
    is_octets (buffer_ (parser r)) /\ pending_in_range (parser r).
Proof.
  intros Hb Hd Hp. unfold parse. cbn [buffer_].
  destruct (parse_loop_conserves cb (List.length (buffer_ p ++ data))
              {| total_consumed_bytes := 0; last_error := ParserError.OK;
                 parser := {| current_state_ := current_state_ p;
                              buffer_ := buffer_ p ++ data;
                              pending_frame_header_ :=
                                pending_frame_header_ p |};
                 connection := c; delivered := [] |})
    as (r & fs & Hr & Ht & Hbuf & Hdel & H9 & Hpr & Hinc).
  - cbn [parser buffer_]. apply Forall_app. now split.
  - exact Hp.
  - cbn [parser buffer_]. lia.
  - cbn [total_consumed_bytes parser buffer_ delivered app] in *.
    rewrite Z.sub_0_r in *. exists r.
    split; [exact Hr|]. split; [exact Ht|]. split; [exact Hbuf|].
    split; [rewrite Hdel; exact H9|]. split; [exact Hinc|].
    split; [|exact Hpr].
    rewrite Hbuf. apply Forall_drop, Forall_app. now split.
Qed.

(** X10. [parse] returns for every input, and never loses an octet: its
    buffer after the call is its buffer before the call followed by the
    input, without the octets it reports as consumed; these are whole
    frames, one for each frame it delivered, of nine octets at least.
    When it reports no error, what it keeps is an incomplete frame.  The
    parser is left in a state to which the same applies. *)
Theorem parse_keeps_unconsumed_input cb (p : Http2Parser.t)
  (c : Http2Connection.t) (data : octets) :
  is_octets (buffer_ p) -> is_octets data -> pending_in_range p ->
  exists r,
    parse cb p c data = Some r /\
    0 <= total_consumed_bytes r <= Z.of_nat (List.length (buffer_ p ++ data)) /\
    buffer_ (parser r)
    = skipn (Z.to_nat (total_consumed_bytes r)) (buffer_ p ++ data) /\
    9 * Z.of_nat (List.length (delivered r)) <= total_consumed_bytes r /\
    (last_error r = ParserError.OK -> incomplete (parser r)) /\
    is_octets (buffer_ (parser r)) /\ pending_in_range (parser r).
Proof. apply parse_conserves. Qed.

Lemma parse_keeps_unconsumed_input_witness :
  (is_octets (buffer_ Http2Parser.new) /\ is_octets (wire_ping ++ [0; 0; 8]) /\
   pending_in_range Http2Parser.new) /\
  exists r,
    parse None Http2Parser.new (Http2Connection.new true true)
      (wire_ping ++ [0; 0; 8]) = Some r /\
    buffer_ (parser r)
    = skipn (Z.to_nat (total_consumed_bytes r)) (wire_ping ++ [0; 0; 8]).
Proof.
  assert (H1 : is_octets (buffer_ Http2Parser.new)) by constructor.
  assert (H2 : is_octets (wire_ping ++ [0; 0; 8]))
    by (apply is_octets_check; reflexivity).
  assert (H3 : pending_in_range Http2Parser.new)
    by (intros H; discriminate H).
  split; [split; [exact H1|split; [exact H2|exact H3]]|].
  destruct (parse_keeps_unconsumed_input None Http2Parser.new
              (Http2Connection.new true true) (wire_ping ++ [0; 0; 8])
              H1 H2 H3) as (r & Hr & _ & Hb & _).
  exists r. split; [exact Hr|exact Hb].
Defined.

(** For the sample the parser consumes the PING and keeps three octets. *)
Example parse_ping_and_rest :
  option_map (fun r => (total_consumed_bytes r, buffer_ (parser r)))
    (parse None Http2Parser.new (Http2Connection.new true true)
       (wire_ping ++ [0; 0; 8]))
  = Some (17, [0; 0; 8]).
Proof. vm_compute. reflexivity. Qed.

Lemma header_of_written (h : FrameHeader.t) (rest : octets) :
  frame_header_in_range h ->
  header_of (write_frame_header [] h ++ rest) = h.
Proof.
  intros H.
  assert (E : Some (header_of (write_frame_header [] h ++ rest)) = Some h).
  { rewrite <- read_frame_header_of
      by (rewrite length_app, write_frame_header_length; lia).
    rewrite firstn_app, write_frame_header_length.
    rewrite firstn_all2 by (rewrite write_frame_header_length; lia).
    change (9 - 9)%nat with 0%nat. rewrite firstn_O.
    now apply frame_header_read_write. }
  now injection E.
Qed.

(** X11. A frame header that announces more octets than the frame size
    limit stops the connection's input: [process_incoming_data] consumes
    nothing, does not call the frame handler, keeps the octets in the
    parser's buffer and the parser waiting for a header, and asks for a
    GOAWAY with FRAME_SIZE_ERROR when that callback is set.  As the
    octets stay at the head of the buffer, the same holds for every later
    call, whatever further input it brings. *)
Theorem oversize_frame_refused
  (handle_parsed_frame : AnyHttp2Frame -> Http2Connection.t -> Http2Connection.t)
  (p : Http2Parser.t) (c : Http2Connection.t) (data : octets)
  (h : FrameHeader.t) (rest : octets) :
  current_state_ p = READING_FRAME_HEADER ->
  buffer_ p ++ data = write_frame_header [] h ++ rest ->
  frame_header_in_range h ->
  FrameHeader.length h
  > ConnectionSettings.max_frame_size (Http2Connection.remote_settings_ c) ->
  Http2ConnectionInput.process_incoming_data handle_parsed_frame p c data
  = Some (0,
          {| current_state_ := READING_FRAME_HEADER;
             buffer_ := write_frame_header [] h ++ rest;
             pending_frame_header_ := h |},
          if Http2Connection.on_send_goaway_ c
          then Http2Connection.call c
                 (send_goaway (Http2Connection.last_processed_stream_id_ c)
                    ErrorCode.FRAME_SIZE_ERROR "Parser error: code 15")
          else c).
Proof.
  intros Hs Hb Hr Hm.
  unfold Http2ConnectionInput.process_incoming_data, parse. cbn [buffer_].
  rewrite Hb.
  rewrite parse_loop_oversize.
  - cbn [stopped parser buffer_ connection last_error total_consumed_bytes].
    rewrite header_of_written by assumption. reflexivity.
  - exact Hs.
  - cbn [parser buffer_]. rewrite length_app, write_frame_header_length. lia.
  - cbn [parser buffer_ connection].
    rewrite header_of_written by assumption. exact Hm.
Qed.

Lemma oversize_frame_refused_witness :
  (current_state_ Http2Parser.new = READING_FRAME_HEADER /\
   buffer_ Http2Parser.new ++ [0; 64; 1; 0; 0; 0; 0; 0; 1; 7]
   = write_frame_header [] sample_oversize_header ++ [7] /\
   frame_header_in_range sample_oversize_header /\
   FrameHeader.length sample_oversize_header
   > ConnectionSettings.max_frame_size
       (Http2Connection.remote_settings_ (Http2Connection.new true true))) /\
  exists p c,
    Http2ConnectionInput.process_incoming_data (fun _ c => c) Http2Parser.new
      (Http2Connection.new true true) [0; 64; 1; 0; 0; 0; 0; 0; 1; 7]
    = Some (0, p, c) /\
    Http2Connection.actions c
    = [send_goaway 0 ErrorCode.FRAME_SIZE_ERROR "Parser error: code 15"].
Proof.
  assert (H1 : buffer_ Http2Parser.new ++ [0; 64; 1; 0; 0; 0; 0; 0; 1; 7]
               = write_frame_header [] sample_oversize_header ++ [7])
    by reflexivity.
  assert (H2 : frame_header_in_range sample_oversize_header)
    by (repeat split; vm_compute; congruence).
  assert (H3 : FrameHeader.length sample_oversize_header
               > ConnectionSettings.max_frame_size
                   (Http2Connection.remote_settings_
                      (Http2Connection.new true true)))
    by reflexivity.
  split; [split; [reflexivity|split; [exact H1|split; [exact H2|exact H3]]]|].
  eexists _, _. split.
  - exact (oversize_frame_refused (fun _ c => c) Http2Parser.new
             (Http2Connection.new true true) _ sample_oversize_header [7]
             eq_refl H1 H2 H3).
  - reflexivity.
Defined.

Lemma parse_loop_entered cb (fuel : nat) (st : parsed) :
  parse_loop cb fuel st
  = match entered st with
    | inl r => Some r
    | inr st2 => parse_loop cb fuel st2
    end.
Proof.
  unfold entered. cbv zeta.
  destruct (current_state_ (parser st)) eqn:Hs; [|reflexivity].
  destruct (Z.ltb_spec (Z.of_nat (List.length (buffer_ (parser st)))) 9)
    as [Hlt|Hge]; [now apply parse_loop_short|].
  destruct (Z.gtb_spec
              (FrameHeader.length (header_of (buffer_ (parser st))))
              (ConnectionSettings.max_frame_size
                 (Http2Connection.remote_settings_ (connection st))))
    as [Hgt|Hle].
  - apply parse_loop_oversize; [assumption|assumption|lia].
  - now apply parse_loop_header.
Qed.

Lemma entered_payload (st st2 : parsed) :
  ranges st -> entered st = inr st2 ->
  current_state_ (parser st2) = READING_FRAME_PAYLOAD /\
  0 <= FrameHeader.length (pending_frame_header_ (parser st2)) < 2 ^ 24 /\
  buffer_ (parser st2) = buffer_ (parser st).
Proof.
  intros [Ho Hp]. unfold entered. cbv zeta.
  destruct (current_state_ (parser st)) eqn:Hs.
  - destruct (_ <? 9); [discriminate|].
    destruct (_ >? _); [discriminate|]. intros [= <-].
    cbn [with_parser awaiting_payload parser current_state_
         pending_frame_header_ buffer_].
    split; [reflexivity|]. split; [|reflexivity].
    apply read_uint24_range. now apply Forall_take.
  - intros [= <-]. auto.
Qed.

Lemma parse_loop_payload_step cb (fuel : nat) (st : parsed) :
  current_state_ (parser st) = READING_FRAME_PAYLOAD ->
  0 <= FrameHeader.length (pending_frame_header_ (parser st)) < 2 ^ 24 ->
  parse_loop cb fuel st
  = match payload_step cb st with
    | None => None
    | Some (inl r) => Some r
    | Some (inr st') =>
        if Z.of_nat (List.length (buffer_ (parser st'))) <? 9 then Some st'
        else match fuel with
             | O => None
             | S fuel' => parse_loop cb fuel' st'
             end
    end.
Proof.
  intros Hs Hl. unfold payload_step. cbv zeta.
  assert (E0 : to_uint32
                 (9 + FrameHeader.length (pending_frame_header_ (parser st)))
               = 9 + FrameHeader.length (pending_frame_header_ (parser st))).
  { unfold to_uint32. apply Z.mod_small. lia. }
  destruct fuel; cbn [parse_loop]; rewrite Hs, E0;
    (destruct (_ <? _); [destruct (parser st); reflexivity|]);
    (destruct (dispatch _ _ _) as [[c' [fr|e]]|];
     [reflexivity|destruct (parser st); reflexivity|reflexivity]).
Qed.

Lemma parse_loop_iteration cb (fuel : nat) (st : parsed) :
  ranges st ->
  parse_loop cb fuel st
  = match iteration cb st with
    | None => None
    | Some (inl r) => Some r
    | Some (inr st') =>
        if Z.of_nat (List.length (buffer_ (parser st'))) <? 9 then Some st'
        else match fuel with
             | O => None
             | S fuel' => parse_loop cb fuel' st'
             end
    end.
Proof.
  intros Hr. rewrite parse_loop_entered. unfold iteration.
  destruct (entered st) as [r|st2] eqn:E; [reflexivity|].
  destruct (entered_payload st st2 Hr E) as (Hs & Hl & _).
  now apply parse_loop_payload_step.
Qed.

Lemma parse_loop_last_error cb (fuel : nat) (st : parsed)
  (e : ParserError.t) :
  parse_loop cb fuel
    {| total_consumed_bytes := total_consumed_bytes st; last_error := e;
       parser := parser st; connection := connection st;
       delivered := delivered st |}
  = parse_loop cb fuel st.
Proof. destruct fuel; reflexivity. Qed.

(** What an iteration that delivers a frame leaves. *)
Lemma iteration_next cb (st st' : parsed) :
  ranges st -> iteration cb st = Some (inr st') ->
  exists n,
    9 <= n <= Z.of_nat (List.length (buffer_ (parser st))) /\
    buffer_ (parser st') = skipn (Z.to_nat n) (buffer_ (parser st)) /\
    current_state_ (parser st') = READING_FRAME_HEADER /\
    last_error st' = ParserError.OK /\
    ranges st'.
Proof.
  intros Hr. unfold iteration.
  destruct (entered st) as [r|st2] eqn:E; [discriminate|].
  destruct (entered_payload st st2 Hr E) as (Hs & Hl & Hb).
  unfold payload_step. cbv zeta.
  destruct (Z.ltb_spec (Z.of_nat (List.length (buffer_ (parser st2))))
              (9 + FrameHeader.length (pending_frame_header_ (parser st2))))
    as [?|Hge]; [discriminate|].
  destruct (dispatch _ _ _) as [[c' [fr|e]]|]; try discriminate.
  intros [= <-].
  exists (9 + FrameHeader.length (pending_frame_header_ (parser st2))).
  cbn [parser buffer_ current_state_ last_error]. rewrite <- Hb.
  split; [lia|]. split; [reflexivity|]. split; [reflexivity|].
  split; [reflexivity|]. split.
  - cbn [parser buffer_]. rewrite Hb. apply Forall_drop, Hr.
  - intros H. discriminate H.
Qed.

(** With a budget of at least the length of the buffer the loop does not
    run out, and the budget does not matter. *)
Lemma parse_loop_fuel cb (fuel : nat) :
  forall (fuel' : nat) (st : parsed),
    ranges st ->
    (List.length (buffer_ (parser st)) <= fuel)%nat ->
    (List.length (buffer_ (parser st)) <= fuel')%nat ->
    parse_loop cb fuel st = parse_loop cb fuel' st.
Proof.
  induction fuel as [|fuel IH]; intros fuel' st Hr H1 H2;
    rewrite (parse_loop_iteration cb _ st Hr);
    rewrite (parse_loop_iteration cb fuel' st Hr);
    destruct (iteration cb st) as [[r|st']|] eqn:E; try reflexivity;
    destruct (iteration_next cb st st' Hr E) as (n & Hn & Hb & _ & _ & Hr');
    (destruct (Z.ltb_spec (Z.of_nat (List.length (buffer_ (parser st')))) 9)
       as [|Hlong]; [reflexivity|]);
    assert (Hlen : Z.of_nat (List.length (buffer_ (parser st')))
                   = Z.of_nat (List.length (buffer_ (parser st))) - n)
      by (rewrite Hb, length_skipn; lia).
  - lia.
  - destruct fuel' as [|fuel']; [lia|]. apply IH; [assumption|lia|lia].
Qed.

Lemma iteration_shift cb (t : Z) (d : list AnyHttp2Frame) (st : parsed) :
  iteration cb (shift t d st)
  = match iteration cb st with
    | None => None
    | Some (inl r) => Some (inl (shift t d r))
    | Some (inr st') => Some (inr (shift t d st'))
    end.
Proof.
  unfold iteration, entered, payload_step. cbv zeta.
  cbn [shift parser connection].
  destruct (current_state_ (parser st)).
  - destruct (_ <? 9); [reflexivity|].
    destruct (_ >? _); [reflexivity|].
    cbn [with_parser awaiting_payload parser connection buffer_
         pending_frame_header_].
    destruct (_ <? _); [reflexivity|].
    destruct (dispatch _ _ _) as [[c' [fr|e]]|]; try reflexivity.
    unfold shift. do 2 f_equal.
    cbn [with_parser total_consumed_bytes delivered last_error parser
         connection].
    f_equal; [lia|now rewrite app_assoc].
  - destruct (_ <? _); [reflexivity|].
    destruct (dispatch _ _ _) as [[c' [fr|e]]|]; try reflexivity.
    unfold shift. do 2 f_equal.
    cbn [with_parser total_consumed_bytes delivered last_error parser
         connection].
    f_equal; [lia|now rewrite app_assoc].
Qed.

Lemma parse_loop_shift cb (t : Z) (d : list AnyHttp2Frame) (fuel : nat) :
  forall st : parsed,
    ranges st ->
    parse_loop cb fuel (shift t d st)
    = option_map (shift t d) (parse_loop cb fuel st).
Proof.
  induction fuel as [|fuel IH]; intros st Hr;
    rewrite (parse_loop_iteration cb _ (shift t d st)) by exact Hr;
    rewrite (parse_loop_iteration cb _ st Hr);
    rewrite iteration_shift;
    destruct (iteration cb st) as [[r|st']|] eqn:E; try reflexivity;
    change (buffer_ (parser (shift t d st'))) with (buffer_ (parser st'));
    (destruct (_ <? 9); [reflexivity|]); [reflexivity|].
  apply IH. now destruct (iteration_next cb st st' Hr E) as (_ & _ & _ & _ & _ & ?).
Qed.

Lemma header_of_app (buffer more : octets) :
  9 <= Z.of_nat (List.length buffer) ->
  header_of (buffer ++ more) = header_of buffer.
Proof.
  intros H. unfold header_of.
  replace (firstn 9 (buffer ++ more)) with (firstn 9 buffer); [reflexivity|].
  rewrite firstn_app.
  replace (9 - List.length buffer)%nat with 0%nat by lia.
  now rewrite firstn_O, app_nil_r.
Qed.

Lemma entered_extend (st st2 : parsed) (more : octets) :
  entered st = inr st2 -> entered (extend st more) = inr (extend st2 more).
Proof.
  unfold entered. cbv zeta.
  cbn [extend with_parser parser connection current_state_ buffer_].
  destruct (current_state_ (parser st)) eqn:Hs.
  - destruct (Z.ltb_spec (Z.of_nat (List.length (buffer_ (parser st)))) 9)
      as [|Hge]; [discriminate|].
    destruct (_ >? _) eqn:Hm; [discriminate|]. intros [= <-].
    rewrite length_app.
    destruct (Z.ltb_spec
                (Z.of_nat (List.length (buffer_ (parser st))
                           + List.length more)) 9); [lia|].
    rewrite header_of_app, Hm by assumption. reflexivity.
  - intros [= <-]. unfold extend. rewrite Hs. reflexivity.
Qed.

Lemma payload_step_extend cb (st : parsed) (more : octets) :
  0 <= FrameHeader.length (pending_frame_header_ (parser st)) ->
  payload_step cb (extend st more)
  = match payload_step cb st with
    | Some (inl r) =>
        if Z.of_nat (List.length (buffer_ (parser st)))
             <? 9 + FrameHeader.length (pending_frame_header_ (parser st))
        then payload_step cb (extend st more)
        else Some (inl (extend r more))
    | Some (inr st') => Some (inr (extend st' more))
    | None => None
    end.
Proof.
  intros Hl. unfold payload_step at 2. cbv zeta.
  destruct (Z.ltb_spec
              (Z.of_nat (List.length (buffer_ (parser st))))
              (9 + FrameHeader.length (pending_frame_header_ (parser st))))
    as [Hlt|Hge]; [reflexivity|].
  unfold payload_step. cbv zeta.
  cbn [extend with_parser parser connection buffer_ pending_frame_header_
       total_consumed_bytes delivered].
  rewrite length_app.
  destruct (Z.ltb_spec
              (Z.of_nat (List.length (buffer_ (parser st))
                         + List.length more))
              (9 + FrameHeader.length (pending_frame_header_ (parser st))));
    [lia|].
  assert (E1 : firstn
                 (Z.to_nat (FrameHeader.length
                              (pending_frame_header_ (parser st))))
                 (skipn 9 (buffer_ (parser st) ++ more))
               = firstn
                   (Z.to_nat (FrameHeader.length
                                (pending_frame_header_ (parser st))))
                   (skipn 9 (buffer_ (parser st)))).
  { rewrite skipn_app.
    replace (9 - List.length (buffer_ (parser st)))%nat with 0%nat by lia.
    rewrite skipn_O, firstn_app, length_skipn.
    replace (Z.to_nat (FrameHeader.length (pending_frame_header_ (parser st)))
             - (List.length (buffer_ (parser st)) - 9))%nat
      with 0%nat by lia.
    now rewrite firstn_O, app_nil_r. }
  assert (E2 : skipn
                 (Z.to_nat
                    (9 + FrameHeader.length
                           (pending_frame_header_ (parser st))))
                 (buffer_ (parser st) ++ more)
               = skipn
                   (Z.to_nat
                      (9 + FrameHeader.length
                             (pending_frame_header_ (parser st))))
                   (buffer_ (parser st)) ++ more).
  { rewrite skipn_app.
    replace (Z.to_nat (9 + FrameHeader.length
                             (pending_frame_header_ (parser st)))
             - List.length (buffer_ (parser st)))%nat with 0%nat by lia.
    now rewrite skipn_O. }
  rewrite E1, E2.
  destruct (dispatch _ _ _) as [[c' [fr|e]]|]; reflexivity.
Qed.

(** An iteration that delivers a frame does the same when more octets
    follow in the buffer. *)
Lemma iteration_extend cb (st st' : parsed) (more : octets) :
  ranges st -> iteration cb st = Some (inr st') ->
  iteration cb (extend st more) = Some (inr (extend st' more)).
Proof.
  intros Hr. unfold iteration.
  destruct (entered st) as [r|st2] eqn:E; [discriminate|].
  destruct (entered_payload st st2 Hr E) as (_ & Hl & _).
  rewrite (entered_extend st st2 more E).
  rewrite payload_step_extend by lia. intros ->. reflexivity.
Qed.

Lemma ranges_extend (st : parsed) (more : octets) :
  ranges st -> is_octets more -> ranges (extend st more).
Proof.
  intros [Ho Hp] Hm. split.
  - cbn [extend with_parser parser buffer_]. apply Forall_app. now split.
  - exact Hp.
Qed.

(** An iteration that stops for want of octets goes on from where it
    stopped when more octets follow. *)
Lemma iteration_stop_extend cb (st r : parsed) (more : octets)
  (f1 f2 : nat) :
  ranges st -> is_octets more ->
  iteration cb st = Some (inl r) -> last_error r = ParserError.OK ->
  (List.length (buffer_ (parser st) ++ more) <= f1)%nat ->
  (List.length (buffer_ (parser st) ++ more) <= f2)%nat ->
  buffer_ (parser r) = buffer_ (parser st) /\
  parse_loop cb f1 (extend st more) = parse_loop cb f2 (extend r more).
Proof.
  intros Hr Hm Hi He H1 H2. unfold iteration in Hi.
  destruct (entered st) as [r0|st2] eqn:E.
  - injection Hi as <-. revert E. unfold entered. cbv zeta.
    destruct (current_state_ (parser st)) eqn:Hs; [|discriminate].
    destruct (_ <? 9).
    + intros [= <-]. split; [reflexivity|].
      transitivity (parse_loop cb f2 (extend st more));
        [|symmetry;
          apply (parse_loop_last_error cb f2 (extend st more) ParserError.OK)].
      apply parse_loop_fuel; [now apply ranges_extend|exact H1|exact H2].
    + destruct (_ >? _); [|discriminate]. intros [= <-]. discriminate He.
  - destruct (entered_payload st st2 Hr E) as (Hs & Hl & Hb).
    rewrite parse_loop_entered, (entered_extend st st2 more E).
    assert (Hr2 : ranges (extend st2 more)).
    { split.
      - cbn [extend with_parser parser buffer_]. rewrite Hb.
        apply Forall_app. split; [apply Hr|exact Hm].
      - intros _. exact Hl. }
    revert Hi. unfold payload_step. cbv zeta.
    destruct (_ <? _).
    + intros [= <-]. split; [exact Hb|].
      transitivity (parse_loop cb f2 (extend st2 more));
        [|symmetry;
          apply (parse_loop_last_error cb f2 (extend st2 more) ParserError.OK)].
      apply parse_loop_fuel; [exact Hr2| |];
        cbn [extend with_parser parser buffer_]; rewrite Hb; assumption.
    + destruct (dispatch _ _ _) as [[c' [fr|e]]|] eqn:Hd; try discriminate.
      intros [= <-]. cbn [stopped last_error] in He. subst e.
      now apply dispatch_error in Hd.
Qed.

Lemma parse_loop_split cb (more : octets) (fuel : nat) :
  forall (st r1 : parsed) (f1 f2 : nat),
    ranges st -> is_octets more ->
    parse_loop cb fuel st = Some r1 -> last_error r1 = ParserError.OK ->
    (List.length (buffer_ (parser st) ++ more) <= f1)%nat ->
    (List.length (buffer_ (parser st) ++ more) <= f2)%nat ->
    parse_loop cb f1 (extend st more) = parse_loop cb f2 (extend r1 more).
Proof.
  induction fuel as [|fuel IH]; intros st r1 f1 f2 Hr Hm Hp He H1 H2;
    rewrite (parse_loop_iteration cb _ st Hr) in Hp;
    destruct (iteration cb st) as [[r|st']|] eqn:E; try discriminate.
  1, 3: injection Hp as <-;
    now apply (iteration_stop_extend cb st r more f1 f2).
  all: destruct (iteration_next cb st st' Hr E)
         as (n & Hn & Hb & Hs' & He' & Hr');
    pose proof (ranges_extend st more Hr Hm) as Hre;
    pose proof (ranges_extend st' more Hr' Hm) as Hre';
    rewrite (parse_loop_iteration cb f1 (extend st more) Hre);
    rewrite (iteration_extend cb st st' more Hr E);
    assert (Hlen : Z.of_nat (List.length (buffer_ (parser st')))
                   = Z.of_nat (List.length (buffer_ (parser st))) - n)
      by (rewrite Hb, length_skipn; lia);
    rewrite length_app in H1, H2;
    assert (Hx : List.length (buffer_ (parser (extend st' more)))
                 = (List.length (buffer_ (parser st')) + List.length more)%nat)
      by (cbn [extend with_parser parser buffer_]; apply length_app);
    destruct (Z.ltb_spec (Z.of_nat (List.length (buffer_ (parser st')))) 9)
      as [Hshort|Hlong].
  1, 3: injection Hp as <-;
    destruct (Z.ltb_spec
                (Z.of_nat (List.length (buffer_ (parser (extend st' more)))))
                9) as [Hs2|Hl2];
    [ symmetry; rewrite parse_loop_short;
      [ destruct st' as [t e p c d]; cbn in He'; subst e; reflexivity
      | exact Hs'
      | exact Hs2 ]
    | destruct f1 as [|f1]; [lia|];
      apply parse_loop_fuel; [exact Hre'|lia|lia] ].
  - discriminate Hp.
  - destruct (Z.ltb_spec
                (Z.of_nat (List.length (buffer_ (parser (extend st' more)))))
                9) as [Hs2|Hl2]; [lia|].
    destruct f1 as [|f1]; [lia|].
    apply (IH st' r1 f1 f2 Hr' Hm Hp He); rewrite length_app; lia.
Qed.

(** X12. Input may come in pieces.  If [parse] reports no error for a
    first piece of input, then parsing the next piece afterwards, with the
    parser and the connection as the first call left them, consumes and
    delivers what a single call on both pieces together would have, in
    addition to what the first call did, and ends with the same parser,
    connection and error code. *)
Theorem parse_in_pieces cb (p : Http2Parser.t) (c : Http2Connection.t)
  (a b : octets) (r1 : parsed) :
  is_octets (buffer_ p) -> is_octets a -> is_octets b ->
  pending_in_range p ->
  parse cb p c a = Some r1 -> last_error r1 = ParserError.OK ->
  exists r2,
    parse cb (parser r1) (connection r1) b = Some r2 /\
    parse cb p c (a ++ b)
    = Some {| total_consumed_bytes :=
                total_consumed_bytes r1 + total_consumed_bytes r2;
              last_error := last_error r2;
              parser := parser r2;
              connection := connection r2;
              delivered := delivered r1 ++ delivered r2 |}.
Proof.
  intros Hp Ha Hb Hr Hr1 He.
  destruct (parse_conserves cb p c a Hp Ha Hr)
    as (r1' & Hr1' & Ht & Hbuf & _ & _ & Ho1 & Hpr1).
  rewrite Hr1 in Hr1'. injection Hr1' as <-.
  destruct (parse_conserves cb (parser r1) (connection r1) b Ho1 Hb Hpr1)
    as (r2 & Hr2 & _).
  exists r2. split; [exact Hr2|].
  unfold parse in *. cbn [buffer_] in *.
  set (s0 := {| total_consumed_bytes := 0; last_error := ParserError.OK;
                parser := {| current_state_ := current_state_ p;
                             buffer_ := buffer_ p ++ a;
                             pending_frame_header_ :=
                               pending_frame_header_ p |};
                connection := c; delivered := [] |}) in *.
  set (z0 := {| total_consumed_bytes := 0; last_error := ParserError.OK;
                parser := {| current_state_ := current_state_ (parser r1);
                             buffer_ := buffer_ (parser r1) ++ b;
                             pending_frame_header_ :=
                               pending_frame_header_ (parser r1) |};
                connection := connection r1; delivered := [] |}) in *.
  assert (Hs0 : ranges s0).
  { split; [cbn; apply Forall_app; now split|exact Hr]. }
  assert (Hz0 : ranges z0).
  { split; [cbn; apply Forall_app; now split|exact Hpr1]. }
  assert (Hlen : (List.length (buffer_ (parser r1))
                  <= List.length (buffer_ p ++ a))%nat).
  { rewrite Hbuf, length_skipn. lia. }
  transitivity (parse_loop cb (List.length (buffer_ p ++ a ++ b))
                  (extend s0 b)).
  { unfold extend, s0, with_parser. cbn [parser buffer_ current_state_
      pending_frame_header_ total_consumed_bytes last_error connection
      delivered]. now rewrite <- app_assoc. }
  rewrite (parse_loop_split cb b _ s0 r1
             (List.length (buffer_ p ++ a ++ b))
             (List.length (buffer_ p ++ a ++ b)) Hs0 Hb Hr1 He)
    by (subst s0; cbn [parser buffer_]; rewrite <- app_assoc; lia).
  transitivity (parse_loop cb (List.length (buffer_ (parser r1) ++ b))
                  (shift (total_consumed_bytes r1) (delivered r1) z0)).
  { rewrite <- (parse_loop_last_error cb _
                  (shift (total_consumed_bytes r1) (delivered r1) z0)
                  (last_error r1)).
    unfold shift, z0, extend, with_parser.
    cbn [parser buffer_ current_state_ pending_frame_header_
         total_consumed_bytes last_error connection delivered].
    rewrite Z.add_0_r, app_nil_r.
    apply parse_loop_fuel.
    - split; [cbn; apply Forall_app; now split|exact Hpr1].
    - cbn [parser buffer_]. rewrite !length_app in *. lia.
    - cbn [parser buffer_]. lia. }
  rewrite parse_loop_shift by exact Hz0.
  rewrite Hr2. reflexivity.
Qed.

Lemma parse_in_pieces_witness :
  exists r1 r2,
    (is_octets (buffer_ Http2Parser.new) /\ is_octets sample_first_piece /\
     is_octets sample_second_piece /\ pending_in_range Http2Parser.new /\
     parse None Http2Parser.new (Http2Connection.new true true)
       sample_first_piece = Some r1 /\
     last_error r1 = ParserError.OK) /\
    parse None (parser r1) (connection r1) sample_second_piece = Some r2 /\
    option_map delivered
      (parse None Http2Parser.new (Http2Connection.new true true)
         (sample_first_piece ++ sample_second_piece))
    = Some (delivered r1 ++ delivered r2).
Proof.
  assert (H1 : is_octets (buffer_ Http2Parser.new)) by constructor.
  assert (H2 : is_octets sample_first_piece)
    by (apply is_octets_check; reflexivity).
  assert (H3 : is_octets sample_second_piece)
    by (apply is_octets_check; reflexivity).
  assert (H4 : pending_in_range Http2Parser.new)
    by (intros H; discriminate H).
  eassert (E : parse None Http2Parser.new (Http2Connection.new true true)
                 sample_first_piece = Some _) by (vm_compute; reflexivity).
  destruct (parse_in_pieces None Http2Parser.new
              (Http2Connection.new true true) sample_first_piece
              sample_second_piece _ H1 H2 H3 H4 E eq_refl)
    as (r2 & Hr2 & Hall).
  eexists _, r2.
  split; [split; [exact H1|split; [exact H2|split; [exact H3|
          split; [exact H4|split; [exact E|reflexivity]]]]]|].
  split; [exact Hr2|]. rewrite Hall. reflexivity.
Defined.

(** The first piece alone delivers nothing; both frames come with the
    second. *)
Example pieces_of_ping_and_data :
  option_map (fun r => (total_consumed_bytes r, List.length (delivered r)))
    (parse None Http2Parser.new (Http2Connection.new true true)
       sample_first_piece) = Some (0, 0%nat) /\
  option_map (fun r => (total_consumed_bytes r, delivered r))
    (parse None Http2Parser.new (Http2Connection.new true true)
       (sample_first_piece ++ sample_second_piece))
  = Some (28, [frame_ping; frame_data]).
Proof. split; vm_compute; reflexivity. Qed.

End Frames.

(** ** Flow control and segmentation of send_data *)

Section SendDataGeneral.
Import Http2Connection ConnectionSettings.

Lemma send_data_loop_blocked (fuel : nat) (c : Http2Connection.t)
  (stream : Http2Stream.t) (id : Z) (data : octets) (end_stream : bool)
  (off : Z) :
  0 <= off < Z.of_nat (List.length data) ->
  Http2Stream.remote_window_size_ stream <= 0
  \/ remote_connection_window_size_ c <= 0 ->
  send_data_loop fuel c stream id data end_stream off = Some (off >? 0, c).
Proof.
  intros Hoff Hw.
  destruct data as [|b data']; [simpl in Hoff; lia|].
  set (data := b :: data') in *.
  assert (E : (to_uint32 (Z.max 0 (Http2Stream.get_remote_window_size stream))
               =? 0)
              || (to_uint32 (Z.max 0 (remote_connection_window_size_ c)) =? 0)
              = true).
  { unfold Http2Stream.get_remote_window_size. apply orb_true_iff.
    destruct Hw as [Hw|Hw]; [left|right]; apply Z.eqb_eq;
      rewrite Z.max_l by lia; reflexivity. }
  destruct fuel;
    cbv beta iota zeta delta [send_data_loop]; fold send_data_loop;
    fold data;
    (destruct (Z.ltb_spec off (Z.of_nat (List.length data))); [|lia]);
    subst data; cbv iota; cbn [orb andb negb]; rewrite E;
    cbn [orb andb negb]; reflexivity.
Qed.

Lemma firstn_add {A : Type} (a b : nat) (l : list A) :
  firstn (a + b) l = firstn a l ++ firstn b (skipn a l).
Proof.
  revert l. induction a as [|a IH]; intros l; [reflexivity|].
  destruct l as [|x l]; cbn [Nat.add firstn skipn app].
  - now rewrite firstn_nil.
  - now rewrite IH.
Qed.

Lemma to_int32_id (x : Z) : - 2 ^ 31 <= x < 2 ^ 31 -> to_int32 x = x.
Proof. intros H. unfold to_int32. lia. Qed.

Lemma send_data_loop_run (id : Z) (data : octets) (end_stream : bool)
  (fuel : nat) :
  forall (c : Http2Connection.t) (stream : Http2Stream.t) (off : Z),
    let size := Z.of_nat (List.length data) in
    let ws := Http2Stream.remote_window_size_ stream in
    let wc := remote_connection_window_size_ c in
    let mfs := max_frame_size (remote_settings_ c) in
    let sent := Z.min (size - off) (Z.min ws wc) in
    let ended := end_stream && (size - off <=? Z.min ws wc) in
    0 <= off < size -> size < 2 ^ 31 -> size - off <= Z.of_nat fuel ->
    0 < ws < 2 ^ 31 -> 0 < wc < 2 ^ 31 -> 0 < mfs ->
    exists chunks,
      send_data_loop fuel c stream id data end_stream off
      = Some (true,
              after_send c
                (<[id := stream_after_send stream sent ended]> (streams_ c))
                (wc - sent)
                (actions c ++ flagged_frames id ended chunks)) /\
      concat chunks = firstn (Z.to_nat sent) (skipn (Z.to_nat off) data) /\
      Forall (fun chunk => 0 < Z.of_nat (List.length chunk) <= mfs) chunks /\
      chunks <> [].
Proof.
  induction fuel as [|fuel IH];
    intros c stream off size ws wc mfs sent ended Hoff Hsize Hfuel Hws Hwc Hm;
    [lia|].
  set (chunk := Z.min (Z.min (Z.min (size - off) mfs) ws) wc).
  assert (Hchunk : 0 < chunk <= size - off) by lia.
  rewrite (send_data_loop_step fuel c stream id data end_stream off chunk);
    try assumption; try reflexivity; try (fold size; lia).
  cbv zeta. fold size.
  set (piece := firstn (Z.to_nat chunk) (skipn (Z.to_nat off) data)).
  assert (Hpiece : Z.of_nat (List.length piece) = chunk).
  { subst piece. rewrite length_firstn, length_skipn. lia. }
  assert (Hrec : Http2Stream.record_data_sent stream chunk
                 = stream_after_send stream chunk false).
  { unfold Http2Stream.record_data_sent, stream_after_send.
    destruct (Z.eqb_spec chunk 0); [lia|].
    rewrite (to_int32_id chunk), to_int32_id by (fold ws; lia).
    reflexivity. }
  rewrite Hrec.
  destruct (Z.eqb_spec (off + chunk) size) as [Hall|Hmore].
  - (* the last chunk *)
    exists [piece].
    assert (Es : sent = chunk) by lia.
    assert (Ee : ended = end_stream).
    { subst ended. destruct (Z.leb_spec (size - off) (Z.min ws wc));
        [apply andb_true_r|lia]. }
    rewrite Es, Ee, andb_true_r.
    split; [|split; [|split]].
    + f_equal. f_equal. unfold store_stream, record_connection_data_sent,
        after_send, set_streams, set_remote_connection_window_size, call.
      cbn [is_server_ streams_ next_client_stream_id_ next_server_stream_id_
           last_processed_stream_id_ going_away_ local_settings_
           remote_settings_ hpack_decoder_ hpack_encoder_
           local_connection_window_size_ remote_connection_window_size_
           expected_continuation_stream_id_ header_block_buffer_
           header_sequence_initiator_type_ pending_header_initiator_frame_
           on_send_rst_stream_ on_send_goaway_ on_send_bytes_ actions].
      fold wc. rewrite (to_int32_id chunk), to_int32_id by lia.
      cbn [flagged_frames]. unfold data_frame_octets, stream_after_send.
      destruct end_stream; reflexivity.
    + cbn [concat]. rewrite app_nil_r. reflexivity.
    + constructor; [lia|constructor].
    + discriminate.
  - (* more data is left *)
    rewrite andb_false_r. cbv iota.
    set (stream1 := stream_after_send stream chunk false).
    set (c1 := store_stream _ id stream1).
    assert (Hc1 : c1 = after_send c (<[id := stream1]> (streams_ c))
                         (wc - chunk)
                         (actions c
                          ++ [send_bytes (data_frame_octets id false piece)])).
    { subst c1. unfold store_stream, record_connection_data_sent,
        after_send, set_streams, set_remote_connection_window_size, call.
      cbn [is_server_ streams_ next_client_stream_id_ next_server_stream_id_
           last_processed_stream_id_ going_away_ local_settings_
           remote_settings_ hpack_decoder_ hpack_encoder_
           local_connection_window_size_ remote_connection_window_size_
           expected_continuation_stream_id_ header_block_buffer_
           header_sequence_initiator_type_ pending_header_initiator_frame_
           on_send_rst_stream_ on_send_goaway_ on_send_bytes_ actions].
      fold wc. rewrite (to_int32_id chunk), to_int32_id by lia.
      reflexivity. }
    clearbody c1. subst c1.
    destruct (Z.le_gt_cases (Z.min ws wc - chunk) 0) as [Hblocked|Hopen].
    + (* a window is used up *)
      rewrite send_data_loop_blocked;
        [|fold size; lia
         |cbn [after_send remote_connection_window_size_ stream1
               stream_after_send Http2Stream.remote_window_size_];
          fold ws; lia].
      exists [piece].
      assert (Es : sent = chunk) by lia.
      assert (Ee : ended = false).
      { subst ended. destruct (Z.leb_spec (size - off) (Z.min ws wc));
          [lia|apply andb_false_r]. }
      rewrite Es, Ee.
      destruct (Z.gtb_spec (off + chunk) 0); [|lia].
      split; [reflexivity|].
      split; [cbn [concat]; now rewrite app_nil_r|].
      split; [constructor; [lia|constructor]|discriminate].
    + (* both windows are still open *)
      destruct (IH (after_send c (<[id := stream1]> (streams_ c))
                      (wc - chunk)
                      (actions c
                       ++ [send_bytes (data_frame_octets id false piece)]))
                  stream1 (off + chunk))
        as (chunks & Hrun & Hcat & Hall & Hne);
        [cbn [after_send remote_connection_window_size_ remote_settings_
              stream1 stream_after_send Http2Stream.remote_window_size_];
         fold size ws wc mfs; lia ..|].
      exists (piece :: chunks).
      assert (Es : Z.min (size - (off + chunk))
                     (Z.min (Http2Stream.remote_window_size_ stream1)
                        (remote_connection_window_size_
                           (after_send c (<[id := stream1]> (streams_ c))
                              (wc - chunk)
                              (actions c
                               ++ [send_bytes
                                     (data_frame_octets id false piece)]))))
                   = sent - chunk).
      { cbn [after_send remote_connection_window_size_ stream1
             stream_after_send Http2Stream.remote_window_size_].
        fold ws. lia. }
      assert (Ee : end_stream
                   && (size - (off + chunk)
                       <=? Z.min (Http2Stream.remote_window_size_ stream1)
                             (remote_connection_window_size_
                                (after_send c (<[id := stream1]> (streams_ c))
                                   (wc - chunk)
                                   (actions c
                                    ++ [send_bytes
                                          (data_frame_octets id false
                                             piece)]))))
                   = ended).
      { cbn [after_send remote_connection_window_size_ stream1
             stream_after_send Http2Stream.remote_window_size_].
        fold ws. subst ended. f_equal.
        destruct (Z.leb_spec (size - off) (Z.min ws wc));
          destruct (Z.leb_spec (size - (off + chunk))
                      (Z.min (ws - chunk) (wc - chunk))); lia. }
      fold size in Hrun, Hcat. rewrite Es, Ee in Hrun. rewrite Es in Hcat.
      rewrite Hrun. clear Hrun.
      split; [|split; [|split]].
      * f_equal. f_equal. unfold after_send.
        cbn [is_server_ streams_ next_client_stream_id_
             next_server_stream_id_ last_processed_stream_id_ going_away_
             local_settings_ remote_settings_ hpack_decoder_ hpack_encoder_
             local_connection_window_size_ remote_connection_window_size_
             expected_continuation_stream_id_ header_block_buffer_
             header_sequence_initiator_type_ pending_header_initiator_frame_
             on_send_rst_stream_ on_send_goaway_ on_send_bytes_ actions].
        rewrite insert_insert_eq.
        replace (wc - chunk - (sent - chunk)) with (wc - sent) by lia.
        rewrite <- app_assoc.
        destruct chunks as [|ch chunks]; [contradiction|].
        f_equal. f_equal. unfold stream1, stream_after_send.
        cbn [Http2Stream.id_ Http2Stream.state_ Http2Stream.local_window_size_
             Http2Stream.remote_window_size_].
        fold ws.
        replace (ws - chunk - (sent - chunk)) with (ws - sent) by lia.
        reflexivity.
      * cbn [concat]. rewrite Hcat.
        replace (Z.to_nat sent)
          with (Z.to_nat chunk + Z.to_nat (sent - chunk))%nat by lia.
        rewrite firstn_add. fold piece. f_equal.
        rewrite skipn_skipn.
        replace (Z.to_nat chunk + Z.to_nat off)%nat
          with (Z.to_nat (off + chunk)) by lia.
        reflexivity.
      * constructor; [lia|exact Hall].
      * discriminate.
Qed.

(** X13. Flow control and segmentation of [send_data].  For a stream that
    may send (OPEN or half closed by the peer) and non-empty data,
    [send_data] sends nothing and returns [false] when the send window of
    the stream or of the connection is used up; otherwise it returns
    [true] after sending the first [sent] octets of the data, where
    [sent] is the smaller of the data length and the two windows, in
    DATA frames of at most [max_frame_size] octets each, in order, and
    takes [sent] from both windows.  END_STREAM is set, on the last frame
    only, and the stream half closed, exactly when [end_stream] was asked
    for and all the data went out; when only a part went out the result is
    [true] all the same.  Nothing else of the connection changes. *)
Theorem send_data_within_windows (c : Http2Connection.t) (id : Z)
  (s : Http2Stream.t) (data : octets) (end_stream : bool) :
  let size := Z.of_nat (List.length data) in
  let ws := Http2Stream.remote_window_size_ s in
  let wc := remote_connection_window_size_ c in
  let mfs := max_frame_size (remote_settings_ c) in
  let sent := Z.min size (Z.min ws wc) in
  let ended := end_stream && (size <=? Z.min ws wc) in
  on_send_bytes_ c = true -> id <> 0 -> streams_ c !! id = Some s ->
  Http2Stream.state_ s = StreamState.OPEN
  \/ Http2Stream.state_ s = StreamState.HALF_CLOSED_REMOTE ->
  0 < size < 2 ^ 31 -> ws < 2 ^ 31 -> wc < 2 ^ 31 -> 0 < mfs ->
  (Z.min ws wc <= 0 -> send_data c id data end_stream = Some (false, c)) /\
  (0 < Z.min ws wc ->
   exists chunks,
     send_data c id data end_stream
     = Some (true,
             after_send c
               (<[id := stream_after_send s sent ended]> (streams_ c))
               (wc - sent)
               (actions c ++ flagged_frames id ended chunks)) /\
     concat chunks = firstn (Z.to_nat sent) data /\
     Forall (fun chunk => 0 < Z.of_nat (List.length chunk) <= mfs) chunks).
Proof.
  intros size ws wc mfs sent ended Hcb Hid Hs Hstate Hsize Hws Hwc Hm.
  assert (E : send_data c id data end_stream
              = send_data_loop (List.length data) c s id data end_stream 0).
  { unfold send_data, get_stream.
    destruct (Z.eqb_spec id 0); [contradiction|].
    rewrite Hcb, Hs. cbn [negb]. unfold Http2Stream.get_state.
    destruct Hstate as [-> | ->]; reflexivity. }
  rewrite E. split.
  - intros Hb. rewrite send_data_loop_blocked; [reflexivity|fold size; lia|].
    fold ws wc. lia.
  - intros Hb.
    destruct (send_data_loop_run id data end_stream (List.length data) c s 0)
      as (chunks & Hrun & Hcat & Hall & _);
      [fold size; lia ..|].
    rewrite Z.sub_0_r in *. rewrite skipn_O in Hcat.
    exists chunks. split; [exact Hrun|]. split; [exact Hcat|exact Hall].
Qed.

Lemma send_data_within_windows_witness :
  (on_send_bytes_ sample_sender = true /\ 1 <> 0 /\
   streams_ sample_sender !! 1 = Some sample_sender_stream /\
   (Http2Stream.state_ sample_sender_stream = StreamState.OPEN
    \/ Http2Stream.state_ sample_sender_stream
       = StreamState.HALF_CLOSED_REMOTE) /\
   0 < Z.of_nat (List.length (increasing_octets (Z.to_nat 70000))) < 2 ^ 31 /\
   Http2Stream.remote_window_size_ sample_sender_stream < 2 ^ 31 /\
   remote_connection_window_size_ sample_sender < 2 ^ 31 /\
   0 < max_frame_size (remote_settings_ sample_sender) /\
   0 < Z.min (Http2Stream.remote_window_size_ sample_sender_stream)
         (remote_connection_window_size_ sample_sender)) /\
  exists chunks c',
    send_data sample_sender 1 (increasing_octets (Z.to_nat 70000)) true
    = Some (true, c') /\
    concat chunks
    = firstn (Z.to_nat 65535) (increasing_octets (Z.to_nat 70000)) /\
    remote_connection_window_size_ c' = 0.
Proof.
  assert (H1 : streams_ sample_sender !! 1 = Some sample_sender_stream)
    by (vm_compute; reflexivity).
  assert (H2 : 0 < Z.of_nat (List.length
                               (increasing_octets (Z.to_nat 70000)))
               < 2 ^ 31).
  { unfold increasing_octets. rewrite length_map, length_seq. lia. }
  assert (H3 : Z.of_nat (List.length (increasing_octets (Z.to_nat 70000)))
               = 70000).
  { unfold increasing_octets. rewrite length_map, length_seq. lia. }
  assert (H4 : Http2Stream.remote_window_size_ sample_sender_stream < 2 ^ 31)
    by (vm_compute; reflexivity).
  assert (H5 : remote_connection_window_size_ sample_sender < 2 ^ 31)
    by (vm_compute; reflexivity).
  assert (H6 : 0 < max_frame_size (remote_settings_ sample_sender))
    by (vm_compute; reflexivity).
  assert (H7 : 0 < Z.min (Http2Stream.remote_window_size_ sample_sender_stream)
                     (remote_connection_window_size_ sample_sender))
    by (vm_compute; reflexivity).
  split.
  { split; [reflexivity|]. split; [discriminate|]. split; [exact H1|].
    split; [left; reflexivity|]. split; [exact H2|]. split; [exact H4|].
    split; [exact H5|]. split; [exact H6|exact H7]. }
  destruct (send_data_within_windows sample_sender 1 sample_sender_stream
              (increasing_octets (Z.to_nat 70000)) true eq_refl
              ltac:(discriminate) H1 (or_introl eq_refl) H2 H4 H5 H6)
    as [_ Hsend].
  destruct (Hsend H7) as (chunks & Hrun & Hcat & _).
  rewrite H3 in Hrun, Hcat.
  eexists chunks, _. split; [exact Hrun|]. split; [exact Hcat|reflexivity].
Defined.

End SendDataGeneral.

(** ** HEADERS and CONTINUATION frames *)

Section HeaderFrames.
Import FrameSerializer Http2Parser.

(** Encoder and decoder in step, with the table kept exact. *)
Lemma codecs_step (e : HpackEncoder.t) (hs : list HttpHeader) :
  table_exact (as_decoder e) ->
  Forall header_in_range hs -> Forall header_literal hs ->
  exists e' bytes hs',
    HpackEncoder.encode e hs = Some (e', bytes, HpackEncodingError.OK) /\
    HpackDecoder.decode (as_decoder e) bytes
    = Some (as_decoder e', hs', HpackError.OK) /\
    map name hs' = map name hs /\ map value hs' = map value hs /\
    table_exact (as_decoder e').
Proof.
  intros Hex Hr Hl.
  destruct (encode_loop_fields hs e [] [] Hex Hr Hl)
    as (e' & out & fields & hs' & He & Hb & Hfr & Hm & Hn & Hv & Hex').
  exists e', out, hs'. unfold HpackEncoder.encode. rewrite He. cbn [app].
  split; [reflexivity|]. split; [|auto].
  destruct (block_decoding_from fields (as_decoder e) [] Hfr)
    as [bytes' [Hb' Hd]].
  rewrite Hb in Hb'. injection Hb' as <-.
  unfold HpackDecoder.decode. rewrite Hd, Hm. reflexivity.
Qed.

Lemma serialize_headers_frame_octets (f : HeadersFrame.t)
  (e e' : HpackEncoder.t) (block : octets) :
  HpackEncoder.encode e (HeadersFrame.headers f)
  = Some (e', block, HpackEncodingError.OK) ->
  serialize_headers_frame f e
  = Some (write_frame_header []
            (with_length (HeadersFrame.header f)
               (to_uint32
                  (Z.of_nat (List.length
                               (headers_prefix f ++ block
                                ++ headers_padding f)))))
          ++ headers_prefix f ++ block ++ headers_padding f, e').
Proof.
  intros He. unfold serialize_headers_frame. cbv zeta. rewrite He.
  unfold headers_prefix, headers_padding, value_or.
  destruct (HeadersFrame.has_padded_flag f),
    (HeadersFrame.has_priority_flag f); cbn [andb app];
    try destruct (_ >? 0); cbn [app];
    rewrite <- ?app_assoc, ?app_nil_r; cbn [app]; reflexivity.
Qed.

Lemma headers_padding_length (f : HeadersFrame.t) :
  (HeadersFrame.has_padded_flag f = true ->
   0 <= value_or (HeadersFrame.pad_length f) 0) ->
  Z.of_nat (List.length (headers_padding f))
  = if HeadersFrame.has_padded_flag f
    then value_or (HeadersFrame.pad_length f) 0 else 0.
Proof.
  intros H. unfold headers_padding.
  destruct (HeadersFrame.has_padded_flag f); [|reflexivity].
  specialize (H eq_refl). cbn [andb].
  destruct (Z.gtb_spec (value_or (HeadersFrame.pad_length f) 0) 0);
    [rewrite repeat_length|cbn [List.length]]; lia.
Qed.

Lemma decode_fragment (c : Http2Connection.t) (h : FrameHeader.t)
  (block : octets) (d' : HpackDecoder.t) (hs' : list HttpHeader)
  (e : HpackError.t) :
  Http2Connection.expected_continuation_stream_id_ c = None ->
  HpackDecoder.decode (Http2Connection.hpack_decoder_ c) block
  = Some (d', hs', e) ->
  decode_header_block (buffer_fragment c h block)
  = Some (Http2Connection.set_hpack_decoder
            (Http2Connection.append_to_header_block_buffer
               (Http2Connection.clear_header_block_buffer c) block) d',
          hs', e).
Proof.
  intros Hexp Hdec. unfold buffer_fragment, decode_header_block.
  unfold Http2Connection.is_expecting_continuation. rewrite Hexp.
  cbn [negb orb].
  change (HpackDecoder.decode _ _)
    with (HpackDecoder.decode (Http2Connection.hpack_decoder_ c) block).
  rewrite Hdec. reflexivity.
Qed.

Lemma priority_word (ex : bool) (dep : Z) (rest : octets) :
  0 <= dep < 2 ^ 31 ->
  negb (Z.land
          (Z.shiftr
             (read_uint32_big_endian
                (write_uint32_big_endian [] (stream_dep_val ex dep) ++ rest))
             31) 1 =? 0) = ex /\
  Z.land
    (read_uint32_big_endian
       (write_uint32_big_endian [] (stream_dep_val ex dep) ++ rest))
    0x7FFFFFFF = dep.
Proof.
  intros Hdep.
  pose proof (stream_dep_val_spec ex dep Hdep) as Ev.
  rewrite word32_roundtrip by (rewrite Ev; destruct ex; lia).
  rewrite Ev, land_31_bits, Z.shiftr_div_pow2 by lia.
  change 1 with (Z.ones 1) at 1. rewrite Z.land_ones by lia.
  destruct ex.
  - replace ((dep + 2 ^ 31) / 2 ^ 31 mod 2 ^ 1) with 1 by lia.
    split; [reflexivity|lia].
  - replace ((dep + 0) / 2 ^ 31 mod 2 ^ 1) with 0 by lia.
    split; [reflexivity|lia].
Qed.

Lemma parse_headers_payload_received (c : Http2Connection.t)
  (f : HeadersFrame.t) (block : octets) (d' : HpackDecoder.t)
  (hs' : list HttpHeader) (n : Z) :
  headers_frame_in_range f ->
  Http2Connection.expected_continuation_stream_id_ c = None ->
  HpackDecoder.decode (Http2Connection.hpack_decoder_ c) block
  = Some (d', hs', HpackError.OK) ->
  n = Z.of_nat (List.length (headers_prefix f ++ block ++ headers_padding f)) ->
  n < 2 ^ 31 ->
  parse_headers_payload c (with_length (HeadersFrame.header f) n)
    (headers_prefix f ++ block ++ headers_padding f)
  = Some (block_decoded c block d', inl (headers_as_received f n hs')).
Proof.
  intros (Ht & Hfl & Hid & Hend & Hpad & Hprio) Hexp Hdec Hn Hlt.
  pose proof (headers_padding_length f
                (fun H => proj1 (Hpad H))) as Hpl.
  unfold parse_headers_payload.
  change (FrameHeader.stream_id (with_length (HeadersFrame.header f) n))
    with (FrameHeader.stream_id (HeadersFrame.header f)).
  destruct (Z.eqb_spec (FrameHeader.stream_id (HeadersFrame.header f)) 0);
    [lia|].
  change (has_flag (with_length (HeadersFrame.header f) n)
            HeadersFrame.PADDED_FLAG)
    with (HeadersFrame.has_padded_flag f).
  change (has_flag (with_length (HeadersFrame.header f) n)
            HeadersFrame.PRIORITY_FLAG)
    with (HeadersFrame.has_priority_flag f).
  change (has_flag (with_length (HeadersFrame.header f) n)
            HeadersFrame.END_HEADERS_FLAG)
    with (HeadersFrame.has_end_headers_flag f).
  rewrite Hend, <- Hn.
  unfold headers_as_received, headers_prefix in *.
  set (pad := value_or (HeadersFrame.pad_length f) 0) in *.
  set (dep := value_or (HeadersFrame.stream_dependency f) 0) in *.
  set (w := value_or (HeadersFrame.weight f) 0) in *.
  set (ex := match HeadersFrame.exclusive_dependency f with
             | Some b => b | None => false end) in *.
  set (P := headers_padding f) in *.
  destruct (HeadersFrame.has_padded_flag f) eqn:Epad;
    destruct (HeadersFrame.has_priority_flag f) eqn:Eprio.
  all: try specialize (Hpad eq_refl); try specialize (Hprio eq_refl).
  all: unfold read_pad_length; cbn [app] in *.
  all: rewrite ?length_app in Hn; cbn [List.length] in Hn;
    rewrite ?length_app in Hn;
    change (List.length (write_uint32_big_endian [] ?x)) with 4%nat in Hn;
    cbn [List.length] in Hn.
  all: pose proof (decode_fragment c (with_length (HeadersFrame.header f) n)
                     block d' hs' HpackError.OK Hexp Hdec) as Hfrag.
  - (* padded, with priority *)
    assert (E8 : to_uint8 pad = pad) by (apply Z.mod_small; lia).
    rewrite !E8.
    cbn [List.length]. rewrite !length_app.
    change (List.length (write_uint32_big_endian [] ?x)) with 4%nat.
    cbn [List.length].
    destruct (Z.gtb_spec pad
                (Z.of_nat (S (4 + 1 + (List.length block + List.length P)))
                 - 1)); [lia|].
    cbn [andb value_or].
    destruct (Z.ltb_spec (n - 1) 5); [lia|].
    rewrite negative_as_int_small by lia.
    change (Z.to_nat 1) with 1%nat. rewrite skipn_cons, skipn_O.
    rewrite <- (app_assoc (write_uint32_big_endian [] _)).
    destruct (priority_word ex dep ([to_uint8 w] ++ block ++ P))
      as [-> ->]; [lia|].
    change (Z.to_nat (1 + 5)) with 6%nat.
    assert (E6 : forall a l,
               skipn 6 (pad :: write_uint32_big_endian [] a
                               ++ [to_uint8 w] ++ l) = l) by reflexivity.
    rewrite E6.
    assert (E4 : forall a l,
               at_ (write_uint32_big_endian [] a ++ [to_uint8 w] ++ l) 4
               = to_uint8 w) by reflexivity.
    rewrite E4.
    replace (Z.to_nat (n - (1 + 5) - pad)) with (List.length block) by lia.
    rewrite firstn_app, Nat.sub_diag, firstn_O, app_nil_r, firstn_all.
    rewrite Hfrag. unfold to_uint8. rewrite Z.mod_small by lia. reflexivity.
  - (* padded, without priority *)
    assert (E8 : to_uint8 pad = pad) by (apply Z.mod_small; lia).
    rewrite !E8.
    cbn [List.length]. rewrite !length_app.
    destruct (Z.gtb_spec pad
                (Z.of_nat (S (List.length block + List.length P)) - 1));
      [lia|].
    cbn [andb value_or].
    rewrite negative_as_int_small by lia.
    change (Z.to_nat 1) with 1%nat. rewrite skipn_cons, skipn_O.
    replace (Z.to_nat (n - 1 - pad)) with (List.length block) by lia.
    rewrite firstn_app, Nat.sub_diag, firstn_O, app_nil_r, firstn_all.
    rewrite Hfrag. reflexivity.
  - (* with priority only *)
    cbn [andb value_or].
    destruct (Z.ltb_spec (n - 0) 5); [lia|].
    rewrite negative_as_int_small by lia.
    change (Z.to_nat 0) with 0%nat. rewrite !skipn_O.
    rewrite <- (app_assoc (write_uint32_big_endian [] _)).
    destruct (priority_word ex dep ([to_uint8 w] ++ block ++ P))
      as [-> ->]; [lia|].
    change (Z.to_nat (0 + 5)) with 5%nat.
    assert (E5 : forall a l,
               skipn 5 (write_uint32_big_endian [] a ++ [to_uint8 w] ++ l)
               = l) by reflexivity.
    rewrite E5.
    assert (E4 : forall a l,
               at_ (write_uint32_big_endian [] a ++ [to_uint8 w] ++ l) 4
               = to_uint8 w) by reflexivity.
    rewrite E4.
    replace (Z.to_nat (n - (0 + 5) - 0)) with (List.length block) by lia.
    rewrite firstn_app, Nat.sub_diag, firstn_O, app_nil_r, firstn_all.
    rewrite Hfrag. unfold to_uint8. rewrite Z.mod_small by lia. reflexivity.
  - (* neither *)
    cbn [andb value_or].
    rewrite negative_as_int_small by lia.
    change (Z.to_nat 0) with 0%nat. rewrite !skipn_O.
    replace (Z.to_nat (n - 0 - 0)) with (List.length block) by lia.
    rewrite firstn_app, Nat.sub_diag, firstn_O, app_nil_r, firstn_all.
    rewrite Hfrag. reflexivity.
Qed.

Lemma dispatch_headers (c c' : Http2Connection.t) (h : FrameHeader.t)
  (payload : octets) (fr : HeadersFrame.t) :
  FrameHeader.type h = FrameType.HEADERS ->
  parse_headers_payload c h payload = Some (c', inl fr) ->
  dispatch c h payload = Some (c', inl (AnyHeaders fr)).
Proof.
  intros Ht Hp. unfold dispatch. cbv zeta. rewrite Ht, Hp. reflexivity.
Qed.

(** X14. A HEADERS frame is parsed back.  A HEADERS frame with
    END_HEADERS, with or without padding and priority fields, whose
    headers the encoder writes in literal form, is serialized to octets
    from which a parser whose HPACK decoder holds the encoder's dynamic
    table, and which is not in the middle of another header block,
    delivers one HEADERS frame with the same padding and priority fields
    and with headers of the same names and values in the same order;
    afterwards the decoder again holds the encoder's table.  The octets
    have to fit the frame size limit. *)
Theorem headers_frame_roundtrip cb (p : Http2Parser.t)
  (c : Http2Connection.t) (e : HpackEncoder.t) (f : HeadersFrame.t) :
  current_state_ p = READING_FRAME_HEADER -> buffer_ p = [] ->
  Http2Connection.expected_continuation_stream_id_ c = None ->
  Http2Connection.hpack_decoder_ c = as_decoder e ->
  table_exact (as_decoder e) ->
  headers_frame_in_range f ->
  Forall header_in_range (HeadersFrame.headers f) ->
  Forall header_literal (HeadersFrame.headers f) ->
  exists bytes e' hs',
    serialize_headers_frame f e = Some (bytes, e') /\
    map name hs' = map name (HeadersFrame.headers f) /\
    map value hs' = map value (HeadersFrame.headers f) /\
    table_exact (as_decoder e') /\
    let n := Z.of_nat (List.length bytes) - 9 in
    let fr := AnyHeaders (headers_as_received f n hs') in
    (n <= ConnectionSettings.max_frame_size
            (Http2Connection.remote_settings_ c) ->
     n < 2 ^ 24 ->
     exists c1,
       parse cb p c bytes
       = Some {| total_consumed_bytes := Z.of_nat (List.length bytes);
                 last_error := ParserError.OK;
                 parser :=
                   {| current_state_ := READING_FRAME_HEADER;
                      buffer_ := [];
                      pending_frame_header_ :=
                        with_length (HeadersFrame.header f) n |};
                 connection := notify cb fr c1;
                 delivered := [fr] |} /\
       Http2Connection.hpack_decoder_ c1 = as_decoder e' /\
       Http2Connection.expected_continuation_stream_id_ c1 = None /\
       Http2Connection.header_block_buffer_ c1 = [] /\
       Http2Connection.streams_ c1 = Http2Connection.streams_ c /\
       Http2Connection.remote_settings_ c1
       = Http2Connection.remote_settings_ c).
Proof.
  intros Hs Hb Hexp Hdec Hex Hf Hr Hl.
  destruct (codecs_step e (HeadersFrame.headers f) Hex Hr Hl)
    as (e' & block & hs' & He & Hd & Hn & Hv & Hex').
  pose proof (serialize_headers_frame_octets f e e' block He) as Hser.
  set (payload := headers_prefix f ++ block ++ headers_padding f) in *.
  eexists _, e', hs'. split; [exact Hser|].
  split; [exact Hn|]. split; [exact Hv|]. split; [exact Hex'|].
  cbv zeta. rewrite length_app, write_frame_header_length.
  replace (Z.of_nat (9 + List.length payload) - 9)
    with (Z.of_nat (List.length payload)) by lia.
  intros Hmax Hlt.
  assert (E32 : to_uint32 (Z.of_nat (List.length payload))
                = Z.of_nat (List.length payload))
    by (apply Z.mod_small; lia).
  rewrite E32.
  set (n := Z.of_nat (List.length payload)) in *.
  exists (block_decoded c block (as_decoder e')).
  split; [|repeat split; reflexivity].
  rewrite <- Hdec in Hd.
  pose proof (parse_headers_payload_received c f block (as_decoder e') hs' n
                Hf Hexp Hd eq_refl ltac:(lia)) as Hpp.
  fold payload in Hpp.
  destruct Hf as (Ht & Hfl & Hid & _).
  unfold parse. rewrite Hb. cbn [buffer_ app].
  rewrite (parse_loop_frame cb _ _ (with_length (HeadersFrame.header f) n)
             payload [] (block_decoded c block (as_decoder e'))
             (AnyHeaders (headers_as_received f n hs'))).
  - cbv zeta. cbn [List.length Z.of_nat Z.ltb Z.compare].
    cbn [total_consumed_bytes delivered app FrameHeader.length with_length].
    do 2 f_equal. lia.
  - exact Hs.
  - cbn [parser buffer_]. now rewrite app_nil_r.
  - unfold frame_header_in_range, with_length.
    cbn [FrameHeader.length FrameHeader.type FrameHeader.flags
         FrameHeader.stream_id].
    rewrite Ht. split; [lia|].
    split; [vm_compute; split; congruence|]. split; [exact Hfl|lia].
  - reflexivity.
  - exact Hmax.
  - cbn [connection]. apply dispatch_headers; [exact Ht|exact Hpp].
Qed.

Lemma headers_frame_roundtrip_witness :
  (current_state_ Http2Parser.new = READING_FRAME_HEADER /\
   buffer_ Http2Parser.new = [] /\
   Http2Connection.expected_continuation_stream_id_
     (Http2Connection.new true true) = None /\
   Http2Connection.hpack_decoder_ (Http2Connection.new true true)
   = as_decoder (HpackEncoder.new 4096) /\
   table_exact (as_decoder (HpackEncoder.new 4096)) /\
   headers_frame_in_range sample_headers_frame /\
   Forall header_in_range (HeadersFrame.headers sample_headers_frame) /\
   Forall header_literal (HeadersFrame.headers sample_headers_frame)) /\
  exists bytes e' r,
    serialize_headers_frame sample_headers_frame (HpackEncoder.new 4096)
    = Some (bytes, e') /\
    parse None Http2Parser.new (Http2Connection.new true true) bytes
    = Some r /\
    total_consumed_bytes r = Z.of_nat (List.length bytes) /\
    List.length (delivered r) = 1%nat.
Proof.
  assert (H1 : table_exact (as_decoder (HpackEncoder.new 4096))).
  { split; [apply (decoder_new_inv 4096); lia|].
    split; [reflexivity|reflexivity]. }
  assert (H2 : headers_frame_in_range sample_headers_frame).
  { unfold headers_frame_in_range. cbv zeta.
    repeat match goal with |- _ /\ _ => split end;
      vm_compute; intuition congruence. }
  assert (H3 : Forall header_in_range
                 (HeadersFrame.headers sample_headers_frame)).
  { cbn [HeadersFrame.headers sample_headers_frame]. unfold sample_literals.
    repeat match goal with
           | |- Forall _ (_ :: _) => apply List.Forall_cons
           | |- Forall _ [] => apply List.Forall_nil
           end;
      unfold header_in_range; cbn [name value]; repeat split;
      try (apply is_octets_check; reflexivity); reflexivity. }
  assert (H4 : Forall header_literal
                 (HeadersFrame.headers sample_headers_frame)).
  { cbn [HeadersFrame.headers sample_headers_frame]. unfold sample_literals.
    repeat match goal with
           | |- Forall _ (_ :: _) => apply List.Forall_cons
           | |- Forall _ [] => apply List.Forall_nil
           end;
      unfold header_literal, literal_preferred; cbn [name value];
      split; vm_compute; reflexivity. }
  split.
  { split; [reflexivity|]. split; [reflexivity|]. split; [reflexivity|].
    split; [reflexivity|]. split; [exact H1|]. split; [exact H2|].
    split; [exact H3|exact H4]. }
  destruct (headers_frame_roundtrip None Http2Parser.new
              (Http2Connection.new true true) (HpackEncoder.new 4096)
              sample_headers_frame eq_refl eq_refl eq_refl eq_refl
              H1 H2 H3 H4)
    as (bytes & e' & hs' & Hser & _ & _ & _ & Hparse).
  eassert (Hc : serialize_headers_frame sample_headers_frame
                  (HpackEncoder.new 4096) = Some (_, _))
    by (vm_compute; reflexivity).
  rewrite Hc in Hser. injection Hser as <- <-.
  destruct Hparse as (c1 & Hp & _); [vm_compute; congruence ..|].
  eexists _, _, _. split; [exact Hc|]. split; [exact Hp|].
  split; reflexivity.
Defined.

(** The octets of the sample: the pad length, the dependency with the E
    bit, the weight, the header block of the sample headers and two
    octets of padding. *)
Example sample_headers_frame_octets :
  option_map fst
    (serialize_headers_frame sample_headers_frame (HpackEncoder.new 4096))
  = Some ([0; 0; 34; 1; 0x2C; 0; 0; 0; 1] ++ [2] ++ [0x80; 0; 0; 3; 15]
          ++ [0x7C; 2] ++ str "Q1" ++ [0x40; 4] ++ str "x-id" ++ [3]
          ++ str "GET" ++ [0x7E; 2] ++ str "K9"
          ++ [0x10; 3] ++ str "x-q" ++ [2] ++ str "#7" ++ [0; 0]).
Proof. vm_compute. reflexivity. Qed.







End HeaderFrames.
